(** * ESP32-Tuya_Sniffer: the Tuya serial codec, the datapoint dispatcher,
      the UI update encoder, the schedule driver and the ESP heating
      controller of [sniffer.cpp] and [appSpecific.cpp], embedded in Rocq.

    Conventions of the embedding.
    - A C integer is a [Z]; where the source narrows ([uint8_t], [int16_t],
      [int32_t]) the wrap-around is written out.
    - A C array is a total function from its index to its element
      ([Z -> Z]); an access outside the declared size is undefined in C and
      is not given a meaning of its own here.
    - A C string is a [string] of any length: the sizes of the character
      buffers ([MAX_PWD_LEN], [BUFF_LEN] of appGlobals.h) are not modelled.
      The functions of the C library that the source calls ([strtol],
      [atoi], [atof], [sprintf], [sscanf]) are written out for the
      conversions the source uses.
    - A [float] is an IEEE 754 binary32 value and a [double] a binary64
      value: a signed zero, an infinity, a NaN or a sign, a mantissa and an
      exponent.  Every operation gives the exact result rounded to the
      nearest value of its format, ties to even (module [IEEE]).
    - The file-scope and function-scope [static] variables are the fields of
      one record that is threaded through the calls; what the program writes
      to a UART and what it publishes to the web socket are appended to two
      output traces of that record.  Log lines and delays are left out. *)

From Stdlib Require Import ZArith List String Ascii Bool Lia.
From Stdlib Require Import QArith Qround Qpower Qabs Lqa.
Import ListNotations.
Local Open Scope string_scope.
Local Open Scope Z_scope.

(** ** Machine integers and arrays *)

Definition wrap8 (z : Z) : Z := z mod 256.
Definition wrap16 (z : Z) : Z := z mod 65536.
Definition to_uint32 (z : Z) : Z := z mod 4294967296.
Definition to_int16 (z : Z) : Z := (z + 32768) mod 65536 - 32768.
Definition to_int32 (z : Z) : Z := (z + 2147483648) mod 4294967296 - 2147483648.

Definition LONG_MIN : Z := -2147483648.
Definition LONG_MAX : Z := 2147483647.

(** [a[i] = v] *)
Definition upd (a : Z -> Z) (i v : Z) : Z -> Z :=
  fun j => if j =? i then v else a j.

(** The indices [from, from + 1, ..., from + n - 1] of a [for] loop. *)
Definition zseq (from : Z) (n : nat) : list Z :=
  map (fun k => from + Z.of_nat k) (seq 0 n).

(** The first [n] cells of an array, as the list of bytes put on the wire. *)
Definition cells (a : Z -> Z) (n : Z) : list Z := map a (zseq 0 (Z.to_nat n)).

Definition zsum (l : list Z) : Z := fold_right Z.add 0 l.

(** ** Floating point *)

Module IEEE.

(** A value of a binary floating-point format; [F_fin neg m e] is
    [m * 2^e], negated when [neg]. *)
Inductive float : Type :=
| F_zero (neg : bool)
| F_inf (neg : bool)
| F_nan
| F_fin (neg : bool) (m : positive) (e : Z).

(** The number a finite value stands for (0 for the others). *)
Definition F2Q (x : float) : Q :=
  match x with
  | F_fin neg m e =>
      let z := if neg then Zneg m else Zpos m in
      if 0 <=? e then inject_Z (z * 2 ^ e) else Qmake z (Z.to_pos (2 ^ (- e)))
  | _ => 0%Q
  end.

Definition is_neg (x : float) : bool :=
  match x with
  | F_zero s | F_inf s | F_fin s _ _ => s
  | F_nan => false
  end.

Definition is_finite (x : float) : bool :=
  match x with
  | F_zero _ | F_fin _ _ _ => true
  | _ => false
  end.

Section Format.

(** The format: [prec] bits of mantissa, the hidden one included, and
    [emax], the exponent of the infinities (24 and 128 for binary32, 53 and
    1024 for binary64). *)
Variable prec emax : Z.

(** The exponent of the least positive value. *)
Definition emin : Z := 3 - emax - prec.

(** [(n / d) / 2^E] as a fraction. *)
Definition scale (n d E : Z) : Z * Z :=
  if 0 <=? E then (n, d * 2 ^ E) else (n * 2 ^ (- E), d).

(** The [k] with [2^k <= n / d < 2^(k + 1)]. *)
Definition ilog2 (n d : Z) : Z :=
  let k := Z.log2 n - Z.log2 d in
  let '(num, den) := scale n d k in
  if den <=? num then k else k - 1.

(** The integer nearest to [num / den], the even one of two. *)
Definition nearest_even (num den : Z) : Z :=
  let q := num / den in
  let r := num mod den in
  match 2 * r ?= den with
  | Lt => q
  | Gt => q + 1
  | Eq => if Z.even q then q else q + 1
  end.

(** The exponent of the unit in the last place of [n / d]. *)
Definition ulp_exp (n d : positive) : Z :=
  Z.max (ilog2 (Zpos n) (Zpos d) - prec + 1) emin.

(** The value of the format nearest to [n / d]: the mantissa is the
    quotient by the unit in the last place, [2^E], rounded; the result is an
    infinity from [2^emax] on. *)
Definition round_pos (neg : bool) (n d : positive) : float :=
  let E := ulp_exp n d in
  let '(num, den) := scale (Zpos n) (Zpos d) E in
  let M := nearest_even num den in
  let '(M, E) := if M =? 2 ^ prec then (2 ^ (prec - 1), E + 1) else (M, E) in
  match M with
  | Zpos m => if emax - prec <? E then F_inf neg else F_fin neg m E
  | _ => F_zero neg
  end.

(** [q] rounded to the format; [zneg] is the sign of the zero that an
    exact 0 gives. *)
Definition round (q : Q) (zneg : bool) : float :=
  let q := Qred q in
  match Qnum q with
  | Z0 => F_zero zneg
  | Zpos n => round_pos false n (Qden q)
  | Zneg n => round_pos true n (Qden q)
  end.

Definition Fopp (x : float) : float :=
  match x with
  | F_zero s => F_zero (negb s)
  | F_inf s => F_inf (negb s)
  | F_nan => F_nan
  | F_fin s m e => F_fin (negb s) m e
  end.

Definition Fadd (x y : float) : float :=
  match x, y with
  | F_nan, _ | _, F_nan => F_nan
  | F_inf sx, F_inf sy => if Bool.eqb sx sy then x else F_nan
  | F_inf _, _ => x
  | _, F_inf _ => y
  | F_zero sx, F_zero sy => F_zero (sx && sy)
  | _, _ => round (F2Q x + F2Q y) false
  end.

Definition Fsub (x y : float) : float := Fadd x (Fopp y).

Definition Fmul (x y : float) : float :=
  match x, y with
  | F_nan, _ | _, F_nan => F_nan
  | F_inf _, F_zero _ | F_zero _, F_inf _ => F_nan
  | F_inf sx, _ => F_inf (xorb sx (is_neg y))
  | _, F_inf sy => F_inf (xorb (is_neg x) sy)
  | _, _ => round (F2Q x * F2Q y) (xorb (is_neg x) (is_neg y))
  end.

Definition Fdiv (x y : float) : float :=
  match x, y with
  | F_nan, _ | _, F_nan => F_nan
  | F_inf _, F_inf _ | F_zero _, F_zero _ => F_nan
  | F_inf sx, _ => F_inf (xorb sx (is_neg y))
  | _, F_inf sy => F_zero (xorb (is_neg x) sy)
  | F_fin sx _ _, F_zero sy => F_inf (xorb sx sy)
  | _, _ => round (F2Q x / F2Q y) (xorb (is_neg x) (is_neg y))
  end.

(** Conversion of an integer to the format. *)
Definition of_Z (z : Z) : float := round (inject_Z z) false.

(** Conversion of a value of another format to the format. *)
Definition convert (x : float) : float :=
  match x with
  | F_fin s _ _ => round (F2Q x) s
  | _ => x
  end.

(** The values of the format: a mantissa of at most [prec] bits, of
    exactly [prec] bits above the least exponent. *)
Definition valid (x : float) : bool :=
  match x with
  | F_fin _ m e =>
      (Zpos m <? 2 ^ prec) && (e <=? emax - prec) &&
      ((e =? emin) || ((emin <? e) && (2 ^ (prec - 1) <=? Zpos m)))
  | _ => true
  end.

(** The same on a mantissa and an exponent. *)
Definition valid_me (mt : positive) (et : Z) : Prop :=
  Zpos mt < 2 ^ prec /\ et <= emax - prec /\
  (et = emin \/ (emin < et /\ 2 ^ (prec - 1) <= Zpos mt)).

End Format.

Definition Qltb (x y : Q) : bool := negb (Qle_bool y x).

(** [x < y]; false when one of them is a NaN. *)
Definition Fltb (x y : float) : bool :=
  match x, y with
  | F_nan, _ | _, F_nan => false
  | F_inf sx, F_inf sy => sx && negb sy
  | F_inf sx, _ => sx
  | _, F_inf sy => negb sy
  | _, _ => Qltb (F2Q x) (F2Q y)
  end.

End IEEE.
Import IEEE.

(** The operations of C on [float], and the conversions the source uses.
    Both types of C are values of [float] here; the format is in the
    operation. *)
Definition fadd : float -> float -> float := Fadd 24 128.
Definition fsub : float -> float -> float := Fsub 24 128.
Definition fmul : float -> float -> float := Fmul 24 128.
Definition fltb : float -> float -> bool := Fltb.
(** [(float) z] and [(double) z] of an integer *)
Definition float_of_int : Z -> float := of_Z 24 128.
Definition double_of_int : Z -> float := of_Z 53 1024.
(** [x / y] on [double] *)
Definition ddiv : float -> float -> float := Fdiv 53 1024.
(** [(float) d] of a [double] *)
Definition float_of_double : float -> float := convert 24 128.
(** [(float)(n / 10.0)] of an integer: the quotient is one of [double],
    rounded again when it is converted to [float]. *)
Definition tenths (n : Z) : float :=
  float_of_double (ddiv (double_of_int n) (double_of_int 10)).

(** ** The C library conversions used by the source *)

Module CLib.

Definition code (c : ascii) : Z := Z.of_N (N_of_ascii c).
Definition chr (z : Z) : ascii := ascii_of_N (Z.to_N z).

Definition is_digit (c : ascii) : bool := (48 <=? code c) && (code c <=? 57).
Definition is_space (c : ascii) : bool :=
  (code c =? 32) || ((9 <=? code c) && (code c <=? 13)).

Fixpoint skip_space (s : string) : string :=
  match s with
  | String c r => if is_space c then skip_space r else s
  | EmptyString => s
  end.

(** Accumulate the leading decimal digits of [s]; the rest is returned. *)
Fixpoint digits_val (acc : Z) (s : string) : Z * string :=
  match s with
  | String c r =>
      if is_digit c then digits_val (acc * 10 + (code c - 48)) r else (acc, s)
  | EmptyString => (acc, s)
  end.

Definition starts_digit (s : string) : bool :=
  match s with String c _ => is_digit c | EmptyString => false end.

(** An optional sign: [(negative, rest)]. *)
Definition read_sign (s : string) : bool * string :=
  match s with
  | String c r =>
      if Ascii.eqb c "-" then (true, r)
      else if Ascii.eqb c "+" then (false, r)
      else (false, s)
  | EmptyString => (false, s)
  end.

Definition clamp_long (z : Z) : Z := Z.max LONG_MIN (Z.min LONG_MAX z).

(** [strtol(s, &end, 10)] on a 32-bit [long]: [None] when no conversion is
    performed ([end == s]), otherwise the saturated value and [end]. *)
Definition strtol (s : string) : option (Z * string) :=
  let '(neg, s2) := read_sign (skip_space s) in
  if starts_digit s2 then
    let '(v, r) := digits_val 0 s2 in
    Some (clamp_long (if neg then - v else v), r)
  else None.

(** [atoi(s)] *)
Definition atoi (s : string) : Z :=
  match strtol s with Some (v, _) => v | None => 0 end.

(** The value of a hexadecimal digit. *)
Definition hex_digit (c : ascii) : option Z :=
  let z := code c in
  if is_digit c then Some (z - 48)
  else if (97 <=? z) && (z <=? 102) then Some (z - 87)
  else if (65 <=? z) && (z <=? 70) then Some (z - 55)
  else None.

(** Accumulate the leading hexadecimal digits of [s]. *)
Fixpoint hex_val (acc : Z) (s : string) : Z * string :=
  match s with
  | String c r =>
      match hex_digit c with
      | Some v => hex_val (acc * 16 + v) r
      | None => (acc, s)
      end
  | EmptyString => (acc, s)
  end.

(** [s] starts with [p], which is in lower case, whatever the case of [s]. *)
Fixpoint prefix_nocase (p s : string) : bool :=
  match p, s with
  | EmptyString, _ => true
  | String a p', String b s' =>
      let z := code b in
      let low := if (65 <=? z) && (z <=? 90) then z + 32 else z in
      (code a =? low) && prefix_nocase p' s'
  | String _ _, EmptyString => false
  end.

(** How many characters of [s] were read to leave [r]. *)
Definition consumed (s r : string) : Z :=
  Z.of_nat (String.length s) - Z.of_nat (String.length r).

(** A mantissa: digits, a point, digits, read in base 10 or 16 by [digs];
    the digits as one number, how many of them follow the point, how many
    there are at all, and the rest. *)
Definition read_mantissa (digs : Z -> string -> Z * string) (s : string)
    : Z * Z * Z * string :=
  let '(ip, r) := digs 0 s in
  match r with
  | String c r' =>
      if Ascii.eqb c "." then
        let '(m, r2) := digs ip r' in
        (m, consumed r' r2, consumed s r + consumed r' r2, r2)
      else (ip, 0, consumed s r, r)
  | EmptyString => (ip, 0, consumed s r, r)
  end.

(** An exponent: the letter [lo] or [up], an optional sign and at least one
    decimal digit; 0 when there is none. *)
Definition read_exponent (lo up : ascii) (s : string) : Z :=
  match s with
  | String c r =>
      if Ascii.eqb c lo || Ascii.eqb c up then
        let '(neg, r2) := read_sign r in
        if starts_digit r2 then
          let '(v, _) := digits_val 0 r2 in
          if neg then - v else v
        else 0
      else 0
  | EmptyString => 0
  end.

(** [m * base^ex], negated when [neg], rounded to [double]; [0 <= m] and
    [base] is 2 or 10.  Beyond the bounds tested the exact product is above
    every finite [double], or below half of the least positive one, so that
    the power need not be taken. *)
Definition scaled_double (neg : bool) (m base ex : Z) : float :=
  if m =? 0 then F_zero neg
  else if 1100 <? ex then F_inf neg
  else if Z.log2 m + 1 + ex <? -1100 then F_zero neg
  else
    let q := if 0 <=? ex then inject_Z (m * base ^ ex)
             else Qmake m (Z.to_pos (base ^ (- ex))) in
    round 53 1024 (if neg then Qopp q else q) neg.

(** [strtod(s, NULL)]: white space, an optional sign, then an infinity, a
    NaN, a hexadecimal or a decimal number, correctly rounded; 0 when no
    number is found. *)
Definition strtod (s : string) : float :=
  let '(neg, s2) := read_sign (skip_space s) in
  if prefix_nocase "inf" s2 then F_inf neg
  else if prefix_nocase "nan" s2 then F_nan
  else
    let hex :=
      match s2 with
      | String c0 (String c1 r) =>
          if Ascii.eqb c0 "0" && (Ascii.eqb c1 "x" || Ascii.eqb c1 "X") then
            let '(m, fd, nd, r2) := read_mantissa hex_val r in
            if 0 <? nd then Some (m, fd, r2) else None
          else None
      | _ => None
      end in
    match hex with
    | Some (m, fd, r2) =>
        scaled_double neg m 2 (read_exponent "p" "P" r2 - 4 * fd)
    | None =>
        let '(m, fd, nd, r2) := read_mantissa digits_val s2 in
        if 0 <? nd
        then scaled_double neg m 10 (read_exponent "e" "E" r2 - fd)
        else F_zero false
    end.

(** [atof(s)] stored in a [float], as [float fltVal = atof(value)] does. *)
Definition atof (s : string) : float := float_of_double (strtod s).

(** The integer part of [q]. *)
Definition Qtrunc (q : Q) : Z := Z.quot (Qnum q) (Zpos (Qden q)).

(** [(int32_t) x]: the value is truncated towards zero.  For a value that
    is not in the range of [int32_t], and for a NaN, the conversion is
    undefined in C; the model takes the nearest bound, and 0 for a NaN. *)
Definition float_to_int32 (x : float) : Z :=
  match x with
  | F_fin _ _ _ => clamp_long (Qtrunc (F2Q x))
  | F_inf neg => if neg then LONG_MIN else LONG_MAX
  | _ => 0
  end.

(** [(int32_t)(x * 10)] *)
Definition tenfold (x : float) : Z := float_to_int32 (fmul x (float_of_int 10)).

(** Decimal digits of a non-negative number, most significant first. *)
Fixpoint udigits (fuel : nat) (n : Z) (acc : string) : string :=
  let acc' := String (chr (48 + n mod 10)) acc in
  match fuel with
  | O => acc'
  | S f => if n <? 10 then acc' else udigits f (n / 10) acc'
  end.

(** [sprintf("%u", n)] for [0 <= n]. *)
Definition utoa (n : Z) : string := udigits (Z.to_nat (Z.log2 n)) n "".

(** [sprintf("%d", n)] *)
Definition itoa (n : Z) : string :=
  if n <? 0 then String "-" (utoa (- n)) else utoa n.

(** [sprintf("%02u", n)] *)
Definition utoa02 (n : Z) : string :=
  if n <? 10 then String "0" (utoa n) else utoa n.

(** Nearest integer, ties to even. *)
Definition Qround_even (q : Q) : Z :=
  let f := Qfloor q in
  let twice := Qfloor (q * 2) in
  if twice =? 2 * f then
    (* fractional part below one half *) f
  else if Qeq_bool (q * 2) (inject_Z (2 * f + 1)) then
    (* exactly one half *) if Z.even f then f else f + 1
  else f + 1.

(** [sprintf("%0.1f", q)] *)
Definition ftoa1 (q : Q) : string :=
  let t := Z.abs (Qround_even (q * 10)) in
  let body := (utoa (t / 10) ++ String "." (utoa (t mod 10)))%string in
  if Qlt_le_dec q 0 then String "-" body else body.

(** [sprintf("%0.1f", x)] of a [float]: the argument is passed as the
    [double] of the same value. *)
Definition ftoa1f (x : float) : string :=
  match x with
  | F_fin _ _ _ => ftoa1 (F2Q x)
  | F_zero neg => if neg then "-0.0" else "0.0"
  | F_inf neg => if neg then "-inf" else "inf"
  | F_nan => "nan"
  end.

(** [v / 10] in decimal with one digit after the point. *)
Definition tenthsText (v : Z) : string :=
  let body := (utoa (Z.abs v / 10) ++ String "." (utoa (Z.abs v mod 10)))%string in
  if v <? 0 then String "-" body else body.

(** [sscanf(value, "%hhu:%hhu", &hour, &mins)]: each component is [Some]
    when the conversion assigns it. *)
Definition sscanf_hhu_colon_hhu (s : string) : option Z * option Z :=
  match strtol s with
  | None => (None, None)
  | Some (h, r) =>
      match r with
      | String c r' =>
          if Ascii.eqb c ":" then
            match strtol r' with
            | Some (m, _) => (Some (wrap8 h), Some (wrap8 m))
            | None => (Some (wrap8 h), None)
            end
          else (Some (wrap8 h), None)
      | EmptyString => (Some (wrap8 h), None)
      end
  end.

(** [strstr(hay, needle) != NULL] *)
Definition contains (needle hay : string) : bool :=
  match String.index 0 needle hay with Some _ => true | None => false end.

(** [s[i]], the terminating NUL included. *)
Definition char_at (s : string) (i : nat) : Z :=
  match String.get i s with Some c => code c | None => 0 end.

(** [s[strlen(s) - 1] = 0] *)
Fixpoint drop_last (s : string) : string :=
  match s with
  | EmptyString => EmptyString
  | String c EmptyString => EmptyString
  | String c r => String c (drop_last r)
  end.

End CLib.
Import CLib.


(** ** State

    [tuyaStruct] is declared in appGlobals.h, which is not part of the
    sources at hand; its fields are the ones sniffer.cpp and appSpecific.cpp
    read and write. *)

Record tuyaStruct := mkTuya {
  tuyaCmd : Z;
  tuyaDP : Z;
  tuyaData : Z -> Z;
  tuyaInt : Z
}.

(** The function statics of [checkSchedule]. *)
Record SlotState := mkSlot {
  currentSlot : Z;
  slotDuration : Z;
  startTime : Z;
  changedSlot : bool
}.

Record App := mkApp {
  (* file-scope statics of appSpecific.cpp *)
  gotHeartbeat : bool;
  heatingElapsed : Z;
  currentTemp : float;
  alpha : float;
  drift : Z;
  ESPcontroller : bool;
  tgtTemp : float;
  backLash : float;
  baseCal : float;
  heatingOn : bool;
  schedule : Z -> Z -> Z;
  (* [static int slotCnt] of updateAppStatus *)
  slotCnt : Z;
  (* [static uint32_t startTime] of processDP *)
  dpStartTime : Z;
  (* [oldWifiStatus] of sendWifiStatus *)
  oldWifiStatus : Z;
  (* [sentTime] of sendLocalTime *)
  sentTime : bool;
  (* the statics of checkSchedule *)
  slotSt : SlotState;
  (* [tuyaStruct mcuTuya] of sniffer.cpp *)
  mcuTuya : tuyaStruct;
  (* global of the framework, read only here *)
  configLoaded : bool;
  (* bytes written with uart_write_bytes: (uartNum, bytes), oldest first *)
  uartOut : list (Z * list Z);
  (* key/value pairs published by wsJsonSend, oldest first *)
  wsOut : list (string * string)
}.

Definition set_gotHeartbeat (v : bool) (a : App) : App :=
  mkApp v (heatingElapsed a) (currentTemp a) (alpha a) (drift a) (ESPcontroller a)
    (tgtTemp a) (backLash a) (baseCal a) (heatingOn a) (schedule a) (slotCnt a)
    (dpStartTime a) (oldWifiStatus a) (sentTime a) (slotSt a) (mcuTuya a) (configLoaded a)
    (uartOut a) (wsOut a).
Definition set_heatingElapsed (v : Z) (a : App) : App :=
  mkApp (gotHeartbeat a) v (currentTemp a) (alpha a) (drift a) (ESPcontroller a)
    (tgtTemp a) (backLash a) (baseCal a) (heatingOn a) (schedule a) (slotCnt a)
    (dpStartTime a) (oldWifiStatus a) (sentTime a) (slotSt a) (mcuTuya a) (configLoaded a)
    (uartOut a) (wsOut a).
Definition set_currentTemp (v : float) (a : App) : App :=
  mkApp (gotHeartbeat a) (heatingElapsed a) v (alpha a) (drift a) (ESPcontroller a)
    (tgtTemp a) (backLash a) (baseCal a) (heatingOn a) (schedule a) (slotCnt a)
    (dpStartTime a) (oldWifiStatus a) (sentTime a) (slotSt a) (mcuTuya a) (configLoaded a)
    (uartOut a) (wsOut a).
Definition set_alpha (v : float) (a : App) : App :=
  mkApp (gotHeartbeat a) (heatingElapsed a) (currentTemp a) v (drift a) (ESPcontroller a)
    (tgtTemp a) (backLash a) (baseCal a) (heatingOn a) (schedule a) (slotCnt a)
    (dpStartTime a) (oldWifiStatus a) (sentTime a) (slotSt a) (mcuTuya a) (configLoaded a)
    (uartOut a) (wsOut a).
Definition set_drift (v : Z) (a : App) : App :=
  mkApp (gotHeartbeat a) (heatingElapsed a) (currentTemp a) (alpha a) v (ESPcontroller a)
    (tgtTemp a) (backLash a) (baseCal a) (heatingOn a) (schedule a) (slotCnt a)
    (dpStartTime a) (oldWifiStatus a) (sentTime a) (slotSt a) (mcuTuya a) (configLoaded a)
    (uartOut a) (wsOut a).
Definition set_ESPcontroller (v : bool) (a : App) : App :=
  mkApp (gotHeartbeat a) (heatingElapsed a) (currentTemp a) (alpha a) (drift a) v
    (tgtTemp a) (backLash a) (baseCal a) (heatingOn a) (schedule a) (slotCnt a)
    (dpStartTime a) (oldWifiStatus a) (sentTime a) (slotSt a) (mcuTuya a) (configLoaded a)
    (uartOut a) (wsOut a).
Definition set_tgtTemp (v : float) (a : App) : App :=
  mkApp (gotHeartbeat a) (heatingElapsed a) (currentTemp a) (alpha a) (drift a)
    (ESPcontroller a) v (backLash a) (baseCal a) (heatingOn a) (schedule a) (slotCnt a)
    (dpStartTime a) (oldWifiStatus a) (sentTime a) (slotSt a) (mcuTuya a) (configLoaded a)
    (uartOut a) (wsOut a).
Definition set_backLash (v : float) (a : App) : App :=
  mkApp (gotHeartbeat a) (heatingElapsed a) (currentTemp a) (alpha a) (drift a)
    (ESPcontroller a) (tgtTemp a) v (baseCal a) (heatingOn a) (schedule a) (slotCnt a)
    (dpStartTime a) (oldWifiStatus a) (sentTime a) (slotSt a) (mcuTuya a) (configLoaded a)
    (uartOut a) (wsOut a).
Definition set_baseCal (v : float) (a : App) : App :=
  mkApp (gotHeartbeat a) (heatingElapsed a) (currentTemp a) (alpha a) (drift a)
    (ESPcontroller a) (tgtTemp a) (backLash a) v (heatingOn a) (schedule a) (slotCnt a)
    (dpStartTime a) (oldWifiStatus a) (sentTime a) (slotSt a) (mcuTuya a) (configLoaded a)
    (uartOut a) (wsOut a).
Definition set_heatingOn (v : bool) (a : App) : App :=
  mkApp (gotHeartbeat a) (heatingElapsed a) (currentTemp a) (alpha a) (drift a)
    (ESPcontroller a) (tgtTemp a) (backLash a) (baseCal a) v (schedule a) (slotCnt a)
    (dpStartTime a) (oldWifiStatus a) (sentTime a) (slotSt a) (mcuTuya a) (configLoaded a)
    (uartOut a) (wsOut a).
Definition set_schedule (v : Z -> Z -> Z) (a : App) : App :=
  mkApp (gotHeartbeat a) (heatingElapsed a) (currentTemp a) (alpha a) (drift a)
    (ESPcontroller a) (tgtTemp a) (backLash a) (baseCal a) (heatingOn a) v (slotCnt a)
    (dpStartTime a) (oldWifiStatus a) (sentTime a) (slotSt a) (mcuTuya a) (configLoaded a)
    (uartOut a) (wsOut a).
Definition set_slotCnt (v : Z) (a : App) : App :=
  mkApp (gotHeartbeat a) (heatingElapsed a) (currentTemp a) (alpha a) (drift a)
    (ESPcontroller a) (tgtTemp a) (backLash a) (baseCal a) (heatingOn a) (schedule a) v
    (dpStartTime a) (oldWifiStatus a) (sentTime a) (slotSt a) (mcuTuya a) (configLoaded a)
    (uartOut a) (wsOut a).
Definition set_dpStartTime (v : Z) (a : App) : App :=
  mkApp (gotHeartbeat a) (heatingElapsed a) (currentTemp a) (alpha a) (drift a)
    (ESPcontroller a) (tgtTemp a) (backLash a) (baseCal a) (heatingOn a) (schedule a)
    (slotCnt a) v (oldWifiStatus a) (sentTime a) (slotSt a) (mcuTuya a) (configLoaded a)
    (uartOut a) (wsOut a).
Definition set_oldWifiStatus (v : Z) (a : App) : App :=
  mkApp (gotHeartbeat a) (heatingElapsed a) (currentTemp a) (alpha a) (drift a)
    (ESPcontroller a) (tgtTemp a) (backLash a) (baseCal a) (heatingOn a) (schedule a)
    (slotCnt a) (dpStartTime a) v (sentTime a) (slotSt a) (mcuTuya a) (configLoaded a)
    (uartOut a) (wsOut a).
Definition set_sentTime (v : bool) (a : App) : App :=
  mkApp (gotHeartbeat a) (heatingElapsed a) (currentTemp a) (alpha a) (drift a)
    (ESPcontroller a) (tgtTemp a) (backLash a) (baseCal a) (heatingOn a) (schedule a)
    (slotCnt a) (dpStartTime a) (oldWifiStatus a) v (slotSt a) (mcuTuya a) (configLoaded a)
    (uartOut a) (wsOut a).
Definition set_slotSt (v : SlotState) (a : App) : App :=
  mkApp (gotHeartbeat a) (heatingElapsed a) (currentTemp a) (alpha a) (drift a)
    (ESPcontroller a) (tgtTemp a) (backLash a) (baseCal a) (heatingOn a) (schedule a)
    (slotCnt a) (dpStartTime a) (oldWifiStatus a) (sentTime a) v (mcuTuya a)
    (configLoaded a) (uartOut a) (wsOut a).
Definition set_mcuTuya (v : tuyaStruct) (a : App) : App :=
  mkApp (gotHeartbeat a) (heatingElapsed a) (currentTemp a) (alpha a) (drift a)
    (ESPcontroller a) (tgtTemp a) (backLash a) (baseCal a) (heatingOn a) (schedule a)
    (slotCnt a) (dpStartTime a) (oldWifiStatus a) (sentTime a) (slotSt a) v
    (configLoaded a) (uartOut a) (wsOut a).
Definition set_uartOut (v : list (Z * list Z)) (a : App) : App :=
  mkApp (gotHeartbeat a) (heatingElapsed a) (currentTemp a) (alpha a) (drift a)
    (ESPcontroller a) (tgtTemp a) (backLash a) (baseCal a) (heatingOn a) (schedule a)
    (slotCnt a) (dpStartTime a) (oldWifiStatus a) (sentTime a) (slotSt a) (mcuTuya a)
    (configLoaded a) v (wsOut a).
Definition set_wsOut (v : list (string * string)) (a : App) : App :=
  mkApp (gotHeartbeat a) (heatingElapsed a) (currentTemp a) (alpha a) (drift a)
    (ESPcontroller a) (tgtTemp a) (backLash a) (baseCal a) (heatingOn a) (schedule a)
    (slotCnt a) (dpStartTime a) (oldWifiStatus a) (sentTime a) (slotSt a) (mcuTuya a)
    (configLoaded a) (uartOut a) v.

(** What the surrounding system supplies to one call: [millis()], the
    framework's [timeSynchronized], [WiFi.status() == WL_CONNECTED], and the
    fields of [localtime]. *)
Record Env := mkEnv {
  millis : Z;
  timeSynchronized : bool;
  wifiConnected : bool;
  tm_year : Z;
  tm_mon : Z;
  tm_mday : Z;
  tm_hour : Z;
  tm_min : Z;
  tm_sec : Z;
  tm_wday : Z
}.

(** The statics of [processTuyaByte] for one UART. *)
Record Port := mkPort {
  tuyaIdx : Z;
  haveHdr : bool;
  msgLen : Z;
  tuyaBuf : Z -> Z
}.

Definition TIME_SLOTS : Z := 8.
Definition USED_SLOTS : Z := 6.
Definition SECS_IN_DAY : Z := 24 * 60 * 60.
Definition TGT_TEMP : Z := 4.
Definition SECS_COL : Z := 5.

(** [uart[0].uartId = 'M'], [uart[1].uartId = 'W'] (prepUarts). *)
Definition uartId (uartNum : Z) : Z := if uartNum =? 0 then 77 else 87.

(** [schedule[slot][col] = v] *)
Definition set_cell (sch : Z -> Z -> Z) (slot col v : Z) : Z -> Z -> Z :=
  fun s c => if (s =? slot) && (c =? col) then v else sch s c.

(** ** sniffer.cpp *)

Section Firmware.

(** Compile-time configuration of appGlobals.h. *)
Variable USE_SNIFFER : bool.
Variable BUFF_LEN : Z.

(** [for (y = from; y < until; y++) dst[y - from] = src[y];] *)
Definition copyBytes (src : Z -> Z) (from until : Z) (dst : Z -> Z) : Z -> Z :=
  fold_left (fun d y => upd d (y - from) (src y))
            (zseq from (Z.to_nat (until - from))) dst.

Definition set_tuyaData (d : Z -> Z) (m : tuyaStruct) : tuyaStruct :=
  mkTuya (tuyaCmd m) (tuyaDP m) d (tuyaInt m).

(** The 4-byte big-endian integer of [formatTuya]. *)
Definition intVal_of (data : Z -> Z) : Z :=
  to_int32 (Z.lor (Z.lor (Z.lor (Z.shiftl (data 10) 24)
                                (Z.shiftl (data 11) 16))
                         (Z.shiftl (data 12) 8))
                  (data 13)).

(** One iteration of the [for (i ...)] loop of [formatTuya]: the flag [DP]
    and the effect on [mcuTuya].  The text assembled for the log is left
    out.  The parameter [tuyaData] of the source is called [data] here, the
    name [tuyaData] being the field of [mcuTuya]. *)
Definition formatTuya_iter (data : Z -> Z) (tuyaDataLen : Z)
    (isProcessed : bool) (acc : bool * tuyaStruct) (i : Z) : bool * tuyaStruct :=
  let '(DP, m) := acc in
  if i =? 3 then
    let DP' := if (data 3 =? 6) || (data 3 =? 7) then true else DP in
    (DP', if isProcessed
          then mkTuya (data 3) (data 6) (tuyaData m) (tuyaInt m)
          else m)
  else if DP then
    if i =? 6 then acc
    else if i =? 7 then acc
    else if (i =? 10) && (i <? tuyaDataLen - 1) then
      if (data 7 =? 0) || (data 7 =? 5) then
        (DP, if isProcessed
             then set_tuyaData (copyBytes data i (tuyaDataLen - 1) (tuyaData m)) m
             else m)
      else if data 7 =? 1 then
        (DP, if isProcessed
             then set_tuyaData (upd (tuyaData m) 0 (data i)) m else m)
      else if data 7 =? 2 then
        (DP, if isProcessed
             then mkTuya (tuyaCmd m) (tuyaDP m) (tuyaData m) (intVal_of data)
             else m)
      else if data 7 =? 3 then
        (DP, if isProcessed
             then set_tuyaData (copyBytes data i (tuyaDataLen - 1) (tuyaData m)) m
             else m)
      else if data 7 =? 4 then
        (DP, if isProcessed
             then set_tuyaData (upd (tuyaData m) 0 (data i)) m else m)
      else acc
    else acc
  else
    if (i =? 6) && (i <? tuyaDataLen - 1) then
      if data 3 =? 1 then
        (DP, if isProcessed
             then set_tuyaData (copyBytes data i (tuyaDataLen - 1) (tuyaData m)) m
             else m)
      else
        (DP, if isProcessed
             then set_tuyaData (copyBytes data i (tuyaDataLen - 1) (tuyaData m)) m
             else m)
    else acc.

Definition formatTuya (uartNum : Z) (data : Z -> Z) (tuyaDataLen : Z)
    (isProcessed : bool) (m : tuyaStruct) : tuyaStruct :=
  let isProcessed := if USE_SNIFFER then false else isProcessed in
  snd (fold_left (formatTuya_iter data tuyaDataLen isProcessed)
                 (zseq 0 (Z.to_nat tuyaDataLen)) (false, m)).

(** [getNumber(consoleCmd)] on the static [endPtr]: the number read, or
    [LONG_MIN] when none is left, and the new [endPtr]. *)
Definition getNumber (endPtr : string) : Z * string :=
  match strtol endPtr with
  | Some (dataItem, endPtr') => (dataItem, endPtr')
  | None => (LONG_MIN, endPtr)
  end.

(** [while ((thisNum = getNumber(wsMsg)) != LONG_MIN) tuyaCmd[++idx] = thisNum & 0xFF;]
    Every iteration consumes at least one character of the message, so a
    fuel of its length is never used up (lemma [dataPart_fuel]). *)
Fixpoint dataPart (fuel : nat) (endPtr : string) (tuyaCmd : Z -> Z) (idx : Z)
    : (Z -> Z) * Z :=
  match fuel with
  | O => (tuyaCmd, idx)
  | S fuel' =>
      let '(thisNum, endPtr') := getNumber endPtr in
      if thisNum =? LONG_MIN then (tuyaCmd, idx)
      else dataPart fuel' endPtr' (upd tuyaCmd (idx + 1) (Z.land thisNum 255)) (idx + 1)
  end.

(** The first [k] iterations of
    [for (int i = 0; i < idx; i++) tuyaCmd[idx] += tuyaCmd[i];] on [uint8_t]. *)
Definition checksumLoop (idx : Z) (k : nat) (tuyaCmd : Z -> Z) : Z -> Z :=
  fold_left (fun c i => upd c idx (wrap8 (c idx + c i))) (zseq 0 k) tuyaCmd.

Definition addChecksum (tuyaCmd : Z -> Z) (idx : Z) : Z -> Z :=
  checksumLoop idx (Z.to_nat idx) tuyaCmd.

(** [processTuyaMsg(wsMsg)]: the UART written to and the bytes written, or
    [None] when the destination is not recognised.  [tuyaCmd0] is what the
    local array [tuyaCmd] holds on entry; C leaves it uninitialised, and the
    result does not depend on it (lemma [processTuyaMsgFrom_any]). *)
Definition processTuyaMsgFrom (tuyaCmd0 : Z -> Z) (wsMsg : string)
    : option (Z * list Z) :=
  let c0 := char_at wsMsg 0 in
  let dest := if c0 =? uartId 0 then Some 0
              else if c0 =? uartId 1 then Some 1 else None in
  match dest with
  | None => None
  | Some uartNum =>
      let idx := 5 in
      let rest := match wsMsg with String _ r => r | EmptyString => EmptyString end in
      let '(n3, p) := getNumber rest in
      let tuyaCmd := upd tuyaCmd0 3 (wrap8 (Z.land n3 255)) in
      let isDP := (tuyaCmd 3 =? 6) || (tuyaCmd 3 =? 7) in
      let '(tuyaCmd, idx, p) :=
        if isDP then
          let '(n6, p) := getNumber p in
          let tuyaCmd := upd tuyaCmd 6 (wrap8 (Z.land n6 255)) in
          let '(n7, p) := getNumber p in
          let tuyaCmd := upd tuyaCmd 7 (wrap8 (Z.land n7 255)) in
          if tuyaCmd 7 =? 2 then
            let '(intVal, p) := getNumber p in
            let tuyaCmd :=
              fold_left (fun c i => upd c (13 - i) (wrap8 (Z.shiftr intVal (8 * i))))
                        (zseq 0 4) tuyaCmd in
            (tuyaCmd, 13, p)
          else (tuyaCmd, 9, p)
        else (tuyaCmd, idx, p) in
      let '(tuyaCmd, idx) := dataPart (S (String.length wsMsg)) p tuyaCmd idx in
      let tuyaCmd := upd tuyaCmd 0 85 in
      let tuyaCmd := upd tuyaCmd 1 170 in
      let tuyaCmd := upd tuyaCmd 2 (if uartNum =? 0 then 0 else 3) in
      let tuyaCmd := upd tuyaCmd 4 (wrap8 (Z.shiftr (idx - 5) 8)) in
      let tuyaCmd := upd tuyaCmd 5 (wrap8 (Z.land (idx - 5) 255)) in
      let tuyaCmd :=
        if isDP then
          let tuyaCmd := upd tuyaCmd 8 (wrap8 (Z.shiftr (idx - 9) 8)) in
          upd tuyaCmd 9 (wrap8 (Z.land (idx - 9) 255))
        else tuyaCmd in
      let idx := idx + 1 in
      let tuyaCmd := upd tuyaCmd idx 0 in
      let tuyaCmd := addChecksum tuyaCmd idx in
      Some (uartNum, cells tuyaCmd (idx + 1))
  end.

Definition processTuyaMsg (wsMsg : string) : option (Z * list Z) :=
  processTuyaMsgFrom (fun _ => 0) wsMsg.

(** [processTuyaMsg] as a step of the program: the bytes are appended to the
    trace of UART writes.  Its call of [formatTuya] has [isProcessed] false
    and only logs. *)
Definition sendTuyaMsg (wsMsg : string) (a : App) : App :=
  match processTuyaMsg wsMsg with
  | Some w => set_uartOut (uartOut a ++ [w]) a
  | None => a
  end.

(** ** appSpecific.cpp *)

(** [wsJsonSend(keyStr, valStr)]: the pair is stored in the configuration
    vector and sent over the web socket; both are the publication of one
    key/value event. *)
Definition wsJsonSend (keyStr valStr : string) (a : App) : App :=
  set_wsOut (wsOut a ++ [(keyStr, valStr)]) a.

Definition sendWifiStatus (e : Env) (demanded : bool) (a : App) : App :=
  let newWifiStatus := if wifiConnected e then 4 else 0 in
  if negb (newWifiStatus =? oldWifiStatus a) || demanded then
    let wifiStr := ("M 3 " ++ String (chr (newWifiStatus + 48)) "")%string in
    sendTuyaMsg wifiStr (set_oldWifiStatus newWifiStatus a)
  else a.

(** [strftime(currTime, 29, "M 28 1 %y %m %d %H %M %S %w", localtime(..))] *)
Definition strftime_time (e : Env) : string :=
  ("M 28 1 " ++ utoa02 (tm_year e mod 100) ++ " " ++ utoa02 (tm_mon e + 1) ++ " "
   ++ utoa02 (tm_mday e) ++ " " ++ utoa02 (tm_hour e) ++ " " ++ utoa02 (tm_min e)
   ++ " " ++ utoa02 (tm_sec e) ++ " " ++ utoa (tm_wday e))%string.

Definition sendLocalTime (e : Env) (demanded : bool) (a : App) : App :=
  if (timeSynchronized e && negb (sentTime a)) || demanded then
    if timeSynchronized e
    then sendTuyaMsg (strftime_time e) (set_sentTime true a)
    else sendTuyaMsg "M 28 0 0 0 0 0 0 0 0" a
  else a.

(** The text of the complete schedule: [sprintf(fp, "43 0 ")], then
    ["%hhu %hhu %hhu %hhu "] for every slot, then the last space removed. *)
Definition scheduleMsg (sch : Z -> Z -> Z) : string :=
  drop_last
    (fold_left
       (fun formatted i =>
          (formatted ++ utoa (wrap8 (sch i 0)) ++ " " ++ utoa (wrap8 (sch i 1)) ++ " "
           ++ utoa (wrap8 (sch i 2)) ++ " " ++ utoa (wrap8 (sch i 3)) ++ " ")%string)
       (zseq 0 (Z.to_nat TIME_SLOTS)) "M 6 43 0 "%string).

(** The value an uninitialised local holds when [sscanf] does not assign it
    is indeterminate in C; the model reads zero. *)
Definition unassigned (o : option Z) : Z :=
  match o with Some v => v | None => 0 end.

(** [updateAppStatus(variable, value)].  The first component of the
    intermediate triple is the text written at [fp], after ["M 6 "]. *)
Definition updateAppStatus (variable value : string) (a : App) : App :=
  if USE_SNIFFER then a else
  let intVal := atoi value in
  let fltVal := atof value in
  let named (name : string) := String.eqb variable name in
  let '(fp, msgReady, a) :=
    if named "tgtTemp" then ("2 2 " ++ itoa (to_int32 (intVal * 10)), true, a)
    else if named "floorMax" then ("107 2 " ++ itoa intVal, true, a)
    else if named "tempSensor" then ("25 4 " ++ utoa (to_uint32 intVal), true, a)
    else if named "progMode" then ("4 4 " ++ utoa (to_uint32 intVal), true, a)
    else if named "frost" then ("26 1 " ++ utoa (to_uint32 intVal), true, a)
    else if named "switchDisp" then ("1 1 " ++ utoa (to_uint32 intVal), true, a)
    else if named "childLock" then ("8 1 " ++ utoa (to_uint32 intVal), true, a)
    else if named "roomMax" then ("21 2 " ++ itoa intVal, true, a)
    else if named "tempCal" then
      ("20 2 " ++ itoa (tenfold fltVal),
       negb (ESPcontroller a),
       set_baseCal fltVal a)
    else if named "espCal" then ("20 2 " ++ itoa intVal, true, a)
    else if named "tempLash" then ("105 2 " ++ itoa (tenfold fltVal), true, a)
    else if named "daySetting" then ("42 4 " ++ utoa (to_uint32 intVal), true, a)
    else if named "backLight" then ("41 4 " ++ utoa (to_uint32 intVal), true, a)
    else if named "doReset" then ("31 1 " ++ utoa (to_uint32 intVal), true, a)
    else if named "doReverse" then ("101 1 " ++ utoa (to_uint32 intVal), true, a)
    else if contains "slotTime" variable then
      let slot := wrap8 (char_at variable 8 - 48 - 1) in
      if slot <? TIME_SLOTS then
        let '(h, m) := sscanf_hhu_colon_hhu value in
        let hour := unassigned h in
        let mins := unassigned m in
        let sch := set_cell (schedule a) slot 0 hour in
        let sch := set_cell sch slot 1 mins in
        let sch := set_cell sch slot SECS_COL (((hour * 60) + mins) * 60) in
        ("", false, set_slotCnt (slotCnt a + 1) (set_schedule sch a))
      else ("", false, a)
    else if contains "slotTemp" variable then
      let slot := wrap8 (char_at variable 8 - 48 - 1) in
      let temp := to_int16 (tenfold fltVal) in
      if slot <? TIME_SLOTS then
        let sch := set_cell (schedule a) slot 2 (Z.land (Z.shiftr temp 8) 255) in
        let sch := set_cell sch slot 3 (Z.land temp 255) in
        let sch := set_cell sch slot 4 temp in
        ("", false, set_slotCnt (slotCnt a + 1) (set_schedule sch a))
      else ("", false, a)
    else if named "alpha" then ("", false, set_alpha fltVal a)
    else if named "drift" then ("", false, set_drift intVal a)
    else if named "setCtrl" then
      let ctrl := negb (intVal =? 0) in
      ("4 4 " ++ (if ctrl then "0" else "1"), true, set_ESPcontroller ctrl a)
    else ("", false, a) in
  let formatted := ("M 6 " ++ fp)%string in
  let '(formatted, msgReady, a) :=
    if slotCnt a >=? TIME_SLOTS * 2
    then (scheduleMsg (schedule a), true, set_slotCnt 0 a)
    else (formatted, msgReady, a) in
  if configLoaded a && msgReady then sendTuyaMsg formatted a else a.

(** The [while] loop of [checkSchedule] that steps [currentSlot] down from
    the last used slot; it runs at most [USED_SLOTS] times. *)
Fixpoint scanSlot (fuel : nat) (sch : Z -> Z -> Z) (currentSecs cs : Z) : Z :=
  match fuel with
  | O => cs
  | S fuel' =>
      if sch cs SECS_COL >? currentSecs then
        let cs := cs - 1 in
        if cs <? 0 then cs else scanSlot fuel' sch currentSecs cs
      else cs
  end.

(** [currentSecs] of [checkSchedule]: the second of the day. *)
Definition currentSecs (e : Env) : Z :=
  (((tm_hour e * 60) + tm_min e) * 60) + tm_sec e.

(** [checkSchedule()].  Both calls of [millis()] read the same tick. *)
Definition checkSchedule (e : Env) (a : App) : App :=
  if negb (timeSynchronized e) then a else
  let sch := schedule a in
  let st := slotSt a in
  let st :=
    if currentSlot st <? 0 then
      let currentSecs := currentSecs e in
      let cs := scanSlot (Z.to_nat USED_SLOTS) sch currentSecs (USED_SLOTS - 1) in
      let '(cs, dur) :=
        if (cs <? 0) || (cs =? USED_SLOTS - 1) then
          let dur := sch 0 SECS_COL - currentSecs in
          (USED_SLOTS - 1, if dur <? 0 then dur + SECS_IN_DAY else dur)
        else (cs, sch (cs + 1) SECS_COL - currentSecs) in
      mkSlot cs (to_int32 (dur * 1000)) (startTime st) true
    else if to_uint32 (millis e - startTime st) >? to_uint32 (slotDuration st) then
      let cs := if currentSlot st + 1 >=? USED_SLOTS then 0 else currentSlot st + 1 in
      let dur := if cs <? USED_SLOTS - 1
                 then sch (cs + 1) SECS_COL
                 else SECS_IN_DAY + sch 0 SECS_COL in
      mkSlot cs (to_int32 ((dur - sch cs SECS_COL) * 1000)) (startTime st) true
    else st in
  if changedSlot st then
    let st := mkSlot (currentSlot st) (slotDuration st) (to_uint32 (millis e)) false in
    let formatted := ftoa1f (tenths (sch (currentSlot st) TGT_TEMP)) in
    updateAppStatus "tgtTemp" formatted (set_slotSt st a)
  else set_slotSt st a.

(** [setSchedule()]: publish the 8 slots of an inbound datapoint 43. *)
Definition setSchedule (a : App) : App :=
  fold_left
    (fun a i =>
       let d := tuyaData (mcuTuya a) in
       let slotNo := String (chr (48 + i + 1)) "" in
       let a := wsJsonSend ("slotTime" ++ slotNo)
                           (utoa02 (d (i * 4)) ++ ":" ++ utoa02 (d (i * 4 + 1))) a in
       let slotTemp :=
         to_int16 (Z.quot (Z.lor (Z.shiftl (d (i * 4 + 2)) 8) (d (i * 4 + 3))) 10) in
       wsJsonSend ("slotTemp" ++ slotNo) (utoa (wrap16 slotTemp)) a)
    (zseq 0 (Z.to_nat TIME_SLOTS)) a.

(** Modelled from the spec: [smooth] is a function of the framework that is
    not part of the sources at hand; the spec gives it as
    "smoothed <- alpha * floor + (1 - alpha) * smoothed", taken here in
    [float]. *)
Definition smooth (latestVal smoothedVal alpha : float) : float :=
  fadd (fmul alpha latestVal) (fmul (fsub (float_of_int 1) alpha) smoothedVal).

(** [controlHeating(mcuTemp)].  The [int] operands [drift] and [10] are
    converted to [float], and every sum and product is one of [float]. *)
Definition controlHeating (mcuTemp : float) (a : App) : App :=
  let floorTemp :=
    if heatingOn a then fadd (baseCal a) (float_of_int (drift a))
    else fsub (baseCal a) (float_of_int (drift a)) in
  let floorTemp := fadd floorTemp mcuTemp in
  let a := set_currentTemp (smooth floorTemp (currentTemp a) (alpha a)) a in
  if heatingOn a then
    if fltb (tgtTemp a) (currentTemp a) then
      updateAppStatus "espCal"
        (itoa (tenfold (fadd (baseCal a) (float_of_int (drift a))))) a
    else a
  else
    if fltb (fadd (currentTemp a) (backLash a)) (tgtTemp a) then
      updateAppStatus "espCal"
        (itoa (tenfold (fsub (baseCal a) (float_of_int (drift a))))) a
    else a.

(** [sprintf(formatted, "%u", mcuTuya.tuyaData[0]); wsJsonSend(key, formatted);] *)
Definition publishData0 (key : string) (a : App) : App :=
  wsJsonSend key (utoa (tuyaData (mcuTuya a) 0)) a.

(** [processDP()] *)
Definition processDP (e : Env) (a : App) : App :=
  let floatTemp := tenths (tuyaInt (mcuTuya a)) in
  let dp := tuyaDP (mcuTuya a) in
  if dp =? 1 then
    let a := publishData0 "switchDisp" a in
    if negb (tuyaData (mcuTuya a) 0 =? 0)
    then sendWifiStatus e true (sendLocalTime e true a)
    else a
  else if dp =? 2 then
    wsJsonSend "tgtTemp" (ftoa1f floatTemp) (set_tgtTemp floatTemp a)
  else if dp =? 3 then
    let a := wsJsonSend "rawTemp" (ftoa1f floatTemp) a in
    let a := if ESPcontroller a then controlHeating floatTemp a
             else set_currentTemp floatTemp a in
    wsJsonSend "currTemp" (ftoa1f (currentTemp a)) a
  else if dp =? 4 then publishData0 "progMode" a
  else if dp =? 5 then
    let a := publishData0 "outputOn" a in
    let a := set_heatingOn (negb (tuyaData (mcuTuya a) 0 =? 0)) a in
    let a := if heatingOn a then set_dpStartTime (to_uint32 (millis e)) a else a in
    if negb (heatingOn a) && (dpStartTime a >? 0) then
      set_dpStartTime 0
        (set_heatingElapsed
           (to_uint32 (heatingElapsed a + to_uint32 (millis e - dpStartTime a))) a)
    else a
  else if dp =? 8 then publishData0 "childLock" a
  else if dp =? 13 then publishData0 "soundOn" a
  else if dp =? 16 then publishData0 "fault" a
  else if dp =? 20 then
    if negb (ESPcontroller a) then wsJsonSend "tempCal" (ftoa1f floatTemp) a
    else a
  else if dp =? 21 then wsJsonSend "roomMax" (utoa (to_uint32 (tuyaInt (mcuTuya a)))) a
  else if dp =? 25 then publishData0 "tempSensor" a
  else if dp =? 26 then publishData0 "frost" a
  else if dp =? 31 then
    if negb (tuyaData (mcuTuya a) 0 =? 0) then sendTuyaMsg "M 8" a else a
  else if dp =? 41 then publishData0 "backLight" a
  else if dp =? 42 then publishData0 "daySetting" a
  else if dp =? 43 then setSchedule a
  else if dp =? 101 then publishData0 "opReverse" a
  else if dp =? 105 then
    wsJsonSend "tempLash" (ftoa1f floatTemp) (set_backLash floatTemp a)
  else if dp =? 107 then wsJsonSend "floorMax" (utoa (to_uint32 (tuyaInt (mcuTuya a)))) a
  else a.

(** [doTuyaInit()]; [initStatus] belongs to the framework and sends nothing
    to the MCU. *)
Definition doTuyaInit (a : App) : App :=
  let a := if ESPcontroller a then sendTuyaMsg "M 6 4 4 0" a
           else sendTuyaMsg "M 6 4 4 1" a in
  sendTuyaMsg "M 8" a.

(** [processMCUcmd()] *)
Definition processMCUcmd (e : Env) (a : App) : App :=
  let cmd := tuyaCmd (mcuTuya a) in
  if cmd =? 0 then
    let a := set_gotHeartbeat true a in
    if tuyaData (mcuTuya a) 0 =? 0 then doTuyaInit a else a
  else if (cmd =? 1) || (cmd =? 2) || (cmd =? 3) || (cmd =? 4) then a
  else if cmd =? 7 then processDP e a
  else if cmd =? 28 then sendLocalTime e true a
  else a.

(** ** sniffer.cpp, the inbound side *)

(** [memmove(tuyaData, tuyaData + from, 2)] *)
Definition memmove2 (data : Z -> Z) (from : Z) : Z -> Z :=
  fun j => if j =? 0 then data from else if j =? 1 then data (from + 1) else data j.

(** Big-endian 16-bit value of the last two bytes buffered, as [uint16_t]. *)
Definition last2 (data : Z -> Z) (idx : Z) : Z :=
  wrap16 (Z.lor (Z.shiftl (data (idx - 2)) 8) (data (idx - 1))).

Definition header : Z := 0x55aa.

(** The value the static [msgLen] is initialised and reset to. *)
Definition msgLen0 : Z := wrap16 (BUFF_LEN - 10).

(** [processTuyaByte] on its statics for one UART: the new statics and, when
    a message is complete, the arguments [(tuyaData, tuyaIdx)] passed to
    [formatTuya]. *)
Definition reassemble (p : Port) (tuyaByte : Z) : Port * option ((Z -> Z) * Z) :=
  let data := upd (tuyaBuf p) (tuyaIdx p) tuyaByte in
  let idx := tuyaIdx p + 1 in
  let '(data, idx, hdr) :=
    if (idx >? 1) && negb (haveHdr p) then
      if last2 data idx =? header
      then (memmove2 data (idx - 2), 2, true)
      else (data, idx, haveHdr p)
    else (data, idx, haveHdr p) in
  let mlen := if (idx =? 6) && hdr then last2 data idx else msgLen p in
  if idx =? Z.min (mlen + 7) (BUFF_LEN - 10)
  then (mkPort 0 false msgLen0 data, Some (data, idx))
  else (mkPort idx hdr mlen data, None).

(** What [processTuyaByte] does with a complete message: [formatTuya] fills
    [mcuTuya], then [processMCUcmd] unless in sniffer mode. *)
Definition deliver (e : Env) (uartNum : Z) (msg : (Z -> Z) * Z) (a : App) : App :=
  let a := set_mcuTuya (formatTuya uartNum (fst msg) (snd msg) true (mcuTuya a)) a in
  if USE_SNIFFER then a else processMCUcmd e a.

(** [processTuyaByte(uartNum, tuyaByte)]: [ports] holds the statics of both
    UARTs. *)
Definition processTuyaByte (e : Env) (uartNum : Z) (tuyaByte : Z)
    (st : (Z -> Port) * App) : (Z -> Port) * App :=
  let '(ports, a) := st in
  let '(p, msg) := reassemble (ports uartNum) tuyaByte in
  let a :=
    match msg with
    | Some m => deliver e uartNum m a
    | None => a
    end in
  (fun u => if u =? uartNum then p else ports u, a).

(** The statics of [processTuyaByte] at program start. *)
Definition port0 : Port := mkPort 0 false msgLen0 (fun _ => 0).

(** The bytes of one UART read loop fed to [processTuyaByte] in order. *)
Definition feedBytes (e : Env) (uartNum : Z) (bytes : list Z)
    (st : (Z -> Port) * App) : (Z -> Port) * App :=
  fold_left (fun st b => processTuyaByte e uartNum b st) bytes st.

(** The same on the statics alone: the final statics and the messages
    completed on the way, each as the pair [(tuyaData, tuyaIdx)] handed to
    [formatTuya]. *)
Fixpoint reassembleAll (p : Port) (bytes : list Z) : Port * list ((Z -> Z) * Z) :=
  match bytes with
  | [] => (p, [])
  | b :: rest =>
      let '(p1, msg) := reassemble p b in
      let '(p2, msgs) := reassembleAll p1 rest in
      (p2, match msg with
           | Some m => m :: msgs
           | None => msgs
           end)
  end.

(** A message handed over, as its bytes [tuyaData[0 .. tuyaIdx - 1]]. *)
Definition messageBytes (msg : (Z -> Z) * Z) : list Z := cells (fst msg) (snd msg).

(** The statics after a message has been handed over. *)
Definition portReset (buf : Z -> Z) : Port := mkPort 0 false msgLen0 buf.

(** ** The callers: [readUart], [heartBeat], [wsAppSpecificHandler] *)

(** [readUart(uartNum)], the branch of a [UART_DATA] event: the loop over
    the bytes [uart_read_bytes] delivers.  Every byte is written to the other
    UART in sniffer mode and handed to [processTuyaByte] for the other UART.
    The queue, the mutex and the branch that flushes after an unexpected
    event belong to the driver and are left out. *)
Definition readUart (e : Env) (uartNum : Z) (bytes : list Z)
    (st : (Z -> Port) * App) : (Z -> Port) * App :=
  fold_left
    (fun st tuyaByte =>
       let otherUart := Z.lxor uartNum 1 in
       let st :=
         if USE_SNIFFER
         then (fst st, set_uartOut (uartOut (snd st) ++ [(otherUart, [tuyaByte])]) (snd st))
         else st in
       processTuyaByte e otherUart tuyaByte st)
    bytes st.

(** [heartBeat()]: the new state and the milliseconds passed to [delay].
    [updateStats] only formats texts for the configuration vector of the
    framework and changes none of the statics; it is left out. *)
Definition heartBeat (e : Env) (a : App) : App * Z :=
  if USE_SNIFFER then (a, 0) else
  let a := sendTuyaMsg "M 0" a in
  let hbInterval := if gotHeartbeat a then 15 else 1 in
  let a :=
    if gotHeartbeat a then
      let a := set_gotHeartbeat false a in
      let a := sendWifiStatus e false a in
      let a := sendLocalTime e false a in
      checkSchedule e a
    else a in
  (a, hbInterval * 1000).

(** What [wsAppSpecificHandler] hands to the framework: [buildJsonString]
    for a status request, [parseJson] for an update, both with [wsLen] and,
    for the update, the text copied into [jsonBuff]. *)
Inductive FrameworkCall : Type :=
| BuildJsonString (wsLen : Z)
| ParseJson (jsonBuff : string) (wsLen : Z).

(** [wsAppSpecificHandler(wsMsg)]: the new state and the call made to the
    framework, if any. *)
Definition wsAppSpecificHandler (wsMsg : string) (a : App)
    : App * option FrameworkCall :=
  let wsLen := Z.of_nat (String.length wsMsg) - 1 in
  let c := char_at wsMsg 0 in
  if c =? 72 (* 'H' *) then (a, None)
  else if c =? 83 (* 'S' *) then (a, Some (BuildJsonString wsLen))
  else if c =? 85 (* 'U' *) then
    (a, Some (ParseJson (String.substring 1 (Z.to_nat wsLen) wsMsg) wsLen))
  else if c =? 73 (* 'I' *) then (doTuyaInit a, None)
  else (sendTuyaMsg wsMsg a, None).

(** ** The program as a sequence of events *)

(** What can happen to the program: bytes arrive on a UART, the heartbeat
    timer fires, the framework passes on a changed configuration value, or a
    message arrives on the web socket. *)
Inductive Event : Type :=
| EvRead (uartNum : Z) (bytes : list Z)
| EvHeartBeat
| EvUpdate (variable value : string)
| EvWebSocket (wsMsg : string).

(** One event, handled in the environment [e] by the function of the
    source that serves it. *)
Definition step (e : Env) (ev : Event) (st : (Z -> Port) * App) : (Z -> Port) * App :=
  match ev with
  | EvRead uartNum bytes => readUart e uartNum bytes st
  | EvHeartBeat => (fst st, fst (heartBeat e (snd st)))
  | EvUpdate variable value => (fst st, updateAppStatus variable value (snd st))
  | EvWebSocket wsMsg => (fst st, fst (wsAppSpecificHandler wsMsg (snd st)))
  end.

Definition run (evs : list (Env * Event)) (st : (Z -> Port) * App) : (Z -> Port) * App :=
  fold_left (fun st ee => step (fst ee) (snd ee) st) evs st.

End Firmware.

(** The state at program start: the initialisers of the statics; the
    globals without one are zero.  [configLoaded] is set by the framework
    once the stored configuration has been read. *)
Definition appInit (loaded : bool) : App :=
  mkApp false 0 (float_of_int 15) (float_of_int 1) 3 false (float_of_int 19)
        (F_zero false) (F_zero false) false (fun _ _ => 0) 0 0 (-1) false
        (mkSlot (-1) 0 0 false) (mkTuya 0 0 (fun _ => 0) 0) loaded [] [].

(** ** Scenarios *)

(** An environment: 23:00:00 on a Saturday, time synchronised. *)
Definition env_2300 : Env := mkEnv 60000 true true 122 0 1 23 0 0 6.

(** Scenario S4 of the spec: ESP controls, alpha 1, drift 3, base
    calibration 0, backlash 0.5, target 19, heating off. *)
Definition app_S4 : App :=
  set_backLash (tenths 5) (set_ESPcontroller true (appInit true)).

(** A datapoint-20 report of 15 (1.5 degrees) waiting in [mcuTuya]. *)
Definition app_DP20 (espControls : bool) : App :=
  set_mcuTuya (mkTuya 7 20 (fun _ => 0) 15)
    (set_ESPcontroller espControls (appInit true)).

(** The work-day program of scenarios S3 and S6: slots 0..5 start at
    06:00, 08:30, 09:00, 12:30, 16:30 and 22:00; every slot asks for 18.5
    degrees. *)
Definition sched_S3 : Z -> Z -> Z :=
  fun slot col =>
    if col =? SECS_COL then nth (Z.to_nat slot) [21600; 30600; 32400; 45000; 59400; 79200] 0
    else if col =? TGT_TEMP then 185
    else 0.

Definition app_S3 : App := set_schedule sched_S3 (appInit true).

(** 11:06:40, the second 40000 of the day. *)
Definition env_1106 : Env := mkEnv 60000 true true 122 0 1 11 6 40 6.

(** The slot of the work-day program that the second [t] of the day falls
    in: slot [i < 5] runs from its start to the start of slot [i + 1], slot 5
    from its start over midnight to the start of slot 0. *)
Definition in_slot (sch : Z -> Z -> Z) (i t : Z) : Prop :=
  if i <? USED_SLOTS - 1
  then sch i SECS_COL <= t < sch (i + 1) SECS_COL
  else sch (USED_SLOTS - 1) SECS_COL <= t \/ t < sch 0 SECS_COL.

(** The slot has run out when [checkSchedule] is called in [e]. *)
Definition expired (e : Env) (a : App) : Prop :=
  timeSynchronized e = true /\
  0 <= currentSlot (slotSt a) /\
  (to_uint32 (millis e - startTime (slotSt a)) >? to_uint32 (slotDuration (slotSt a))) = true.

(** Successive calls of [checkSchedule], one per environment: every call
    finds the running slot expired ... *)
Fixpoint allExpired (es : list Env) (a : App) : Prop :=
  match es with
  | [] => True
  | e :: es' => expired e a /\ allExpired es' (checkSchedule false e a)
  end.

(** ... and the [slotDuration] each call leaves behind. *)
Fixpoint durations (es : list Env) (a : App) : list Z :=
  match es with
  | [] => []
  | e :: es' =>
      let a' := checkSchedule false e a in
      slotDuration (slotSt a') :: durations es' a'
  end.

(** Six later calls of [checkSchedule] after the one at [env_1106], each
    one millisecond after the running slot has run out. *)
Definition envs_cycle : list Env :=
  map (fun ms => mkEnv ms true true 122 0 1 0 0 0 6)
      [5060001; 19460002; 39260003; 68060004; 77060005; 78860006].

(** ** Frames on the wire *)

(** [buf[idx] = b0; buf[idx + 1] = b1; ...] *)
Fixpoint storeBytes (buf : Z -> Z) (idx : Z) (bytes : list Z) : Z -> Z :=
  match bytes with
  | [] => buf
  | b :: rest => storeBytes (upd buf idx b) (idx + 1) rest
  end.

Definition isByte (b : Z) : Prop := 0 <= b < 256.

(** A frame as the MCU sends it: the header 55 aa, version, command, the
    big-endian length [lh:ll] of the payload, the payload and one checksum
    byte; it fits the buffer when its [length + 7] bytes do not exceed
    [BUFF_LEN - 10].  The value of the checksum is not constrained: the
    reassembler does not look at it. *)
Definition validFrame (BUFF_LEN : Z) (f : list Z) : Prop :=
  Forall isByte f /\
  exists ver cmd lh ll rest,
    f = 85 :: 170 :: ver :: cmd :: lh :: ll :: rest /\
    Z.of_nat (List.length rest) = lh * 256 + ll + 1 /\
    lh * 256 + ll + 7 <= BUFF_LEN - 10.

(** No byte 0x55 is directly followed by 0xAA in [prev :: bytes]. *)
Fixpoint noHeader (prev : Z) (bytes : list Z) : Prop :=
  match bytes with
  | [] => True
  | b :: rest => ~ (prev = 85 /\ b = 170) /\ noHeader b rest
  end.

(** Scenario S1 of the spec as printed (type byte 04, last byte 06), the
    same datapoint report with type byte 02 (int) and any last byte, and
    that report with its checksum 0xd5. *)
Definition stream_S1 : list Z := [85; 170; 3; 7; 0; 8; 2; 4; 0; 4; 0; 0; 0; 188; 6].
Definition report_S1_int (ck : Z) : list Z :=
  [85; 170; 3; 7; 0; 8; 2; 2; 0; 4; 0; 0; 0; 188; ck].
Definition stream_S1_int : list Z := report_S1_int 213.

(** A heartbeat reply and the first four bytes of a datapoint report. *)
Definition frame_heartbeat : list Z := [85; 170; 3; 0; 0; 1; 1; 4].
Definition frame_started : list Z := [85; 170; 3; 7].

(** An integer report for datapoint 2 that declares a payload of 6 bytes:
    13 bytes in all, only two of them data. *)
Definition frame_short_int : list Z := [85; 170; 3; 7; 0; 6; 2; 2; 0; 2; 0; 0; 21].

(** The frame of an integer datapoint sent to the MCU: command 6, length 8,
    datapoint [dp], type 2, data length 4, the value in four bytes, most
    significant first, and the checksum. *)
Definition intFrame (dp v : Z) : list Z :=
  let body := [85; 170; 0; 6; 0; 8; dp; 2; 0; 4;
               wrap8 (Z.shiftr v 24); wrap8 (Z.shiftr v 16);
               wrap8 (Z.shiftr v 8); wrap8 (Z.shiftr v 0)] in
  (body ++ [zsum body mod 256])%list.

(** ** Slot edits *)

(** The UI key of a slot field: [slotTime<n>] or [slotTemp<n>]. *)
Definition slotKey (temp : bool) (n : Z) : string :=
  ((if temp then "slotTemp" else "slotTime") ++ String (chr (48 + n)) "")%string.

(** A valid slot edit names a slot 1..8; a time is given as [HH:MM]. *)
Definition validSlotEdit (kv : string * string) : Prop :=
  exists temp n,
    1 <= n <= TIME_SLOTS /\ fst kv = slotKey temp n /\
    (temp = false ->
     exists h m, sscanf_hhu_colon_hhu (snd kv) = (Some h, Some m)).

(** A sequence of UI updates, oldest first. *)
Definition updates (kvs : list (string * string)) (a : App) : App :=
  fold_left (fun a kv => updateAppStatus false (fst kv) (snd kv) a) kvs a.

(** Columns 0..3 of the table hold bytes. *)
Definition tableBytes (sch : Z -> Z -> Z) : Prop :=
  forall i c, 0 <= i < TIME_SLOTS -> 0 <= c < 4 -> 0 <= sch i c < 256.

(** What holds of the slot counter and the slot table between two calls of
    [updateAppStatus]. *)
Definition appInv (a : App) : Prop :=
  0 <= slotCnt a < TIME_SLOTS * 2 /\ tableBytes (schedule a).

(** (HH, MM, TH, TL) for slots 0..7. *)
Definition slotBytes (sch : Z -> Z -> Z) : list Z :=
  flat_map (fun i => [sch i 0; sch i 1; sch i 2; sch i 3])
           (zseq 0 (Z.to_nat TIME_SLOTS)).

(** The datapoint-43 frame of a table: command 6, length 36, datapoint 43,
    type raw, data length 32, the 32 bytes and the checksum. *)
Definition frame43 (sch : Z -> Z -> Z) : list Z :=
  let body := ([85; 170; 0; 6; 0; 36; 43; 0; 0; 32] ++ slotBytes sch)%list in
  (body ++ [zsum body mod 256])%list.

(** The text of a list of numbers, each after one space. *)
Definition numbersText (ns : list Z) : string :=
  fold_right (fun n s => String " " (utoa n ++ s)) "" ns.

(** [tuyaCmd[++idx] = n] for every [n] of the list. *)
Fixpoint putBytes (tuyaCmd : Z -> Z) (idx : Z) (ns : list Z) : Z -> Z :=
  match ns with
  | [] => tuyaCmd
  | n :: rest => putBytes (upd tuyaCmd (idx + 1) n) (idx + 1) rest
  end.

(** All sixteen slot fields, as the UI sends them. *)
Definition edits16 : list (string * string) :=
  [("slotTime1", "06:00"); ("slotTemp1", "20"); ("slotTime2", "08:30"); ("slotTemp2", "16");
   ("slotTime3", "09:00"); ("slotTemp3", "16"); ("slotTime4", "12:30"); ("slotTemp4", "18.5");
   ("slotTime5", "16:30"); ("slotTemp5", "21"); ("slotTime6", "22:00"); ("slotTemp6", "15");
   ("slotTime7", "08:00"); ("slotTemp7", "20"); ("slotTime8", "23:00"); ("slotTemp8", "15")].

(** ** What holds of the statics of [processTuyaByte] between two bytes *)

(** The index is inside the buffer, the cells below it hold bytes, and
    [msgLen] is the reset value until the length field of a recognised
    header has been read. *)
Definition portOk (BUFF_LEN : Z) (p : Port) : Prop :=
  0 <= tuyaIdx p < BUFF_LEN - 10 /\
  (forall i, 0 <= i < tuyaIdx p -> isByte (tuyaBuf p i)) /\
  if haveHdr p then
    2 <= tuyaIdx p /\ tuyaBuf p 0 = 85 /\ tuyaBuf p 1 = 170 /\
    (if tuyaIdx p <? 6 then msgLen p = msgLen0 BUFF_LEN
     else msgLen p = tuyaBuf p 4 * 256 + tuyaBuf p 5 /\ tuyaIdx p < msgLen p + 7)
  else msgLen p = msgLen0 BUFF_LEN.

(** ** Frames the encoder writes *)

(** The letter that selects a UART in a message text: ['M'] for UART 0,
    ['W'] for UART 1 ([uart[..].uartId], prepUarts). *)
Definition destChar (uartNum : Z) : ascii := chr (uartId uartNum).

(** The version byte [processTuyaMsg] writes for a destination. *)
Definition versionOf (uartNum : Z) : Z := if uartNum =? 0 then 0 else 3.

(** The frame of a command without datapoint: header, version, command, the
    big-endian number of data bytes, the data bytes and the checksum. *)
Definition plainFrame (ver cmd : Z) (bs : list Z) : list Z :=
  let n := Z.of_nat (List.length bs) in
  let body := ([85; 170; ver; cmd; n / 256; n mod 256] ++ bs)%list in
  (body ++ [zsum body mod 256])%list.

(** The text of an integer datapoint for the MCU, as [updateAppStatus]
    prints it: ["M 6 <dp> 2 <value>"]. *)
Definition intText (dp v : Z) : string :=
  ("M 6 " ++ utoa dp ++ " 2 " ++ itoa v)%string.

(** The text of a list of tokens, each after one space. *)
Definition tokensText (ts : list string) : string :=
  fold_right (fun t s => String " " (t ++ s)) "" ts.

(** The token [t] is read by [getNumber] as the number [n], whatever
    follows it that does not start with a digit. *)
Definition reads (t : string) (n : Z) : Prop :=
  0 <= n <= LONG_MAX /\
  forall rest, starts_digit rest = false ->
               getNumber (String " " (t ++ rest)) = (n, rest).

(** The calendar fields as [localtime] delivers them. *)
Definition validTime (e : Env) : Prop :=
  0 <= tm_year e /\ 0 <= tm_mon e <= 11 /\ 1 <= tm_mday e <= 31 /\
  0 <= tm_hour e <= 23 /\ 0 <= tm_min e <= 59 /\ 0 <= tm_sec e <= 60 /\
  0 <= tm_wday e <= 6.

(** The frame that carries the local time to the MCU: command 28 with the
    flag 1, the two-digit year, month, day, hour, minute, second and the day
    of the week. *)
Definition timeFrame (e : Env) : list Z :=
  plainFrame 0 28 [1; tm_year e mod 100; tm_mon e + 1; tm_mday e;
                   tm_hour e; tm_min e; tm_sec e; tm_wday e].

(** ** What holds of the statics of [checkSchedule] between two calls *)

Definition slotOk (a : App) : Prop :=
  -1 <= currentSlot (slotSt a) < USED_SLOTS /\ changedSlot (slotSt a) = false.

(** The bytes of a read event are bytes. *)
Definition byteEvent (ev : Event) : Prop :=
  match ev with
  | EvRead _ bytes => Forall isByte bytes
  | _ => True
  end.

(** ** Keys of [updateAppStatus] *)

(** The names [updateAppStatus] compares its key with. *)
Definition appKeys : list string :=
  ["tgtTemp"; "floorMax"; "tempSensor"; "progMode"; "frost"; "switchDisp"; "childLock";
   "roomMax"; "tempCal"; "espCal"; "tempLash"; "daySetting"; "backLight"; "doReset";
   "doReverse"; "alpha"; "drift"; "setCtrl"].

(** The key is one of the names, or contains ["slotTime"] or ["slotTemp"]. *)
Definition knownKey (variable : string) : bool :=
  existsb (String.eqb variable) appKeys
  || contains "slotTime" variable || contains "slotTemp" variable.

(** ["slotTime"] or ["slotTemp"], the key of a slot field without its
    number. *)
Definition slotName (temp : bool) : string := if temp then "slotTemp" else "slotTime".

(** ** The loop of [formatTuya] in closed form *)

(** What one call of [formatTuya] with [isProcessed] leaves in [mcuTuya],
    by the length of the message, the command and the type byte. *)
Definition formatTuya_summary (data : Z -> Z) (len : Z) (m : tuyaStruct) : tuyaStruct :=
  if len <? 4 then m else
  let m1 := mkTuya (data 3) (data 6) (tuyaData m) (tuyaInt m) in
  if (data 3 =? 6) || (data 3 =? 7) then
    if len <? 12 then m1
    else if (data 7 =? 0) || (data 7 =? 3) || (data 7 =? 5) then
      set_tuyaData (copyBytes data 10 (len - 1) (tuyaData m)) m1
    else if (data 7 =? 1) || (data 7 =? 4) then
      set_tuyaData (upd (tuyaData m) 0 (data 10)) m1
    else if data 7 =? 2 then
      mkTuya (data 3) (data 6) (tuyaData m) (intVal_of data)
    else m1
  else
    if len <? 8 then m1
    else set_tuyaData (copyBytes data 6 (len - 1) (tuyaData m)) m1.

(** ** A schedule report published and replayed *)

(** What [setSchedule] publishes for the data bytes [d] of a datapoint 43
    report: for every slot its time and its temperature. *)
Definition publishedSlots (d : Z -> Z) : list (string * string) :=
  flat_map
    (fun i =>
       [(slotKey false (i + 1),
         (utoa02 (d (i * 4)) ++ ":" ++ utoa02 (d (i * 4 + 1)))%string);
        (slotKey true (i + 1),
         utoa (wrap16 (to_int16
                 (Z.quot (Z.lor (Z.shiftl (d (i * 4 + 2)) 8) (d (i * 4 + 3))) 10))))])
    (zseq 0 (Z.to_nat TIME_SLOTS)).

(** The cells of the slot table that a [slotTime] edit and a [slotTemp]
    edit write. *)
Definition timeCells (sch : Z -> Z -> Z) (slot hour mins : Z) : Z -> Z -> Z :=
  set_cell (set_cell (set_cell sch slot 0 hour) slot 1 mins)
           slot SECS_COL (((hour * 60) + mins) * 60).

Definition tempCells (sch : Z -> Z -> Z) (slot temp : Z) : Z -> Z -> Z :=
  set_cell (set_cell (set_cell sch slot 2 (Z.land (Z.shiftr temp 8) 255))
                     slot 3 (Z.land temp 255))
           slot 4 temp.

(** The end of [updateAppStatus] after a slot edit that left the table
    [sch']: the edit is counted, and the sixteenth resets the counter and,
    with the configuration loaded, sends the table. *)
Definition afterEdit (a : App) (sch' : Z -> Z -> Z) : App :=
  let a1 := set_slotCnt (slotCnt a + 1) (set_schedule sch' a) in
  if slotCnt a + 1 >=? TIME_SLOTS * 2 then
    if configLoaded a
    then sendTuyaMsg (scheduleMsg sch') (set_slotCnt 0 a1)
    else set_slotCnt 0 a1
  else a1.

(** The temperature of slot [i] in a report, in tenths of a degree, and
    what is left of it once published in whole degrees. *)
Definition reportTemp (d : Z -> Z) (i : Z) : Z := d (i * 4 + 2) * 256 + d (i * 4 + 3).
Definition wholeDegrees (t : Z) : Z := t / 10 * 10.

(** The edits of the slot table that replaying [publishedSlots d] makes. *)
Definition replayedCells (d : Z -> Z) : list ((Z -> Z -> Z) -> Z -> Z -> Z) :=
  flat_map
    (fun i =>
       [fun sch => timeCells sch i (d (i * 4)) (d (i * 4 + 1));
        fun sch => tempCells sch i (wholeDegrees (reportTemp d i))])
    (zseq 0 (Z.to_nat TIME_SLOTS)).

(** The table after the edits [fs], made in order. *)
Definition editedTable (fs : list ((Z -> Z -> Z) -> Z -> Z -> Z)) (sch : Z -> Z -> Z)
    : Z -> Z -> Z :=
  fold_left (fun s f => f s) fs sch.

(** ** Datapoint frames for the MCU *)

(** The frame of datapoint [dp] with type [ty] and the data bytes [bs]:
    command 6, the length of what follows, the datapoint id, the type, the
    number of data bytes, the data bytes and the checksum. *)
Definition dpFrame (dp ty : Z) (bs : list Z) : list Z :=
  let n := Z.of_nat (List.length bs) in
  let body := ([85; 170; 0; 6; (n + 4) / 256; (n + 4) mod 256; dp; ty;
                n / 256; n mod 256] ++ bs)%list in
  (body ++ [zsum body mod 256])%list.

(** The keys of [updateAppStatus] that send their value as one byte of a
    bool or enum datapoint: key, datapoint id, type. *)
Definition byteKeys : list (string * (Z * Z)) :=
  [("tempSensor", (25, 4)); ("progMode", (4, 4)); ("frost", (26, 1));
   ("switchDisp", (1, 1)); ("childLock", (8, 1)); ("daySetting", (42, 4));
   ("backLight", (41, 4)); ("doReset", (31, 1)); ("doReverse", (101, 1))].

(** The keys that send [atoi(value)] as an integer datapoint: key,
    datapoint id. *)
Definition intKeys : list (string * Z) :=
  [("floorMax", 107); ("roomMax", 21); ("espCal", 20)].

(** An integer report of the MCU for datapoint [dp]: version 3, command 7,
    type 2, the value in four bytes, most significant first, and a last
    byte. *)
Definition intReport (dp v ck : Z) : list Z :=
  [85; 170; 3; 7; 0; 8; dp; 2; 0; 4;
   wrap8 (Z.shiftr v 24); wrap8 (Z.shiftr v 16); wrap8 (Z.shiftr v 8);
   wrap8 (Z.shiftr v 0); ck].

(** ** Rounding to a floating-point format *)

Section Rounding.
Variable prec emax : Z.
Hypothesis Hprec : 0 < prec.

Lemma two_ne0 : ~ (2 == 0)%Q.
Proof. intros H. discriminate H. Qed.

Lemma pow2_pos (e : Z) : (0 < 2 ^ e)%Q.
Proof. apply Qpower_0_lt. reflexivity. Qed.

Lemma pow2_plus (a b : Z) : (2 ^ (a + b) == 2 ^ a * 2 ^ b)%Q.
Proof. apply Qpower_plus, two_ne0. Qed.

Lemma pow2_opp (a : Z) : (2 ^ (- a) == / 2 ^ a)%Q.
Proof. apply Qpower_opp. Qed.

Lemma pow2_le (a b : Z) : a <= b -> (2 ^ a <= 2 ^ b)%Q.
Proof. intros H. apply Qpower_le_compat_l; [exact H | discriminate]. Qed.

Lemma pow2_Z (e : Z) : 0 <= e -> (inject_Z (2 ^ e) == 2 ^ e)%Q.
Proof. intros H. apply (Zpower_Qpower 2 e H). Qed.

Lemma pow2_inv (a : Z) : (2 ^ a * 2 ^ (- a) == 1)%Q.
Proof.
  rewrite <- pow2_plus. replace (a + - a) with 0 by lia. reflexivity.
Qed.

Lemma Zpos_pow2 (e : Z) : 0 <= e -> Zpos (Z.to_pos (2 ^ e)) = 2 ^ e.
Proof. intros H. apply Z2Pos.id. apply Z.pow_pos_nonneg; lia. Qed.

Lemma F2Q_pow (s : bool) (m : positive) (e : Z) :
  (F2Q (F_fin s m e) == inject_Z (if s then Zneg m else Zpos m) * 2 ^ e)%Q.
Proof.
  unfold F2Q. set (z := if s then Zneg m else Zpos m).
  destruct (Z.leb_spec 0 e) as [He|He].
  - rewrite inject_Z_mult, pow2_Z by exact He. reflexivity.
  - rewrite Qmake_Qdiv, Zpos_pow2 by lia. rewrite pow2_Z by lia.
    unfold Qdiv. rewrite <- pow2_opp. replace (- - e) with e by lia. reflexivity.
Qed.

Lemma scale_Q (n d E : Z) :
  0 < n -> 0 < d ->
  0 < fst (scale n d E) /\ 0 < snd (scale n d E) /\
  (inject_Z (fst (scale n d E)) ==
   inject_Z (snd (scale n d E)) * (inject_Z n / inject_Z d) * 2 ^ (- E))%Q.
Proof.
  intros Hn Hd. unfold scale.
  assert (Hd' : ~ (inject_Z d == 0)%Q).
  { intros H. apply (inject_Z_injective d 0) in H. lia. }
  destruct (Z.leb_spec 0 E) as [HE|HE]; cbn [fst snd].
  - assert (0 < 2 ^ E) by (apply Z.pow_pos_nonneg; lia).
    split; [exact Hn|]. split; [nia|].
    rewrite inject_Z_mult, pow2_Z by exact HE.
    pose proof (pow2_inv E) as Hi.
    set (p := (2 ^ E)%Q) in *. set (p' := (2 ^ (- E))%Q) in *.
    transitivity (inject_Z n * (p * p'))%Q; [rewrite Hi; ring|]. field. exact Hd'.
  - assert (0 < 2 ^ (- E)) by (apply Z.pow_pos_nonneg; lia).
    split; [nia|]. split; [exact Hd|].
    rewrite inject_Z_mult, pow2_Z by lia. field. exact Hd'.
Qed.

Lemma inject_Z_pos (n : Z) : 0 < n -> (0 < inject_Z n)%Q.
Proof. intros H. rewrite (Zlt_Qlt 0 n) in H. exact H. Qed.

Lemma log2_Q (n : Z) : 0 < n -> (2 ^ (Z.log2 n) <= inject_Z n < 2 ^ (Z.log2 n + 1))%Q.
Proof.
  intros Hn. pose proof (Z.log2_spec n Hn) as [H1 H2].
  pose proof (Z.log2_nonneg n) as H0.
  rewrite <- !pow2_Z by lia. rewrite <- Zle_Qle, <- Zlt_Qlt.
  replace (Z.log2 n + 1) with (Z.succ (Z.log2 n)) by lia. split; assumption.
Qed.

Lemma ilog2_spec (n d : Z) :
  0 < n -> 0 < d ->
  (2 ^ (ilog2 n d) <= inject_Z n / inject_Z d < 2 ^ (ilog2 n d + 1))%Q.
Proof.
  intros Hn Hd. unfold ilog2.
  set (k := Z.log2 n - Z.log2 d).
  pose proof (scale_Q n d k Hn Hd) as [Hnum [Hden Hs]].
  destruct (scale n d k) as [num den]. cbn [fst snd] in *.
  pose proof (log2_Q n Hn) as [Hn1 Hn2]. pose proof (log2_Q d Hd) as [Hd1 Hd2].
  pose proof (inject_Z_pos d Hd) as Hdp. pose proof (inject_Z_pos den Hden) as Hdenp.
  pose proof (pow2_pos k) as Hk. pose proof (pow2_inv k) as Hki.
  pose proof (pow2_pos (- k)) as Hk'.
  assert (Hv : (inject_Z n / inject_Z d == inject_Z num / inject_Z den * 2 ^ k)%Q).
  { rewrite Hs. set (p := (2 ^ k)%Q) in *. set (p' := (2 ^ (- k))%Q) in *.
    transitivity (inject_Z n / inject_Z d * (p * p'))%Q; [rewrite Hki; field; lra|].
    field. split; lra. }
  assert (Hlo : (2 ^ (k - 1) < inject_Z n / inject_Z d)%Q).
  { apply Qlt_shift_div_l; [exact Hdp|].
    assert (E : (2 ^ (Z.log2 n) == 2 ^ (k - 1) * 2 ^ (Z.log2 d + 1))%Q).
    { rewrite <- pow2_plus. unfold k. replace (Z.log2 n - Z.log2 d - 1 + (Z.log2 d + 1)) with (Z.log2 n) by lia. reflexivity. }
    pose proof (pow2_pos (k - 1)) as Hk1.
    set (a := (2 ^ (k - 1))%Q) in *. nra. }
  assert (Hhi : (inject_Z n / inject_Z d < 2 ^ (k + 1))%Q).
  { apply Qlt_shift_div_r; [exact Hdp|].
    assert (E : (2 ^ (Z.log2 n + 1) == 2 ^ (k + 1) * 2 ^ (Z.log2 d))%Q).
    { rewrite <- pow2_plus. unfold k. replace (Z.log2 n - Z.log2 d + 1 + Z.log2 d) with (Z.log2 n + 1) by lia. reflexivity. }
    pose proof (pow2_pos (k + 1)) as Hk1.
    set (a := (2 ^ (k + 1))%Q) in *. nra. }
  destruct (Z.leb_spec den num) as [Hle|Hlt].
  - split; [|exact Hhi]. rewrite Hv.
    assert (H1 : (1 <= inject_Z num / inject_Z den)%Q).
    { apply Qle_shift_div_l; [exact Hdenp|]. rewrite Qmult_1_l. rewrite <- Zle_Qle. exact Hle. }
    set (p := (2 ^ k)%Q) in *. nra.
  - replace (k - 1 + 1) with k by lia. split; [apply Qlt_le_weak; exact Hlo|]. rewrite Hv.
    assert (H1 : (inject_Z num / inject_Z den < 1)%Q).
    { apply Qlt_shift_div_r; [exact Hdenp|]. rewrite Qmult_1_l. rewrite <- Zlt_Qlt. exact Hlt. }
    set (p := (2 ^ k)%Q) in *. nra.
Qed.


Lemma nearest_even_spec (num den : Z) :
  0 <= num -> 0 < den ->
  0 <= nearest_even num den /\
  - den <= 2 * (nearest_even num den * den - num) <= den.
Proof.
  intros Hn Hd. unfold nearest_even.
  pose proof (Z.div_mod num den ltac:(lia)) as Hdm.
  pose proof (Z.mod_pos_bound num den Hd) as Hr.
  pose proof (Z.div_pos num den Hn Hd) as Hq.
  set (q := num / den) in *. set (r := num mod den) in *.
  destruct (Z.compare_spec (2 * r) den) as [He|Hl|Hg].
  - destruct (Z.even q); split; nia.
  - split; nia.
  - split; nia.
Qed.

Lemma nearest_even_Q (num den : Z) :
  0 <= num -> 0 < den ->
  (inject_Z (nearest_even num den) - inject_Z num / inject_Z den <= 1 # 2 /\
   inject_Z num / inject_Z den - inject_Z (nearest_even num den) <= 1 # 2)%Q.
Proof.
  intros Hn Hd. pose proof (nearest_even_spec num den Hn Hd) as [_ [H1 H2]].
  set (M := nearest_even num den) in *.
  pose proof (inject_Z_pos den Hd) as Hdp.
  assert (H1' : (- inject_Z den <= 2 * (inject_Z M * inject_Z den - inject_Z num))%Q).
  { rewrite <- inject_Z_mult, <- inject_Z_opp. unfold Qminus.
    rewrite <- inject_Z_opp, <- inject_Z_plus. change 2%Q with (inject_Z 2).
    rewrite <- inject_Z_mult, <- Zle_Qle. lia. }
  assert (H2' : (2 * (inject_Z M * inject_Z den - inject_Z num) <= inject_Z den)%Q).
  { rewrite <- inject_Z_mult. unfold Qminus.
    rewrite <- inject_Z_opp, <- inject_Z_plus. change 2%Q with (inject_Z 2).
    rewrite <- inject_Z_mult, <- Zle_Qle. lia. }
  clear H1 H2.
  set (m := inject_Z M) in *. set (a := inject_Z num) in *. set (b := inject_Z den) in *.
  assert (Hab : (a / b * b == a)%Q) by (field; lra).
  set (c := (a / b)%Q) in *. clearbody m a b c.
  split.
  - apply Qnot_lt_le. intros Hc. nra.
  - apply Qnot_lt_le. intros Hc. nra.
Qed.


Lemma Zfrac_le (z num den : Z) :
  0 < den -> (inject_Z z <= inject_Z num / inject_Z den)%Q -> z * den <= num.
Proof.
  intros Hd H. pose proof (inject_Z_pos den Hd) as Hdp.
  rewrite Zle_Qle, inject_Z_mult.
  assert (Hab : (inject_Z num / inject_Z den * inject_Z den == inject_Z num)%Q) by (field; lra).
  set (c := (inject_Z num / inject_Z den)%Q) in *.
  set (a := inject_Z z) in *. set (b := inject_Z den) in *. set (n := inject_Z num) in *.
  clearbody a b c n. nra.
Qed.

Lemma Zfrac_ge (z num den : Z) :
  0 < den -> (inject_Z num / inject_Z den <= inject_Z z)%Q -> num <= z * den.
Proof.
  intros Hd H. pose proof (inject_Z_pos den Hd) as Hdp.
  rewrite Zle_Qle, inject_Z_mult.
  assert (Hab : (inject_Z num / inject_Z den * inject_Z den == inject_Z num)%Q) by (field; lra).
  set (c := (inject_Z num / inject_Z den)%Q) in *.
  set (a := inject_Z z) in *. set (b := inject_Z den) in *. set (n := inject_Z num) in *.
  clearbody a b c n. nra.
Qed.

Lemma round_pos_char (neg : bool) (n d : positive) :
  let v := (inject_Z (Zpos n) / inject_Z (Zpos d))%Q in
  let E := ulp_exp prec emax n d in
  exists M : Z,
    0 <= M <= 2 ^ prec /\
    (inject_Z M - v * 2 ^ (- E) <= 1 # 2)%Q /\
    (v * 2 ^ (- E) - inject_Z M <= 1 # 2)%Q /\
    (forall z : Z, (inject_Z z <= v * 2 ^ (- E))%Q -> z <= M) /\
    (forall z : Z, (v * 2 ^ (- E) <= inject_Z z)%Q -> M <= z) /\
    round_pos prec emax neg n d =
      if M =? 0 then F_zero neg
      else
        let '(M', E') := if M =? 2 ^ prec then (2 ^ (prec - 1), E + 1) else (M, E) in
        if emax - prec <? E' then F_inf neg else F_fin neg (Z.to_pos M') E'.
Proof.
  intros v E. unfold round_pos. fold E.
  pose proof (scale_Q (Zpos n) (Zpos d) E ltac:(lia) ltac:(lia)) as [Hnum [Hden Hs]].
  destruct (scale (Zpos n) (Zpos d) E) as [num den]. cbn [fst snd] in *.
  fold v in Hs.
  pose proof (nearest_even_spec num den ltac:(lia) Hden) as [HM0 [HM1 HM2]].
  pose proof (nearest_even_Q num den ltac:(lia) Hden) as [HQ1 HQ2].
  set (M := nearest_even num den) in *.
  pose proof (inject_Z_pos den Hden) as Hdenp.
  assert (Hv : (v * 2 ^ (- E) == inject_Z num / inject_Z den)%Q).
  { rewrite Hs. field. lra. }
  assert (Hlow : forall z : Z, (inject_Z z <= v * 2 ^ (- E))%Q -> z <= M).
  { intros z Hz. rewrite Hv in Hz. apply Zfrac_le in Hz; [|exact Hden]. nia. }
  assert (Hupp : forall z : Z, (v * 2 ^ (- E) <= inject_Z z)%Q -> M <= z).
  { intros z Hz. rewrite Hv in Hz. apply Zfrac_ge in Hz; [|exact Hden]. nia. }
  assert (HMp : M <= 2 ^ prec).
  { apply Hupp. rewrite pow2_Z by lia.
    pose proof (ilog2_spec (Zpos n) (Zpos d) ltac:(lia) ltac:(lia)) as [_ Hhi].
    fold v in Hhi.
    assert (HE : ilog2 (Zpos n) (Zpos d) + 1 <= prec + E) by (unfold E, ulp_exp; lia).
    pose proof (pow2_le _ _ HE) as Hle. rewrite (pow2_plus prec E) in Hle.
    pose proof (pow2_inv E) as Hi. pose proof (pow2_pos E) as HpE.
    pose proof (pow2_pos (- E)) as HpE'. pose proof (pow2_pos prec) as Hpp.
    set (a := (2 ^ (ilog2 (Zpos n) (Zpos d) + 1))%Q) in *.
    set (p := (2 ^ prec)%Q) in *. set (e := (2 ^ E)%Q) in *. set (e' := (2 ^ (- E))%Q) in *.
    clearbody a p e e' v.
    assert (H1 : (v * e' <= a * e')%Q) by (apply Qmult_le_compat_r; lra).
    assert (H2 : (a * e' <= p * e * e')%Q) by (apply Qmult_le_compat_r; lra).
    assert (H3 : (p * e * e' == p)%Q) by (transitivity (p * (e * e'))%Q; [ring | rewrite Hi; ring]).
    lra. }
  exists M. split; [lia|]. split; [rewrite Hv; exact HQ1|]. split; [rewrite Hv; exact HQ2|].
  split; [exact Hlow|]. split; [exact Hupp|].
  destruct (Z.eqb_spec M (2 ^ prec)) as [E1|N1].
  - assert (0 < 2 ^ prec) by (apply Z.pow_pos_nonneg; lia).
    assert (0 < 2 ^ (prec - 1)) by (apply Z.pow_pos_nonneg; lia).
    destruct (Z.eqb_spec M 0) as [E0|N0]; [lia|].
    destruct (2 ^ (prec - 1)) eqn:Ep; try lia. reflexivity.
  - destruct (Z.eqb_spec M 0) as [E0|N0].
    + rewrite E0. reflexivity.
    + destruct M as [|m|m]; try lia. reflexivity.
Qed.


(** The number [m * 2^e] of a rounded mantissa. *)
Lemma F2Q_fin (neg : bool) (M e : Z) :
  0 < M ->
  (F2Q (F_fin neg (Z.to_pos M) e) ==
   (if neg then - (inject_Z M * 2 ^ e) else inject_Z M * 2 ^ e))%Q.
Proof.
  intros HM. rewrite F2Q_pow. destruct neg.
  - change (Z.neg (Z.to_pos M)) with (- Zpos (Z.to_pos M)).
    rewrite Z2Pos.id by exact HM. rewrite inject_Z_opp. ring.
  - rewrite Z2Pos.id by exact HM. reflexivity.
Qed.

Lemma ulp_exp_le (n d : positive) (k : Z) :
  (inject_Z (Zpos n) / inject_Z (Zpos d) < 2 ^ k)%Q ->
  emin prec emax <= k - prec ->
  ulp_exp prec emax n d <= k - prec.
Proof.
  intros Hv Hk. unfold ulp_exp.
  pose proof (ilog2_spec (Zpos n) (Zpos d) ltac:(lia) ltac:(lia)) as [Hlo _].
  assert (Hlt : (2 ^ ilog2 (Zpos n) (Zpos d) < 2 ^ k)%Q) by (eapply Qle_lt_trans; eassumption).
  apply Qpower_lt_compat_l_inv in Hlt; [|reflexivity]. lia.
Qed.

Lemma round_pos_err (neg : bool) (n d : positive) (k : Z) :
  let v := (inject_Z (Zpos n) / inject_Z (Zpos d))%Q in
  (v < 2 ^ k)%Q -> emin prec emax <= k - prec -> k < emax ->
  let x := round_pos prec emax neg n d in
  is_finite x = true /\ is_neg x = neg /\
  exists r : Q,
    (0 <= r)%Q /\ (F2Q x == if neg then - r else r)%Q /\
    (r - v <= 2 ^ (k - prec - 1))%Q /\ (v - r <= 2 ^ (k - prec - 1))%Q.
Proof.
  intros v Hv Hk Hkm x.
  pose proof (ulp_exp_le n d k Hv Hk) as HE.
  destruct (round_pos_char neg n d) as [M [HM [H1 [H2 [_ [_ Hx]]]]]].
  fold v in H1, H2. fold x in Hx. set (E := ulp_exp prec emax n d) in *.
  assert (Hr : (inject_Z M * 2 ^ E - v <= 2 ^ (k - prec - 1) /\
                v - inject_Z M * 2 ^ E <= 2 ^ (k - prec - 1))%Q).
  { assert (HEk : E - 1 <= k - prec - 1) by lia.
    pose proof (pow2_le _ _ HEk) as Hle.
    assert (Hh : (2 ^ (E - 1) * 2 == 2 ^ E)%Q).
    { transitivity (2 ^ (E - 1) * 2 ^ 1)%Q; [reflexivity|]. rewrite <- pow2_plus.
      replace (E - 1 + 1) with E by lia. reflexivity. }
    pose proof (pow2_inv E) as Hi. pose proof (pow2_pos E) as HpE.
    pose proof (pow2_pos (E - 1)) as HpE1.
    set (b := (2 ^ (k - prec - 1))%Q) in *. set (h := (2 ^ (E - 1))%Q) in *.
    set (e := (2 ^ E)%Q) in *. set (e' := (2 ^ (- E))%Q) in *.
    set (m := inject_Z M) in *.
    assert (Hve : (v * e' * e == v)%Q).
    { transitivity (v * (e * e'))%Q; [ring | rewrite Hi; ring]. }
    clearbody b h e e' m v.
    assert (G1 : ((m - v * e') * e <= (1 # 2) * e)%Q) by (apply Qmult_le_compat_r; lra).
    assert (G2 : ((v * e' - m) * e <= (1 # 2) * e)%Q) by (apply Qmult_le_compat_r; lra).
    split; lra. }
  assert (HM0 : (0 <= inject_Z M * 2 ^ E)%Q).
  { pose proof (pow2_pos E). apply Qmult_le_0_compat; [|lra].
    change 0%Q with (inject_Z 0). rewrite <- Zle_Qle. lia. }
  destruct (Z.eqb_spec M 0) as [E0|N0].
  - rewrite Hx. cbn [is_finite is_neg F2Q]. split; [reflexivity|]. split; [reflexivity|].
    exists 0%Q. split; [lra|]. split; [destruct neg; reflexivity|].
    rewrite E0 in Hr. change (inject_Z 0) with 0%Q in Hr.
    destruct Hr as [Hr1 Hr2]. split; lra.
  - destruct (Z.eqb_spec M (2 ^ prec)) as [E1|N1].
    + assert (Hov : (emax - prec <? E + 1) = false) by (apply Z.ltb_ge; lia).
      rewrite Hov in Hx. rewrite Hx. cbn [is_finite is_neg].
      split; [reflexivity|]. split; [reflexivity|].
      exists (inject_Z M * 2 ^ E)%Q. split; [exact HM0|]. split; [|exact Hr].
      assert (Hp : 0 < 2 ^ (prec - 1)) by (apply Z.pow_pos_nonneg; lia).
      rewrite F2Q_fin by exact Hp.
      assert (Heq : (inject_Z (2 ^ (prec - 1)) * 2 ^ (E + 1) == inject_Z M * 2 ^ E)%Q).
      { rewrite E1. rewrite !pow2_Z by lia. rewrite <- !pow2_plus.
        replace (prec - 1 + (E + 1)) with (prec + E) by lia. reflexivity. }
      destruct neg; rewrite Heq; reflexivity.
    + assert (Hov : (emax - prec <? E) = false) by (apply Z.ltb_ge; lia).
      rewrite Hov in Hx. rewrite Hx. cbn [is_finite is_neg].
      split; [reflexivity|]. split; [reflexivity|].
      exists (inject_Z M * 2 ^ E)%Q. split; [exact HM0|]. split; [|exact Hr].
      apply F2Q_fin. lia.
Qed.

Lemma Qnum_Qden (q : Q) : (q == inject_Z (Qnum q) / inject_Z (Zpos (Qden q)))%Q.
Proof. destruct q as [a b]. cbn [Qnum Qden]. apply Qmake_Qdiv. Qed.

(** Rounding a number below [2^k] in magnitude errs by at most half a
    unit in the last place. *)
Lemma round_err (q : Q) (zneg : bool) (k : Z) :
  (Qabs q < 2 ^ k)%Q -> emin prec emax <= k - prec -> k < emax ->
  let x := round prec emax q zneg in
  is_finite x = true /\
  (Qabs (F2Q x - q) <= 2 ^ (k - prec - 1))%Q /\
  ((0 < q)%Q -> is_neg x = false) /\ ((q < 0)%Q -> is_neg x = true).
Proof.
  intros Hq Hk Hkm x. unfold round in x.
  pose proof (Qred_correct q) as Hred. pose proof (Qnum_Qden (Qred q)) as Hnd.
  pose proof (pow2_pos (k - prec - 1)) as Hb.
  destruct (Qnum (Qred q)) as [|n|n] eqn:En.
  - assert (Hq0 : (q == 0)%Q).
    { rewrite <- Hred, Hnd. unfold Qdiv. ring. }
    subst x. cbn [is_finite F2Q]. split; [reflexivity|].
    split; [|split; intros H; rewrite Hq0 in H; discriminate H].
    rewrite Hq0. change (Qabs (0 - 0)) with 0%Q. lra.
  - set (v := (inject_Z (Zpos n) / inject_Z (Zpos (Qden (Qred q))))%Q) in *.
    assert (Hqv : (q == v)%Q) by (rewrite <- Hred; exact Hnd).
    assert (Hvpos : (0 < v)%Q).
    { apply Qlt_shift_div_l; [apply inject_Z_pos; lia|]. rewrite Qmult_0_l. apply inject_Z_pos. lia. }
    assert (Hv : (v < 2 ^ k)%Q).
    { rewrite <- Hqv. eapply Qle_lt_trans; [apply Qle_Qabs | exact Hq]. }
    destruct (round_pos_err false n (Qden (Qred q)) k Hv Hk Hkm) as [Hf [Hn [r [Hr0 [Hr [Hr1 Hr2]]]]]].
    fold v in Hr1, Hr2. fold x in Hf, Hn, Hr.
    split; [exact Hf|]. split.
    + apply Qabs_Qle_condition. rewrite Hr, Hqv. split; lra.
    + split; intros H; [exact Hn | lra].
  - set (v := (inject_Z (Zpos n) / inject_Z (Zpos (Qden (Qred q))))%Q) in *.
    assert (Hqv : (q == Qopp v)%Q).
    { rewrite <- Hred, Hnd. change (Z.neg n) with (- Zpos n). rewrite inject_Z_opp.
      unfold v, Qdiv. ring. }
    assert (Hvpos : (0 < v)%Q).
    { apply Qlt_shift_div_l; [apply inject_Z_pos; lia|]. rewrite Qmult_0_l. apply inject_Z_pos. lia. }
    assert (Hv : (v < 2 ^ k)%Q).
    { assert (Hvq : (v == Qopp q)%Q) by (rewrite Hqv; ring).
      rewrite Hvq. eapply Qle_lt_trans; [|exact Hq]. rewrite <- Qabs_opp. apply Qle_Qabs. }
    destruct (round_pos_err true n (Qden (Qred q)) k Hv Hk Hkm) as [Hf [Hn [r [Hr0 [Hr [Hr1 Hr2]]]]]].
    fold v in Hr1, Hr2. fold x in Hf, Hn, Hr.
    split; [exact Hf|]. split.
    + apply Qabs_Qle_condition. rewrite Hr, Hqv. split; lra.
    + split; intros H; [lra | exact Hn].
Qed.


Lemma round_comp (q q' : Q) (zneg : bool) :
  (q == q')%Q -> round prec emax q zneg = round prec emax q' zneg.
Proof. intros H. unfold round. rewrite (Qred_complete _ _ H). reflexivity. Qed.

(** A number that is a multiple of its unit in the last place is not
    changed by rounding. *)
Lemma round_pos_exact (neg : bool) (n d : positive) (z0 : Z) :
  let v := (inject_Z (Zpos n) / inject_Z (Zpos d))%Q in
  (inject_Z z0 == v * 2 ^ (- ulp_exp prec emax n d))%Q ->
  (v < 2 ^ emax)%Q -> 2 <= emax ->
  round_pos prec emax neg n d = F_fin neg (Z.to_pos z0) (ulp_exp prec emax n d) /\
  0 < z0 /\
  (inject_Z z0 * 2 ^ ulp_exp prec emax n d == v)%Q.
Proof.
  intros v Hz Hv Hem.
  destruct (round_pos_char neg n d) as [M [HM [_ [_ [Hlow [Hupp Hx]]]]]].
  fold v in Hlow, Hupp. set (E := ulp_exp prec emax n d) in *.
  assert (HMz : M = z0).
  { apply Z.le_antisymm; [apply Hupp | apply Hlow]; rewrite Hz; apply Qle_refl. }
  assert (Hvpos : (0 < v)%Q).
  { apply Qlt_shift_div_l; [apply inject_Z_pos; lia|]. rewrite Qmult_0_l. apply inject_Z_pos. lia. }
  pose proof (pow2_pos (- E)) as HpE'. pose proof (pow2_pos E) as HpE.
  pose proof (pow2_inv E) as Hi.
  assert (Hzpos : 0 < z0).
  { rewrite Zlt_Qlt, Hz. change (inject_Z 0) with 0%Q.
    set (e' := (2 ^ (- E))%Q) in *. clearbody e' v. nra. }
  assert (Hval : (inject_Z z0 * 2 ^ E == v)%Q).
  { rewrite Hz. transitivity (v * (2 ^ E * 2 ^ (- E)))%Q; [ring | rewrite Hi; ring]. }
  pose proof (ilog2_spec (Zpos n) (Zpos d) ltac:(lia) ltac:(lia)) as [Hlo Hhi].
  fold v in Hlo, Hhi.
  assert (Hzp : z0 < 2 ^ prec).
  { rewrite Zlt_Qlt, pow2_Z by lia. rewrite Hz.
    assert (HE : ilog2 (Zpos n) (Zpos d) + 1 <= prec + E) by (unfold E, ulp_exp; lia).
    pose proof (pow2_le _ _ HE) as Hle. rewrite (pow2_plus prec E) in Hle.
    pose proof (pow2_pos prec) as Hpp.
    set (a := (2 ^ (ilog2 (Zpos n) (Zpos d) + 1))%Q) in *.
    set (p := (2 ^ prec)%Q) in *. set (e := (2 ^ E)%Q) in *. set (e' := (2 ^ (- E))%Q) in *.
    clearbody a p e e' v.
    assert (H1 : (v * e' < a * e')%Q) by (apply Qmult_lt_compat_r; lra).
    assert (H2 : (a * e' <= p * e * e')%Q) by (apply Qmult_le_compat_r; lra).
    assert (H3 : (p * e * e' == p)%Q) by (transitivity (p * (e * e'))%Q; [ring | rewrite Hi; ring]).
    lra. }
  assert (Hex : ilog2 (Zpos n) (Zpos d) < emax).
  { assert (Hlt : (2 ^ ilog2 (Zpos n) (Zpos d) < 2 ^ emax)%Q) by (eapply Qle_lt_trans; eassumption).
    apply Qpower_lt_compat_l_inv in Hlt; [exact Hlt | reflexivity]. }
  assert (HEm : E <= emax - prec) by (unfold E, ulp_exp, emin; lia).
  split; [|split; [exact Hzpos | exact Hval]].
  rewrite Hx, HMz.
  destruct (Z.eqb_spec z0 0); [lia|]. destruct (Z.eqb_spec z0 (2 ^ prec)); [lia|].
  assert (Hov : (emax - prec <? E) = false) by (apply Z.ltb_ge; lia).
  rewrite Hov. reflexivity.
Qed.

(** An integer of at most [prec] bits is a value of the format. *)
Lemma round_Z (q : Q) (z : Z) (zneg : bool) :
  (q == inject_Z z)%Q ->
  z <> 0 -> Z.abs z < 2 ^ prec -> emin prec emax <= 0 -> prec <= emax -> 2 <= emax ->
  exists m e,
    round prec emax q zneg = F_fin (z <? 0) m e /\
    (F2Q (F_fin (z <? 0) m e) == inject_Z z)%Q.
Proof.
  intros Hq Hz Hlt Hemin Hpe Hem.
  assert (Hcore : forall (neg : bool) (n d : positive) (a : Z),
            (inject_Z (Zpos n) / inject_Z (Zpos d) == inject_Z a)%Q ->
            a < 2 ^ prec ->
            exists m e, round_pos prec emax neg n d = F_fin neg m e /\
                        (F2Q (F_fin neg m e) ==
                         if neg then - inject_Z a else inject_Z a)%Q).
  { intros neg n d a Hv1 Hn.
    set (v := (inject_Z (Zpos n) / inject_Z (Zpos d))%Q) in *.
    pose proof (ilog2_spec (Zpos n) (Zpos d) ltac:(lia) ltac:(lia)) as [Hlo Hhi].
    fold v in Hlo, Hhi.
    assert (Hex : ilog2 (Zpos n) (Zpos d) < prec).
    { assert (H2 : (2 ^ ilog2 (Zpos n) (Zpos d) < 2 ^ prec)%Q).
      { eapply Qle_lt_trans; [exact Hlo|]. rewrite Hv1, <- pow2_Z by lia.
        rewrite <- Zlt_Qlt. exact Hn. }
      apply Qpower_lt_compat_l_inv in H2; [exact H2 | reflexivity]. }
    assert (HE : ulp_exp prec emax n d <= 0) by (unfold ulp_exp; lia).
    set (E := ulp_exp prec emax n d) in *.
    assert (Hz0 : (inject_Z (a * 2 ^ (- E)) == v * 2 ^ (- E))%Q).
    { rewrite inject_Z_mult, pow2_Z by lia. rewrite Hv1. reflexivity. }
    assert (Hvm : (v < 2 ^ emax)%Q).
    { rewrite Hv1. eapply Qlt_le_trans; [|apply (pow2_le prec emax Hpe)].
      rewrite <- pow2_Z by lia. rewrite <- Zlt_Qlt. exact Hn. }
    destruct (round_pos_exact neg n d _ Hz0 Hvm Hem) as [Hx [Hp Hval]].
    fold E in Hx, Hval. fold v in Hval.
    exists (Z.to_pos (a * 2 ^ (- E))), E. split; [exact Hx|].
    rewrite F2Q_fin by exact Hp. destruct neg; rewrite Hval, Hv1; reflexivity. }
  unfold round.
  assert (Hnd : (inject_Z z ==
                 inject_Z (Qnum (Qred q)) / inject_Z (Zpos (Qden (Qred q))))%Q).
  { transitivity q; [symmetry; exact Hq|]. transitivity (Qred q).
    - symmetry. apply Qred_correct.
    - apply Qnum_Qden. }
  destruct (Qnum (Qred q)) as [|n|n] eqn:En.
  - exfalso. apply Hz. apply inject_Z_injective. rewrite Hnd. unfold Qdiv. ring.
  - assert (Hzp : 0 < z).
    { rewrite Zlt_Qlt, Hnd. apply Qlt_shift_div_l; [apply inject_Z_pos; lia|].
      rewrite Qmult_0_l. apply inject_Z_pos. lia. }
    destruct (Hcore false n (Qden (Qred q)) z ltac:(symmetry; exact Hnd) ltac:(lia))
      as [m [e [H1 H2]]].
    exists m, e. replace (z <? 0) with false by (symmetry; apply Z.ltb_ge; lia).
    split; assumption.
  - assert (Hzn : z < 0).
    { rewrite Zlt_Qlt, Hnd. change (Z.neg n) with (- Zpos n). rewrite inject_Z_opp.
      assert (H0 : (0 < inject_Z (Zpos n) / inject_Z (Zpos (Qden (Qred q))))%Q).
      { apply Qlt_shift_div_l; [apply inject_Z_pos; lia|].
        rewrite Qmult_0_l. apply inject_Z_pos. lia. }
      change (inject_Z 0) with 0%Q.
      setoid_replace (- inject_Z (Zpos n) / inject_Z (Zpos (Qden (Qred q))))%Q
        with (- (inject_Z (Zpos n) / inject_Z (Zpos (Qden (Qred q)))))%Q
        by (unfold Qdiv; ring).
      lra. }
    destruct (Hcore true n (Qden (Qred q)) (- z)) as [m [e [H1 H2]]].
    + rewrite inject_Z_opp, Hnd. change (Z.neg n) with (- Zpos n). rewrite inject_Z_opp.
      unfold Qdiv. ring.
    + lia.
    + exists m, e. replace (z <? 0) with true by (symmetry; apply Z.ltb_lt; lia).
      split; [exact H1|]. rewrite H2, inject_Z_opp. ring.
Qed.




Lemma valid_fin (s : bool) (m : positive) (e : Z) :
  valid prec emax (F_fin s m e) = true -> valid_me prec emax m e.
Proof.
  unfold valid, valid_me. intros H.
  apply andb_prop in H. destruct H as [H H3]. apply andb_prop in H. destruct H as [H1 H2].
  apply Z.ltb_lt in H1. apply Z.leb_le in H2.
  split; [exact H1|]. split; [exact H2|].
  apply orb_prop in H3. destruct H3 as [H3|H3].
  - left. apply Z.eqb_eq. exact H3.
  - right. apply andb_prop in H3. destruct H3 as [H3 H4].
    apply Z.ltb_lt in H3. apply Z.leb_le in H4. split; assumption.
Qed.

Lemma pow2_shift (a b : Z) (x y : Q) :
  (x * 2 ^ a <= y)%Q -> (x * 2 ^ (a + b) <= y * 2 ^ b)%Q.
Proof.
  intros H. rewrite pow2_plus. pose proof (pow2_pos b).
  setoid_replace (x * (2 ^ a * 2 ^ b))%Q with (x * 2 ^ a * 2 ^ b)%Q by ring.
  apply Qmult_le_compat_r; [exact H | lra].
Qed.

Lemma pow2_shift' (a b : Z) (x y : Q) :
  (y <= x * 2 ^ a)%Q -> (y * 2 ^ b <= x * 2 ^ (a + b))%Q.
Proof.
  intros H. rewrite pow2_plus. pose proof (pow2_pos b).
  setoid_replace (x * (2 ^ a * 2 ^ b))%Q with (x * 2 ^ a * 2 ^ b)%Q by ring.
  apply Qmult_le_compat_r; [exact H | lra].
Qed.

Lemma ulp_exp_ge (n d : positive) (e0 : Z) :
  (2 ^ (prec - 1 + e0) <= inject_Z (Zpos n) / inject_Z (Zpos d))%Q ->
  e0 <= ulp_exp prec emax n d.
Proof.
  intros Hv. unfold ulp_exp.
  pose proof (ilog2_spec (Zpos n) (Zpos d) ltac:(lia) ltac:(lia)) as [_ Hhi].
  assert (Hlt : (2 ^ (prec - 1 + e0) < 2 ^ (ilog2 (Zpos n) (Zpos d) + 1))%Q)
    by (eapply Qle_lt_trans; eassumption).
  apply Qpower_lt_compat_l_inv in Hlt; [|reflexivity]. lia.
Qed.

Lemma ulp_exp_normal (n d : positive) :
  emin prec emax < ulp_exp prec emax n d ->
  (2 ^ (ulp_exp prec emax n d + prec - 1) <= inject_Z (Zpos n) / inject_Z (Zpos d))%Q.
Proof.
  intros H. pose proof (ilog2_spec (Zpos n) (Zpos d) ltac:(lia) ltac:(lia)) as [Hlo _].
  unfold ulp_exp in *.
  replace (Z.max (ilog2 (Zpos n) (Zpos d) - prec + 1) (emin prec emax) + prec - 1)
    with (ilog2 (Zpos n) (Zpos d)) by lia.
  exact Hlo.
Qed.

(** Rounding does not go below a value of the format that the number is
    not below. *)
Lemma round_pos_lower (neg : bool) (n d mt : positive) (et : Z) :
  valid_me prec emax mt et ->
  (inject_Z (Zpos mt) * 2 ^ et <= inject_Z (Zpos n) / inject_Z (Zpos d))%Q ->
  let x := round_pos prec emax neg n d in
  x = F_inf neg \/
  exists m e, x = F_fin neg m e /\
              (inject_Z (Zpos mt) * 2 ^ et <= inject_Z (Zpos m) * 2 ^ e)%Q.
Proof.
  intros [Hm1 [Hm2 Hm3]] Hv x.
  destruct (round_pos_char neg n d) as [M [HM [_ [_ [Hlow [_ Hx]]]]]].
  fold x in Hx. set (v := (inject_Z (Zpos n) / inject_Z (Zpos d))%Q) in *.
  set (E := ulp_exp prec emax n d) in *.
  assert (HEt : et <= E).
  { destruct Hm3 as [->|[Hm3 Hm4]]; [unfold E, ulp_exp; lia|].
    apply ulp_exp_ge. fold v. eapply Qle_trans; [|exact Hv].
    rewrite pow2_plus. pose proof (pow2_pos et).
    apply Qmult_le_compat_r; [|lra]. rewrite <- pow2_Z by lia. rewrite <- Zle_Qle. exact Hm4. }
  assert (Hval : (inject_Z (Zpos mt) * 2 ^ et <= inject_Z M * 2 ^ E)%Q /\ 0 < M).
  { destruct (Z.eq_dec E et) as [Eq|Ne].
    - assert (HM1 : Zpos mt <= M).
      { apply Hlow. rewrite Eq.
        pose proof (pow2_shift et (- et) _ _ Hv) as Hs.
        replace (et + - et) with 0 in Hs by lia. change (2 ^ 0)%Q with 1%Q in Hs.
        rewrite Qmult_1_r in Hs. exact Hs. }
      split; [|lia]. rewrite Eq. pose proof (pow2_pos et).
      apply Qmult_le_compat_r; [|lra]. rewrite <- Zle_Qle. exact HM1.
    - assert (HEm : emin prec emax < E) by (destruct Hm3 as [->|[? ?]]; lia).
      pose proof (ulp_exp_normal n d HEm) as Hn. fold E in Hn. fold v in Hn.
      assert (HM1 : 2 ^ (prec - 1) <= M).
      { apply Hlow. rewrite pow2_Z by lia.
        assert (Hs : (1 * 2 ^ (E + prec - 1 + - E) <= v * 2 ^ (- E))%Q).
        { apply pow2_shift. rewrite Qmult_1_l. exact Hn. }
        replace (E + prec - 1 + - E) with (prec - 1) in Hs by lia.
        rewrite Qmult_1_l in Hs. exact Hs. }
      assert (0 < 2 ^ (prec - 1)) by (apply Z.pow_pos_nonneg; lia).
      split; [|lia].
      apply Qle_trans with (inject_Z (2 ^ prec) * 2 ^ et)%Q.
      { pose proof (pow2_pos et). apply Qmult_le_compat_r; [|lra].
        rewrite <- Zle_Qle. lia. }
      apply Qle_trans with (inject_Z (2 ^ (prec - 1)) * 2 ^ E)%Q.
      { rewrite !pow2_Z by lia. rewrite <- !pow2_plus. apply pow2_le. lia. }
      pose proof (pow2_pos E). apply Qmult_le_compat_r; [|lra].
      rewrite <- Zle_Qle. exact HM1. }
  destruct Hval as [Hval HMpos].
  destruct (Z.eqb_spec M 0) as [E0|N0]; [lia|].
  destruct (Z.eqb_spec M (2 ^ prec)) as [E1|N1].
  - destruct (emax - prec <? E + 1); [left; exact Hx|].
    right. exists (Z.to_pos (2 ^ (prec - 1))), (E + 1). split; [exact Hx|].
    eapply Qle_trans; [exact Hval|].
    rewrite Z2Pos.id by (apply Z.pow_pos_nonneg; lia).
    rewrite E1. rewrite !pow2_Z by lia. rewrite <- !pow2_plus.
    apply pow2_le. lia.
  - destruct (emax - prec <? E); [left; exact Hx|].
    right. exists (Z.to_pos M), E. split; [exact Hx|].
    rewrite Z2Pos.id by lia. exact Hval.
Qed.

(** Rounding does not go above a value of the format that the number is
    not above, and does not overflow. *)
Lemma round_pos_upper (neg : bool) (n d mt : positive) (et : Z) :
  valid_me prec emax mt et ->
  (inject_Z (Zpos n) / inject_Z (Zpos d) <= inject_Z (Zpos mt) * 2 ^ et)%Q ->
  let x := round_pos prec emax neg n d in
  x = F_zero neg \/
  exists m e, x = F_fin neg m e /\
              (inject_Z (Zpos m) * 2 ^ e <= inject_Z (Zpos mt) * 2 ^ et)%Q.
Proof.
  intros [Hm1 [Hm2 Hm3]] Hv x.
  destruct (round_pos_char neg n d) as [M [HM [_ [_ [_ [Hupp Hx]]]]]].
  fold x in Hx. set (v := (inject_Z (Zpos n) / inject_Z (Zpos d))%Q) in *.
  set (E := ulp_exp prec emax n d) in *.
  assert (Hemin : emin prec emax <= et) by (destruct Hm3 as [->|[? ?]]; lia).
  assert (HEt : E <= et).
  { assert (Hk : E <= (prec + et) - prec).
    { apply ulp_exp_le; [|lia]. fold v.
      eapply Qle_lt_trans; [exact Hv|]. rewrite pow2_plus. pose proof (pow2_pos et).
      apply Qmult_lt_compat_r; [lra|]. rewrite <- pow2_Z by lia. rewrite <- Zlt_Qlt. exact Hm1. }
    lia. }
  destruct (Z.eqb_spec M 0) as [E0|N0]; [left; exact Hx|]. right.
  destruct (Z.eq_dec E et) as [Eq|Ne].
  - assert (HM1 : M <= Zpos mt).
    { apply Hupp. rewrite Eq.
      pose proof (pow2_shift' et (- et) _ _ Hv) as Hs.
      replace (et + - et) with 0 in Hs by lia. change (2 ^ 0)%Q with 1%Q in Hs.
      rewrite Qmult_1_r in Hs. exact Hs. }
    destruct (Z.eqb_spec M (2 ^ prec)) as [E1|N1]; [lia|].
    assert (Hov : (emax - prec <? E) = false) by (apply Z.ltb_ge; lia).
    rewrite Hov in Hx. exists (Z.to_pos M), E. split; [exact Hx|].
    rewrite Z2Pos.id by lia. rewrite Eq. pose proof (pow2_pos et).
    apply Qmult_le_compat_r; [|lra]. rewrite <- Zle_Qle. exact HM1.
  - assert (Hnorm : 2 ^ (prec - 1) <= Zpos mt) by (destruct Hm3 as [->|[? ?]]; [unfold E, ulp_exp in *; lia | assumption]).
    assert (Hbig : (inject_Z (2 ^ prec) * 2 ^ E <= inject_Z (Zpos mt) * 2 ^ et)%Q).
    { apply Qle_trans with (inject_Z (2 ^ (prec - 1)) * 2 ^ et)%Q.
      - rewrite !pow2_Z by lia. rewrite <- !pow2_plus. apply pow2_le. lia.
      - pose proof (pow2_pos et). apply Qmult_le_compat_r; [|lra].
        rewrite <- Zle_Qle. exact Hnorm. }
    destruct (Z.eqb_spec M (2 ^ prec)) as [E1|N1].
    + assert (Hov : (emax - prec <? E + 1) = false) by (apply Z.ltb_ge; lia).
      rewrite Hov in Hx. exists (Z.to_pos (2 ^ (prec - 1))), (E + 1). split; [exact Hx|].
      rewrite Z2Pos.id by (apply Z.pow_pos_nonneg; lia).
      eapply Qle_trans; [|exact Hbig].
      rewrite !pow2_Z by lia. rewrite <- !pow2_plus. apply pow2_le. lia.
    + assert (Hov : (emax - prec <? E) = false) by (apply Z.ltb_ge; lia).
      rewrite Hov in Hx. exists (Z.to_pos M), E. split; [exact Hx|].
      rewrite Z2Pos.id by lia. eapply Qle_trans; [|exact Hbig].
      pose proof (pow2_pos E). apply Qmult_le_compat_r; [|lra].
      rewrite <- Zle_Qle. lia.
Qed.

End Rounding.

Lemma Qltb_false (x y : Q) : (y <= x)%Q -> Qltb x y = false.
Proof. intros H. unfold Qltb. apply negb_false_iff. apply Qle_bool_iff. exact H. Qed.

Lemma Qltb_true (x y : Q) : (x < y)%Q -> Qltb x y = true.
Proof.
  intros H. unfold Qltb. apply negb_true_iff.
  destruct (Qle_bool y x) eqn:E; [|reflexivity].
  apply Qle_bool_iff in E. exfalso. exact (Qlt_not_le _ _ H E).
Qed.

Lemma F2Q_sign (s : bool) (m : positive) (e : Z) :
  (if s then F2Q (F_fin s m e) < 0 else 0 < F2Q (F_fin s m e))%Q.
Proof.
  pose proof (F2Q_pow s m e) as H. pose proof (pow2_pos e) as Hp.
  destruct s; cbv beta iota in H |- *; rewrite H.
  - change (Z.neg m) with (- Zpos m). rewrite inject_Z_opp.
    pose proof (inject_Z_pos (Zpos m) ltac:(lia)).
    set (a := inject_Z (Zpos m)) in *. set (p := (2 ^ e)%Q) in *. clearbody a p. nra.
  - pose proof (inject_Z_pos (Zpos m) ltac:(lia)).
    set (a := inject_Z (Zpos m)) in *. set (p := (2 ^ e)%Q) in *. clearbody a p. nra.
Qed.

Lemma round_pos_shape (prec emax : Z) (neg : bool) (n d : positive) :
  0 < prec ->
  let x := round_pos prec emax neg n d in
  x = F_zero neg \/ x = F_inf neg \/ exists m e, x = F_fin neg m e.
Proof.
  intros Hprec x.
  destruct (round_pos_char prec emax Hprec neg n d) as [M [_ [_ [_ [_ [_ Hx]]]]]].
  fold x in Hx. rewrite Hx.
  destruct (M =? 0); [left; reflexivity|]. right.
  destruct (M =? 2 ^ prec).
  - destruct (emax - prec <? ulp_exp prec emax n d + 1); [left; reflexivity|].
    right. eexists. eexists. reflexivity.
  - destruct (emax - prec <? ulp_exp prec emax n d); [left; reflexivity|].
    right. eexists. eexists. reflexivity.
Qed.

(** A number that is not below a value [t] of the format is not rounded
    below [t]. *)
Lemma round_not_below (prec emax : Z) (t : float) (q : Q) (zneg : bool) :
  0 < prec ->
  valid prec emax t = true -> is_finite t = true ->
  (F2Q t <= q)%Q ->
  Fltb (round prec emax q zneg) t = false.
Proof.
  intros Hprec Hval Hfin Hq. unfold round.
  assert (Hnd : (q == inject_Z (Qnum (Qred q)) / inject_Z (Zpos (Qden (Qred q))))%Q).
  { transitivity (Qred q); [symmetry; apply Qred_correct | apply Qnum_Qden]. }
  destruct (Qnum (Qred q)) as [|n|n] eqn:En.
  - assert (Hq0 : (q == 0)%Q) by (rewrite Hnd; unfold Qdiv; ring).
    rewrite Hq0 in Hq.
    destruct t as [st|st| |st mt et]; try discriminate Hfin; cbn [Fltb];
      apply Qltb_false; exact Hq.
  - set (v := (inject_Z (Zpos n) / inject_Z (Zpos (Qden (Qred q))))%Q) in *.
    assert (Hvpos : (0 < v)%Q).
    { apply Qlt_shift_div_l; [apply inject_Z_pos; lia|]. rewrite Qmult_0_l. apply inject_Z_pos. lia. }
    pose proof (round_pos_shape prec emax false n (Qden (Qred q)) Hprec) as Hsh.
    cbv zeta in Hsh.
    destruct t as [st|st| |st mt et]; try discriminate Hfin.
    + destruct Hsh as [->|[->|[m [e ->]]]]; cbn [Fltb]; try reflexivity.
      apply Qltb_false. pose proof (F2Q_sign false m e) as Hs. cbv beta iota in Hs.
      change (F2Q (F_zero st)) with 0%Q. lra.
    + destruct st.
      * pose proof (F2Q_sign true mt et) as Hs. cbv beta iota in Hs.
        destruct Hsh as [->|[->|[m [e ->]]]]; cbn [Fltb]; try reflexivity.
        -- apply Qltb_false. change (F2Q (F_zero false)) with 0%Q. lra.
        -- apply Qltb_false.
           pose proof (F2Q_sign false m e) as Hs'. cbv beta iota in Hs'. lra.
      * pose proof (valid_fin prec emax false mt et Hval) as Hme.
        rewrite F2Q_pow in Hq. rewrite Hnd in Hq.
        destruct (round_pos_lower prec emax Hprec false n (Qden (Qred q)) mt et Hme Hq)
          as [->|[m [e [-> Hle]]]]; cbn [Fltb]; [reflexivity|].
        apply Qltb_false. rewrite !F2Q_pow. exact Hle.
  - set (v := (inject_Z (Zpos n) / inject_Z (Zpos (Qden (Qred q))))%Q) in *.
    assert (Hvpos : (0 < v)%Q).
    { apply Qlt_shift_div_l; [apply inject_Z_pos; lia|]. rewrite Qmult_0_l. apply inject_Z_pos. lia. }
    assert (Hqv : (q == Qopp v)%Q).
    { rewrite Hnd. change (Z.neg n) with (- Zpos n). rewrite inject_Z_opp.
      unfold v, Qdiv. ring. }
    destruct t as [st|st| |st mt et]; try discriminate Hfin.
    + exfalso. change (F2Q (F_zero st)) with 0%Q in Hq. lra.
    + destruct st.
      * pose proof (valid_fin prec emax true mt et Hval) as Hme.
        assert (Hv : (v <= inject_Z (Zpos mt) * 2 ^ et)%Q).
        { rewrite F2Q_pow in Hq. change (Z.neg mt) with (- Zpos mt) in Hq.
          rewrite inject_Z_opp in Hq.
          set (a := (inject_Z (Zpos mt) * 2 ^ et)%Q) in *.
          assert (Ha : (- inject_Z (Zpos mt) * 2 ^ et == - a)%Q) by (unfold a; ring).
          rewrite Ha in Hq. lra. }
        destruct (round_pos_upper prec emax Hprec true n (Qden (Qred q)) mt et Hme Hv)
          as [->|[m [e [-> Hle]]]]; cbn [Fltb].
        -- apply Qltb_false. pose proof (F2Q_sign true mt et) as Hs. cbv beta iota in Hs.
           change (F2Q (F_zero true)) with 0%Q. lra.
        -- apply Qltb_false. rewrite !F2Q_pow.
           change (Z.neg mt) with (- Zpos mt). change (Z.neg m) with (- Zpos m).
           rewrite !inject_Z_opp.
           set (a := (inject_Z (Zpos mt) * 2 ^ et)%Q) in *.
           set (b := (inject_Z (Zpos m) * 2 ^ e)%Q) in *.
           setoid_replace (- inject_Z (Zpos mt) * 2 ^ et)%Q with (- a)%Q by (unfold a; ring).
           setoid_replace (- inject_Z (Zpos m) * 2 ^ e)%Q with (- b)%Q by (unfold b; ring).
           lra.
      * exfalso. pose proof (F2Q_sign false mt et) as Hs. cbv beta iota in Hs. lra.
Qed.

(** When the exact sum is not below a [float] [t], the sum computed is not
    below [t] either. *)
Lemma fadd_not_below (x y t : float) :
  is_finite x = true -> is_finite y = true ->
  valid 24 128 t = true -> is_finite t = true ->
  (F2Q t <= F2Q x + F2Q y)%Q ->
  fltb (fadd x y) t = false.
Proof.
  intros Hx Hy Hv Ht Hle. unfold fltb, fadd.
  destruct x as [sx|sx| |sx mx ex]; try discriminate Hx;
    destruct y as [sy|sy| |sy my ey]; try discriminate Hy;
    try (apply round_not_below; [lia | exact Hv | exact Ht | exact Hle]).
  cbn [Fadd]. destruct t as [st|st| |st mt et]; try discriminate Ht; cbn [Fltb];
    apply Qltb_false; exact Hle.
Qed.

Lemma fltb_not_above (x t : float) :
  is_finite x = true -> is_finite t = true ->
  (F2Q x <= F2Q t)%Q -> fltb t x = false.
Proof.
  intros Hx Ht Hle. unfold fltb.
  destruct x as [sx|sx| |sx mx ex]; try discriminate Hx;
    destruct t as [st|st| |st mt et]; try discriminate Ht; cbn [Fltb];
    apply Qltb_false; exact Hle.
Qed.

(** ** The text of a [float] *)

Lemma Qfloor_unique (q : Q) (a : Z) :
  (inject_Z a <= q)%Q -> (q < inject_Z (a + 1))%Q -> Qfloor q = a.
Proof.
  intros H1 H2. pose proof (Qfloor_le q) as F1. pose proof (Qlt_floor q) as F2.
  assert (Qfloor q < a + 1) by (rewrite Zlt_Qlt; lra).
  assert (a < Qfloor q + 1) by (rewrite Zlt_Qlt; lra).
  lia.
Qed.

Ltac push_inject :=
  unfold Z.sub;
  repeat (rewrite inject_Z_plus || rewrite inject_Z_mult || rewrite inject_Z_opp);
  change (inject_Z 1) with 1%Q; change (inject_Z 2) with 2%Q.

Lemma Qround_even_near (q : Q) (v : Z) :
  (Qabs (q - inject_Z v) < 1 # 2)%Q -> Qround_even q = v.
Proof.
  intros H. apply Qabs_Qlt_condition in H. destruct H as [H1 H2].
  unfold Qround_even.
  destruct (Qlt_le_dec q (inject_Z v)) as [Hlt|Hge].
  - assert (Hf : Qfloor q = v - 1).
    { apply Qfloor_unique; push_inject; lra. }
    assert (Hf2 : Qfloor (q * 2) = 2 * v - 1).
    { apply Qfloor_unique; push_inject; lra. }
    rewrite Hf, Hf2.
    destruct (Z.eqb_spec (2 * v - 1) (2 * (v - 1))); [lia|].
    destruct (Qeq_bool (q * 2) (inject_Z (2 * (v - 1) + 1))) eqn:Eq.
    + exfalso. apply Qeq_bool_eq in Eq. revert Eq. push_inject. intros Eq. lra.
    + lia.
  - assert (Hf : Qfloor q = v).
    { apply Qfloor_unique; push_inject; lra. }
    assert (Hf2 : Qfloor (q * 2) = 2 * v).
    { apply Qfloor_unique; push_inject; lra. }
    rewrite Hf, Hf2. rewrite Z.eqb_refl. reflexivity.
Qed.

(** The text of a number within a twentieth of [v / 10]. *)
Lemma ftoa1_near (r : Q) (v : Z) :
  (Qabs (r * 10 - inject_Z v) < 1 # 2)%Q -> v <> 0 ->
  ftoa1 r = tenthsText v.
Proof.
  intros H Hv. unfold ftoa1, tenthsText. rewrite (Qround_even_near _ _ H).
  apply Qabs_Qlt_condition in H. destruct H as [H1 H2].
  destruct (Qlt_le_dec r 0) as [Hneg|Hpos]; destruct (Z.ltb_spec v 0) as [Hv0|Hv0];
    try reflexivity; exfalso.
  - assert (Hq : (inject_Z 1 <= inject_Z v)%Q) by (rewrite <- Zle_Qle; lia).
    change (inject_Z 1) with 1%Q in Hq. lra.
  - assert (Hq : (inject_Z v <= inject_Z (-1))%Q) by (rewrite <- Zle_Qle; lia).
    change (inject_Z (-1)) with (-1 # 1)%Q in Hq. lra.
Qed.

Lemma Fdiv_fin (prec emax : Z) (s s' : bool) (m m' : positive) (e e' : Z) :
  Fdiv prec emax (F_fin s m e) (F_fin s' m' e') =
  round prec emax (F2Q (F_fin s m e) / F2Q (F_fin s' m' e')) (xorb s s').
Proof. reflexivity. Qed.

Lemma finite_nonzero (x : float) :
  is_finite x = true -> ~ (F2Q x == 0)%Q -> exists s m e, x = F_fin s m e.
Proof.
  intros Hf Hn. destruct x as [s|s| |s m e]; try discriminate Hf.
  - exfalso. apply Hn. reflexivity.
  - exists s, m, e. reflexivity.
Qed.

(** [(float)(v / 10.0)] is within 2^-5 + 2^-34 of [v / 10] for a [v] of
    magnitude below 10 * 2^20, and is not zero. *)
Lemma tenths_near (v : Z) :
  v <> 0 -> -10485760 < v < 10485760 ->
  exists s m e,
    tenths v = F_fin s m e /\
    (Qabs (F2Q (F_fin s m e) - inject_Z v / 10) <= (1 # 32) + (1 # 17179869184))%Q.
Proof.
  intros Hv0 Hv. unfold tenths, float_of_double, ddiv, double_of_int, of_Z.
  assert (Hv53 : Z.abs v < 2 ^ 53) by (change (2 ^ 53) with 9007199254740992; lia).
  destruct (round_Z 53 1024 ltac:(lia) (inject_Z v) v false ltac:(reflexivity) Hv0 Hv53
              ltac:(unfold emin; lia) ltac:(lia) ltac:(lia))
    as [m1 [e1 [Hx1 Hq1]]].
  rewrite Hx1.
  change (round 53 1024 (inject_Z 10) false) with (F_fin false 5629499534213120 (-49)).
  rewrite Fdiv_fin.
  assert (Hten : (F2Q (F_fin false 5629499534213120 (-49)) == 10)%Q) by (vm_compute; reflexivity).
  assert (Hq : (F2Q (F_fin (v <? 0) m1 e1) / F2Q (F_fin false 5629499534213120 (-49)) ==
                inject_Z v / 10)%Q) by (rewrite Hq1, Hten; reflexivity).
  rewrite (round_comp 53 1024 _ _ _ Hq).
  assert (Hvq : (-10485760 < inject_Z v < 10485760)%Q).
  { split.
    - change (-10485760)%Q with (inject_Z (-10485760)). rewrite <- Zlt_Qlt. lia.
    - change 10485760%Q with (inject_Z 10485760). rewrite <- Zlt_Qlt. lia. }
  assert (Hv1 : (inject_Z v <= -1 \/ 1 <= inject_Z v)%Q).
  { destruct (Z.lt_ge_cases v 0).
    - left. change (-1)%Q with (inject_Z (-1)). rewrite <- Zle_Qle. lia.
    - right. change 1%Q with (inject_Z 1). rewrite <- Zle_Qle. lia. }
  set (q := (inject_Z v / 10)%Q) in *.
  assert (Hqv : (q * 10 == inject_Z v)%Q) by (unfold q; field).
  assert (Hk : (Qabs q < 2 ^ 20)%Q).
  { apply Qabs_Qlt_condition. change (2 ^ 20)%Q with 1048576%Q. split; lra. }
  destruct (round_err 53 1024 ltac:(lia) q (xorb (v <? 0) false) 20 Hk
              ltac:(unfold emin; lia) ltac:(lia))
    as [Hf [He _]].
  change (2 ^ (20 - 53 - 1))%Q with (1 # 17179869184)%Q in He.
  set (d := round 53 1024 q (xorb (v <? 0) false)) in *.
  apply Qabs_Qle_condition in He. destruct He as [He1 He2].
  destruct (finite_nonzero d Hf) as [sd [md [ed Hd]]].
  { intros H0. rewrite H0 in He1, He2. destruct Hv1; lra. }
  rewrite Hd. cbn [convert]. rewrite <- Hd.
  assert (Hk2 : (Qabs (F2Q d) < 2 ^ 20)%Q).
  { apply Qabs_Qlt_condition. change (2 ^ 20)%Q with 1048576%Q.
    assert (Hb : (-104857599 # 100 <= q <= 104857599 # 100)%Q).
    { assert (H9 : (-10485759 <= inject_Z v <= 10485759)%Q).
      { split.
        - change (-10485759)%Q with (inject_Z (-10485759)). rewrite <- Zle_Qle. lia.
        - change 10485759%Q with (inject_Z 10485759). rewrite <- Zle_Qle. lia. }
      split; lra. }
    split; lra. }
  destruct (round_err 24 128 ltac:(lia) (F2Q d) sd 20 Hk2
              ltac:(unfold emin; lia) ltac:(lia))
    as [Hf2 [He' _]].
  change (2 ^ (20 - 24 - 1))%Q with (1 # 32)%Q in He'.
  set (x := round 24 128 (F2Q d) sd) in *.
  apply Qabs_Qle_condition in He'. destruct He' as [He3 He4].
  destruct (finite_nonzero x Hf2) as [sx [mx [ex Hx]]].
  { intros H0. rewrite H0 in He3, He4. destruct Hv1; lra. }
  exists sx, mx, ex. split; [exact Hx|]. rewrite <- Hx.
  apply Qabs_Qle_condition. split; lra.
Qed.

(** Up to 10485762 in magnitude the text printed for [(float)(v / 10.0)]
    is [v / 10] in decimal. *)
Lemma tenths_text (v : Z) :
  -10485762 <= v <= 10485762 -> ftoa1f (tenths v) = tenthsText v.
Proof.
  intros Hv.
  destruct (Z.eq_dec v 0) as [->|Hv0]; [vm_compute; reflexivity|].
  destruct (Z.eq_dec v 10485760) as [->|H1]; [vm_compute; reflexivity|].
  destruct (Z.eq_dec v 10485761) as [->|H2]; [vm_compute; reflexivity|].
  destruct (Z.eq_dec v 10485762) as [->|H3]; [vm_compute; reflexivity|].
  destruct (Z.eq_dec v (-10485760)) as [->|H4]; [vm_compute; reflexivity|].
  destruct (Z.eq_dec v (-10485761)) as [->|H5]; [vm_compute; reflexivity|].
  destruct (Z.eq_dec v (-10485762)) as [->|H6]; [vm_compute; reflexivity|].
  destruct (tenths_near v Hv0 ltac:(lia)) as [s [m [e [Hx He]]]].
  rewrite Hx. cbn [ftoa1f]. apply ftoa1_near; [|exact Hv0].
  apply Qabs_Qle_condition in He. destruct He as [He1 He2].
  assert (Hqv : (inject_Z v / 10 * 10 == inject_Z v)%Q) by field.
  set (q := (inject_Z v / 10)%Q) in *. set (r := F2Q (F_fin s m e)) in *.
  apply Qabs_Qlt_condition. split; lra.
Qed.

(** The bound is the best one: 1048576.3 is stored as 1048576.25 and
    printed as 1048576.2. *)
Lemma tenths_text_bound :
  ftoa1f (tenths 10485763) = "1048576.2" /\ tenthsText 10485763 = "1048576.3".
Proof.
  vm_compute. split; reflexivity.
Qed.

(** ** The state at program start *)

Lemma appInit_inv (loaded : bool) : appInv (appInit loaded).
Proof.
  split; [vm_compute; split; congruence|].
  intros i c _ _. vm_compute. split; congruence.
Qed.

(** ** Lemmas on arrays and loops *)

Lemma zseq_S (from : Z) (n : nat) :
  zseq from (S n) = (zseq from n ++ [from + Z.of_nat n])%list.
Proof.
  unfold zseq. rewrite seq_S, map_app. reflexivity.
Qed.

Lemma zseq_length (from : Z) (n : nat) : List.length (zseq from n) = n.
Proof.
  unfold zseq. rewrite length_map, length_seq. reflexivity.
Qed.

Lemma in_zseq (from : Z) (n : nat) (i : Z) :
  In i (zseq from n) <-> from <= i < from + Z.of_nat n.
Proof.
  unfold zseq. rewrite in_map_iff. split.
  - intros [k [<- Hk]]. apply in_seq in Hk. lia.
  - intros H. exists (Z.to_nat (i - from)). split; [lia|].
    apply in_seq. lia.
Qed.

Lemma cells_S (a : Z -> Z) (n : Z) :
  0 <= n -> cells a (n + 1) = (cells a n ++ [a n])%list.
Proof.
  intros Hn. unfold cells.
  replace (Z.to_nat (n + 1)) with (S (Z.to_nat n)) by lia.
  rewrite zseq_S, map_app. simpl. do 3 f_equal. lia.
Qed.

Lemma cells_ext (a b : Z -> Z) (n : Z) :
  (forall i, 0 <= i < n -> a i = b i) -> cells a n = cells b n.
Proof.
  intros H. unfold cells. apply map_ext_in. intros i Hi.
  apply in_zseq in Hi. apply H. lia.
Qed.

Lemma cells_length (a : Z -> Z) (n : Z) : List.length (cells a n) = Z.to_nat n.
Proof.
  unfold cells. rewrite length_map. apply zseq_length.
Qed.

Lemma upd_same (a : Z -> Z) (i v : Z) : upd a i v i = v.
Proof. unfold upd. rewrite Z.eqb_refl. reflexivity. Qed.

Lemma upd_other (a : Z -> Z) (i v j : Z) : j <> i -> upd a i v j = a j.
Proof. intros H. unfold upd. apply Z.eqb_neq in H. rewrite H. reflexivity. Qed.

(** ** The checksum loop *)

Lemma zsum_snoc (l : list Z) (x : Z) : zsum (l ++ [x]) = zsum l + x.
Proof.
  induction l as [|y l IH]; simpl; [lia | rewrite IH; lia].
Qed.

Lemma addChecksum_partial (c : Z -> Z) (idx : Z) (k : nat) :
  Z.of_nat k <= idx -> 0 <= c idx < 256 ->
  (forall j, j <> idx -> checksumLoop idx k c j = c j) /\
  checksumLoop idx k c idx = wrap8 (c idx + zsum (cells c (Z.of_nat k))).
Proof.
  intros Hk Hc. induction k as [|k IH].
  - split; [reflexivity|]. unfold checksumLoop, cells, wrap8. simpl.
    rewrite Z.add_0_r, Z.mod_small; [reflexivity | exact Hc].
  - destruct IH as [H1 H2]; [lia|].
    unfold checksumLoop in *. rewrite zseq_S, fold_left_app.
    cbn [fold_left].
    split.
    + intros j Hj. rewrite upd_other by exact Hj. apply H1. exact Hj.
    + rewrite upd_same.
      replace (Z.of_nat (S k)) with (Z.of_nat k + 1) by lia.
      rewrite cells_S by lia. rewrite zsum_snoc.
      rewrite (H1 (0 + Z.of_nat k)) by lia. rewrite H2.
      unfold wrap8. rewrite Zplus_mod_idemp_l. f_equal. simpl. lia.
Qed.

Lemma addChecksum_spec (c : Z -> Z) (idx : Z) :
  0 <= idx -> c idx = 0 ->
  cells (addChecksum c idx) (idx + 1) =
  (cells c idx ++ [zsum (cells c idx) mod 256])%list.
Proof.
  intros Hidx Hc. rewrite cells_S by exact Hidx.
  change (addChecksum c idx) with (checksumLoop idx (Z.to_nat idx) c).
  destruct (addChecksum_partial c idx (Z.to_nat idx)) as [H1 H2]; [lia | lia |].
  f_equal.
  - apply cells_ext. intros i Hi. apply H1. lia.
  - rewrite H2, Hc. rewrite Z2Nat.id by lia. reflexivity.
Qed.

Lemma dataPart_idx (fuel : nat) (p : string) (c : Z -> Z) (idx : Z) :
  idx <= snd (dataPart fuel p c idx).
Proof.
  revert p c idx. induction fuel as [|fuel IH]; intros p c idx; simpl; [lia|].
  destruct (getNumber p) as [n p']. destruct (n =? LONG_MIN); simpl; [lia|].
  specialize (IH p' (upd c (idx + 1) (Z.land n 255)) (idx + 1)). lia.
Qed.

(** ** The outbound encoder *)

Lemma dataPart_agree (fuel : nat) :
  forall (P : Z -> Prop) (p : string) (c1 c2 : Z -> Z) (idx : Z),
    (forall i, P i -> c1 i = c2 i) ->
    snd (dataPart fuel p c1 idx) = snd (dataPart fuel p c2 idx) /\
    forall i, P i \/ idx < i <= snd (dataPart fuel p c1 idx) ->
              fst (dataPart fuel p c1 idx) i = fst (dataPart fuel p c2 idx) i.
Proof.
  induction fuel as [|fuel IH]; intros P p c1 c2 idx H.
  - simpl. split; [reflexivity|]. intros i [Hi|Hi]; [apply H, Hi | lia].
  - cbn [dataPart]. destruct (getNumber p) as [n p'].
    destruct (n =? LONG_MIN).
    + simpl. split; [reflexivity|]. intros i [Hi|Hi]; [apply H, Hi | lia].
    + destruct (IH (fun i => P i \/ i = idx + 1) p'
                   (upd c1 (idx + 1) (Z.land n 255))
                   (upd c2 (idx + 1) (Z.land n 255)) (idx + 1)) as [E A].
      { intros i [Hi| ->]; [| rewrite !upd_same; reflexivity].
        unfold upd. destruct (i =? idx + 1); [reflexivity | apply H, Hi]. }
      split; [exact E|]. intros i Hi. apply A.
      destruct Hi as [Hi|Hi]; [left; left; exact Hi|].
      destruct (Z.eq_dec i (idx + 1)) as [->|Hne]; [left; right; reflexivity|].
      right. lia.
Qed.

(** The bytes [processTuyaMsg] writes do not depend on what the array
    [tuyaCmd] held on entry: every cell written out was assigned first. *)
Lemma processTuyaMsgFrom_any (g1 g2 : Z -> Z) (wsMsg : string) :
  processTuyaMsgFrom g1 wsMsg = processTuyaMsgFrom g2 wsMsg.
Proof.
  unfold processTuyaMsgFrom.
  destruct (if char_at wsMsg 0 =? uartId 0 then Some 0
            else if char_at wsMsg 0 =? uartId 1 then Some 1 else None)
    as [u|]; [|reflexivity].
  destruct (getNumber _) as [n3 p3].
  rewrite !upd_same.
  set (F := S (String.length wsMsg)).
  assert (Fin : forall (isDP : bool) (P : Z -> Prop) (p : string)
                       (cA cB : Z -> Z) (i0 : Z),
     5 <= i0 ->
     (forall i, P i -> cA i = cB i) ->
     (forall i, 0 <= i <= i0 -> i = 0 \/ i = 1 \/ i = 2 \/ i = 4 \/ i = 5 \/
                (isDP = true /\ (i = 8 \/ i = 9)) \/ P i) ->
     (let '(tuyaCmd, idx) := dataPart F p cA i0 in
      Some (u, cells (addChecksum (upd
        (if isDP
         then upd (upd (upd (upd (upd (upd (upd tuyaCmd 0 85) 1 170) 2
                (if u =? 0 then 0 else 3)) 4 (wrap8 (Z.shiftr (idx - 5) 8)))
                5 (wrap8 (Z.land (idx - 5) 255)))
                8 (wrap8 (Z.shiftr (idx - 9) 8)))
                9 (wrap8 (Z.land (idx - 9) 255))
         else upd (upd (upd (upd (upd tuyaCmd 0 85) 1 170) 2
                (if u =? 0 then 0 else 3)) 4 (wrap8 (Z.shiftr (idx - 5) 8)))
                5 (wrap8 (Z.land (idx - 5) 255)))
        (idx + 1) 0) (idx + 1)) (idx + 1 + 1))) =
     (let '(tuyaCmd, idx) := dataPart F p cB i0 in
      Some (u, cells (addChecksum (upd
        (if isDP
         then upd (upd (upd (upd (upd (upd (upd tuyaCmd 0 85) 1 170) 2
                (if u =? 0 then 0 else 3)) 4 (wrap8 (Z.shiftr (idx - 5) 8)))
                5 (wrap8 (Z.land (idx - 5) 255)))
                8 (wrap8 (Z.shiftr (idx - 9) 8)))
                9 (wrap8 (Z.land (idx - 9) 255))
         else upd (upd (upd (upd (upd tuyaCmd 0 85) 1 170) 2
                (if u =? 0 then 0 else 3)) 4 (wrap8 (Z.shiftr (idx - 5) 8)))
                5 (wrap8 (Z.land (idx - 5) 255)))
        (idx + 1) 0) (idx + 1)) (idx + 1 + 1)))).
  { intros isDP P p cA cB i0 Hi0 Hag Hcov.
    destruct (dataPart_agree F P p cA cB i0 Hag) as [E A].
    pose proof (dataPart_idx F p cA i0) as Hle.
    destruct (dataPart F p cA i0) as [c1 i1].
    destruct (dataPart F p cB i0) as [c2 i2].
    cbn [fst snd] in E, A, Hle. subst i2.
    rewrite !addChecksum_spec by (first [lia | apply upd_same]).
    assert (Hc : forall a b : Z -> Z, cells a (i1 + 1) = cells b (i1 + 1) ->
       Some (u, (cells a (i1 + 1) ++ [zsum (cells a (i1 + 1)) mod 256])%list) =
       Some (u, (cells b (i1 + 1) ++ [zsum (cells b (i1 + 1)) mod 256])%list)).
    { intros a b ->. reflexivity. }
    apply Hc. apply cells_ext. intros i Hi.
    rewrite !(upd_other _ (i1 + 1)) by lia.
    assert (Hi' : P i \/ i0 < i <= i1 \/ i = 0 \/ i = 1 \/ i = 2 \/ i = 4 \/
                  i = 5 \/ (isDP = true /\ (i = 8 \/ i = 9))).
    { destruct (Z_le_gt_dec i i0) as [Hl|Hg]; [|right; left; lia].
      destruct (Hcov i ltac:(lia)) as [H|[H|[H|[H|[H|[H|H]]]]]]; tauto. }
    destruct isDP; unfold upd;
      repeat match goal with
             | |- context [i =? ?k] => destruct (Z.eqb_spec i k)
             end; try reflexivity;
      apply A; destruct Hi' as [H|[H|H]]; try tauto; try lia;
      exfalso; intuition (try lia; try discriminate). }
  destruct ((wrap8 (Z.land n3 255) =? 6) || (wrap8 (Z.land n3 255) =? 7)).
  - destruct (getNumber p3) as [n6 p6]. destruct (getNumber p6) as [n7 p7].
    rewrite !upd_same. destruct (wrap8 (Z.land n7 255) =? 2).
    + destruct (getNumber p7) as [iv p8]. cbn [zseq fold_left Z.to_nat Pos.to_nat
        Pos.iter_op Nat.add map seq Z.of_nat Pos.of_succ_nat Pos.succ Z.add Z.sub
        Z.mul Pos.mul Z.opp Z.pos_sub Pos.pred_double Z.succ_double Z.pred_double
        Z.double Pos.add].
      apply (Fin true (fun i => i = 3 \/ i = 6 \/ i = 7 \/ 10 <= i <= 13)).
      * lia.
      * intros i Hi. unfold upd.
        repeat match goal with
               | |- context [i =? ?k] => destruct (Z.eqb_spec i k)
               end; try reflexivity; lia.
      * intros i Hi. lia.
    + apply (Fin true (fun i => i = 3 \/ i = 6 \/ i = 7)).
      * lia.
      * intros i Hi. unfold upd.
        repeat match goal with
               | |- context [i =? ?k] => destruct (Z.eqb_spec i k)
               end; try reflexivity; lia.
      * intros i Hi. lia.
  - apply (Fin false (fun i => i = 3)).
    + lia.
    + intros i ->. rewrite !upd_same. reflexivity.
    + intros i Hi. lia.
Qed.

(** C9. Every message [processTuyaMsg] accepts is written as a sequence of
    bytes whose last byte, the checksum, is the sum of all the bytes before
    it modulo 256. *)
Theorem processTuyaMsg_checksum (wsMsg : string) (uartNum : Z) (bytes : list Z) :
  processTuyaMsg wsMsg = Some (uartNum, bytes) ->
  exists body ck,
    bytes = (body ++ [ck])%list /\
    (6 <= Z.of_nat (List.length body)) /\
    ck = zsum body mod 256.
Proof.
  unfold processTuyaMsg, processTuyaMsgFrom.
  destruct (if char_at wsMsg 0 =? uartId 0 then Some 0
            else if char_at wsMsg 0 =? uartId 1 then Some 1 else None)
    as [u|]; [|discriminate].
  destruct (getNumber _) as [n3 p3].
  set (c3 := upd (fun _ => 0) 3 (wrap8 (Z.land n3 255))).
  set (isDP := (c3 3 =? 6) || (c3 3 =? 7)).
  set (pre := if isDP then _ else _).
  assert (Hpre : 5 <= snd (fst pre)).
  { subst pre. destruct isDP; [|simpl; lia].
    destruct (getNumber p3) as [n6 p6]. destruct (getNumber p6) as [n7 p7].
    destruct (_ =? 2).
    - destruct (getNumber p7) as [iv p8]. simpl. lia.
    - simpl. lia. }
  destruct pre as [[c idx] p]. simpl in Hpre.
  pose proof (dataPart_idx (S (String.length wsMsg)) p c idx) as Hd.
  destruct (dataPart _ p c idx) as [c' idx']. simpl in Hd.
  intros H. injection H as <- <-.
  rewrite addChecksum_spec; [| lia | apply upd_same].
  eexists. eexists. split; [reflexivity|]. split; [|reflexivity].
  rewrite cells_length. lia.
Qed.

Lemma processTuyaMsg_checksum_witness :
  exists body ck,
    [85; 170; 0; 6; 0; 8; 2; 2; 0; 4; 0; 0; 0; 190; 211] = (body ++ [ck])%list /\
    (6 <= Z.of_nat (List.length body)) /\
    ck = zsum body mod 256.
Proof.
  apply (processTuyaMsg_checksum "M 6 2 2 190" 0). vm_compute. reflexivity.
Defined.

(** C1. The UI update [("tgtTemp", "19")], once the configuration is loaded
    (and in a state that satisfies the invariant [appInv], as every state the
    program reaches does), writes to the MCU port exactly
    55 aa 00 06 00 08 02 02 00 04 00 00 00 be d3 and changes nothing else;
    0xd3 is the sum of the fourteen bytes before it modulo 256. *)
Theorem tgtTemp_19_frame (a : App) :
  configLoaded a = true ->
  appInv a ->
  updateAppStatus false "tgtTemp" "19" a =
    set_uartOut
      (uartOut a ++ [(0, [85; 170; 0; 6; 0; 8; 2; 2; 0; 4; 0; 0; 0; 190; 211])]) a
  /\ zsum [85; 170; 0; 6; 0; 8; 2; 2; 0; 4; 0; 0; 0; 190] mod 256 = 211.
Proof.
  intros Hcfg [[_ Hcnt] _]. split; [|reflexivity].
  unfold updateAppStatus. cbn [String.eqb Ascii.eqb Bool.eqb].
  cbv beta iota zeta.
  replace (slotCnt a >=? TIME_SLOTS * 2) with false
    by (symmetry; rewrite Z.geb_leb; apply Z.leb_gt; exact Hcnt).
  rewrite Hcfg. cbn [andb].
  unfold sendTuyaMsg.
  replace (processTuyaMsg _)
    with (Some (0, [85; 170; 0; 6; 0; 8; 2; 2; 0; 4; 0; 0; 0; 190; 211]))
    by (vm_compute; reflexivity).
  reflexivity.
Qed.

Lemma tgtTemp_19_frame_witness :
  uartOut (updateAppStatus false "tgtTemp" "19" (appInit true)) =
    [(0, [85; 170; 0; 6; 0; 8; 2; 2; 0; 4; 0; 0; 0; 190; 211])].
Proof.
  rewrite (proj1 (tgtTemp_19_frame (appInit true) eq_refl (appInit_inv true))).
  reflexivity.
Defined.

(** ** The datapoint dispatcher *)

(** ** The schedule driver *)

Lemma updateAppStatus_tgtTemp_keeps (v : string) (a : App) :
  slotSt (updateAppStatus false "tgtTemp" v a) = slotSt a /\
  schedule (updateAppStatus false "tgtTemp" v a) = schedule a.
Proof.
  unfold updateAppStatus. cbn [String.eqb Ascii.eqb Bool.eqb].
  cbv beta iota zeta.
  destruct (slotCnt a >=? TIME_SLOTS * 2); cbn [configLoaded set_slotCnt];
    destruct (configLoaded a); cbn [andb]; unfold sendTuyaMsg;
    try destruct (processTuyaMsg _); split; reflexivity.
Qed.

(** The downward scan stops at the largest index whose slot has begun, or
    below zero when none has. *)
Lemma scanSlot_inv (sch : Z -> Z -> Z) (t : Z) (fuel : nat) (cs : Z) :
  0 <= cs < Z.of_nat fuel ->
  let r := scanSlot fuel sch t cs in
  -1 <= r <= cs /\
  (0 <= r -> sch r SECS_COL <= t) /\
  (forall j, r < j <= cs -> t < sch j SECS_COL).
Proof.
  revert cs. induction fuel as [|fuel IH]; intros cs Hcs; [lia|].
  cbn [scanSlot].
  destruct (Z.gtb_spec (sch cs SECS_COL) t) as [Hgt|Hle].
  - destruct (Z.ltb_spec (cs - 1) 0) as [Hneg|Hpos].
    + cbv zeta. split; [lia|]. split; [lia|].
      intros j Hj. replace j with cs by lia. exact Hgt.
    + destruct (IH (cs - 1)) as [H1 [H2 H3]]; [lia|].
      cbv zeta in *. split; [lia|]. split; [exact H2|].
      intros j Hj. destruct (Z.eq_dec j cs) as [->|Hne]; [exact Hgt|].
      apply H3. lia.
  - cbv zeta. split; [lia|]. split; [intros _; exact Hle|]. intros j Hj. lia.
Qed.

Lemma scanSlot_spec (sch : Z -> Z -> Z) (t : Z) :
  let cs := scanSlot (Z.to_nat USED_SLOTS) sch t (USED_SLOTS - 1) in
  -1 <= cs <= 5 /\
  (0 <= cs -> sch cs SECS_COL <= t) /\
  (forall j, cs < j <= 5 -> t < sch j SECS_COL).
Proof.
  apply (scanSlot_inv sch t (Z.to_nat USED_SLOTS) (USED_SLOTS - 1)).
  unfold USED_SLOTS. lia.
Qed.

Lemma to_int32_small (z : Z) : -2147483648 <= z < 2147483648 -> to_int32 z = z.
Proof.
  intros H. unfold to_int32. rewrite Z.mod_small by lia. lia.
Qed.

(** The statics after the first call. *)
Lemma checkSchedule_first (e : Env) (a : App) :
  timeSynchronized e = true ->
  currentSlot (slotSt a) < 0 ->
  let t := currentSecs e in
  let cs := scanSlot (Z.to_nat USED_SLOTS) (schedule a) t (USED_SLOTS - 1) in
  let wrap := (cs <? 0) || (cs =? USED_SLOTS - 1) in
  let d0 := schedule a 0 SECS_COL - t in
  slotSt (checkSchedule false e a) =
    mkSlot (if wrap then USED_SLOTS - 1 else cs)
           (to_int32 ((if wrap then (if d0 <? 0 then d0 + SECS_IN_DAY else d0)
                       else schedule a (cs + 1) SECS_COL - t) * 1000))
           (to_uint32 (millis e)) false /\
  schedule (checkSchedule false e a) = schedule a.
Proof.
  intros Hsync Hneg t cs wrap d0.
  unfold checkSchedule. rewrite Hsync. cbn [negb].
  apply Z.ltb_lt in Hneg. rewrite Hneg.
  fold t. fold cs. fold wrap. fold d0.
  destruct wrap; cbn [changedSlot currentSlot slotDuration];
    match goal with
    | |- context [updateAppStatus false "tgtTemp" ?v ?b] =>
        destruct (updateAppStatus_tgtTemp_keeps v b) as [H1 H2]; rewrite H1, H2
    end; split; reflexivity.
Qed.

(** C5. On the first call of [checkSchedule] with the time synchronised,
    for slot times and a second of the day [t] in [0, 86399]: [currentSlot]
    becomes the largest index [i] of 0..5 with [schedule[i][SECS_COL] <= t],
    and for [i < 5] the duration is the time left until slot [i + 1]; if no
    slot qualifies or the last one does, [currentSlot] is 5 and the duration
    is [schedule[0][SECS_COL] - t], plus 86400 when that is negative.  The
    duration is held in milliseconds.  In particular, for the slots at
    21600, 30600, 32400, 45000, 59400, 79200 and [t = 82800], [currentSlot]
    is 5 and the duration 25200 s. *)
Theorem checkSchedule_first_call :
  (forall (e : Env) (a : App),
     timeSynchronized e = true ->
     currentSlot (slotSt a) < 0 ->
     (forall i, 0 <= i < USED_SLOTS -> 0 <= schedule a i SECS_COL < SECS_IN_DAY) ->
     0 <= currentSecs e < SECS_IN_DAY ->
     let t := currentSecs e in
     let sec i := schedule a i SECS_COL in
     let st := slotSt (checkSchedule false e a) in
     (forall i, 0 <= i < USED_SLOTS - 1 ->
        sec i <= t -> (forall j, i < j < USED_SLOTS -> t < sec j) ->
        currentSlot st = i /\ slotDuration st = (sec (i + 1) - t) * 1000) /\
     (sec (USED_SLOTS - 1) <= t \/ (forall j, 0 <= j < USED_SLOTS -> t < sec j) ->
        currentSlot st = USED_SLOTS - 1 /\
        slotDuration st =
          (if sec 0 - t <? 0 then sec 0 - t + SECS_IN_DAY else sec 0 - t) * 1000)) /\
  (currentSecs env_2300 = 82800 /\
   currentSlot (slotSt (checkSchedule false env_2300 app_S3)) = 5 /\
   slotDuration (slotSt (checkSchedule false env_2300 app_S3)) = 25200 * 1000).
Proof.
  split; [|vm_compute; repeat split; reflexivity].
  intros e a Hsync Hneg Hrange Ht t sec st.
  subst st. rewrite (proj1 (checkSchedule_first e a Hsync Hneg)).
  fold t.
  destruct (scanSlot_spec (schedule a) t) as [Hb [Hle Hgt]].
  cbv zeta in Hb, Hle, Hgt.
  set (cs := scanSlot (Z.to_nat USED_SLOTS) (schedule a) t (USED_SLOTS - 1)) in *.
  cbn [currentSlot slotDuration].
  unfold USED_SLOTS, SECS_IN_DAY in *. fold (sec 0).
  change (schedule a (cs + 1) SECS_COL) with (sec (cs + 1)).
  assert (R0 := Hrange 0 ltac:(lia)). fold (sec 0) in R0.
  split.
  - intros i Hi Hsi Hlater.
    assert (Hcs : cs = i).
    { destruct (Z.lt_trichotomy cs i) as [Hlt|[Heq|Hlt]]; [|exact Heq|].
      - specialize (Hgt i ltac:(lia)). fold (sec i) in Hgt. lia.
      - specialize (Hlater cs ltac:(lia)). specialize (Hle ltac:(lia)).
        fold (sec cs) in Hle. lia. }
    rewrite Hcs.
    replace ((i <? 0) || (i =? 6 - 1)) with false
      by (symmetry; apply orb_false_iff; split; [apply Z.ltb_ge | apply Z.eqb_neq]; lia).
    split; [reflexivity|].
    assert (R1 := Hrange (i + 1) ltac:(lia)). fold (sec (i + 1)) in R1.
    apply to_int32_small. lia.
  - intros Hw.
    assert (Hcs : cs = 5 \/ cs = -1).
    { destruct Hw as [H5|Hnone].
      - left. destruct (Z.eq_dec cs 5) as [Heq|Hne]; [exact Heq|].
        specialize (Hgt 5 ltac:(lia)). fold (sec 5) in Hgt.
        change (6 - 1) with 5 in H5. lia.
      - right. destruct (Z.eq_dec cs (-1)) as [Heq|Hne]; [exact Heq|].
        specialize (Hnone cs ltac:(lia)). specialize (Hle ltac:(lia)).
        fold (sec cs) in Hle. lia. }
    replace ((cs <? 0) || (cs =? 6 - 1)) with true
      by (destruct Hcs as [-> | ->]; reflexivity).
    split; [reflexivity|].
    apply to_int32_small.
    destruct (Z.ltb_spec (sec 0 - t) 0); lia.
Qed.

Lemma sched_S3_range (i : Z) :
  0 <= i < USED_SLOTS -> 0 <= schedule app_S3 i SECS_COL < SECS_IN_DAY.
Proof.
  unfold USED_SLOTS. intros Hi.
  assert (Hc : i = 0 \/ i = 1 \/ i = 2 \/ i = 3 \/ i = 4 \/ i = 5) by lia.
  destruct Hc as [->|[->|[->|[->|[->| ->]]]]]; vm_compute; split; congruence.
Qed.

Lemma sched_S3_sorted (i j : Z) :
  0 <= i <= j -> j < USED_SLOTS ->
  schedule app_S3 i SECS_COL <= schedule app_S3 j SECS_COL.
Proof.
  unfold USED_SLOTS. intros Hi Hj.
  assert (Hc : i = 0 \/ i = 1 \/ i = 2 \/ i = 3 \/ i = 4 \/ i = 5) by lia.
  assert (Hd : j = 0 \/ j = 1 \/ j = 2 \/ j = 3 \/ j = 4 \/ j = 5) by lia.
  destruct Hc as [->|[->|[->|[->|[->| ->]]]]];
    destruct Hd as [->|[->|[->|[->|[->| ->]]]]];
    try lia; vm_compute; congruence.
Qed.

Lemma checkSchedule_first_call_witness :
  currentSlot (slotSt (checkSchedule false env_1106 app_S3)) = 2 /\
  slotDuration (slotSt (checkSchedule false env_1106 app_S3)) = (45000 - 40000) * 1000.
Proof.
  apply (proj1 (proj1 checkSchedule_first_call env_1106 app_S3 eq_refl eq_refl
                  sched_S3_range ltac:(vm_compute; split; congruence)) 2).
  - vm_compute. split; congruence.
  - vm_compute. congruence.
  - intros j Hj.
    assert (Hc : j = 3 \/ j = 4 \/ j = 5) by (unfold USED_SLOTS in Hj; lia).
    destruct Hc as [->|[->| ->]]; vm_compute; reflexivity.
Defined.

(** When the slot has run out, [checkSchedule] steps to the next slot
    (modulo six) and takes the gap to that slot's successor as the new
    duration. *)
Lemma checkSchedule_advance (e : Env) (a : App) :
  expired e a ->
  let cs := if currentSlot (slotSt a) + 1 >=? USED_SLOTS then 0
            else currentSlot (slotSt a) + 1 in
  let dur := if cs <? USED_SLOTS - 1 then schedule a (cs + 1) SECS_COL
             else SECS_IN_DAY + schedule a 0 SECS_COL in
  slotSt (checkSchedule false e a) =
    mkSlot cs (to_int32 ((dur - schedule a cs SECS_COL) * 1000))
           (to_uint32 (millis e)) false /\
  schedule (checkSchedule false e a) = schedule a.
Proof.
  intros [Hsync [Hcs Hexp]] cs dur.
  unfold checkSchedule. rewrite Hsync. cbn [negb].
  replace (currentSlot (slotSt a) <? 0) with false
    by (symmetry; apply Z.ltb_ge; exact Hcs).
  rewrite Hexp. fold cs. fold dur. cbn [changedSlot currentSlot slotDuration].
  destruct (updateAppStatus_tgtTemp_keeps
              (ftoa1f (tenths (schedule a cs TGT_TEMP)))
              (set_slotSt (mkSlot cs (to_int32 ((dur - schedule a cs SECS_COL) * 1000))
                                  (to_uint32 (millis e)) false) a)) as [H1 H2].
  rewrite H1, H2. split; reflexivity.
Qed.

Ltac zcalc H :=
  cbn [Z.add Z.sub Z.opp Z.geb Z.ltb Z.compare Pos.compare Pos.compare_cont
       Pos.add Pos.succ Z.pos_sub Z.succ_double Z.pred_double Z.double
       Pos.pred_double currentSlot slotDuration] in H.

(** Six advances in a row visit every slot once; the gaps telescope. *)
Lemma six_advances (b : App) (es : list Env) :
  (forall i, 0 <= i < USED_SLOTS -> 0 <= schedule b i SECS_COL < SECS_IN_DAY) ->
  0 <= currentSlot (slotSt b) < USED_SLOTS ->
  List.length es = 6%nat ->
  allExpired es b ->
  zsum (durations es b) = SECS_IN_DAY * 1000.
Proof.
  intros Hrange Hcs Hlen Hall.
  destruct es as [|e1 [|e2 [|e3 [|e4 [|e5 [|e6 [|e7 es]]]]]]]; try discriminate Hlen.
  clear Hlen. cbn [allExpired durations] in *.
  destruct Hall as [X1 [X2 [X3 [X4 [X5 [X6 _]]]]]].
  destruct (checkSchedule_advance e1 b X1) as [S1 C1]. cbv zeta in S1.
  set (b1 := checkSchedule false e1 b) in *.
  destruct (checkSchedule_advance e2 b1 X2) as [S2 C2]. cbv zeta in S2.
  set (b2 := checkSchedule false e2 b1) in *.
  destruct (checkSchedule_advance e3 b2 X3) as [S3 C3]. cbv zeta in S3.
  set (b3 := checkSchedule false e3 b2) in *.
  destruct (checkSchedule_advance e4 b3 X4) as [S4 C4]. cbv zeta in S4.
  set (b4 := checkSchedule false e4 b3) in *.
  destruct (checkSchedule_advance e5 b4 X5) as [S5 C5]. cbv zeta in S5.
  set (b5 := checkSchedule false e5 b4) in *.
  destruct (checkSchedule_advance e6 b5 X6) as [S6 C6]. cbv zeta in S6.
  set (b6 := checkSchedule false e6 b5) in *.
  rewrite C5, C4, C3, C2, C1 in S6. rewrite C4, C3, C2, C1 in S5.
  rewrite C3, C2, C1 in S4. rewrite C2, C1 in S3. rewrite C1 in S2.
  clear X1 X2 X3 X4 X5 X6 C1 C2 C3 C4 C5 C6.
  assert (R0 := Hrange 0 ltac:(unfold USED_SLOTS; lia)).
  assert (R1 := Hrange 1 ltac:(unfold USED_SLOTS; lia)).
  assert (R2 := Hrange 2 ltac:(unfold USED_SLOTS; lia)).
  assert (R3 := Hrange 3 ltac:(unfold USED_SLOTS; lia)).
  assert (R4 := Hrange 4 ltac:(unfold USED_SLOTS; lia)).
  assert (R5 := Hrange 5 ltac:(unfold USED_SLOTS; lia)).
  unfold USED_SLOTS, SECS_IN_DAY in *.
  assert (Hc : currentSlot (slotSt b) = 0 \/ currentSlot (slotSt b) = 1 \/
               currentSlot (slotSt b) = 2 \/ currentSlot (slotSt b) = 3 \/
               currentSlot (slotSt b) = 4 \/ currentSlot (slotSt b) = 5) by lia.
  destruct Hc as [Hc|[Hc|[Hc|[Hc|[Hc|Hc]]]]];
    rewrite Hc in S1; zcalc S1;
    rewrite S1 in S2; zcalc S2;
    rewrite S2 in S3; zcalc S3;
    rewrite S3 in S4; zcalc S4;
    rewrite S4 in S5; zcalc S5;
    rewrite S5 in S6; zcalc S6;
    rewrite S1, S2, S3, S4, S5, S6; cbn [slotDuration zsum fold_right];
    rewrite !to_int32_small by lia; lia.
Qed.

(** C6. For a program of six start times in [0, 86399] in ascending order
    and a second of the day [t] in [0, 86399], the first call of
    [checkSchedule] selects exactly one slot, the one whose interval holds
    [t]; and over six successive advances (one full cycle of the six slots)
    the slot durations computed add up to 86400 s, that is 86400000 ms. *)
Theorem schedule_cycle_covers_day (e0 : Env) (a : App) (es : list Env) :
  timeSynchronized e0 = true ->
  currentSlot (slotSt a) < 0 ->
  (forall i, 0 <= i < USED_SLOTS -> 0 <= schedule a i SECS_COL < SECS_IN_DAY) ->
  (forall i j, 0 <= i <= j -> j < USED_SLOTS ->
     schedule a i SECS_COL <= schedule a j SECS_COL) ->
  0 <= currentSecs e0 < SECS_IN_DAY ->
  let a1 := checkSchedule false e0 a in
  (forall i, 0 <= i < USED_SLOTS ->
     currentSlot (slotSt a1) = i <-> in_slot (schedule a) i (currentSecs e0)) /\
  (List.length es = 6%nat -> allExpired es a1 ->
     zsum (durations es a1) = SECS_IN_DAY * 1000).
Proof.
  intros Hsync Hneg Hrange Hsort Ht a1.
  destruct (checkSchedule_first e0 a Hsync Hneg) as [Hst Hsch]. cbv zeta in Hst.
  destruct (scanSlot_spec (schedule a) (currentSecs e0)) as [Hb [Hle Hgt]].
  cbv zeta in Hb, Hle, Hgt.
  set (t := currentSecs e0) in *.
  set (cs := scanSlot (Z.to_nat USED_SLOTS) (schedule a) t (USED_SLOTS - 1)) in *.
  assert (Hcur : currentSlot (slotSt a1) =
                 if (cs <? 0) || (cs =? USED_SLOTS - 1) then USED_SLOTS - 1 else cs).
  { unfold a1. rewrite Hst. reflexivity. }
  unfold USED_SLOTS, SECS_IN_DAY in *.
  split.
  - intros i Hi. rewrite Hcur. unfold in_slot, USED_SLOTS.
    destruct (Z.ltb_spec i (6 - 1)) as [Hi5|Hi5].
    + split.
      * intros Hc.
        destruct (Z.ltb_spec cs 0); destruct (Z.eqb_spec cs (6 - 1));
          cbn [orb] in Hc; try lia.
        subst i. split; [apply Hle; lia | apply Hgt; lia].
      * intros [H1 H2].
        assert (cs = i).
        { destruct (Z.lt_trichotomy cs i) as [Hlt|[Heq|Hlt]]; [|exact Heq|].
          - specialize (Hgt i ltac:(lia)). lia.
          - specialize (Hle ltac:(lia)).
            specialize (Hsort (i + 1) cs ltac:(lia) ltac:(lia)). lia. }
        subst i.
        destruct (Z.ltb_spec cs 0); destruct (Z.eqb_spec cs (6 - 1));
          cbn [orb]; lia.
    + assert (i = 5) by lia. subst i. split.
      * intros Hc.
        destruct (Z.ltb_spec cs 0); destruct (Z.eqb_spec cs (6 - 1));
          cbn [orb] in Hc; try lia.
        -- right. apply Hgt. lia.
        -- left. replace (6 - 1) with cs by lia. apply Hle. lia.
      * intros Hw.
        destruct (Z.ltb_spec cs 0); destruct (Z.eqb_spec cs (6 - 1));
          cbn [orb]; try lia.
        exfalso. specialize (Hle ltac:(lia)). destruct Hw as [Hw|Hw].
        -- specialize (Hgt 5 ltac:(lia)). change (6 - 1) with 5 in Hw. lia.
        -- specialize (Hsort 0 cs ltac:(lia) ltac:(lia)). lia.
  - intros Hlen Hall. apply six_advances; try assumption.
    + intros i Hi. unfold a1. rewrite Hsch. apply Hrange. exact Hi.
    + rewrite Hcur. unfold USED_SLOTS.
      destruct (Z.ltb_spec cs 0); destruct (Z.eqb_spec cs (6 - 1)); cbn [orb]; lia.
Qed.

Lemma schedule_cycle_covers_day_witness :
  zsum (durations envs_cycle (checkSchedule false env_1106 app_S3)) =
  SECS_IN_DAY * 1000.
Proof.
  apply (schedule_cycle_covers_day env_1106 app_S3 envs_cycle).
  - reflexivity.
  - reflexivity.
  - exact sched_S3_range.
  - exact sched_S3_sorted.
  - vm_compute. split; congruence.
  - reflexivity.
  - vm_compute. repeat split; congruence.
Defined.

(** The duration computed by the first call is the remainder of the running
    slot, not a full slot: counted together with the five advances that
    follow it, the sum falls short of a day by the time already spent in the
    slot (40000 - 32400 = 7600 s in scenario S3). *)
Lemma first_call_counts_remainder :
  let a1 := checkSchedule false env_1106 app_S3 in
  slotDuration (slotSt a1) = 5000 * 1000 /\
  slotDuration (slotSt a1) + zsum (durations (firstn 5 envs_cycle) a1) =
    (SECS_IN_DAY - 7600) * 1000.
Proof.
  vm_compute. split; reflexivity.
Qed.

(** ** Printing a number and reading it back *)

Lemma append_assoc (s1 s2 s3 : string) : ((s1 ++ s2) ++ s3 = s1 ++ (s2 ++ s3))%string.
Proof.
  induction s1 as [|c s1 IH]; simpl; [reflexivity | rewrite IH; reflexivity].
Qed.

Lemma length_append (s1 s2 : string) :
  String.length (s1 ++ s2) = (String.length s1 + String.length s2)%nat.
Proof.
  induction s1 as [|c s1 IH]; simpl; [reflexivity | rewrite IH; reflexivity].
Qed.

Lemma drop_last_snoc (s : string) (c : ascii) : drop_last (s ++ String c "") = s.
Proof.
  induction s as [|d s IH]; [reflexivity|].
  simpl. rewrite IH. destruct s; reflexivity.
Qed.

(** The character of a decimal digit. *)
Lemma digit_char (d : Z) :
  0 <= d < 10 ->
  let c := chr (48 + d) in
  is_digit c = true /\ code c - 48 = d /\ is_space c = false /\
  Ascii.eqb c "-" = false /\ Ascii.eqb c "+" = false.
Proof.
  intros Hd.
  assert (Hc : d = 0 \/ d = 1 \/ d = 2 \/ d = 3 \/ d = 4 \/ d = 5 \/ d = 6 \/
               d = 7 \/ d = 8 \/ d = 9) by lia.
  repeat (destruct Hc as [->|Hc]; [vm_compute; repeat split; reflexivity|]).
  subst d. vm_compute. repeat split; reflexivity.
Qed.

Lemma udigits_acc (fuel : nat) (n : Z) (acc : string) :
  udigits fuel n acc = (udigits fuel n "" ++ acc)%string.
Proof.
  revert n acc. induction fuel as [|fuel IH]; intros n acc; [reflexivity|].
  cbn [udigits]. destruct (n <? 10); [reflexivity|].
  rewrite IH. rewrite (IH _ (String _ "")). rewrite append_assoc. reflexivity.
Qed.

Lemma udigits_head (fuel : nat) (n : Z) (acc : string) :
  exists c r, udigits fuel n acc = String c r /\ is_digit c = true /\
              is_space c = false /\ Ascii.eqb c "-" = false /\ Ascii.eqb c "+" = false.
Proof.
  revert n acc. induction fuel as [|fuel IH]; intros n acc; cbn [udigits].
  - destruct (digit_char (n mod 10)) as [H1 [_ [H2 [H3 H4]]]];
      [apply Z.mod_pos_bound; lia|].
    eexists. eexists. repeat split; eassumption.
  - destruct (n <? 10); [|apply IH].
    destruct (digit_char (n mod 10)) as [H1 [_ [H2 [H3 H4]]]];
      [apply Z.mod_pos_bound; lia|].
    eexists. eexists. repeat split; eassumption.
Qed.

Lemma digits_val_udigits (fuel : nat) (n : Z) :
  0 <= n < 10 ^ (Z.of_nat fuel + 1) ->
  exists k, 0 <= k /\ forall a acc,
    digits_val a (udigits fuel n acc) = digits_val (a * 10 ^ k + n) acc.
Proof.
  revert n. induction fuel as [|fuel IH]; intros n Hn.
  - exists 1. split; [lia|]. intros a acc. cbn [udigits digits_val].
    change (10 ^ (Z.of_nat 0 + 1)) with 10 in Hn.
    rewrite Z.mod_small by lia.
    destruct (digit_char n Hn) as [H1 [H2 _]]. cbv zeta in H1, H2.
    rewrite H1, H2. f_equal; lia.
  - cbn [udigits]. destruct (Z.ltb_spec n 10) as [Hlt|Hge].
    + exists 1. split; [lia|]. intros a acc. cbn [digits_val].
      rewrite Z.mod_small by lia.
      destruct (digit_char n ltac:(lia)) as [H1 [H2 _]]. cbv zeta in H1, H2.
      rewrite H1, H2. f_equal; lia.
    + destruct (IH (n / 10)) as [k [Hk IHk]].
      { split; [apply Z.div_pos; lia|].
        apply Z.div_lt_upper_bound; [lia|].
        replace (Z.of_nat (S fuel) + 1) with (Z.succ (Z.of_nat fuel + 1)) in Hn by lia.
        rewrite Z.pow_succ_r in Hn by lia. lia. }
      exists (k + 1). split; [lia|]. intros a acc. rewrite IHk.
      cbn [digits_val].
      destruct (digit_char (n mod 10)) as [H1 [H2 _]];
        [apply Z.mod_pos_bound; lia|]. cbv zeta in H1, H2.
      rewrite H1, H2. f_equal.
      rewrite Z.pow_add_r by lia. change (10 ^ 1) with 10.
      pose proof (Z.div_mod n 10 ltac:(lia)). lia.
Qed.

Lemma utoa_fuel (n : Z) : 0 <= n -> n < 10 ^ (Z.of_nat (Z.to_nat (Z.log2 n)) + 1).
Proof.
  intros Hn. rewrite Z2Nat.id by apply Z.log2_nonneg.
  destruct (Z.eq_dec n 0) as [->|Hne]; [reflexivity|].
  pose proof (Z.log2_spec n ltac:(lia)) as [_ Hup].
  apply Z.lt_le_trans with (1 := Hup).
  replace (Z.succ (Z.log2 n)) with (Z.log2 n + 1) by lia.
  apply Z.pow_le_mono_l. pose proof (Z.log2_nonneg n). lia.
Qed.

(** Reading back a number printed with ["%u"], after one space and before
    something that is not a digit. *)
Lemma getNumber_utoa (n : Z) (rest : string) :
  0 <= n <= LONG_MAX ->
  starts_digit rest = false ->
  getNumber (String " " (utoa n ++ rest)) = (n, rest).
Proof.
  intros Hn Hrest. unfold getNumber, strtol.
  cbn [skip_space]. change (is_space " ") with true. cbv iota.
  unfold utoa.
  destruct (udigits_head (Z.to_nat (Z.log2 n)) n "") as [c [r [Hu [H1 [H2 [H3 H4]]]]]].
  destruct (digits_val_udigits (Z.to_nat (Z.log2 n)) n) as [k [Hk Hd]];
    [split; [lia | apply utoa_fuel; lia]|].
  specialize (Hd 0 rest). rewrite udigits_acc in Hd.
  rewrite Hu in *. cbn [append skip_space read_sign starts_digit] in *.
  rewrite H2. cbn [read_sign]. rewrite H3, H4. cbn [starts_digit]. rewrite H1.
  rewrite Hd.
  replace (0 * 10 ^ k + n) with n by lia.
  assert (Hr : digits_val n rest = (n, rest)).
  { destruct rest as [|c' r']; [reflexivity|].
    cbn [starts_digit] in Hrest. cbn [digits_val]. rewrite Hrest. reflexivity. }
  rewrite Hr. unfold clamp_long, LONG_MAX, LONG_MIN in *.
  f_equal. lia.
Qed.

Lemma numbersText_head (ns : list Z) : starts_digit (numbersText ns) = false.
Proof. destruct ns; reflexivity. Qed.

Lemma land_255 (n : Z) : Z.land n 255 = n mod 256.
Proof. change 255 with (Z.ones 8). rewrite Z.land_ones by lia. reflexivity. Qed.

(** The data loop of [processTuyaMsg] on the text of a list of bytes. *)
Lemma dataPart_numbers (ns : list Z) :
  forall (fuel : nat) (c : Z -> Z) (idx : Z),
    Forall (fun n => 0 <= n < 256) ns ->
    (String.length (numbersText ns) < fuel)%nat ->
    dataPart fuel (numbersText ns) c idx =
      (putBytes c idx ns, idx + Z.of_nat (List.length ns)).
Proof.
  induction ns as [|n ns IH]; intros fuel c idx Hall Hfuel.
  - destruct fuel; [inversion Hfuel|]. cbn. f_equal. lia.
  - destruct fuel; [inversion Hfuel|].
    inversion Hall as [|? ? Hn Hns]; subst.
    cbn [numbersText fold_right] in *. fold (numbersText ns) in *.
    cbn [dataPart].
    rewrite getNumber_utoa;
      [| unfold LONG_MAX; lia | apply numbersText_head].
    replace (n =? LONG_MIN) with false
      by (symmetry; apply Z.eqb_neq; unfold LONG_MIN; lia).
    rewrite land_255, Z.mod_small by lia.
    rewrite IH; [| exact Hns |].
    + cbn [putBytes List.length]. f_equal. lia.
    + cbn [String.length] in Hfuel. rewrite length_append in Hfuel. lia.
Qed.

Lemma numbersText_cons (n : Z) (ns : list Z) :
  numbersText (n :: ns) = String " " (utoa n ++ numbersText ns).
Proof. reflexivity. Qed.

Lemma numbersText_length (ns : list Z) :
  (String.length (numbersText ns) >= List.length ns)%nat.
Proof.
  induction ns as [|n ns IH]; [apply le_n|].
  rewrite numbersText_cons. cbn [String.length List.length].
  rewrite length_append. lia.
Qed.

(** A raw datapoint sent to the MCU: command 6, datapoint [dp], type 0 and
    the data bytes [bs]. *)
Lemma processTuyaMsg_raw (dp : Z) (bs : list Z) :
  0 <= dp < 256 ->
  Forall (fun n => 0 <= n < 256) bs ->
  processTuyaMsg (String "M" (numbersText (6 :: dp :: 0 :: bs))) =
    let idx := 9 + Z.of_nat (List.length bs) in
    let c := upd (upd (upd (upd (upd (upd (upd
               (putBytes (upd (upd (upd (fun _ => 0) 3 6) 6 dp) 7 0) 9 bs)
               0 85) 1 170) 2 0) 4 (wrap8 (Z.shiftr (idx - 5) 8)))
               5 (wrap8 (Z.land (idx - 5) 255)))
               8 (wrap8 (Z.shiftr (idx - 9) 8)))
               9 (wrap8 (Z.land (idx - 9) 255)) in
    Some (0, (cells c (idx + 1) ++ [zsum (cells c (idx + 1)) mod 256])%list).
Proof.
  intros Hdp Hbs. unfold processTuyaMsg, processTuyaMsgFrom.
  change (char_at (String "M" _) 0) with 77. cbn [uartId Z.eqb Pos.eqb].
  cbv beta iota.
  rewrite numbersText_cons.
  rewrite getNumber_utoa; [| unfold LONG_MAX; lia | reflexivity].
  change (wrap8 (Z.land 6 255)) with 6.
  rewrite upd_same. cbn [Z.eqb Pos.eqb orb].
  rewrite numbersText_cons.
  rewrite getNumber_utoa; [| unfold LONG_MAX; lia | reflexivity].
  rewrite numbersText_cons.
  rewrite getNumber_utoa; [| unfold LONG_MAX; lia | apply numbersText_head].
  change (wrap8 (Z.land 0 255)) with 0.
  rewrite upd_same. cbn [Z.eqb].
  rewrite land_255. unfold wrap8 at 1. rewrite Z.mod_mod by lia.
  rewrite (Z.mod_small dp) by lia.
  rewrite dataPart_numbers; [| exact Hbs |].
  2:{ repeat (cbn [String.length]; rewrite ?length_append). lia. }
  cbv zeta.
  rewrite addChecksum_spec; [| lia | apply upd_same].
  do 2 f_equal.
  assert (Hc : forall a b, cells a (9 + Z.of_nat (List.length bs) + 1) =
                           cells b (9 + Z.of_nat (List.length bs) + 1) ->
          (cells a (9 + Z.of_nat (List.length bs) + 1) ++
             [zsum (cells a (9 + Z.of_nat (List.length bs) + 1)) mod 256])%list =
          (cells b (9 + Z.of_nat (List.length bs) + 1) ++
             [zsum (cells b (9 + Z.of_nat (List.length bs) + 1)) mod 256])%list).
  { intros a b ->. reflexivity. }
  apply Hc. apply cells_ext. intros i Hi. apply upd_other. lia.
Qed.

Lemma append_nil_r (s : string) : (s ++ "")%string = s.
Proof.
  induction s as [|c s IH]; simpl; [reflexivity | rewrite IH; reflexivity].
Qed.

Lemma wrap8_small (z : Z) : 0 <= z < 256 -> wrap8 z = z.
Proof. intros H. apply Z.mod_small. exact H. Qed.

Lemma slotBytes_bytes (sch : Z -> Z -> Z) :
  tableBytes sch -> Forall (fun n => 0 <= n < 256) (slotBytes sch).
Proof.
  intros Ht. unfold slotBytes. apply Forall_flat_map.
  apply Forall_forall. intros i Hi. apply in_zseq in Hi.
  repeat constructor; apply Ht; unfold TIME_SLOTS in *; lia.
Qed.

(** The text [updateAppStatus] builds for a complete table is the message
    ["M 6 43 0 b0 b1 ... b31"]. *)
Lemma scheduleMsg_text (sch : Z -> Z -> Z) :
  tableBytes sch ->
  scheduleMsg sch = String "M" (numbersText (6 :: 43 :: 0 :: slotBytes sch)).
Proof.
  intros Ht. unfold scheduleMsg, slotBytes.
  change (zseq 0 (Z.to_nat TIME_SLOTS)) with [0; 1; 2; 3; 4; 5; 6; 7].
  cbn [fold_left flat_map app].
  rewrite !wrap8_small by (apply Ht; unfold TIME_SLOTS; lia).
  rewrite <- !append_assoc.
  change " "%string with (String " " "") at 1.
  rewrite drop_last_snoc.
  rewrite !append_assoc.
  cbn [numbersText fold_right].
  change (utoa 6) with "6"%string. change (utoa 43) with "43"%string.
  change (utoa 0) with "0"%string.
  cbn [append]. rewrite append_nil_r. reflexivity.
Qed.

Lemma processTuyaMsg_schedule (sch : Z -> Z -> Z) :
  tableBytes sch ->
  processTuyaMsg (scheduleMsg sch) = Some (0, frame43 sch).
Proof.
  intros Ht. rewrite scheduleMsg_text by exact Ht.
  rewrite processTuyaMsg_raw; [| lia | apply slotBytes_bytes; exact Ht].
  reflexivity.
Qed.

Lemma set_cell_bytes (sch : Z -> Z -> Z) (slot col v : Z) :
  tableBytes sch -> (0 <= col < 4 -> 0 <= v < 256) -> tableBytes (set_cell sch slot col v).
Proof.
  intros Ht Hv i c Hi Hc. unfold set_cell.
  destruct (Z.eqb_spec i slot); destruct (Z.eqb_spec c col); cbn [andb];
    try (apply Ht; assumption).
  subst. apply Hv. exact Hc.
Qed.

Lemma land_255_bound (n : Z) : 0 <= Z.land n 255 < 256.
Proof. rewrite land_255. apply Z.mod_pos_bound. lia. Qed.

Lemma wrap8_bound (n : Z) : 0 <= wrap8 n < 256.
Proof. apply Z.mod_pos_bound. lia. Qed.

Lemma unassigned_sscanf_bound (value : string) :
  0 <= unassigned (fst (sscanf_hhu_colon_hhu value)) < 256 /\
  0 <= unassigned (snd (sscanf_hhu_colon_hhu value)) < 256.
Proof.
  unfold sscanf_hhu_colon_hhu.
  destruct (strtol value) as [[h r]|]; [|cbn; lia].
  destruct r as [|c r]; [cbn; pose proof (wrap8_bound h); lia|].
  destruct (Ascii.eqb c ":"); [|cbn; pose proof (wrap8_bound h); lia].
  destruct (strtol r) as [[m r']|]; cbn;
    pose proof (wrap8_bound h); try pose proof (wrap8_bound m); lia.
Qed.

(** Evaluate the tests of [updateAppStatus] on a literal key. *)
Ltac eval_key :=
  match goal with |- context [slotKey ?t ?k] =>
    let v := eval vm_compute in (slotKey t k) in change (slotKey t k) with v
  end;
  unfold updateAppStatus;
  cbn [String.eqb Ascii.eqb Bool.eqb]; cbv beta iota zeta;
  repeat match goal with
  | |- context [contains ?x ?y] =>
      let v := eval vm_compute in (contains x y) in change (contains x y) with v
  | |- context [wrap8 (char_at ?x ?y - 48 - 1)] =>
      let v := eval vm_compute in (wrap8 (char_at x y - 48 - 1)) in
      change (wrap8 (char_at x y - 48 - 1)) with v
  end;
  cbv beta iota;
  change (0 <? TIME_SLOTS) with true; change (1 <? TIME_SLOTS) with true;
  change (2 <? TIME_SLOTS) with true; change (3 <? TIME_SLOTS) with true;
  change (4 <? TIME_SLOTS) with true; change (5 <? TIME_SLOTS) with true;
  change (6 <? TIME_SLOTS) with true; change (7 <? TIME_SLOTS) with true;
  cbv beta iota.

(** A valid slot edit stores its field and counts one; the edit that brings
    the count to [2 * TIME_SLOTS] resets it and, when the configuration is
    loaded, sends the complete table. *)
Lemma slot_edit (temp : bool) (n : Z) (value : string) (a : App) :
  1 <= n <= TIME_SLOTS ->
  exists sch',
    (tableBytes (schedule a) -> tableBytes sch') /\
    updateAppStatus false (slotKey temp n) value a =
      let a1 := set_slotCnt (slotCnt a + 1) (set_schedule sch' a) in
      if slotCnt a + 1 >=? TIME_SLOTS * 2 then
        if configLoaded a
        then sendTuyaMsg (scheduleMsg sch') (set_slotCnt 0 a1)
        else set_slotCnt 0 a1
      else a1.
Proof.
  unfold TIME_SLOTS at 1. intros Hn.
  assert (Hc : n = 1 \/ n = 2 \/ n = 3 \/ n = 4 \/ n = 5 \/ n = 6 \/ n = 7 \/ n = 8) by lia.
  pose proof (unassigned_sscanf_bound value) as [Hh Hm].
  destruct temp;
    destruct Hc as [->|[->|[->|[->|[->|[->|[->| ->]]]]]]];
    (eexists; split;
     [| eval_key;
        try rewrite (surjective_pairing (sscanf_hhu_colon_hhu value));
        cbv beta iota zeta;
        match goal with
        | |- context [slotCnt (set_slotCnt ?v ?b) >=? _] =>
            change (slotCnt (set_slotCnt v b)) with v
        end;
        destruct (slotCnt a + 1 >=? TIME_SLOTS * 2); cbv beta iota zeta;
        [change (configLoaded (set_slotCnt 0
                   (set_slotCnt (slotCnt a + 1) (set_schedule ?s a))))
           with (configLoaded a);
         destruct (configLoaded a); reflexivity
        | change (configLoaded (set_slotCnt (slotCnt a + 1) (set_schedule ?s a)))
           with (configLoaded a);
          rewrite andb_false_r; reflexivity ] ]).
  all: intros Ht; repeat apply set_cell_bytes; try exact Ht;
    unfold SECS_COL; intros; try lia; try apply land_255_bound; assumption.
Qed.

Lemma slot_edit_valid (kv : string * string) (a : App) :
  validSlotEdit kv ->
  exists sch',
    (tableBytes (schedule a) -> tableBytes sch') /\
    updateAppStatus false (fst kv) (snd kv) a =
      let a1 := set_slotCnt (slotCnt a + 1) (set_schedule sch' a) in
      if slotCnt a + 1 >=? TIME_SLOTS * 2 then
        if configLoaded a
        then sendTuyaMsg (scheduleMsg sch') (set_slotCnt 0 a1)
        else set_slotCnt 0 a1
      else a1.
Proof.
  intros [temp [n [Hn [Hk _]]]]. rewrite Hk. apply slot_edit. exact Hn.
Qed.

(** While fewer than [2 * TIME_SLOTS] valid edits have been counted nothing
    is written to the MCU. *)
Lemma pending_edits (kvs : list (string * string)) :
  forall a : App,
    Forall validSlotEdit kvs ->
    slotCnt a + Z.of_nat (List.length kvs) < TIME_SLOTS * 2 ->
    uartOut (updates kvs a) = uartOut a /\
    slotCnt (updates kvs a) = slotCnt a + Z.of_nat (List.length kvs) /\
    configLoaded (updates kvs a) = configLoaded a /\
    (tableBytes (schedule a) -> tableBytes (schedule (updates kvs a))).
Proof.
  induction kvs as [|kv kvs IH]; intros a Hall Hcnt.
  - cbn. split; [reflexivity|]. split; [lia|]. split; [reflexivity|]. trivial.
  - inversion Hall as [|? ? Hkv Hkvs]; subst.
    cbn [List.length] in Hcnt.
    destruct (slot_edit_valid kv a Hkv) as [sch' [Hb Hstep]].
    cbv zeta in Hstep.
    replace (slotCnt a + 1 >=? TIME_SLOTS * 2) with false in Hstep
      by (symmetry; rewrite Z.geb_leb; apply Z.leb_gt; lia).
    unfold updates in *. cbn [fold_left]. rewrite Hstep.
    destruct (IH (set_slotCnt (slotCnt a + 1) (set_schedule sch' a)) Hkvs)
      as [H1 [H2 [H3 H4]]].
    { cbn [slotCnt set_slotCnt]. lia. }
    rewrite H1, H2, H3. cbn [List.length].
    split; [reflexivity|]. split; [cbn [slotCnt set_slotCnt]; lia|].
    split; [reflexivity|].
    intros Ht. apply H4. apply Hb. exact Ht.
Qed.

(** C7 (as the code has it). With [k < 16] valid slot edits counted (the
    invariant [appInv]), every valid edit before the one that brings the
    count to [2 * TIME_SLOTS = 16] is counted and writes nothing; that edit
    sets the counter back to zero and, with the configuration loaded,
    produces exactly one datapoint-43 frame, whose 32 data bytes are the slot
    table in order (HH, MM, TH, TL) for slots 0..7.  While the configuration
    is not loaded the counter counts and is set back in the same way, but no
    frame is written. *)
Theorem slot_batch_one_frame (a : App) (kvs : list (string * string))
    (last : string * string) :
  appInv a ->
  slotCnt a + Z.of_nat (List.length kvs) + 1 = TIME_SLOTS * 2 ->
  Forall validSlotEdit kvs ->
  validSlotEdit last ->
  let a2 := updates (kvs ++ [last]) a in
  (forall k, uartOut (updates (firstn k kvs) a) = uartOut a /\
             slotCnt (updates (firstn k kvs) a) =
               slotCnt a + Z.of_nat (List.length (firstn k kvs))) /\
  slotCnt a2 = 0 /\
  (configLoaded a = true ->
   uartOut a2 = (uartOut a ++ [(0, frame43 (schedule a2))])%list) /\
  (configLoaded a = false -> uartOut a2 = uartOut a).
Proof.
  intros [[Hk _] Ht] Hcnt Hall Hlast a2.
  split.
  - intros k.
    destruct (pending_edits (firstn k kvs) a) as [H1 [H2 _]].
    + rewrite <- (firstn_skipn k kvs) in Hall.
      apply Forall_app in Hall. exact (proj1 Hall).
    + rewrite length_firstn. lia.
    + split; assumption.
  - destruct (pending_edits kvs a Hall ltac:(lia)) as [H1 [H2 [H3 H4]]].
    subst a2. unfold updates in *. rewrite fold_left_app. cbn [fold_left].
    set (a1 := fold_left _ kvs a) in *.
    destruct (slot_edit_valid last a1 Hlast) as [sch' [Hb Hstep]].
    cbv zeta in Hstep.
    replace (slotCnt a1 + 1 >=? TIME_SLOTS * 2) with true in Hstep
      by (symmetry; rewrite Z.geb_leb; apply Z.leb_le; lia).
    rewrite H3 in Hstep. rewrite Hstep.
    destruct (configLoaded a).
    + unfold sendTuyaMsg.
      rewrite processTuyaMsg_schedule by (apply Hb, H4, Ht).
      cbn [uartOut set_uartOut schedule slotCnt set_slotCnt set_schedule].
      rewrite H1. split; [reflexivity|]. split; [reflexivity | discriminate].
    + cbn [uartOut set_uartOut schedule slotCnt set_slotCnt set_schedule].
      rewrite H1. split; [reflexivity|]. split; [discriminate | reflexivity].
Qed.

Ltac valid_edit t n :=
  solve [ exists t, n; split; [vm_compute; split; congruence|];
          split; [reflexivity|]; intros Hf;
          first [ discriminate Hf | eexists; eexists; vm_compute; reflexivity ] ].

Lemma slot_batch_one_frame_witness :
  uartOut (updates edits16 (appInit true)) =
    [(0, [85; 170; 0; 6; 0; 36; 43; 0; 0; 32;
          6; 0; 0; 200; 8; 30; 0; 160; 9; 0; 0; 160; 12; 30; 0; 185;
          16; 30; 0; 210; 22; 0; 0; 150; 8; 0; 0; 200; 23; 0; 0; 150; 189])] /\
  slotCnt (updates edits16 (appInit true)) = 0.
Proof.
  assert (Hv : Forall validSlotEdit edits16).
  { repeat constructor.
    all: first [ valid_edit false 1 | valid_edit true 1 | valid_edit false 2
               | valid_edit true 2 | valid_edit false 3 | valid_edit true 3
               | valid_edit false 4 | valid_edit true 4 | valid_edit false 5
               | valid_edit true 5 | valid_edit false 6 | valid_edit true 6
               | valid_edit false 7 | valid_edit true 7 | valid_edit false 8
               | valid_edit true 8 ]. }
  destruct (slot_batch_one_frame (appInit true) (removelast edits16)
              ("slotTemp8", "15") (appInit_inv true) eq_refl)
    as [_ [H3 [H2 _]]].
  - apply Forall_forall. intros x Hx. apply (proj1 (Forall_forall _ _) Hv).
    cbn in Hx. cbn. tauto.
  - apply (proj1 (Forall_forall _ _) Hv). cbn. tauto.
  - cbv zeta in H2, H3. specialize (H2 eq_refl).
    change (removelast edits16 ++ [("slotTemp8", "15")])%list with edits16 in H2, H3.
    split; [|exact H3].
    rewrite H2. vm_compute. reflexivity.
Defined.

(** C7 as stated fails while the configuration is being loaded
    ([configLoaded] false): all sixteen valid edits are counted, the counter
    returns to zero, and no frame is written. *)
Lemma slot_batch_not_loaded_counterexample :
  slotCnt (appInit false) = 0 /\
  List.length edits16 = 16%nat /\
  uartOut (updates edits16 (appInit false)) = [] /\
  slotCnt (updates edits16 (appInit false)) = 0.
Proof.
  vm_compute. repeat split; reflexivity.
Qed.

(** With one edit already counted, the frame leaves on the fifteenth of
    sixteen further edits, before the last of them has arrived: it carries
    the table without that last field, and the counter ends at one. *)
Lemma slot_batch_with_pending_edit :
  let a := updates [("slotTime1", "07:00")] (appInit true) in
  slotCnt a = 1 /\
  uartOut (updates (removelast edits16) a) =
    [(0, [85; 170; 0; 6; 0; 36; 43; 0; 0; 32;
          6; 0; 0; 200; 8; 30; 0; 160; 9; 0; 0; 160; 12; 30; 0; 185;
          16; 30; 0; 210; 22; 0; 0; 150; 8; 0; 0; 200; 23; 0; 0; 0; 39])] /\
  uartOut (updates edits16 a) = uartOut (updates (removelast edits16) a) /\
  slotCnt (updates edits16 a) = 1.
Proof.
  vm_compute. repeat split; reflexivity.
Qed.

(** ** The inbound reassembler *)

Lemma lor_shiftl8 (x y : Z) :
  0 <= x -> 0 <= y < 256 -> Z.lor (Z.shiftl x 8) y = x * 256 + y.
Proof.
  intros Hx Hy. rewrite Z.shiftl_mul_pow2 by lia. change (2 ^ 8) with 256.
  assert (Hland : Z.land (x * 256) y = 0).
  { apply Z.bits_inj'. intros n Hn. rewrite Z.land_spec, Z.bits_0.
    destruct (Z.lt_ge_cases n 8) as [Hlo|Hhi].
    - change 256 with (2 ^ 8). rewrite Z.mul_pow2_bits_low by lia. reflexivity.
    - rewrite (Z.bits_above_log2 y n); [apply andb_false_r | lia |].
      destruct (Z.eq_dec y 0) as [->|Hne]; [simpl; lia|].
      apply Z.lt_le_trans with 8; [|exact Hhi].
      apply Z.log2_lt_pow2; lia. }
  rewrite <- Z.lxor_lor by exact Hland.
  symmetry. apply Z.add_nocarry_lxor. exact Hland.
Qed.

(** The header test of [processTuyaByte] on two bytes. *)
Lemma last2_header (data : Z -> Z) (idx : Z) :
  isByte (data (idx - 2)) -> isByte (data (idx - 1)) ->
  (last2 data idx =? header) = true <->
  data (idx - 2) = 85 /\ data (idx - 1) = 170.
Proof.
  unfold isByte, last2, header, wrap16. intros H2 H1.
  rewrite lor_shiftl8 by lia. rewrite Z.mod_small by lia.
  rewrite Z.eqb_eq. lia.
Qed.

Lemma last2_value (data : Z -> Z) (idx : Z) :
  isByte (data (idx - 2)) -> isByte (data (idx - 1)) ->
  last2 data idx = data (idx - 2) * 256 + data (idx - 1).
Proof.
  unfold isByte, last2, wrap16. intros H2 H1.
  rewrite lor_shiftl8 by lia. apply Z.mod_small. lia.
Qed.

Lemma storeBytes_app (b1 b2 : list Z) :
  forall (buf : Z -> Z) (idx : Z),
    storeBytes buf idx (b1 ++ b2) =
    storeBytes (storeBytes buf idx b1) (idx + Z.of_nat (List.length b1)) b2.
Proof.
  induction b1 as [|b b1 IH]; intros buf idx.
  - cbn. f_equal. lia.
  - cbn [app storeBytes List.length]. rewrite IH. f_equal. lia.
Qed.

Lemma cells_storeBytes (bytes : list Z) :
  forall (buf : Z -> Z) (idx : Z),
    0 <= idx ->
    cells (storeBytes buf idx bytes) (idx + Z.of_nat (List.length bytes)) =
    (cells buf idx ++ bytes)%list.
Proof.
  induction bytes as [|b bytes IH]; intros buf idx Hidx.
  - cbn [storeBytes List.length]. rewrite Z.add_0_r, app_nil_r. reflexivity.
  - cbn [storeBytes List.length].
    replace (idx + Z.of_nat (S (List.length bytes)))
      with (idx + 1 + Z.of_nat (List.length bytes)) by lia.
    rewrite IH by lia. rewrite cells_S by lia. rewrite upd_same.
    rewrite <- app_assoc. cbn [app]. f_equal.
    apply cells_ext. intros i Hi. apply upd_other. lia.
Qed.

Section Reassembler.

Variable BUFF_LEN : Z.
Hypothesis BUFF_LEN_range : 17 <= BUFF_LEN < 65546.

Lemma msgLen0_value : msgLen0 BUFF_LEN = BUFF_LEN - 10.
Proof. unfold msgLen0, wrap16. apply Z.mod_small. lia. Qed.

(** One byte while no header has been seen and the two last bytes are not
    the header. *)
Lemma reassemble_garbage (p : Port) (b prev : Z) :
  haveHdr p = false -> msgLen p = msgLen0 BUFF_LEN ->
  0 <= tuyaIdx p -> tuyaIdx p + 1 < BUFF_LEN - 10 ->
  isByte b -> isByte prev ->
  (0 < tuyaIdx p -> tuyaBuf p (tuyaIdx p - 1) = prev) ->
  ~ (prev = 85 /\ b = 170) ->
  reassemble BUFF_LEN p b =
    (mkPort (tuyaIdx p + 1) false (msgLen0 BUFF_LEN) (upd (tuyaBuf p) (tuyaIdx p) b),
     None).
Proof.
  intros Hh Hm Hi Hlim Hb Hprev Hbuf Hno.
  unfold reassemble. rewrite Hh, Hm. cbn [negb andb].
  set (data := upd (tuyaBuf p) (tuyaIdx p) b).
  assert (Hhdr : (if (tuyaIdx p + 1 >? 1) && true
                  then if last2 data (tuyaIdx p + 1) =? header
                       then (memmove2 data (tuyaIdx p + 1 - 2), 2, true)
                       else (data, tuyaIdx p + 1, false)
                  else (data, tuyaIdx p + 1, false)) = (data, tuyaIdx p + 1, false)).
  { destruct (Z.gtb_spec (tuyaIdx p + 1) 1) as [Hgt|Hle]; [|reflexivity].
    cbn [andb].
    destruct (last2 data (tuyaIdx p + 1) =? header) eqn:E; [|reflexivity].
    exfalso. apply Hno.
    assert (D1 : data (tuyaIdx p + 1 - 1) = b).
    { unfold data. replace (tuyaIdx p + 1 - 1) with (tuyaIdx p) by lia. apply upd_same. }
    assert (D2 : data (tuyaIdx p + 1 - 2) = prev).
    { unfold data. rewrite upd_other by lia.
      replace (tuyaIdx p + 1 - 2) with (tuyaIdx p - 1) by lia. apply Hbuf. lia. }
    apply last2_header in E; [| rewrite D2; exact Hprev | rewrite D1; exact Hb].
    rewrite D1, D2 in E. exact E. }
  rewrite Hhdr. rewrite andb_false_r.
  rewrite msgLen0_value.
  replace (tuyaIdx p + 1 =? Z.min (BUFF_LEN - 10 + 7) (BUFF_LEN - 10)) with false
    by (symmetry; apply Z.eqb_neq; lia).
  rewrite <- msgLen0_value. reflexivity.
Qed.

(** Bytes that never complete a header are only buffered. *)
Lemma reassembleAll_garbage (g : list Z) :
  forall (p : Port) (prev : Z),
    haveHdr p = false -> msgLen p = msgLen0 BUFF_LEN ->
    0 <= tuyaIdx p -> tuyaIdx p + Z.of_nat (List.length g) < BUFF_LEN - 10 ->
    Forall isByte g -> isByte prev ->
    (0 < tuyaIdx p -> tuyaBuf p (tuyaIdx p - 1) = prev) ->
    noHeader prev g ->
    reassembleAll BUFF_LEN p g =
      (mkPort (tuyaIdx p + Z.of_nat (List.length g)) false (msgLen0 BUFF_LEN)
              (storeBytes (tuyaBuf p) (tuyaIdx p) g), []).
Proof.
  induction g as [|b g IH]; intros p prev Hh Hm Hi Hlim Hg Hprev Hbuf Hno.
  - cbn. destruct p as [i h m d]. cbn in *. subst. f_equal. f_equal. lia.
  - inversion Hg as [|? ? Hb Hg']; subst. destruct Hno as [Hno Hno'].
    cbn [List.length] in Hlim.
    cbn [reassembleAll].
    rewrite (reassemble_garbage p b prev) by (try assumption; lia).
    rewrite (IH _ b); cbn [tuyaIdx haveHdr msgLen tuyaBuf];
      try assumption; try reflexivity; try lia.
    + cbn [storeBytes]. change (List.length (b :: g)) with (S (List.length g)).
      replace (tuyaIdx p + Z.of_nat (S (List.length g)))
        with (tuyaIdx p + 1 + Z.of_nat (List.length g)) by lia.
      reflexivity.
    + intros _. replace (tuyaIdx p + 1 - 1) with (tuyaIdx p) by lia. apply upd_same.
Qed.

(** The byte 0xAA after a 0x55 while no header has been seen: the two bytes
    are moved to the start of the buffer and decoding restarts at offset 2. *)
Lemma reassemble_header (p : Port) :
  haveHdr p = false -> msgLen p = msgLen0 BUFF_LEN ->
  0 < tuyaIdx p -> tuyaIdx p + 1 < BUFF_LEN ->
  tuyaBuf p (tuyaIdx p - 1) = 85 ->
  reassemble BUFF_LEN p 170 =
    (mkPort 2 true (msgLen0 BUFF_LEN)
            (memmove2 (upd (tuyaBuf p) (tuyaIdx p) 170) (tuyaIdx p - 1)), None).
Proof.
  intros Hh Hm Hi Hlim Hprev.
  unfold reassemble. rewrite Hh, Hm. cbn [negb andb].
  set (data := upd (tuyaBuf p) (tuyaIdx p) 170).
  replace (tuyaIdx p + 1 >? 1) with true by (symmetry; apply Z.gtb_lt; lia).
  cbn [andb].
  assert (D1 : data (tuyaIdx p + 1 - 1) = 170).
  { unfold data. replace (tuyaIdx p + 1 - 1) with (tuyaIdx p) by lia. apply upd_same. }
  assert (D2 : data (tuyaIdx p + 1 - 2) = 85).
  { unfold data. rewrite upd_other by lia.
    replace (tuyaIdx p + 1 - 2) with (tuyaIdx p - 1) by lia. exact Hprev. }
  assert (E : (last2 data (tuyaIdx p + 1) =? header) = true).
  { apply last2_header; [rewrite D2 | rewrite D1 | split; assumption];
      unfold isByte; lia. }
  rewrite E. cbv beta iota. change ((2 =? 6) && true) with false. cbv iota.
  rewrite msgLen0_value.
  replace (2 =? Z.min (BUFF_LEN - 10 + 7) (BUFF_LEN - 10)) with false
    by (symmetry; apply Z.eqb_neq; lia).
  rewrite <- msgLen0_value.
  replace (tuyaIdx p + 1 - 2) with (tuyaIdx p - 1) by lia. reflexivity.
Qed.


(** One byte while a header has been seen: the byte is stored, the length is
    taken when six bytes are there, and the message is handed over when its
    end (or the limit of the buffer) is reached.  The header is not looked
    for. *)
Lemma reassemble_inflight (p : Port) (b : Z) :
  haveHdr p = true ->
  reassemble BUFF_LEN p b =
    let data := upd (tuyaBuf p) (tuyaIdx p) b in
    let idx := tuyaIdx p + 1 in
    let mlen := if idx =? 6 then last2 data idx else msgLen p in
    if idx =? Z.min (mlen + 7) (BUFF_LEN - 10)
    then (portReset BUFF_LEN data, Some (data, idx))
    else (mkPort idx true mlen data, None).
Proof.
  intros Hh. unfold reassemble. rewrite Hh. cbn [negb].
  rewrite andb_false_r, andb_true_r. reflexivity.
Qed.

Lemma reassembleAll_app (x y : list Z) :
  forall p : Port,
    reassembleAll BUFF_LEN p (x ++ y) =
    let '(p1, m1) := reassembleAll BUFF_LEN p x in
    let '(p2, m2) := reassembleAll BUFF_LEN p1 y in
    (p2, (m1 ++ m2)%list).
Proof.
  induction x as [|b x IH]; intros p.
  - cbn. destruct (reassembleAll BUFF_LEN p y). reflexivity.
  - cbn [app reassembleAll]. destruct (reassemble BUFF_LEN p b) as [p1 m].
    rewrite IH. destruct (reassembleAll BUFF_LEN p1 x) as [p2 m1].
    destruct (reassembleAll BUFF_LEN p2 y) as [p3 m2].
    destruct m; reflexivity.
Qed.

(** The bytes after the length field: the last one completes the message. *)
Lemma reassembleAll_tail (L : Z) (rest : list Z) :
  forall p : Port,
    haveHdr p = true -> msgLen p = L ->
    6 <= tuyaIdx p -> L + 7 <= BUFF_LEN - 10 ->
    rest <> [] ->
    tuyaIdx p + Z.of_nat (List.length rest) = L + 7 ->
    reassembleAll BUFF_LEN p rest =
      (portReset BUFF_LEN (storeBytes (tuyaBuf p) (tuyaIdx p) rest),
       [(storeBytes (tuyaBuf p) (tuyaIdx p) rest, L + 7)]).
Proof.
  induction rest as [|b rest IH]; intros p Hh Hm Hi HL Hne Hlen; [congruence|].
  change (List.length (b :: rest)) with (S (List.length rest)) in Hlen.
  cbn [reassembleAll storeBytes]. rewrite reassemble_inflight by exact Hh.
  cbv zeta. replace (tuyaIdx p + 1 =? 6) with false
    by (symmetry; apply Z.eqb_neq; lia).
  rewrite Hm. rewrite Z.min_l by lia.
  destruct rest as [|b' rest'].
  - cbn [List.length] in Hlen.
    replace (tuyaIdx p + 1 =? L + 7) with true by (symmetry; apply Z.eqb_eq; lia).
    cbn [reassembleAll storeBytes]. replace (tuyaIdx p + 1) with (L + 7) by lia.
    reflexivity.
  - replace (tuyaIdx p + 1 =? L + 7) with false
      by (symmetry; apply Z.eqb_neq; cbn [List.length] in Hlen; lia).
    rewrite IH; cbn [tuyaIdx haveHdr msgLen tuyaBuf];
      try reflexivity; try lia; try congruence.
Qed.

(** Version, command and the two length bytes after the header. *)
Lemma reassembleAll_fields (p : Port) (ver cmd lh ll : Z) :
  haveHdr p = true -> msgLen p = msgLen0 BUFF_LEN -> tuyaIdx p = 2 ->
  isByte lh -> isByte ll ->
  reassembleAll BUFF_LEN p [ver; cmd; lh; ll] =
    (mkPort 6 true (lh * 256 + ll) (storeBytes (tuyaBuf p) 2 [ver; cmd; lh; ll]), []).
Proof.
  intros Hh Hm Hi Hlh Hll.
  cbn [reassembleAll storeBytes].
  rewrite reassemble_inflight by exact Hh. cbv zeta. rewrite Hi, Hm.
  change (2 + 1) with 3. change (3 =? 6) with false. cbv iota.
  rewrite msgLen0_value. rewrite Z.min_r by lia.
  replace (3 =? BUFF_LEN - 10) with false by (symmetry; apply Z.eqb_neq; lia).
  rewrite reassemble_inflight by reflexivity. cbv zeta.
  cbn [tuyaIdx msgLen tuyaBuf].
  change (3 + 1) with 4. change (4 =? 6) with false. cbv iota.
  rewrite Z.min_r by lia.
  replace (4 =? BUFF_LEN - 10) with false by (symmetry; apply Z.eqb_neq; lia).
  rewrite reassemble_inflight by reflexivity. cbv zeta.
  cbn [tuyaIdx msgLen tuyaBuf].
  change (4 + 1) with 5. change (5 =? 6) with false. cbv iota.
  rewrite Z.min_r by lia.
  replace (5 =? BUFF_LEN - 10) with false by (symmetry; apply Z.eqb_neq; lia).
  rewrite reassemble_inflight by reflexivity. cbv zeta.
  cbn [tuyaIdx msgLen tuyaBuf].
  change (5 + 1) with 6. change (6 =? 6) with true. cbv iota.
  set (data := upd _ 5 ll).
  assert (D1 : data (6 - 1) = ll) by apply upd_same.
  assert (D2 : data (6 - 2) = lh).
  { unfold data. rewrite upd_other by lia. apply upd_same. }
  rewrite last2_value by (rewrite ?D1, ?D2; assumption).
  rewrite D1, D2. unfold isByte in *.
  replace (6 =? Z.min (lh * 256 + ll + 7) (BUFF_LEN - 10)) with false
    by (symmetry; apply Z.eqb_neq; lia).
  reflexivity.
Qed.


Lemma reassembleAll_one (p : Port) (b : Z) :
  reassembleAll BUFF_LEN p [b] =
    (fst (reassemble BUFF_LEN p b),
     match snd (reassemble BUFF_LEN p b) with Some m => [m] | None => [] end).
Proof.
  cbn [reassembleAll]. destruct (reassemble BUFF_LEN p b) as [p1 [m|]]; reflexivity.
Qed.

Lemma noHeader_snoc85 (g : list Z) :
  forall prev, noHeader prev g -> noHeader prev (g ++ [85]).
Proof.
  induction g as [|b g IH]; intros prev H.
  - cbn. split; [|exact I]. intros [_ H85]. discriminate H85.
  - destruct H as [H1 H2]. cbn [app noHeader]. split; [exact H1|].
    apply IH. exact H2.
Qed.

Lemma storeBytes_last (g : list Z) (buf : Z -> Z) (idx b : Z) :
  storeBytes buf idx (g ++ [b]) (idx + Z.of_nat (List.length g)) = b.
Proof.
  rewrite storeBytes_app. cbn [storeBytes]. apply upd_same.
Qed.

(** A frame after bytes that complete no header, from statics in which no
    header has been seen: the header of the frame discards what was
    buffered, and the frame is handed over complete, once, at its last
    byte. *)
Lemma reassembleAll_frame (p : Port) (prev : Z) (g f : list Z) :
  haveHdr p = false -> msgLen p = msgLen0 BUFF_LEN ->
  0 <= tuyaIdx p ->
  isByte prev -> (0 < tuyaIdx p -> tuyaBuf p (tuyaIdx p - 1) = prev) ->
  Forall isByte g -> noHeader prev g ->
  tuyaIdx p + Z.of_nat (List.length g) < BUFF_LEN - 11 ->
  validFrame BUFF_LEN f ->
  let buf' :=
    storeBytes
      (memmove2 (storeBytes (tuyaBuf p) (tuyaIdx p) (g ++ [85; 170]))
                (tuyaIdx p + Z.of_nat (List.length g)))
      2 (skipn 2 f) in
  reassembleAll BUFF_LEN p (g ++ f) =
    (portReset BUFF_LEN buf', [(buf', Z.of_nat (List.length f))]) /\
  messageBytes (buf', Z.of_nat (List.length f)) = f.
Proof.
  intros Hh Hm Hi Hprev Hbuf Hg Hno Hlim [Hf [ver [cmd [lh [ll [rest [-> [Hlen Hfit]]]]]]]].
  cbn [skipn].
  assert (Hb : isByte lh /\ isByte ll).
  { inversion Hf as [|? ? _ H1]; subst. inversion H1 as [|? ? _ H2]; subst.
    inversion H2 as [|? ? _ H3]; subst. inversion H3 as [|? ? _ H4]; subst.
    inversion H4 as [|? ? Hlh H5]; subst. inversion H5 as [|? ? Hll _]; subst.
    split; assumption. }
  destruct Hb as [Hlh Hll].
  set (k := tuyaIdx p) in *. set (n := Z.of_nat (List.length g)) in *.
  set (bufA := storeBytes (tuyaBuf p) k (g ++ [85; 170])).
  set (bufH := memmove2 bufA (k + n)).
  set (L := lh * 256 + ll) in *.
  (* the garbage and the first header byte *)
  assert (S1 : reassembleAll BUFF_LEN p (g ++ [85]) =
               (mkPort (k + n + 1) false (msgLen0 BUFF_LEN)
                       (storeBytes (tuyaBuf p) k (g ++ [85])), [])).
  { rewrite (reassembleAll_garbage (g ++ [85]) p prev); try assumption.
    - rewrite length_app. cbn [List.length]. fold k. do 2 f_equal. unfold n. lia.
    - rewrite length_app. cbn [List.length]. fold k. unfold n in Hlim. lia.
    - apply Forall_app. split; [exact Hg|]. repeat constructor; unfold isByte; lia.
    - apply noHeader_snoc85. exact Hno. }
  (* the second header byte *)
  assert (S2 : reassemble BUFF_LEN
                 (mkPort (k + n + 1) false (msgLen0 BUFF_LEN)
                         (storeBytes (tuyaBuf p) k (g ++ [85]))) 170 =
               (mkPort 2 true (msgLen0 BUFF_LEN) bufH, None)).
  { rewrite reassemble_header; cbn [tuyaIdx haveHdr msgLen tuyaBuf];
      try reflexivity; try (unfold n in *; lia).
    - unfold bufH, bufA. f_equal. f_equal.
      replace (k + n + 1 - 1) with (k + n) by lia.
      replace (g ++ [85; 170])%list with ((g ++ [85]) ++ [170])%list
        by (rewrite <- app_assoc; reflexivity).
      rewrite (storeBytes_app (g ++ [85]) [170]). cbn [storeBytes].
      rewrite length_app. cbn [List.length]. do 2 f_equal. unfold n. lia.
    - replace (k + n + 1 - 1) with (k + n) by lia. apply storeBytes_last. }
  replace (g ++ 85 :: 170 :: ver :: cmd :: lh :: ll :: rest)%list
    with ((g ++ [85]) ++ [170] ++ [ver; cmd; lh; ll] ++ rest)%list
    by (rewrite <- app_assoc; reflexivity).
  rewrite reassembleAll_app, S1.
  rewrite reassembleAll_app. rewrite reassembleAll_one, S2. cbn [fst snd].
  rewrite reassembleAll_app.
  rewrite reassembleAll_fields by (try reflexivity; assumption).
  assert (Hrest : rest <> []).
  { destruct rest; [|congruence].
    cbn in Hlen. unfold L in *. unfold isByte in *. lia. }
  rewrite (reassembleAll_tail L rest); cbn [tuyaIdx haveHdr msgLen tuyaBuf];
    try reflexivity; try assumption; try lia.
  cbn [tuyaBuf tuyaIdx app].
  assert (Hbuf' : storeBytes (storeBytes bufH 2 [ver; cmd; lh; ll]) 6 rest =
                  storeBytes bufH 2 (ver :: cmd :: lh :: ll :: rest)) by reflexivity.
  rewrite Hbuf'.
  assert (Hlenf : Z.of_nat (List.length (85 :: 170 :: ver :: cmd :: lh :: ll :: rest)) = L + 7).
  { cbn [List.length]. lia. }
  rewrite Hlenf. split; [reflexivity|].
  unfold messageBytes. cbn [fst snd].
  replace (L + 7) with (2 + Z.of_nat (List.length (ver :: cmd :: lh :: ll :: rest)))
    by (cbn [List.length]; lia).
  rewrite cells_storeBytes by lia.
  assert (Hhd : cells bufH 2 = [85; 170]).
  { change (cells bufH 2) with [bufA (k + n); bufA (k + n + 1)].
    unfold bufA.
    replace (g ++ [85; 170])%list with ((g ++ [85]) ++ [170])%list
      by (rewrite <- app_assoc; reflexivity).
    f_equal; [|f_equal].
    - rewrite (storeBytes_app (g ++ [85]) [170]). cbn [storeBytes].
      rewrite upd_other by (rewrite length_app; cbn [List.length]; unfold n; lia).
      apply storeBytes_last.
    - replace (k + n + 1) with (k + Z.of_nat (List.length (g ++ [85])))
        by (rewrite length_app; cbn [List.length]; unfold n; lia).
      apply storeBytes_last. }
  rewrite Hhd. reflexivity.
Qed.

End Reassembler.



Lemma frame_heartbeat_valid : validFrame 256 frame_heartbeat.
Proof.
  split.
  - repeat constructor; unfold isByte; lia.
  - exists 3, 0, 0, 1, [1; 4]. repeat split; try reflexivity; lia.
Qed.



(** The limit of the buffer also hands over bytes that are no frame: 245
    zero bytes and the 0x55 of a following frame are handed over as one
    message of 246 bytes when [BUFF_LEN] is 256, and the frame is lost. *)
Lemma garbage_reaches_limit :
  map messageBytes
    (snd (reassembleAll 256 (port0 256) (repeat 0 245 ++ frame_heartbeat))) =
    [(repeat 0 245 ++ [85])%list].
Proof.
  vm_compute. reflexivity.
Qed.

(** ** From the byte stream to the dispatcher *)

(** [processTuyaByte] over a stream: the application state is changed by
    the messages the reassembler completes, in order, and by nothing else. *)
Lemma feedBytes_messages (U : bool) (B : Z) (e : Env) (u : Z) (bytes : list Z) :
  forall (ports : Z -> Port) (a : App),
    snd (feedBytes U B e u bytes (ports, a)) =
      fold_left (fun a m => deliver U e u m a)
                (snd (reassembleAll B (ports u) bytes)) a /\
    fst (feedBytes U B e u bytes (ports, a)) u = fst (reassembleAll B (ports u) bytes).
Proof.
  induction bytes as [|b bytes IH]; intros ports a.
  - split; reflexivity.
  - unfold feedBytes in *. cbn [fold_left reassembleAll processTuyaByte].
    destruct (reassemble B (ports u) b) as [p1 m].
    specialize (IH (fun u' => if u' =? u then p1 else ports u')
                   (match m with Some m' => deliver U e u m' a | None => a end)).
    cbv beta in IH. rewrite Z.eqb_refl in IH.
    destruct (reassembleAll B p1 bytes) as [p2 msgs].
    destruct IH as [IH1 IH2]. rewrite IH1, IH2.
    destruct m; split; reflexivity.
Qed.

Lemma report_S1_int_valid (B ck : Z) :
  32 <= B -> isByte ck -> validFrame B (report_S1_int ck).
Proof.
  intros HB Hck. split.
  - unfold report_S1_int. repeat constructor; unfold isByte in *; lia.
  - exists 3, 7, 0, 8, [2; 2; 0; 4; 0; 0; 0; 188; ck].
    repeat split; try reflexivity; lia.
Qed.

Lemma stream_S1_int_valid (B : Z) : 32 <= B -> validFrame B stream_S1_int.
Proof.
  intros HB. apply report_S1_int_valid; [exact HB | unfold isByte; lia].
Qed.

Lemma stream_S1_valid (B : Z) : 32 <= B -> validFrame B stream_S1.
Proof.
  intros HB. split.
  - repeat constructor; unfold isByte; lia.
  - exists 3, 7, 0, 8, [2; 4; 0; 4; 0; 0; 0; 188; 6].
    repeat split; try reflexivity; lia.
Qed.

Lemma frame_short_int_valid (B : Z) : 32 <= B -> validFrame B frame_short_int.
Proof.
  intros HB. split.
  - repeat constructor; unfold isByte; lia.
  - exists 3, 7, 0, 6, [2; 2; 0; 2; 0; 0; 21].
    repeat split; try reflexivity; lia.
Qed.

(** A frame alone, from the reset statics with any stale buffer. *)
Lemma reassembleAll_alone (B : Z) (buf : Z -> Z) (f : list Z) :
  17 <= B < 65546 -> validFrame B f ->
  let buf' := storeBytes (memmove2 (storeBytes buf 0 [85; 170]) 0) 2 (skipn 2 f) in
  reassembleAll B (portReset B buf) f =
    (portReset B buf', [(buf', Z.of_nat (List.length f))]).
Proof.
  intros HB Hf.
  assert (H0 : isByte 0) by (unfold isByte; lia).
  assert (H1 : 0 < tuyaIdx (portReset B buf) ->
               tuyaBuf (portReset B buf) (tuyaIdx (portReset B buf) - 1) = 0)
    by (cbn; lia).
  assert (H2 : tuyaIdx (portReset B buf) + Z.of_nat (List.length (@nil Z)) < B - 11)
    by (cbn; lia).
  exact (proj1 (reassembleAll_frame B HB (portReset B buf) 0 [] f eq_refl eq_refl
                  (Z.le_refl 0) H0 H1 (Forall_nil _) I H2 Hf)).
Qed.

(** C2 (as the code has it). The report 55 aa 03 07 00 08 02 02 00 04 00 00
    00 bc CK (datapoint 2, type 02 int, value 188; the last byte is not
    looked at, be it 06 or the checksum d5), fed byte by byte from the reset
    statics, sets [tgtTemp] to 18.8 (188 decidegrees), that is to
    [(float)(188 / 10.0)], the [float] nearest to 18.8, and publishes
    [tgtTemp=18.8]; apart from [mcuTuya] nothing else changes. *)
Theorem stream_S1_int_sets_target (BUFF_LEN : Z) (e : Env) (buf : Z -> Z)
    (a : App) (ck : Z) :
  32 <= BUFF_LEN < 65546 ->
  isByte ck ->
  let r := snd (feedBytes false BUFF_LEN e 1 (report_S1_int ck)
                          (fun _ => portReset BUFF_LEN buf, a)) in
  r = wsJsonSend "tgtTemp" "18.8"
        (set_tgtTemp (tenths 188)
           (set_mcuTuya (mkTuya 7 2 (tuyaData (mcuTuya a)) 188) a)) /\
  tgtTemp r = round 24 128 18.8 false /\
  wsOut r = (wsOut a ++ [("tgtTemp", "18.8")])%list.
Proof.
  intros HB Hck r.
  assert (Hr : r = wsJsonSend "tgtTemp" "18.8"
        (set_tgtTemp (tenths 188)
           (set_mcuTuya (mkTuya 7 2 (tuyaData (mcuTuya a)) 188) a))).
  { subst r.
    rewrite (proj1 (feedBytes_messages false BUFF_LEN e 1 (report_S1_int ck) _ a)).
    cbv beta.
    rewrite (reassembleAll_alone BUFF_LEN buf (report_S1_int ck))
      by (try apply report_S1_int_valid; try assumption; lia).
    cbv zeta. cbn [snd fold_left]. vm_compute. reflexivity. }
  split; [exact Hr|]. rewrite Hr. split; reflexivity.
Qed.

Lemma stream_S1_int_sets_target_witness :
  wsOut (snd (feedBytes false 256 env_2300 1 (report_S1_int 6)
                        (fun _ => port0 256, appInit true))) =
    [("tgtTemp", "18.8")].
Proof.
  apply (stream_S1_int_sets_target 256 env_2300 (fun _ => 0) (appInit true) 6).
  - lia.
  - unfold isByte. lia.
Defined.

(** The stream of scenario S1 as printed carries type byte 04 (enum):
    [formatTuya] stores its first data byte in [tuyaData[0]] and leaves
    [tuyaInt] alone, so the target becomes a tenth of whatever integer was
    decoded last. *)
Lemma stream_S1_enum (BUFF_LEN : Z) (e : Env) (buf : Z -> Z) (a : App) :
  32 <= BUFF_LEN < 65546 ->
  snd (feedBytes false BUFF_LEN e 1 stream_S1 (fun _ => portReset BUFF_LEN buf, a)) =
    let n := tuyaInt (mcuTuya a) in
    wsJsonSend "tgtTemp" (ftoa1f (tenths n))
      (set_tgtTemp (tenths n)
         (set_mcuTuya (mkTuya 7 2 (upd (tuyaData (mcuTuya a)) 0 0) n) a)).
Proof.
  intros HB.
  rewrite (proj1 (feedBytes_messages false BUFF_LEN e 1 stream_S1 _ a)).
  cbv beta.
  rewrite (reassembleAll_alone BUFF_LEN buf stream_S1)
    by (try apply stream_S1_valid; lia).
  cbv zeta. cbn [snd fold_left]. reflexivity.
Qed.

(** C2 as stated fails: the stream as printed, fed at program start, sets
    the target to 0.0 and publishes [tgtTemp=0.0]. *)
Lemma stream_S1_counterexample :
  let r := snd (feedBytes false 256 env_2300 1 stream_S1
                          (fun _ => port0 256, appInit true)) in
  tgtTemp r = F_zero false /\ wsOut r = [("tgtTemp", "0.0")] /\ tuyaInt (mcuTuya r) = 0.
Proof.
  vm_compute. repeat split; reflexivity.
Qed.

(** ** The integer of a datapoint report *)

Lemma zseq_app (from : Z) (n m : nat) :
  zseq from (n + m) = (zseq from n ++ zseq (from + Z.of_nat n) m)%list.
Proof.
  induction m as [|m IH].
  - rewrite Nat.add_0_r. cbn. rewrite app_nil_r. reflexivity.
  - rewrite Nat.add_succ_r, !zseq_S, IH, <- app_assoc. do 3 f_equal. lia.
Qed.

(** After index 10 nothing in [formatTuya] touches [tuyaInt] or the flag. *)
Lemma formatTuya_iter_later (data : Z -> Z) (len : Z) (m : tuyaStruct) (l : list Z) :
  Forall (fun i => 10 < i) l ->
  fold_left (formatTuya_iter data len true) l (true, m) = (true, m).
Proof.
  induction l as [|i l IH]; intros Hl; [reflexivity|].
  inversion Hl as [|? ? Hi Hl']; subst. cbn [fold_left].
  assert (Hstep : formatTuya_iter data len true (true, m) i = (true, m)).
  { unfold formatTuya_iter.
    replace (i =? 3) with false by (symmetry; apply Z.eqb_neq; lia).
    replace (i =? 6) with false by (symmetry; apply Z.eqb_neq; lia).
    replace (i =? 7) with false by (symmetry; apply Z.eqb_neq; lia).
    replace (i =? 10) with false by (symmetry; apply Z.eqb_neq; lia).
    reflexivity. }
  rewrite Hstep. apply IH. exact Hl'.
Qed.

Lemma formatTuya_iter_early (data : Z -> Z) (len : Z) (m : tuyaStruct) (i : Z) :
  0 <= i < 3 -> formatTuya_iter data len true (false, m) i = (false, m).
Proof.
  intros Hi. unfold formatTuya_iter.
  replace (i =? 3) with false by (symmetry; apply Z.eqb_neq; lia).
  replace (i =? 6) with false by (symmetry; apply Z.eqb_neq; lia).
  reflexivity.
Qed.

Lemma formatTuya_iter_middle (data : Z -> Z) (len : Z) (m : tuyaStruct) (i : Z) :
  3 < i < 10 -> formatTuya_iter data len true (true, m) i = (true, m).
Proof.
  intros Hi. unfold formatTuya_iter.
  replace (i =? 3) with false by (symmetry; apply Z.eqb_neq; lia).
  replace (i =? 10) with false by (symmetry; apply Z.eqb_neq; lia).
  destruct (i =? 6); [reflexivity|]. destruct (i =? 7); reflexivity.
Qed.

Lemma formatTuya_iter_command (data : Z -> Z) (len : Z) (m : tuyaStruct) :
  data 3 = 6 \/ data 3 = 7 ->
  formatTuya_iter data len true (false, m) 3 =
    (true, mkTuya (data 3) (data 6) (tuyaData m) (tuyaInt m)).
Proof.
  intros Hcmd. unfold formatTuya_iter. rewrite Z.eqb_refl.
  destruct Hcmd as [-> | ->]; reflexivity.
Qed.

Lemma formatTuya_iter_int (data : Z -> Z) (len : Z) (m : tuyaStruct) :
  12 <= len -> data 7 = 2 ->
  formatTuya_iter data len true (true, m) 10 =
    (true, mkTuya (tuyaCmd m) (tuyaDP m) (tuyaData m) (intVal_of data)).
Proof.
  intros Hlen Hty. unfold formatTuya_iter. rewrite Hty.
  replace (10 <? len - 1) with true by (symmetry; apply Z.ltb_lt; lia).
  reflexivity.
Qed.

(** For a datapoint command of type int, [formatTuya] takes the integer from
    the cells 10..13 of the buffer as soon as the message has 12 bytes:
    whether it has the 14 bytes that hold cells 10..13 is not asked. *)
Lemma formatTuya_int_unguarded (u : Z) (data : Z -> Z) (len : Z) (m : tuyaStruct) :
  12 <= len ->
  data 3 = 6 \/ data 3 = 7 ->
  data 7 = 2 ->
  formatTuya false u data len true m =
    mkTuya (data 3) (data 6) (tuyaData m) (intVal_of data).
Proof.
  intros Hlen Hcmd Hty. unfold formatTuya.
  replace (Z.to_nat len) with (11 + Z.to_nat (len - 11))%nat by lia.
  rewrite zseq_app, fold_left_app.
  assert (Hfirst : fold_left (formatTuya_iter data len true) (zseq 0 11) (false, m) =
                   (true, mkTuya (data 3) (data 6) (tuyaData m) (intVal_of data))).
  { change (zseq 0 11) with [0; 1; 2; 3; 4; 5; 6; 7; 8; 9; 10].
    cbn [fold_left].
    rewrite !formatTuya_iter_early by lia.
    rewrite formatTuya_iter_command by exact Hcmd.
    rewrite !formatTuya_iter_middle by lia.
    rewrite formatTuya_iter_int by assumption.
    reflexivity. }
  rewrite Hfirst. rewrite formatTuya_iter_later; [reflexivity|].
  apply Forall_forall. intros i Hi. apply in_zseq in Hi. lia.
Qed.

(** C10. For a message of 12 or 13 bytes with command 7 and type byte 2,
    [formatTuya] builds the integer from the buffer cells 10..13 without
    asking whether the message holds them.  The frame
    55 aa 03 07 00 06 02 02 00 02 00 00 15 is such a message, of 13 bytes:
    it is handed over as it is, cell 12 holds its checksum and cell 13 lies
    beyond it.  Fed at program start the integer is 0x1500 = 5376; fed after
    the 15-byte report of scenario S1, whose byte 13 is 0xbc, it is 0x15bc =
    5564, and the target temperature follows: the value depends on what an
    earlier message left in the buffer. *)
Theorem short_int_frame_reads_stale_bytes (BUFF_LEN : Z) (e : Env) :
  32 <= BUFF_LEN < 65546 ->
  (forall (data : Z -> Z) (len : Z) (m : tuyaStruct),
     12 <= len < 14 -> data 3 = 7 -> data 7 = 2 ->
     tuyaInt (formatTuya false 1 data len true m) = intVal_of data) /\
  nth 3 frame_short_int 0 = 7 /\
  nth 7 frame_short_int 0 = 2 /\
  (List.length frame_short_int < 14)%nat /\
  map messageBytes (snd (reassembleAll BUFF_LEN (port0 BUFF_LEN) frame_short_int)) =
    [frame_short_int] /\
  map messageBytes
      (snd (reassembleAll BUFF_LEN (port0 BUFF_LEN) (stream_S1_int ++ frame_short_int))) =
    [stream_S1_int; frame_short_int] /\
  (let fresh := snd (feedBytes false BUFF_LEN e 1 frame_short_int
                               (fun _ => port0 BUFF_LEN, appInit true)) in
   let stale := snd (feedBytes false BUFF_LEN e 1 (stream_S1_int ++ frame_short_int)
                               (fun _ => port0 BUFF_LEN, appInit true)) in
   tuyaInt (mcuTuya fresh) = 5376 /\ tuyaInt (mcuTuya stale) = 5564 /\
   tgtTemp fresh = tenths 5376 /\ tgtTemp stale = tenths 5564).
Proof.
  intros HB.
  assert (HB' : 17 <= BUFF_LEN < 65546) by lia.
  assert (Hs := frame_short_int_valid BUFF_LEN ltac:(lia)).
  assert (Hi := stream_S1_int_valid BUFF_LEN ltac:(lia)).
  assert (A1 := reassembleAll_alone BUFF_LEN (fun _ => 0) frame_short_int HB' Hs).
  assert (A2 := reassembleAll_alone BUFF_LEN (fun _ => 0) stream_S1_int HB' Hi).
  cbv zeta in A1, A2.
  assert (A3 := reassembleAll_alone BUFF_LEN
                  (storeBytes (memmove2 (storeBytes (fun _ => 0) 0 [85; 170]) 0) 2
                              (skipn 2 stream_S1_int))
                  frame_short_int HB' Hs).
  cbv zeta in A3.
  set (bufI := storeBytes (memmove2 (storeBytes (fun _ => 0) 0 [85; 170]) 0) 2
                          (skipn 2 stream_S1_int)) in *.
  set (bufS := storeBytes (memmove2 (storeBytes bufI 0 [85; 170]) 0) 2
                          (skipn 2 frame_short_int)) in *.
  assert (A4 : reassembleAll BUFF_LEN (port0 BUFF_LEN) (stream_S1_int ++ frame_short_int) =
               (portReset BUFF_LEN bufS,
                [(bufI, Z.of_nat (List.length stream_S1_int));
                 (bufS, Z.of_nat (List.length frame_short_int))])).
  { rewrite reassembleAll_app. change (port0 BUFF_LEN) with (portReset BUFF_LEN (fun _ => 0)).
    rewrite A2, A3. reflexivity. }
  change (port0 BUFF_LEN) with (portReset BUFF_LEN (fun _ => 0)) in *.
  split.
  { intros data len m Hlen Hcmd Hty.
    rewrite formatTuya_int_unguarded; [reflexivity | lia | right; exact Hcmd | exact Hty]. }
  split; [reflexivity|]. split; [reflexivity|]. split; [vm_compute; lia|].
  split; [rewrite A1; vm_compute; reflexivity|].
  split; [rewrite A4; subst bufI bufS; vm_compute; reflexivity|].
  cbv zeta.
  rewrite (proj1 (feedBytes_messages false BUFF_LEN e 1 frame_short_int _ _)).
  rewrite (proj1 (feedBytes_messages false BUFF_LEN e 1
                    (stream_S1_int ++ frame_short_int) _ _)).
  cbv beta. rewrite A1, A4. cbn [snd fold_left app].
  subst bufI bufS. vm_compute. repeat split; reflexivity.
Qed.

Lemma short_int_frame_reads_stale_bytes_witness :
  tuyaInt (mcuTuya (snd (feedBytes false 256 env_2300 1 frame_short_int
                                   (fun _ => port0 256, appInit true)))) = 5376 /\
  tuyaInt (mcuTuya (snd (feedBytes false 256 env_2300 1
                                   (stream_S1_int ++ frame_short_int)
                                   (fun _ => port0 256, appInit true)))) = 5564.
Proof.
  destruct (short_int_frame_reads_stale_bytes 256 env_2300 ltac:(lia))
    as [_ [_ [_ [_ [_ [_ [H1 [H2 _]]]]]]]].
  split; [exact H1 | exact H2].
Defined.

(** ** Integer datapoints on the way out *)

Lemma strtol_space (s : string) : strtol (String " " s) = strtol s.
Proof. reflexivity. Qed.

Lemma strtol_utoa (n : Z) (rest : string) :
  0 <= n <= LONG_MAX ->
  starts_digit rest = false ->
  strtol (utoa n ++ rest) = Some (n, rest).
Proof.
  intros Hn Hrest.
  pose proof (getNumber_utoa n rest Hn Hrest) as H.
  unfold getNumber in H. rewrite strtol_space in H.
  destruct (strtol (utoa n ++ rest)) as [[v r]|].
  - injection H as -> ->. reflexivity.
  - injection H as H1 H2. unfold LONG_MIN in H1. lia.
Qed.

Lemma strtol_itoa (v : Z) (rest : string) :
  LONG_MIN <= v <= LONG_MAX ->
  starts_digit rest = false ->
  strtol (itoa v ++ rest) = Some (v, rest).
Proof.
  unfold LONG_MIN, LONG_MAX. intros Hv Hrest. unfold itoa.
  destruct (Z.ltb_spec v 0) as [Hneg|Hpos].
  - cbn [append]. unfold strtol. cbn [skip_space].
    change (is_space "-") with false. cbv iota. cbn [read_sign].
    change (Ascii.eqb "-" "-") with true. cbv iota.
    unfold utoa.
    destruct (udigits_head (Z.to_nat (Z.log2 (- v))) (- v) "") as [c [r [Hu [H1 _]]]].
    destruct (digits_val_udigits (Z.to_nat (Z.log2 (- v))) (- v)) as [k [Hk Hd]];
      [split; [lia | apply utoa_fuel; lia]|].
    specialize (Hd 0 rest). rewrite udigits_acc in Hd.
    rewrite Hu in *. cbn [append starts_digit] in *. rewrite H1, Hd.
    replace (0 * 10 ^ k + - v) with (- v) by lia.
    assert (Hr : digits_val (- v) rest = (- v, rest)).
    { destruct rest as [|c' r']; [reflexivity|].
      cbn [starts_digit] in Hrest. cbn [digits_val]. rewrite Hrest. reflexivity. }
    rewrite Hr. unfold clamp_long, LONG_MAX, LONG_MIN. do 2 f_equal. lia.
  - apply strtol_utoa; [unfold LONG_MAX; lia | exact Hrest].
Qed.

Lemma atoi_itoa (v : Z) : LONG_MIN <= v <= LONG_MAX -> atoi (itoa v) = v.
Proof.
  intros Hv. unfold atoi.
  rewrite <- (append_nil_r (itoa v)).
  rewrite strtol_itoa by (try exact Hv; reflexivity). reflexivity.
Qed.

(** An integer datapoint sent to the MCU: command 6, type 2 and the value
    in four bytes, most significant first. *)
Lemma processTuyaMsg_int (dp v : Z) :
  0 <= dp < 256 ->
  LONG_MIN <= v <= LONG_MAX ->
  processTuyaMsg
    (String "M" (String " " (utoa 6 ++ String " " (utoa dp ++
       String " " (utoa 2 ++ String " " (itoa v)))))) =
    Some (0, intFrame dp v).
Proof.
  intros Hdp Hv. unfold processTuyaMsg, processTuyaMsgFrom.
  change (char_at (String "M" _) 0) with 77. cbn [uartId Z.eqb Pos.eqb].
  cbv beta iota.
  rewrite getNumber_utoa; [| unfold LONG_MAX; lia | reflexivity].
  change (wrap8 (Z.land 6 255)) with 6.
  rewrite upd_same. cbn [Z.eqb Pos.eqb orb].
  rewrite getNumber_utoa; [| unfold LONG_MAX; lia | reflexivity].
  rewrite getNumber_utoa; [| unfold LONG_MAX; lia | reflexivity].
  change (wrap8 (Z.land 2 255)) with 2.
  rewrite upd_same. cbn [Z.eqb Pos.eqb].
  unfold getNumber at 1. rewrite strtol_space.
  rewrite <- (append_nil_r (itoa v)).
  rewrite strtol_itoa by (try exact Hv; reflexivity).
  cbn [dataPart]. change (getNumber "") with (LONG_MIN, ""%string).
  cbv beta iota. change (LONG_MIN =? LONG_MIN) with true. cbv iota.
  replace (wrap8 (Z.land dp 255)) with dp
    by (rewrite land_255; unfold wrap8; rewrite Z.mod_mod, Z.mod_small; lia).
  change (13 + 1) with 14.
  rewrite addChecksum_spec; [| lia | apply upd_same].
  reflexivity.
Qed.

(** The [espCal] update with a printed integer, once the configuration is
    loaded and no complete slot batch is pending: exactly one datapoint-20
    frame carrying that integer is written. *)
Lemma espCal_frame (v : Z) (a : App) :
  LONG_MIN <= v <= LONG_MAX ->
  configLoaded a = true ->
  slotCnt a < TIME_SLOTS * 2 ->
  updateAppStatus false "espCal" (itoa v) a =
    set_uartOut (uartOut a ++ [(0, intFrame 20 v)]) a.
Proof.
  intros Hv Hcfg Hcnt.
  unfold updateAppStatus. cbn [String.eqb Ascii.eqb Bool.eqb].
  cbv beta iota zeta.
  rewrite atoi_itoa by exact Hv.
  replace (slotCnt a >=? TIME_SLOTS * 2) with false
    by (symmetry; rewrite Z.geb_leb; apply Z.leb_gt; exact Hcnt).
  rewrite Hcfg. cbn [andb].
  unfold sendTuyaMsg.
  change ("M 6 " ++ "20 2 " ++ itoa v)%string
    with (String "M" (String " " (utoa 6 ++ String " " (utoa 20 ++
            String " " (utoa 2 ++ String " " (itoa v)))))).
  rewrite processTuyaMsg_int by (try exact Hv; lia).
  reflexivity.
Qed.

(** ** The ESP controller *)

Lemma float_to_int32_range (x : float) : LONG_MIN <= float_to_int32 x <= LONG_MAX.
Proof.
  unfold float_to_int32, clamp_long, LONG_MIN, LONG_MAX.
  destruct x as [s|s| |s m e]; try destruct s; lia.
Qed.

(** C4 (as the code has it). On every temperature sample,
    [controlHeating] first replaces the smoothed estimate; call [a1] the
    state with the new estimate.  The sums, the product and the comparisons
    are those of [float].  If heating is off and smoothed + backlash <
    target, the effect is that of exactly one call
    [updateAppStatus("espCal", (int32_t)((baseCal - drift) * 10))] on [a1];
    if heating is on and smoothed > target, that of exactly one call
    [updateAppStatus("espCal", (int32_t)((baseCal + drift) * 10))].  With the
    configuration loaded, that call writes exactly one datapoint-20 frame
    carrying the value to the MCU and changes nothing else.  In every other
    case nothing is done beyond the new estimate; this is so in particular
    when the numbers held satisfy target - backlash <= smoothed <= target. *)
Theorem controlHeating_hysteresis (mcuTemp : float) (a : App) :
  let floorTemp :=
    fadd (if heatingOn a then fadd (baseCal a) (float_of_int (drift a))
          else fsub (baseCal a) (float_of_int (drift a))) mcuTemp in
  let smoothed := smooth floorTemp (currentTemp a) (alpha a) in
  let a1 := set_currentTemp smoothed a in
  let calOn := tenfold (fsub (baseCal a) (float_of_int (drift a))) in
  let calOff := tenfold (fadd (baseCal a) (float_of_int (drift a))) in
  (heatingOn a = false -> fltb (fadd smoothed (backLash a)) (tgtTemp a) = true ->
     controlHeating false mcuTemp a =
       updateAppStatus false "espCal" (itoa calOn) a1 /\
     (configLoaded a = true -> appInv a ->
      controlHeating false mcuTemp a =
        set_uartOut (uartOut a ++ [(0, intFrame 20 calOn)]) a1)) /\
  (heatingOn a = true -> fltb (tgtTemp a) smoothed = true ->
     controlHeating false mcuTemp a =
       updateAppStatus false "espCal" (itoa calOff) a1 /\
     (configLoaded a = true -> appInv a ->
      controlHeating false mcuTemp a =
        set_uartOut (uartOut a ++ [(0, intFrame 20 calOff)]) a1)) /\
  (heatingOn a = false -> fltb (fadd smoothed (backLash a)) (tgtTemp a) = false ->
     controlHeating false mcuTemp a = a1) /\
  (heatingOn a = true -> fltb (tgtTemp a) smoothed = false ->
     controlHeating false mcuTemp a = a1) /\
  (is_finite smoothed = true -> is_finite (backLash a) = true ->
   is_finite (tgtTemp a) = true -> valid 24 128 (tgtTemp a) = true ->
   (F2Q (tgtTemp a) - F2Q (backLash a) <= F2Q smoothed)%Q ->
   (F2Q smoothed <= F2Q (tgtTemp a))%Q ->
     controlHeating false mcuTemp a = a1).
Proof.
  intros floorTemp smoothed a1 calOn calOff.
  assert (Hon : heatingOn a1 = heatingOn a) by reflexivity.
  unfold controlHeating. fold floorTemp. fold smoothed. fold a1.
  rewrite Hon.
  change (currentTemp a1) with smoothed.
  change (tgtTemp a1) with (tgtTemp a).
  change (backLash a1) with (backLash a).
  change (baseCal a1) with (baseCal a).
  change (drift a1) with (drift a).
  fold calOn. fold calOff.
  assert (Hoff : heatingOn a = false ->
                 fltb (fadd smoothed (backLash a)) (tgtTemp a) = false ->
                 (if heatingOn a
                  then if fltb (tgtTemp a) smoothed
                       then updateAppStatus false "espCal" (itoa calOff) a1 else a1
                  else if fltb (fadd smoothed (backLash a)) (tgtTemp a)
                       then updateAppStatus false "espCal" (itoa calOn) a1 else a1) = a1).
  { intros H1 H2. rewrite H1, H2. reflexivity. }
  assert (Hhot : heatingOn a = true -> fltb (tgtTemp a) smoothed = false ->
                 (if heatingOn a
                  then if fltb (tgtTemp a) smoothed
                       then updateAppStatus false "espCal" (itoa calOff) a1 else a1
                  else if fltb (fadd smoothed (backLash a)) (tgtTemp a)
                       then updateAppStatus false "espCal" (itoa calOn) a1 else a1) = a1).
  { intros H1 H2. rewrite H1, H2. reflexivity. }
  split; [|split; [|split; [|split]]].
  - intros H1 Hlt. rewrite H1, Hlt. split; [reflexivity|].
    intros Hcfg [[_ Hcnt] _].
    rewrite (espCal_frame calOn a1 (float_to_int32_range _) Hcfg Hcnt). reflexivity.
  - intros H1 Hlt. rewrite H1, Hlt. split; [reflexivity|].
    intros Hcfg [[_ Hcnt] _].
    rewrite (espCal_frame calOff a1 (float_to_int32_range _) Hcfg Hcnt). reflexivity.
  - exact Hoff.
  - exact Hhot.
  - intros Hfs Hfb Hft Hv Hlo Hhi. destruct (heatingOn a) eqn:Hh.
    + apply Hhot; [reflexivity|]. apply fltb_not_above; assumption.
    + apply Hoff; [reflexivity|]. apply fadd_not_below; try assumption. lra.
Qed.

(** Scenario S4: the MCU reports 18.4; the floor estimate is 15.4,
    15.4 + 0.5 < 19, and [espCal = -30] leaves as ff ff ff e2. *)
Lemma controlHeating_hysteresis_witness :
  currentTemp (controlHeating false (tenths 184) app_S4) = tenths 154 /\
  uartOut (controlHeating false (tenths 184) app_S4) =
    [(0, [85; 170; 0; 6; 0; 8; 20; 2; 0; 4; 255; 255; 255; 226; 6])].
Proof.
  rewrite (proj2 (proj1 (controlHeating_hysteresis (tenths 184) app_S4) eq_refl eq_refl)
             eq_refl (appInit_inv true)).
  vm_compute. split; reflexivity.
Defined.

(** C4 as stated fails at the boundary of the interval and in the value
    sent.  With a target of 18.1, a backlash of 0.3 and heating off, a sample
    of 20.8 gives, at drift 3 and without smoothing, the estimate 17.8, each
    as the report of the MCU stores it: 17.8 lies in [18.1 - 0.3, 18.1], and
    yet [espCal = -30] is sent, for the sum of the [float]s is below the
    [float] target.  And with a base calibration of 2.2 the value sent is
    -7, where (2.2 - 3) * 10 is -8. *)
Lemma controlHeating_boundary_counterexample :
  let a := set_backLash (tenths 3)
             (set_tgtTemp (tenths 181) (set_ESPcontroller true (appInit true))) in
  let r := controlHeating false (tenths 208) a in
  let b := updateAppStatus false "tempCal" "2.2" a in
  (heatingOn a = false /\ drift a = 3 /\ baseCal a = F_zero false /\
   currentTemp r = tenths 178 /\ tgtTemp r = tenths 181 /\ backLash r = tenths 3 /\
   181 - 3 <= 178 <= 181 /\
   uartOut r = [(0, intFrame 20 (-30))]) /\
  (baseCal b = atof "2.2" /\ heatingOn b = false /\
   uartOut (controlHeating false (tenths 100) b) = [(0, intFrame 20 (-7))]).
Proof.
  vm_compute. repeat split; try reflexivity; discriminate.
Qed.

(** ** Invariants of the slot counter and the slot table *)

Lemma sendTuyaMsg_keeps (msg : string) (a : App) :
  slotCnt (sendTuyaMsg msg a) = slotCnt a /\
  schedule (sendTuyaMsg msg a) = schedule a.
Proof.
  unfold sendTuyaMsg. destruct (processTuyaMsg msg); split; reflexivity.
Qed.

Lemma appInv_keeps (a b : App) :
  slotCnt b = slotCnt a -> schedule b = schedule a -> appInv a -> appInv b.
Proof.
  unfold appInv. intros -> ->. trivial.
Qed.

(** Between two calls of [updateAppStatus] fewer than [2 * TIME_SLOTS] edits
    are counted, and the cells of columns 0..3 of the table are bytes. *)
Lemma updateAppStatus_inv (U : bool) (variable value : string) (a : App) :
  appInv a -> appInv (updateAppStatus U variable value a).
Proof.
  intros [Hc Ht]. unfold updateAppStatus. destruct U; [split; assumption|].
  pose proof (unassigned_sscanf_bound value) as [Hh Hm].
  rewrite (surjective_pairing (sscanf_hhu_colon_hhu value)).
  set (slot := wrap8 (char_at variable 8 - 48 - 1)).
  repeat match goal with
  | |- context [String.eqb variable ?k] => destruct (String.eqb variable k)
  end;
  repeat match goal with
  | |- context [contains ?k variable] => destruct (contains k variable)
  end;
  try destruct (slot <? TIME_SLOTS);
  cbv beta iota zeta;
  repeat match goal with
  | |- context [slotCnt (set_slotCnt ?v ?b)] =>
      change (slotCnt (set_slotCnt v b)) with v
  | |- context [slotCnt (set_schedule ?v ?b)] =>
      change (slotCnt (set_schedule v b)) with (slotCnt b)
  | |- context [slotCnt (set_baseCal ?v ?b)] =>
      change (slotCnt (set_baseCal v b)) with (slotCnt b)
  | |- context [slotCnt (set_alpha ?v ?b)] =>
      change (slotCnt (set_alpha v b)) with (slotCnt b)
  | |- context [slotCnt (set_drift ?v ?b)] =>
      change (slotCnt (set_drift v b)) with (slotCnt b)
  | |- context [slotCnt (set_ESPcontroller ?v ?b)] =>
      change (slotCnt (set_ESPcontroller v b)) with (slotCnt b)
  end;
  match goal with
  | |- context [?x >=? TIME_SLOTS * 2] =>
      destruct (Z.geb_spec x (TIME_SLOTS * 2))
  end;
  cbv beta iota zeta;
  match goal with
  | |- appInv (if ?c then sendTuyaMsg ?m ?b else ?b') =>
      destruct c;
      [ apply (appInv_keeps b); try apply sendTuyaMsg_keeps | ]
  end;
  (split;
   [ cbn [slotCnt set_slotCnt set_schedule set_baseCal set_alpha set_drift
          set_ESPcontroller]; unfold TIME_SLOTS in *; lia
   | cbn [schedule set_slotCnt set_schedule set_baseCal set_alpha set_drift
          set_ESPcontroller];
     repeat apply set_cell_bytes; try exact Ht;
     unfold SECS_COL; intros; try lia; try apply land_255_bound; assumption ]).
Qed.

Lemma wsJsonSend_inv (k v : string) (a : App) : appInv a -> appInv (wsJsonSend k v a).
Proof. intros H. exact H. Qed.

Lemma sendTuyaMsg_inv (msg : string) (a : App) : appInv a -> appInv (sendTuyaMsg msg a).
Proof.
  intros H. apply (appInv_keeps a); try apply sendTuyaMsg_keeps. exact H.
Qed.

Lemma sendWifiStatus_inv (e : Env) (d : bool) (a : App) :
  appInv a -> appInv (sendWifiStatus e d a).
Proof.
  intros H. unfold sendWifiStatus.
  destruct (_ || d); [|exact H]. apply sendTuyaMsg_inv. exact H.
Qed.

Lemma sendLocalTime_inv (e : Env) (d : bool) (a : App) :
  appInv a -> appInv (sendLocalTime e d a).
Proof.
  intros H. unfold sendLocalTime.
  destruct (_ || d); [|exact H].
  destruct (timeSynchronized e); apply sendTuyaMsg_inv; exact H.
Qed.

Lemma setSchedule_inv (a : App) : appInv a -> appInv (setSchedule a).
Proof.
  unfold setSchedule. generalize (zseq 0 (Z.to_nat TIME_SLOTS)). intros l.
  revert a. induction l as [|i l IH]; intros a H; [exact H|].
  cbn [fold_left]. apply IH. exact H.
Qed.

Lemma controlHeating_inv (U : bool) (t : float) (a : App) :
  appInv a -> appInv (controlHeating U t a).
Proof.
  intros H. unfold controlHeating.
  repeat match goal with |- context [if ?c then _ else _] => destruct c end;
    try apply updateAppStatus_inv; exact H.
Qed.

Lemma checkSchedule_inv (U : bool) (e : Env) (a : App) :
  appInv a -> appInv (checkSchedule U e a).
Proof.
  intros H. unfold checkSchedule.
  destruct (negb (timeSynchronized e)); [exact H|].
  match goal with |- context [if changedSlot ?s then _ else _] =>
    destruct (changedSlot s) end;
    try apply updateAppStatus_inv; exact H.
Qed.

Lemma processDP_inv (U : bool) (e : Env) (a : App) :
  appInv a -> appInv (processDP U e a).
Proof.
  intros H. unfold processDP, publishData0.
  repeat match goal with
  | |- context [if tuyaDP (mcuTuya a) =? ?k then _ else _] =>
      destruct (tuyaDP (mcuTuya a) =? k)
  end;
  try exact H;
  try (apply setSchedule_inv; exact H);
  repeat match goal with |- context [if ?c then _ else _] => destruct c end;
  try exact H;
  try (apply sendWifiStatus_inv, sendLocalTime_inv; exact H);
  try (apply sendTuyaMsg_inv; exact H);
  try (apply (wsJsonSend_inv _ _ (controlHeating U _ _)), controlHeating_inv; exact H).
Qed.

Lemma processMCUcmd_inv (U : bool) (e : Env) (a : App) :
  appInv a -> appInv (processMCUcmd U e a).
Proof.
  intros H. unfold processMCUcmd, doTuyaInit.
  repeat match goal with |- context [if ?c then _ else _] => destruct c end;
    try exact H;
    try (apply processDP_inv; exact H);
    try (apply sendLocalTime_inv; exact H);
    repeat apply sendTuyaMsg_inv; exact H.
Qed.

(** The invariant holds after any stream of bytes from the MCU. *)
Lemma feedBytes_inv (U : bool) (B : Z) (e : Env) (u : Z) (bytes : list Z) :
  forall st, appInv (snd st) -> appInv (snd (feedBytes U B e u bytes st)).
Proof.
  unfold feedBytes. induction bytes as [|b bytes IH]; intros [ports a] H; [exact H|].
  cbn [fold_left]. apply IH. unfold processTuyaByte.
  destruct (reassemble B (ports u) b) as [p [m|]]; cbn [snd]; [|exact H].
  unfold deliver. destruct U; [exact H|]. apply processMCUcmd_inv. exact H.
Qed.

(** ** The fuel of the data loop *)

Lemma skip_space_length (s : string) :
  (String.length (skip_space s) <= String.length s)%nat.
Proof.
  induction s as [|c s IH]; cbn [skip_space]; [apply le_n|].
  destruct (is_space c); cbn [String.length]; lia.
Qed.

Lemma read_sign_length (s : string) :
  (String.length (snd (read_sign s)) <= String.length s)%nat.
Proof.
  destruct s as [|c s]; cbn [read_sign]; [apply le_n|].
  destruct (Ascii.eqb c "-"); [cbn; lia|].
  destruct (Ascii.eqb c "+"); cbn; lia.
Qed.

Lemma digits_val_length (s : string) :
  forall acc, (String.length (snd (digits_val acc s)) <= String.length s)%nat.
Proof.
  induction s as [|c s IH]; intros acc; cbn [digits_val]; [apply le_n|].
  destruct (is_digit c); [|apply le_n].
  specialize (IH (acc * 10 + (code c - 48))). cbn [String.length]. lia.
Qed.

(** A conversion by [strtol] consumes at least one character. *)
Lemma strtol_shorter (s : string) (v : Z) (r : string) :
  strtol s = Some (v, r) -> (String.length r < String.length s)%nat.
Proof.
  unfold strtol.
  pose proof (skip_space_length s) as H1.
  pose proof (read_sign_length (skip_space s)) as H2.
  destruct (read_sign (skip_space s)) as [neg s2]. cbn [snd] in H2.
  destruct s2 as [|c s2]; cbn [starts_digit]; [discriminate|].
  destruct (is_digit c) eqn:Hc; [|discriminate].
  cbn [digits_val]. rewrite Hc.
  pose proof (digits_val_length s2 (0 * 10 + (code c - 48))) as H3.
  destruct (digits_val (0 * 10 + (code c - 48)) s2) as [v' r'].
  intros H. injection H as _ <-. cbn [snd String.length] in *. lia.
Qed.

(** The data loop of [processTuyaMsg] does not depend on its fuel once this
    exceeds the length of the text left to read. *)
Lemma dataPart_fuel (f1 f2 : nat) :
  forall (p : string) (c : Z -> Z) (idx : Z),
    (String.length p < f1)%nat -> (String.length p < f2)%nat ->
    dataPart f1 p c idx = dataPart f2 p c idx.
Proof.
  revert f2. induction f1 as [|f1 IH]; intros f2 p c idx H1 H2; [lia|].
  destruct f2 as [|f2]; [lia|].
  cbn [dataPart]. unfold getNumber.
  destruct (strtol p) as [[v r]|] eqn:E.
  - destruct (v =? LONG_MIN); [reflexivity|].
    apply strtol_shorter in E. apply IH; lia.
  - change (LONG_MIN =? LONG_MIN) with true. reflexivity.
Qed.

(** The text left after a number is not longer than the text before it. *)
Lemma getNumber_length (p : string) :
  (String.length (snd (getNumber p)) <= String.length p)%nat.
Proof.
  unfold getNumber. destruct (strtol p) as [[v r]|] eqn:E; cbn [snd]; [|apply le_n].
  apply strtol_shorter in E. lia.
Qed.

(** * Further properties of the code *)

(** ** The reassembler: bounds and what it hands over *)

Lemma cells_from6 (a : Z -> Z) (n : Z) :
  6 <= n ->
  cells a n = a 0 :: a 1 :: a 2 :: a 3 :: a 4 :: a 5 :: map a (zseq 6 (Z.to_nat (n - 6))).
Proof.
  intros Hn. unfold cells.
  replace (Z.to_nat n) with (6 + Z.to_nat (n - 6))%nat by lia.
  rewrite zseq_app, map_app. reflexivity.
Qed.

Lemma cells_bytes (a : Z -> Z) (n : Z) :
  (forall i, 0 <= i < n -> isByte (a i)) -> Forall isByte (cells a n).
Proof.
  intros H. unfold cells. apply Forall_map, Forall_forall.
  intros i Hi. apply in_zseq in Hi. apply H. lia.
Qed.

Lemma port0_ok (B : Z) : 11 <= B < 65546 -> portOk B (port0 B).
Proof.
  intros HB. unfold portOk, port0. cbn [tuyaIdx tuyaBuf haveHdr msgLen].
  split; [lia|]. split; [intros i Hi; lia | reflexivity].
Qed.

Lemma portReset_ok (B : Z) (buf : Z -> Z) : 11 <= B < 65546 -> portOk B (portReset B buf).
Proof.
  intros HB. unfold portOk, portReset. cbn [tuyaIdx tuyaBuf haveHdr msgLen].
  split; [lia|]. split; [intros i Hi; lia | reflexivity].
Qed.

Lemma portReset_ok' (B : Z) (buf : Z -> Z) :
  11 <= B < 65546 -> portOk B (mkPort 0 false (B - 10) buf).
Proof.
  intros HB. unfold portOk. cbn [tuyaIdx tuyaBuf haveHdr msgLen].
  split; [lia|]. split; [intros i Hi; lia|].
  unfold msgLen0, wrap16. symmetry. apply Z.mod_small. lia.
Qed.

Lemma reassemble_ok (B : Z) (p : Port) (b : Z) :
  11 <= B < 65546 -> portOk B p -> isByte b ->
  portOk B (fst (reassemble B p b)) /\
  forall m, snd (reassemble B p b) = Some m ->
            snd m = B - 10 \/ validFrame B (messageBytes m).
Proof.
  intros HB (Hidx & Hbytes & Hhdr) Hb.
  assert (HL0 : msgLen0 B = B - 10).
  { unfold msgLen0, wrap16. apply Z.mod_small. lia. }
  assert (Hdata : forall i, 0 <= i < tuyaIdx p + 1 ->
                            isByte (upd (tuyaBuf p) (tuyaIdx p) b i)).
  { intros i Hi. unfold upd. destruct (Z.eqb_spec i (tuyaIdx p)); [exact Hb|].
    apply Hbytes. lia. }
  unfold reassemble.
  set (data := upd (tuyaBuf p) (tuyaIdx p) b) in *.
  set (idx := tuyaIdx p + 1).
  destruct (haveHdr p) eqn:Hh.
  - (* a header has been recognised *)
    rewrite andb_false_r. cbn [negb andb]. rewrite andb_true_r.
    destruct Hhdr as (H2 & H85 & H170 & Hlen).
    assert (D0 : data 0 = 85) by (unfold data; rewrite upd_other by lia; exact H85).
    assert (D1 : data 1 = 170) by (unfold data; rewrite upd_other by lia; exact H170).
    destruct (Z.eqb_spec idx 6) as [E6|N6].
    + assert (HL : last2 data idx = data 4 * 256 + data 5).
      { rewrite E6. rewrite last2_value; [reflexivity | |]; apply Hdata; lia. }
      rewrite HL.
      assert (B4 := Hdata 4 ltac:(lia)). assert (B5 := Hdata 5 ltac:(lia)).
      unfold isByte in B4, B5.
      destruct (Z.eqb_spec idx (Z.min (data 4 * 256 + data 5 + 7) (B - 10))) as [Ed|Nd].
      * cbn [fst snd]. split; [first [apply portReset_ok; exact HB | apply portReset_ok'; exact HB]|].
        intros m Hm. injection Hm as <-. cbn [snd]. left. lia.
      * cbn [fst snd]. split; [|discriminate].
        unfold portOk. cbn [tuyaIdx tuyaBuf haveHdr msgLen].
        split; [lia|]. split; [exact Hdata|].
        split; [lia|]. split; [exact D0|]. split; [exact D1|].
        destruct (Z.ltb_spec idx 6); [lia|]. split; [reflexivity | lia].
    + destruct (Z.ltb_spec (tuyaIdx p) 6) as [Hlt|Hge].
      * rewrite Hlen, HL0.
        destruct (Z.eqb_spec idx (Z.min (B - 10 + 7) (B - 10))) as [Ed|Nd].
        -- cbn [fst snd]. split; [first [apply portReset_ok; exact HB | apply portReset_ok'; exact HB]|].
           intros m Hm. injection Hm as <-. cbn [snd]. left. lia.
        -- cbn [fst snd]. split; [|discriminate].
           unfold portOk. cbn [tuyaIdx tuyaBuf haveHdr msgLen].
           split; [lia|]. split; [exact Hdata|].
           split; [lia|]. split; [exact D0|]. split; [exact D1|].
           destruct (Z.ltb_spec idx 6); [first [exact HL0 | symmetry; exact HL0 | reflexivity] | lia].
      * destruct Hlen as [HL Hlt].
        assert (D4 : data 4 = tuyaBuf p 4) by (unfold data; apply upd_other; lia).
        assert (D5 : data 5 = tuyaBuf p 5) by (unfold data; apply upd_other; lia).
        assert (B4 := Hbytes 4 ltac:(lia)). assert (B5 := Hbytes 5 ltac:(lia)).
        unfold isByte in B4, B5.
        destruct (Z.eqb_spec idx (Z.min (msgLen p + 7) (B - 10))) as [Ed|Nd].
        -- cbn [fst snd]. split; [first [apply portReset_ok; exact HB | apply portReset_ok'; exact HB]|].
           intros m Hm. injection Hm as <-. cbn [snd].
           destruct (Z.eq_dec idx (B - 10)) as [EB|NB]; [left; exact EB | right].
           unfold messageBytes. cbn [fst snd]. split.
           ++ apply cells_bytes. exact Hdata.
           ++ exists (data 2), (data 3), (data 4), (data 5),
                     (map data (zseq 6 (Z.to_nat (idx - 6)))).
              split; [|split].
              ** rewrite cells_from6 by lia. rewrite D0, D1. reflexivity.
              ** rewrite length_map, zseq_length. rewrite D4, D5. lia.
              ** rewrite D4, D5. lia.
        -- cbn [fst snd]. split; [|discriminate].
           unfold portOk. cbn [tuyaIdx tuyaBuf haveHdr msgLen].
           split; [lia|]. split; [exact Hdata|].
           split; [lia|]. split; [exact D0|]. split; [exact D1|].
           destruct (Z.ltb_spec idx 6); [lia|]. rewrite D4, D5. split; [exact HL | lia].
  - (* no header yet *)
    cbn [negb]. rewrite andb_true_r.
    destruct (Z.gtb_spec idx 1) as [Hgt|Hle].
    + assert (Ba := Hdata (idx - 2) ltac:(lia)). assert (Bb := Hdata (idx - 1) ltac:(lia)).
      destruct (last2 data idx =? header) eqn:Ehd.
      * apply (last2_header data idx Ba Bb) in Ehd. destruct Ehd as [Ea Eb].
        change (2 =? 6) with false. cbn [andb]. rewrite Hhdr, HL0.
        destruct (Z.eqb_spec 2 (Z.min (B - 10 + 7) (B - 10))) as [Ed|Nd].
        -- cbn [fst snd]. split; [first [apply portReset_ok; exact HB | apply portReset_ok'; exact HB]|].
           intros m Hm. injection Hm as <-. cbn [snd]. left. lia.
        -- cbn [fst snd]. split; [|discriminate].
           unfold portOk. cbn [tuyaIdx tuyaBuf haveHdr msgLen].
           split; [lia|]. split.
           { intros i Hi. unfold memmove2.
             destruct (Z.eqb_spec i 0); [exact Ba|].
             destruct (Z.eqb_spec i 1); [|lia].
             replace (idx - 2 + 1) with (idx - 1) by lia. exact Bb. }
           split; [lia|]. unfold memmove2. cbn [Z.eqb].
           replace (idx - 2 + 1) with (idx - 1) by lia.
           split; [exact Ea|]. split; [exact Eb|]. first [exact HL0 | symmetry; exact HL0 | reflexivity].
      * rewrite andb_false_r. rewrite Hhdr, HL0.
        destruct (Z.eqb_spec idx (Z.min (B - 10 + 7) (B - 10))) as [Ed|Nd].
        -- cbn [fst snd]. split; [first [apply portReset_ok; exact HB | apply portReset_ok'; exact HB]|].
           intros m Hm. injection Hm as <-. cbn [snd]. left. lia.
        -- cbn [fst snd]. split; [|discriminate].
           unfold portOk. cbn [tuyaIdx tuyaBuf haveHdr msgLen].
           split; [lia|]. split; [exact Hdata | first [exact HL0 | symmetry; exact HL0 | reflexivity]].
    + rewrite andb_false_r. rewrite Hhdr, HL0.
      destruct (Z.eqb_spec idx (Z.min (B - 10 + 7) (B - 10))) as [Ed|Nd].
      * cbn [fst snd]. split; [first [apply portReset_ok; exact HB | apply portReset_ok'; exact HB]|].
        intros m Hm. injection Hm as <-. cbn [snd]. left. lia.
      * cbn [fst snd]. split; [|discriminate].
        unfold portOk. cbn [tuyaIdx tuyaBuf haveHdr msgLen].
        split; [lia|]. split; [exact Hdata | first [exact HL0 | symmetry; exact HL0 | reflexivity]].
Qed.

Lemma reassembleAll_ok (B : Z) (bytes : list Z) :
  11 <= B < 65546 ->
  forall p : Port,
    portOk B p -> Forall isByte bytes ->
    portOk B (fst (reassembleAll B p bytes)) /\
    Forall (fun m => snd m = B - 10 \/ validFrame B (messageBytes m))
           (snd (reassembleAll B p bytes)).
Proof.
  intros HB. induction bytes as [|b rest IH]; intros p Hp Hbs.
  - cbn [reassembleAll fst snd]. split; [exact Hp | constructor].
  - inversion Hbs as [|? ? Hb Hrest]; subst.
    cbn [reassembleAll].
    destruct (reassemble_ok B p b HB Hp Hb) as [Hp1 Hm].
    destruct (reassemble B p b) as [p1 msg]. cbn [fst snd] in Hp1, Hm.
    destruct (IH p1 Hp1 Hrest) as [Hp2 Hms].
    destruct (reassembleAll B p1 rest) as [p2 msgs]. cbn [fst snd] in *.
    split; [exact Hp2|].
    destruct msg as [m|]; [constructor; [apply Hm; reflexivity | exact Hms] | exact Hms].
Qed.

(** X1. Whatever bytes arrive on a UART, the index at which
    [processTuyaByte] stores the next byte stays inside [0, BUFF_LEN - 10):
    every write falls inside [tuyaData[uartNum]]. *)
Theorem processTuyaByte_index_in_buffer (U : bool) (B : Z) (e : Env) (u : Z)
    (bytes : list Z) (a : App) :
  11 <= B < 65546 ->
  Forall isByte bytes ->
  let ports := fst (feedBytes U B e u bytes (fun _ => port0 B, a)) in
  0 <= tuyaIdx (ports u) < B - 10.
Proof.
  intros HB Hbs ports. subst ports.
  rewrite (proj2 (feedBytes_messages U B e u bytes (fun _ => port0 B) a)).
  destruct (reassembleAll_ok B bytes HB (port0 B) (port0_ok B HB) Hbs) as [[H _] _].
  exact H.
Qed.

Lemma processTuyaByte_index_in_buffer_witness :
  0 <= tuyaIdx (fst (feedBytes false 256 env_2300 1 frame_started
                               (fun _ => port0 256, appInit true)) 1) < 256 - 10.
Proof.
  apply (processTuyaByte_index_in_buffer false 256 env_2300 1 frame_started (appInit true)).
  - lia.
  - repeat constructor; unfold isByte; lia.
Defined.

(** X2. Every message [processTuyaByte] hands to [formatTuya] is either
    exactly [BUFF_LEN - 10] bytes long (the buffer limit) or a well-formed
    frame: it starts with 55 aa and its length is the declared length plus
    7. *)
Theorem delivered_messages_are_frames (B : Z) (bytes : list Z) :
  11 <= B < 65546 ->
  Forall isByte bytes ->
  Forall (fun m => snd m = B - 10 \/ validFrame B (messageBytes m))
         (snd (reassembleAll B (port0 B) bytes)).
Proof.
  intros HB Hbs.
  exact (proj2 (reassembleAll_ok B bytes HB (port0 B) (port0_ok B HB) Hbs)).
Qed.

Lemma delivered_messages_are_frames_witness :
  Forall (fun m => snd m = 256 - 10 \/ validFrame 256 (messageBytes m))
         (snd (reassembleAll 256 (port0 256) ([1; 85; 3] ++ frame_heartbeat))).
Proof.
  apply (delivered_messages_are_frames 256 ([1; 85; 3] ++ frame_heartbeat)).
  - lia.
  - repeat constructor; unfold isByte; lia.
Defined.

Lemma reassembleAll_frames (B : Z) (frames : list (list Z)) :
  17 <= B < 65546 ->
  Forall (validFrame B) frames ->
  forall buf : Z -> Z,
    map messageBytes (snd (reassembleAll B (portReset B buf) (List.concat frames))) = frames /\
    exists buf', fst (reassembleAll B (portReset B buf) (List.concat frames)) = portReset B buf'.
Proof.
  intros HB. induction 1 as [|f frames Hf Hfs IH]; intros buf.
  - cbn [List.concat reassembleAll fst snd map]. split; [reflexivity | exists buf; reflexivity].
  - cbn [List.concat]. rewrite reassembleAll_app.
    pose proof (reassembleAll_alone B buf f HB Hf) as Ha. cbv zeta in Ha. rewrite Ha.
    set (buf1 := storeBytes _ 2 (skipn 2 f)).
    destruct (IH buf1) as [IH1 [buf2 IH2]].
    destruct (reassembleAll B (portReset B buf1) (List.concat frames)) as [p2 m2].
    cbn [fst snd] in *. split; [|exists buf2; exact IH2].
    cbn [app map]. rewrite IH1. f_equal.
    assert (Hm := reassembleAll_frame B HB (portReset B buf) 0 [] f
                    eq_refl eq_refl ltac:(cbn; lia) ltac:(unfold isByte; lia)
                    ltac:(cbn; lia) ltac:(constructor) I ltac:(cbn; lia) Hf).
    cbv zeta in Hm. destruct Hm as [_ Hm]. exact Hm.
Qed.

(** X3. Frames that follow one another without a gap are handed over one
    by one, in the order and with the bytes sent, and the reassembler is
    back in its reset state after the last one. *)
Theorem frames_back_to_back (B : Z) (frames : list (list Z)) (buf : Z -> Z) :
  17 <= B < 65546 ->
  Forall (validFrame B) frames ->
  map messageBytes (snd (reassembleAll B (portReset B buf) (List.concat frames))) = frames /\
  exists buf', fst (reassembleAll B (portReset B buf) (List.concat frames)) = portReset B buf'.
Proof.
  intros HB Hfs. exact (reassembleAll_frames B frames HB Hfs buf).
Qed.

Lemma frames_back_to_back_witness :
  map messageBytes
      (snd (reassembleAll 256 (portReset 256 (fun _ => 0))
                          (List.concat [frame_heartbeat; stream_S1_int; frame_heartbeat]))) =
    [frame_heartbeat; stream_S1_int; frame_heartbeat].
Proof.
  apply (frames_back_to_back 256 [frame_heartbeat; stream_S1_int; frame_heartbeat]
                             (fun _ => 0)).
  - lia.
  - constructor; [exact frame_heartbeat_valid|].
    constructor; [apply stream_S1_int_valid; lia|].
    constructor; [exact frame_heartbeat_valid | constructor].
Defined.

(** ** Sniffer mode *)

Lemma formatTuya_iter_unprocessed (data : Z -> Z) (len : Z) (acc : bool * tuyaStruct)
    (i : Z) :
  snd (formatTuya_iter data len false acc i) = snd acc.
Proof.
  unfold formatTuya_iter. destruct acc as [DP m]. cbn [snd].
  repeat match goal with
         | |- context [if ?c then _ else _] => destruct c
         end; reflexivity.
Qed.

Lemma formatTuya_unprocessed (U : bool) (u : Z) (data : Z -> Z) (len : Z)
    (isProcessed : bool) (m : tuyaStruct) :
  (if U then false else isProcessed) = false ->
  formatTuya U u data len isProcessed m = m.
Proof.
  intros H. unfold formatTuya. rewrite H.
  generalize (zseq 0 (Z.to_nat len)). intros l.
  change m with (snd (false, m)) at 2. generalize (false, m).
  induction l as [|i l IH]; intros acc; [reflexivity|].
  cbn [fold_left]. rewrite IH. apply formatTuya_iter_unprocessed.
Qed.

Lemma set_mcuTuya_same (a : App) : set_mcuTuya (mcuTuya a) a = a.
Proof. destruct a. reflexivity. Qed.

Lemma deliver_sniffer (e : Env) (u : Z) (msg : (Z -> Z) * Z) (a : App) :
  deliver true e u msg a = a.
Proof.
  unfold deliver. rewrite formatTuya_unprocessed by reflexivity.
  apply set_mcuTuya_same.
Qed.

Lemma processTuyaByte_sniffer (B : Z) (e : Env) (u b : Z) (st : (Z -> Port) * App) :
  snd (processTuyaByte true B e u b st) = snd st.
Proof.
  unfold processTuyaByte. destruct st as [ports a].
  destruct (reassemble B (ports u) b) as [p [m|]]; cbn [snd];
    [apply deliver_sniffer | reflexivity].
Qed.

(** X4. In sniffer mode [readUart] is transparent: every byte read from one
    UART is written, unchanged and in order, to the other UART, and nothing
    else of the application state changes - [formatTuya] only formats, and
    [processMCUcmd] is not called. *)
Theorem sniffer_forwards_unchanged (B : Z) (e : Env) (uartNum : Z) (bytes : list Z)
    (ports : Z -> Port) (a : App) :
  snd (readUart true B e uartNum bytes (ports, a)) =
    set_uartOut (uartOut a ++ map (fun b => (Z.lxor uartNum 1, [b])) bytes) a.
Proof.
  unfold readUart. revert ports a.
  induction bytes as [|b bytes IH]; intros ports a.
  - cbn [fold_left map snd]. rewrite app_nil_r. destruct a; reflexivity.
  - cbn [fold_left map fst snd].
    set (st1 := processTuyaByte true B e (Z.lxor uartNum 1) b _).
    assert (H1 : snd st1 = set_uartOut (uartOut a ++ [(Z.lxor uartNum 1, [b])]) a).
    { subst st1. apply processTuyaByte_sniffer. }
    destruct st1 as [ports1 a1]. cbn [snd] in H1. subst a1.
    rewrite IH. destruct a; simpl.
    rewrite <- app_assoc. reflexivity.
Qed.

(** ** The inbound side does not look at the checksum *)

Lemma copyBytes_ext (src1 src2 : Z -> Z) (from until : Z) (dst : Z -> Z) :
  (forall y, from <= y < until -> src1 y = src2 y) ->
  copyBytes src1 from until dst = copyBytes src2 from until dst.
Proof.
  intros H. unfold copyBytes.
  assert (Hin : forall y, In y (zseq from (Z.to_nat (until - from))) -> src1 y = src2 y).
  { intros y Hy. apply in_zseq in Hy. apply H. lia. }
  revert dst Hin. generalize (zseq from (Z.to_nat (until - from))).
  induction l as [|y l IH]; intros dst Hin; [reflexivity|].
  cbn [fold_left]. rewrite (Hin y (or_introl eq_refl)).
  apply IH. intros z Hz. apply Hin. right. exact Hz.
Qed.

Lemma formatTuya_iter_last (data : Z -> Z) (len v : Z) (ip : bool)
    (acc : bool * tuyaStruct) (i : Z) :
  8 < len ->
  (fst acc = true -> data 7 = 2 -> 14 < len) ->
  formatTuya_iter (upd data (len - 1) v) len ip acc i =
  formatTuya_iter data len ip acc i.
Proof.
  intros Hlen Hint. destruct acc as [DP m]. cbn [fst] in Hint.
  unfold formatTuya_iter.
  rewrite !(upd_other data (len - 1) v 3) by lia.
  rewrite !(upd_other data (len - 1) v 6) by lia.
  rewrite !(upd_other data (len - 1) v 7) by lia.
  destruct (Z.eqb_spec i 3) as [E3|N3]; [reflexivity|].
  destruct DP.
  - destruct (i =? 6); [reflexivity|]. destruct (i =? 7); [reflexivity|].
    destruct (Z.eqb_spec i 10) as [E10|N10]; [|reflexivity].
    destruct (Z.ltb_spec i (len - 1)) as [Hlt|Hge]; [|reflexivity].
    cbn [andb]. subst i.
    rewrite (copyBytes_ext (upd data (len - 1) v) data 10 (len - 1))
      by (intros y Hy; apply upd_other; lia).
    rewrite !(upd_other data (len - 1) v 10) by lia.
    destruct ((data 7 =? 0) || (data 7 =? 5)); [reflexivity|].
    destruct (data 7 =? 1); [reflexivity|].
    destruct (Z.eqb_spec (data 7) 2) as [E2|N2]; [|reflexivity].
    specialize (Hint eq_refl E2). unfold intVal_of.
    rewrite !(upd_other data (len - 1) v) by lia. reflexivity.
  - destruct (Z.eqb_spec i 6) as [E6|N6]; [|reflexivity].
    destruct (Z.ltb_spec i (len - 1)) as [Hlt|Hge]; [|reflexivity].
    cbn [andb]. subst i.
    rewrite (copyBytes_ext (upd data (len - 1) v) data 6 (len - 1))
      by (intros y Hy; apply upd_other; lia).
    reflexivity.
Qed.

Lemma formatTuya_iter_DP (data : Z -> Z) (len : Z) (ip : bool)
    (acc : bool * tuyaStruct) (i : Z) :
  fst (formatTuya_iter data len ip acc i) = true ->
  fst acc = true \/ data 3 = 6 \/ data 3 = 7.
Proof.
  unfold formatTuya_iter. destruct acc as [DP m]. cbn [fst].
  destruct (i =? 3).
  - destruct (Z.eqb_spec (data 3) 6); [intros _; right; left; assumption|].
    destruct (Z.eqb_spec (data 3) 7); [intros _; right; right; assumption|].
    cbn [orb fst]. intros H; left; exact H.
  - destruct DP; [intros _; left; reflexivity|].
    repeat match goal with
           | |- context [if ?c then _ else _] => destruct c
           end; cbn [fst]; intros H; left; exact H.
Qed.

Lemma formatTuya_last_byte (U : bool) (u : Z) (data : Z -> Z) (len v : Z) (ip : bool)
    (m : tuyaStruct) :
  8 < len ->
  (data 3 = 6 \/ data 3 = 7 -> data 7 = 2 -> 14 < len) ->
  formatTuya U u (upd data (len - 1) v) len ip m = formatTuya U u data len ip m.
Proof.
  intros Hlen Hint. unfold formatTuya.
  set (ip' := if U then false else ip). clearbody ip'.
  assert (H0 : fst (false, m) = true -> data 3 = 6 \/ data 3 = 7) by discriminate.
  revert H0. generalize (false, m). generalize (zseq 0 (Z.to_nat len)).
  induction l as [|i l IH]; intros acc Hacc; [reflexivity|].
  cbn [fold_left]. rewrite formatTuya_iter_last.
  - apply IH. intros H. apply formatTuya_iter_DP in H.
    destruct H as [H|H]; [apply Hacc; exact H | exact H].
  - exact Hlen.
  - intros H. apply Hint. apply Hacc. exact H.
Qed.
Lemma storeBytes_below (bytes : list Z) :
  forall (buf : Z -> Z) (idx i : Z), i < idx -> storeBytes buf idx bytes i = buf i.
Proof.
  induction bytes as [|b rest IH]; intros buf idx i Hi; [reflexivity|].
  cbn [storeBytes]. rewrite IH by lia. apply upd_other. lia.
Qed.

Lemma storeBytes_snoc (bytes : list Z) (buf : Z -> Z) (idx c : Z) :
  storeBytes buf idx (bytes ++ [c]) =
  upd (storeBytes buf idx bytes) (idx + Z.of_nat (List.length bytes)) c.
Proof. rewrite storeBytes_app. reflexivity. Qed.

(** X5. The inbound side never checks the checksum.  A frame of at least 9
    bytes (at least 15 when it is a datapoint frame of type int) whose last
    byte is replaced by any other byte is reassembled, decoded and processed
    exactly like the frame with its own last byte. *)
Theorem checksum_not_checked (U : bool) (B : Z) (e : Env) (u : Z) (buf : Z -> Z)
    (a : App) (body : list Z) (ck ck' : Z) :
  17 <= B < 65546 ->
  validFrame B (body ++ [ck]) ->
  isByte ck' ->
  (8 <= List.length body)%nat ->
  (nth 3 body 0 = 6 \/ nth 3 body 0 = 7 -> nth 7 body 0 = 2 ->
   (14 <= List.length body)%nat) ->
  snd (feedBytes U B e u (body ++ [ck']) (fun _ => portReset B buf, a)) =
  snd (feedBytes U B e u (body ++ [ck]) (fun _ => portReset B buf, a)).
Proof.
  intros HB Hv Hck' Hlen Hint.
  destruct body as [|b0 [|b1 [|b2 [|b3 [|b4 [|b5 [|b6 [|b7 tl]]]]]]]];
    try (cbn in Hlen; lia).
  cbn [nth] in Hint.
  assert (Hv' : validFrame B ((b0 :: b1 :: b2 :: b3 :: b4 :: b5 :: b6 :: b7 :: tl) ++ [ck'])).
  { destruct Hv as [Hb (ver & cmd & lh & ll & rest & Hf & Hl & Hfit)].
    cbn [app] in Hf. injection Hf as -> -> -> -> -> -> Hrest.
    split.
    - apply Forall_app in Hb. destruct Hb as [Hb _].
      apply Forall_app. split; [exact Hb | constructor; [exact Hck' | constructor]].
    - exists ver, cmd, lh, ll, (b6 :: b7 :: tl ++ [ck'])%list.
      split; [reflexivity|]. split; [|exact Hfit].
      rewrite <- Hl, <- Hrest. cbn [List.length]. rewrite !length_app. reflexivity. }
  rewrite !(proj1 (feedBytes_messages U B e u _ _ a)).
  pose proof (reassembleAll_alone B buf _ HB Hv) as A1.
  pose proof (reassembleAll_alone B buf _ HB Hv') as A2.
  cbv zeta in A1, A2. rewrite A1, A2. cbn [snd fold_left].
  cbn [app skipn] in *.
  set (L := Z.of_nat (List.length (b0 :: b1 :: b2 :: b3 :: b4 :: b5 :: b6 :: b7 :: tl ++ [ck']))).
  assert (EL : Z.of_nat (List.length
                 (b0 :: b1 :: b2 :: b3 :: b4 :: b5 :: b6 :: b7 :: tl ++ [ck])) = L).
  { subst L. cbn [List.length]. rewrite !length_app. reflexivity. }
  rewrite EL.
  set (b := memmove2 (storeBytes buf 0 [85; 170]) 0).
  change (b2 :: b3 :: b4 :: b5 :: b6 :: b7 :: tl ++ [ck'])%list
    with ((b2 :: b3 :: b4 :: b5 :: b6 :: b7 :: tl) ++ [ck'])%list.
  change (b2 :: b3 :: b4 :: b5 :: b6 :: b7 :: tl ++ [ck])%list
    with ((b2 :: b3 :: b4 :: b5 :: b6 :: b7 :: tl) ++ [ck])%list.
  rewrite !storeBytes_snoc.
  set (bufB := storeBytes b 2 (b2 :: b3 :: b4 :: b5 :: b6 :: b7 :: tl)).
  assert (E3 : bufB 3 = b3).
  { subst bufB. cbn [storeBytes]. rewrite storeBytes_below by lia.
    rewrite !upd_other by lia. apply upd_same. }
  assert (E7 : bufB 7 = b7).
  { subst bufB. cbn [storeBytes]. rewrite storeBytes_below by lia. apply upd_same. }
  assert (Ek : 2 + Z.of_nat (List.length (b2 :: b3 :: b4 :: b5 :: b6 :: b7 :: tl)) = L - 1).
  { subst L. cbn [List.length]. rewrite length_app. cbn [List.length]. lia. }
  rewrite Ek.
  assert (HL : 8 < L).
  { subst L. cbn [List.length]. rewrite length_app. cbn [List.length]. lia. }
  assert (Hi : bufB 3 = 6 \/ bufB 3 = 7 -> bufB 7 = 2 -> 14 < L).
  { rewrite E3, E7. intros H3 H7. specialize (Hint H3 H7).
    subst L. cbn [List.length] in *. rewrite length_app. cbn [List.length]. lia. }
  unfold deliver. cbn [fst snd].
  rewrite !(formatTuya_last_byte U u bufB L _ true (mcuTuya a) HL Hi).
  reflexivity.
Qed.

Lemma checksum_not_checked_witness :
  snd (feedBytes false 256 env_2300 1 (firstn 14 stream_S1_int ++ [0])
                 (fun _ => portReset 256 (fun _ => 0), appInit true)) =
  snd (feedBytes false 256 env_2300 1 (firstn 14 stream_S1_int ++ [213])
                 (fun _ => portReset 256 (fun _ => 0), appInit true)).
Proof.
  apply (checksum_not_checked false 256 env_2300 1 (fun _ => 0) (appInit true)
           (firstn 14 stream_S1_int) 213 0).
  - lia.
  - apply (stream_S1_int_valid 256). lia.
  - unfold isByte. lia.
  - vm_compute. lia.
  - intros _ _. vm_compute. lia.
Defined.

(** ** The outbound encoder on a list of numbers *)

Lemma zseq_cons (from : Z) (n : nat) : zseq from (S n) = from :: zseq (from + 1) n.
Proof.
  unfold zseq. cbn [seq map]. f_equal; [lia|].
  rewrite <- seq_shift, map_map. apply map_ext. intros k. lia.
Qed.

Lemma putBytes_below (bs : list Z) :
  forall (c : Z -> Z) (idx i : Z), i <= idx -> putBytes c idx bs i = c i.
Proof.
  induction bs as [|b rest IH]; intros c idx i Hi; [reflexivity|].
  cbn [putBytes]. rewrite IH by lia. apply upd_other. lia.
Qed.

Lemma putBytes_cells (bs : list Z) :
  forall (c : Z -> Z) (idx : Z),
    map (putBytes c idx bs) (zseq (idx + 1) (List.length bs)) = bs.
Proof.
  induction bs as [|b rest IH]; intros c idx; [reflexivity|].
  cbn [List.length putBytes]. rewrite zseq_cons. cbn [map]. f_equal.
  - rewrite putBytes_below by lia. apply upd_same.
  - apply IH.
Qed.

Lemma starts_digit_getNumber (rest : string) :
  fst (getNumber rest) = LONG_MIN -> starts_digit rest = false.
Proof.
  unfold getNumber, strtol. destruct rest as [|c r]; [reflexivity|].
  cbn [starts_digit]. destruct (is_digit c) eqn:Hd; [|reflexivity].
  assert (Hs : is_space c = false).
  { unfold is_digit, is_space in *. lia. }
  assert (Hm : Ascii.eqb c "-" = false).
  { destruct (Ascii.eqb_spec c "-") as [->|]; [discriminate Hd | reflexivity]. }
  assert (Hp : Ascii.eqb c "+" = false).
  { destruct (Ascii.eqb_spec c "+") as [->|]; [discriminate Hd | reflexivity]. }
  cbn [skip_space]. rewrite Hs. cbn [read_sign]. rewrite Hm, Hp.
  cbn [starts_digit]. rewrite Hd.
  destruct (digits_val 0 (String c r)) as [v r'] eqn:Hv. cbn [fst].
  assert (Hnn : forall s acc, 0 <= acc -> 0 <= fst (digits_val acc s)).
  { induction s as [|c' s IHs]; intros acc Hacc; [exact Hacc|].
    cbn [digits_val]. destruct (is_digit c') eqn:Hd'; [|exact Hacc].
    apply IHs. unfold is_digit in Hd'. lia. }
  specialize (Hnn (String c r) 0 ltac:(lia)). rewrite Hv in Hnn. cbn [fst] in Hnn.
  unfold clamp_long, LONG_MIN, LONG_MAX. lia.
Qed.

Lemma numbersText_rest_head (ns : list Z) (rest : string) :
  starts_digit rest = false -> starts_digit (numbersText ns ++ rest) = false.
Proof. destruct ns; [intros H; exact H | reflexivity]. Qed.

(** The data loop on the text of a list of numbers followed by something
    [getNumber] answers with [LONG_MIN]: the numbers are stored modulo 256
    and what follows is not read. *)
Lemma dataPart_numbers_rest (ns : list Z) (rest : string) :
  fst (getNumber rest) = LONG_MIN ->
  forall (fuel : nat) (c : Z -> Z) (idx : Z),
    Forall (fun n => 0 <= n <= LONG_MAX) ns ->
    (List.length ns < fuel)%nat ->
    dataPart fuel (numbersText ns ++ rest) c idx =
      (putBytes c idx (map (fun n => n mod 256) ns), idx + Z.of_nat (List.length ns)).
Proof.
  intros Hrest. induction ns as [|n ns IH]; intros fuel c idx Hall Hfuel.
  - destruct fuel; [inversion Hfuel|]. cbn [numbersText fold_right append dataPart].
    destruct (getNumber rest) as [v r]. cbn [fst] in Hrest. subst v.
    change (LONG_MIN =? LONG_MIN) with true. cbn [map putBytes List.length]. f_equal. lia.
  - destruct fuel; [inversion Hfuel|].
    inversion Hall as [|? ? Hn Hns]; subst.
    rewrite numbersText_cons. cbn [append]. rewrite append_assoc.
    cbn [dataPart].
    rewrite getNumber_utoa;
      [| exact Hn | apply numbersText_rest_head, starts_digit_getNumber, Hrest].
    replace (n =? LONG_MIN) with false
      by (symmetry; apply Z.eqb_neq; unfold LONG_MIN; lia).
    rewrite land_255.
    rewrite IH; [| exact Hns | cbn [List.length] in Hfuel; lia].
    cbn [map putBytes List.length]. f_equal. lia.
Qed.

Lemma wrap8_land (n : Z) : wrap8 (Z.land n 255) = n mod 256.
Proof. rewrite land_255. unfold wrap8. apply Z.mod_mod. lia. Qed.

Lemma length_hi (n : Z) : 0 <= n < 65536 -> wrap8 (Z.shiftr n 8) = n / 256.
Proof.
  intros Hn. rewrite Z.shiftr_div_pow2 by lia. change (2 ^ 8) with 256.
  apply wrap8_small. split; [apply Z.div_pos; lia | apply Z.div_lt_upper_bound; lia].
Qed.

Lemma destChar_at (u : Z) (s : string) :
  u = 0 \/ u = 1 ->
  (if char_at (String (destChar u) s) 0 =? uartId 0 then Some 0
   else if char_at (String (destChar u) s) 0 =? uartId 1 then Some 1 else None) = Some u.
Proof. intros [->| ->]; reflexivity. Qed.

(** X6. A command without datapoint, given as the destination letter, the
    command number and any list of numbers, leaves as
    55 aa, the version of the destination (00 for 'M', 03 for 'W'), the
    command, the number of data items in two bytes, each item modulo 256 and
    the checksum.  What follows the first item that [getNumber] does not
    read as a number other than [LONG_MIN] is ignored. *)
Theorem plain_command_frame (u cmd : Z) (ns : list Z) (rest : string) :
  u = 0 \/ u = 1 ->
  0 <= cmd < 256 -> cmd <> 6 -> cmd <> 7 ->
  Forall (fun n => 0 <= n <= LONG_MAX) ns ->
  Z.of_nat (List.length ns) < 65536 ->
  fst (getNumber rest) = LONG_MIN ->
  processTuyaMsg (String (destChar u) (numbersText (cmd :: ns) ++ rest)) =
    Some (u, plainFrame (versionOf u) cmd (map (fun n => n mod 256) ns)).
Proof.
  intros Hu Hcmd N6 N7 Hns Hlen Hrest.
  unfold processTuyaMsg, processTuyaMsgFrom.
  rewrite (destChar_at u _ Hu).
  rewrite numbersText_cons. cbn [append]. rewrite append_assoc.
  rewrite getNumber_utoa;
    [| unfold LONG_MAX; lia | apply numbersText_rest_head, starts_digit_getNumber, Hrest].
  rewrite wrap8_land, Z.mod_small by lia.
  rewrite upd_same.
  replace (cmd =? 6) with false by (symmetry; apply Z.eqb_neq; exact N6).
  replace (cmd =? 7) with false by (symmetry; apply Z.eqb_neq; exact N7).
  cbn [orb].
  rewrite dataPart_numbers_rest; [| exact Hrest | exact Hns |].
  2:{ pose proof (numbersText_length ns) as Hl.
      cbn [String.length]. rewrite !length_append. lia. }
  set (bs := map (fun n => n mod 256) ns).
  assert (Hbl : List.length bs = List.length ns) by apply length_map.
  rewrite <- Hbl. set (n := Z.of_nat (List.length bs)).
  assert (Hn : 0 <= n < 65536) by (subst n; lia).
  replace (5 + n - 5) with n by lia.
  rewrite length_hi by exact Hn. rewrite wrap8_land.
  rewrite addChecksum_spec; [| lia | apply upd_same].
  unfold plainFrame. fold n.
  assert (Hc : forall c : Z -> Z,
             cells c (5 + n + 1) = ([85; 170; versionOf u; cmd; n / 256; n mod 256] ++ bs)%list ->
             Some (u, (cells c (5 + n + 1) ++ [zsum (cells c (5 + n + 1)) mod 256])%list) =
             Some (u, (([85; 170; versionOf u; cmd; n / 256; n mod 256] ++ bs) ++
                       [zsum ([85; 170; versionOf u; cmd; n / 256; n mod 256] ++ bs) mod 256])%list)).
  { intros c ->. reflexivity. }
  apply Hc. rewrite cells_from6 by lia.
  rewrite !(upd_other _ (5 + n + 1)) by lia.
  cbn [app]. unfold versionOf.
  repeat (first [rewrite upd_same | rewrite upd_other by lia]).
  rewrite putBytes_below by lia. rewrite upd_same.
  do 6 f_equal.
  replace (Z.to_nat (5 + n + 1 - 6)) with (List.length bs) by lia.
  etransitivity; [|apply (putBytes_cells bs (upd (fun _ => 0) 3 cmd) 5)].
  change (5 + 1) with 6. apply map_ext_in. intros i Hi. apply in_zseq in Hi.
  rewrite !upd_other by lia. reflexivity.
Qed.

Lemma plain_command_frame_witness :
  processTuyaMsg "M 3 260 4 x 5" = Some (0, [85; 170; 0; 3; 0; 2; 4; 4; 12]) /\
  processTuyaMsg "W 0" = Some (1, [85; 170; 3; 0; 0; 0; 2]).
Proof.
  split.
  - apply (plain_command_frame 0 3 [260; 4] " x 5");
      first [ left; reflexivity | lia | repeat constructor; unfold LONG_MAX; lia
            | reflexivity | cbn; lia ].
  - apply (plain_command_frame 1 0 [] "");
      first [ right; reflexivity | lia | constructor | reflexivity | cbn; lia ].
Defined.

(** ** What the encoder writes is a frame of the inbound side *)

Lemma dataPart_bytes (fuel : nat) :
  forall (P : Z -> Prop) (p : string) (c : Z -> Z) (idx : Z),
    (forall i, P i -> isByte (c i)) ->
    forall i, P i \/ idx < i <= snd (dataPart fuel p c idx) ->
              isByte (fst (dataPart fuel p c idx) i).
Proof.
  induction fuel as [|fuel IH]; intros P p c idx H i Hi.
  - cbn [dataPart fst snd] in *. destruct Hi as [Hi|Hi]; [apply H, Hi | lia].
  - cbn [dataPart] in *. destruct (getNumber p) as [n p'].
    destruct (n =? LONG_MIN).
    + cbn [fst snd] in *. destruct Hi as [Hi|Hi]; [apply H, Hi | lia].
    + apply (IH (fun i => P i \/ i = idx + 1)).
      * intros j [Hj| ->].
        -- unfold upd. destruct (j =? idx + 1); [apply land_255_bound | apply H, Hj].
        -- rewrite upd_same. apply land_255_bound.
      * destruct Hi as [Hi|Hi]; [left; left; exact Hi|].
        destruct (Z.eq_dec i (idx + 1)) as [->|Hne]; [left; right; reflexivity|].
        right. lia.
Qed.

Lemma byte_hi_lo (n : Z) :
  0 <= n < 65536 -> wrap8 (Z.shiftr n 8) * 256 + wrap8 (Z.land n 255) = n.
Proof.
  intros Hn. rewrite length_hi by exact Hn. rewrite wrap8_land.
  pose proof (Z.div_mod n 256 ltac:(lia)). lia.
Qed.

Lemma encoder_frame_valid (B : Z) (wsMsg : string) (u : Z) (bytes : list Z) :
  17 <= B < 65546 ->
  processTuyaMsg wsMsg = Some (u, bytes) ->
  Z.of_nat (List.length bytes) <= B - 10 ->
  validFrame B bytes /\ nth 2 bytes 0 = versionOf u.
Proof.
  intros HB. unfold processTuyaMsg, processTuyaMsgFrom.
  destruct (if char_at wsMsg 0 =? uartId 0 then Some 0
            else if char_at wsMsg 0 =? uartId 1 then Some 1 else None)
    as [u0|]; [|discriminate].
  destruct (getNumber _) as [n3 p3].
  rewrite !upd_same.
  set (c3 := upd (fun _ => 0) 3 (wrap8 (Z.land n3 255))).
  set (isDP := (wrap8 (Z.land n3 255) =? 6) || (wrap8 (Z.land n3 255) =? 7)).
  set (pre := if isDP then _ else _).
  assert (Hpre : 5 <= snd (fst pre) /\
                 (isDP = true -> 9 <= snd (fst pre)) /\
                 (isDP = false -> snd (fst pre) = 5) /\
                 forall i, i = 3 \/ (isDP = true /\ 5 < i <= snd (fst pre) /\ i <> 8 /\ i <> 9) ->
                           isByte (fst (fst pre) i)).
  { subst pre. destruct isDP.
    - destruct (getNumber p3) as [n6 p6]. destruct (getNumber p6) as [n7 p7].
      rewrite upd_same.
      destruct (_ =? 2).
      + destruct (getNumber p7) as [iv p8]. cbn [fst snd zseq seq map fold_left].
        split; [lia|]. split; [lia|]. split; [discriminate|]. intros i Hi.
        unfold upd, c3, upd.
        repeat match goal with
               | |- context [i =? ?k] => destruct (Z.eqb_spec i k)
               end; try apply wrap8_bound; lia.
      + cbn [fst snd]. split; [lia|]. split; [lia|]. split; [discriminate|]. intros i Hi.
        unfold upd, c3, upd.
        repeat match goal with
               | |- context [i =? ?k] => destruct (Z.eqb_spec i k)
               end; try apply wrap8_bound; lia.
    - cbn [fst snd]. split; [lia|]. split; [discriminate|]. split; [reflexivity|].
      intros i [-> | [Hf _]].
      + unfold c3. rewrite upd_same. apply wrap8_bound.
      + discriminate. }
  destruct pre as [[c idx] p]. cbn [fst snd] in Hpre.
  destruct Hpre as (H5 & H9 & Hn5 & HP). clearbody isDP.
  pose proof (dataPart_idx (S (String.length wsMsg)) p c idx) as Hd.
  pose proof (dataPart_bytes (S (String.length wsMsg)) _ p c idx HP) as Hb.
  destruct (dataPart _ p c idx) as [c' idx']. cbn [fst snd] in Hd, Hb.
  intros H. injection H as <- <-.
  rewrite addChecksum_spec; [| lia | apply upd_same].
  rewrite length_app, cells_length. cbn [List.length]. intros Hfit.
  set (cfin := upd _ (idx' + 1) 0).
  assert (Hcells : forall i, 0 <= i < idx' + 1 -> isByte (cfin i)).
  { intros i Hi. subst cfin. rewrite upd_other by lia.
    assert (Hi' : i = 0 \/ i = 1 \/ i = 2 \/ i = 4 \/ i = 5 \/
                  (isDP = true /\ (i = 8 \/ i = 9)) \/
                  (i = 3 \/ isDP = true /\ 5 < i <= idx /\ i <> 8 /\ i <> 9) \/
                  idx < i <= idx').
    { destruct isDP; [specialize (H9 eq_refl) | specialize (Hn5 eq_refl)]; lia. }
    assert (Hver : isByte (if u0 =? 0 then 0 else 3)).
    { destruct (u0 =? 0); unfold isByte; lia. }
    destruct isDP; unfold upd;
      repeat match goal with
             | |- context [i =? ?k] => destruct (Z.eqb_spec i k)
             end;
      try apply wrap8_bound; try exact Hver; try (unfold isByte; lia);
      apply Hb; destruct Hi' as [H|[H|[H|[H|[H|[H|H]]]]]];
      try lia; try exact H; exfalso; destruct H as [H _]; discriminate. }
  assert (E0 : cfin 0 = 85).
  { subst cfin. rewrite upd_other by lia.
    destruct isDP; repeat (first [apply upd_same | rewrite upd_other by lia]). }
  assert (E1 : cfin 1 = 170).
  { subst cfin. rewrite upd_other by lia.
    destruct isDP; repeat (first [apply upd_same | rewrite upd_other by lia]). }
  assert (E2 : cfin 2 = versionOf u0).
  { subst cfin. rewrite upd_other by lia. unfold versionOf.
    destruct isDP; repeat (first [apply upd_same | rewrite upd_other by lia]). }
  assert (E4 : cfin 4 = wrap8 (Z.shiftr (idx' - 5) 8)).
  { subst cfin. rewrite upd_other by lia.
    destruct isDP; repeat (first [apply upd_same | rewrite upd_other by lia]). }
  assert (E5 : cfin 5 = wrap8 (Z.land (idx' - 5) 255)).
  { subst cfin. rewrite upd_other by lia.
    destruct isDP; repeat (first [apply upd_same | rewrite upd_other by lia]). }
  clearbody cfin.
  rewrite (cells_from6 cfin (idx' + 1)) by lia.
  rewrite E0, E1, E2. cbn [app nth]. split; [|reflexivity].
  split.
  - change (Forall isByte
      ((85 :: 170 :: versionOf u0 :: cfin 3 :: cfin 4 :: cfin 5 ::
         map cfin (zseq 6 (Z.to_nat (idx' + 1 - 6)))) ++
       [zsum (85 :: 170 :: versionOf u0 :: cfin 3 :: cfin 4 :: cfin 5 ::
         map cfin (zseq 6 (Z.to_nat (idx' + 1 - 6)))) mod 256])%list).
    apply Forall_app. split.
    + rewrite <- E0, <- E1, <- E2. rewrite <- cells_from6 by lia.
      apply cells_bytes. exact Hcells.
    + constructor; [|constructor]. unfold isByte. apply Z.mod_pos_bound. lia.
  - eexists _, _, _, _, _. split; [reflexivity|].
    rewrite length_app, length_map, zseq_length. cbn [List.length].
    rewrite E4, E5. rewrite byte_hi_lo by lia. split; lia.
Qed.

(** X7. Every frame [processTuyaMsg] writes that fits the receive buffer is
    a frame of the inbound side: its version byte is the one of the
    destination, and fed byte by byte to [processTuyaByte] it is handed over
    as exactly one message with the same bytes. *)
Theorem encoder_output_reassembles (B : Z) (wsMsg : string) (u : Z) (bytes : list Z)
    (buf : Z -> Z) :
  17 <= B < 65546 ->
  processTuyaMsg wsMsg = Some (u, bytes) ->
  Z.of_nat (List.length bytes) <= B - 10 ->
  validFrame B bytes /\
  nth 2 bytes 0 = versionOf u /\
  map messageBytes (snd (reassembleAll B (portReset B buf) bytes)) = [bytes].
Proof.
  intros HB Hw Hfit.
  destruct (encoder_frame_valid B wsMsg u bytes HB Hw Hfit) as [Hv Hver].
  split; [exact Hv|]. split; [exact Hver|].
  destruct (reassembleAll_frames B [bytes] HB ltac:(constructor; [exact Hv | constructor]) buf)
    as [H _].
  cbn [List.concat] in H. rewrite app_nil_r in H. exact H.
Qed.

Lemma encoder_output_reassembles_witness :
  map messageBytes
      (snd (reassembleAll 256 (portReset 256 (fun _ => 0))
                          [85; 170; 0; 6; 0; 8; 2; 2; 0; 4; 0; 0; 0; 190; 211])) =
    [[85; 170; 0; 6; 0; 8; 2; 2; 0; 4; 0; 0; 0; 190; 211]].
Proof.
  exact (proj2 (proj2 (encoder_output_reassembles 256 "M 6 2 2 190" 0
           [85; 170; 0; 6; 0; 8; 2; 2; 0; 4; 0; 0; 0; 190; 211] (fun _ => 0)
           ltac:(lia) ltac:(vm_compute; reflexivity) ltac:(simpl; lia)))).
Defined.

(** ** Integer datapoints: encode, then decode *)

Lemma intVal_of_be (data : Z -> Z) (v : Z) :
  LONG_MIN <= v <= LONG_MAX ->
  data 10 = wrap8 (Z.shiftr v 24) -> data 11 = wrap8 (Z.shiftr v 16) ->
  data 12 = wrap8 (Z.shiftr v 8) -> data 13 = wrap8 (Z.shiftr v 0) ->
  intVal_of data = v.
Proof.
  unfold LONG_MIN, LONG_MAX. intros Hv E10 E11 E12 E13.
  unfold intVal_of. rewrite E10, E11, E12, E13.
  set (b3 := wrap8 (Z.shiftr v 24)). set (b2 := wrap8 (Z.shiftr v 16)).
  set (b1 := wrap8 (Z.shiftr v 8)). set (b0 := wrap8 (Z.shiftr v 0)).
  assert (H3 : 0 <= b3 < 256) by apply wrap8_bound.
  assert (H2 : 0 <= b2 < 256) by apply wrap8_bound.
  assert (H1 : 0 <= b1 < 256) by apply wrap8_bound.
  assert (H0 : 0 <= b0 < 256) by apply wrap8_bound.
  replace (Z.shiftl b3 24) with (Z.shiftl (Z.shiftl (Z.shiftl b3 8) 8) 8)
    by (rewrite !Z.shiftl_shiftl by lia; reflexivity).
  replace (Z.shiftl b2 16) with (Z.shiftl (Z.shiftl b2 8) 8)
    by (rewrite !Z.shiftl_shiftl by lia; reflexivity).
  rewrite <- !Z.shiftl_lor.
  rewrite (lor_shiftl8 b3 b2) by lia.
  rewrite (lor_shiftl8 (b3 * 256 + b2) b1) by lia.
  rewrite (lor_shiftl8 ((b3 * 256 + b2) * 256 + b1) b0) by lia.
  subst b3 b2 b1 b0. unfold wrap8, to_int32.
  rewrite !Z.shiftr_div_pow2 by lia.
  change (2 ^ 24) with 16777216. change (2 ^ 16) with 65536.
  change (2 ^ 8) with 256. change (2 ^ 0) with 1.
  Z.div_mod_to_equations. lia.
Qed.

Lemma storeBytes_at (bytes : list Z) :
  forall (buf : Z -> Z) (idx : Z) (j : nat) (x : Z),
    nth_error bytes j = Some x -> storeBytes buf idx bytes (idx + Z.of_nat j) = x.
Proof.
  induction bytes as [|b rest IH]; intros buf idx j x Hn.
  - destruct j; discriminate Hn.
  - cbn [storeBytes]. destruct j as [|j].
    + injection Hn as <-. rewrite storeBytes_below by lia.
      replace (idx + Z.of_nat 0) with idx by lia. apply upd_same.
    + cbn [nth_error] in Hn.
      replace (idx + Z.of_nat (S j)) with (idx + 1 + Z.of_nat j) by lia.
      apply IH. exact Hn.
Qed.

Lemma intText_frame (dp v : Z) :
  0 <= dp < 256 -> LONG_MIN <= v <= LONG_MAX ->
  processTuyaMsg (intText dp v) = Some (0, intFrame dp v).
Proof. intros Hdp Hv. exact (processTuyaMsg_int dp v Hdp Hv). Qed.

(** X8. An integer datapoint survives the codec.  For every datapoint id
    and every 32-bit value, the frame [processTuyaMsg] writes for
    ["M 6 <dp> 2 <value>"], fed byte by byte to [processTuyaByte], is handed
    to [formatTuya] as one message of 15 bytes, and [formatTuya] reads back
    the command, the datapoint id and the value. *)
Theorem int_datapoint_round_trip (B : Z) (buf : Z -> Z) (dp v : Z) (m : tuyaStruct) :
  32 <= B < 65546 ->
  0 <= dp < 256 ->
  LONG_MIN <= v <= LONG_MAX ->
  exists bytes data,
    processTuyaMsg (intText dp v) = Some (0, bytes) /\
    snd (reassembleAll B (portReset B buf) bytes) = [(data, 15)] /\
    messageBytes (data, 15) = bytes /\
    formatTuya false 1 data 15 true m = mkTuya 6 dp (tuyaData m) v.
Proof.
  intros HB Hdp Hv.
  pose proof (intText_frame dp v Hdp Hv) as Hw.
  assert (Hlen : Z.of_nat (List.length (intFrame dp v)) = 15) by reflexivity.
  destruct (encoder_frame_valid B _ 0 _ ltac:(lia) Hw ltac:(rewrite Hlen; lia)) as [Hval _].
  pose proof (reassembleAll_alone B buf _ ltac:(lia) Hval) as Ha. cbv zeta in Ha.
  rewrite Hlen in Ha.
  exists (intFrame dp v). eexists. split; [exact Hw|].
  rewrite Ha. cbn [snd]. split; [reflexivity|].
  set (data := storeBytes _ 2 (skipn 2 (intFrame dp v))).
  split.
  - assert (Hm := reassembleAll_frame B ltac:(lia) (portReset B buf) 0 [] (intFrame dp v)
                    eq_refl eq_refl ltac:(cbn; lia) ltac:(unfold isByte; lia)
                    ltac:(cbn; lia) ltac:(constructor) I ltac:(cbn; lia) Hval).
    cbv zeta in Hm. destruct Hm as [_ Hm]. rewrite Hlen in Hm. exact Hm.
  - assert (D : forall (k x : Z),
                 2 <= k ->
                 nth_error (skipn 2 (intFrame dp v)) (Z.to_nat (k - 2)) = Some x ->
                 data k = x).
    { intros k x Hk Hn. subst data.
      replace k with (2 + Z.of_nat (Z.to_nat (k - 2))) at 1 by lia.
      apply storeBytes_at. exact Hn. }
    rewrite formatTuya_int_unguarded.
    + rewrite (D 3 6 ltac:(lia) eq_refl), (D 6 dp ltac:(lia) eq_refl).
      f_equal. apply intVal_of_be; [exact Hv | | | |].
      * exact (D 10 _ ltac:(lia) eq_refl).
      * exact (D 11 _ ltac:(lia) eq_refl).
      * exact (D 12 _ ltac:(lia) eq_refl).
      * exact (D 13 _ ltac:(lia) eq_refl).
    + lia.
    + left. exact (D 3 _ ltac:(lia) eq_refl).
    + exact (D 7 _ ltac:(lia) eq_refl).
Qed.

Lemma int_datapoint_round_trip_witness :
  exists bytes data,
    processTuyaMsg (intText 20 (-30)) = Some (0, bytes) /\
    snd (reassembleAll 256 (portReset 256 (fun _ => 0)) bytes) = [(data, 15)] /\
    messageBytes (data, 15) = bytes /\
    formatTuya false 1 data 15 true (mkTuya 0 0 (fun _ => 0) 0) =
      mkTuya 6 20 (fun _ => 0) (-30).
Proof.
  apply (int_datapoint_round_trip 256 (fun _ => 0) 20 (-30) (mkTuya 0 0 (fun _ => 0) 0));
    unfold LONG_MIN, LONG_MAX; lia.
Defined.

(** ** The outbound encoder on zero-padded numbers: the local time *)

Lemma tokensText_cons (t : string) (ts : list string) :
  tokensText (t :: ts) = String " " (t ++ tokensText ts).
Proof. reflexivity. Qed.

Lemma tokensText_head (ts : list string) : starts_digit (tokensText ts) = false.
Proof. destruct ts; reflexivity. Qed.

Lemma dataPart_tokens (ts : list string) (ns : list Z) :
  Forall2 reads ts ns ->
  forall (fuel : nat) (c : Z -> Z) (idx : Z),
    (List.length ns < fuel)%nat ->
    dataPart fuel (tokensText ts) c idx =
      (putBytes c idx (map (fun n => n mod 256) ns), idx + Z.of_nat (List.length ns)).
Proof.
  induction 1 as [|t n ts ns [Hn Ht] Hts IH]; intros fuel c idx Hfuel.
  - destruct fuel; [inversion Hfuel|]. cbn. f_equal. lia.
  - destruct fuel; [inversion Hfuel|].
    rewrite tokensText_cons. cbn [dataPart].
    rewrite Ht by apply tokensText_head.
    replace (n =? LONG_MIN) with false
      by (symmetry; apply Z.eqb_neq; unfold LONG_MIN; lia).
    rewrite land_255.
    rewrite IH by (cbn [List.length] in Hfuel; lia).
    cbn [map putBytes List.length]. f_equal. lia.
Qed.

Lemma Forall2_length_eq {A B : Type} (R : A -> B -> Prop) (l1 : list A) (l2 : list B) :
  Forall2 R l1 l2 -> List.length l1 = List.length l2.
Proof. induction 1; cbn [List.length]; congruence. Qed.

Lemma tokensText_length (ts : list string) :
  (String.length (tokensText ts) >= List.length ts)%nat.
Proof.
  induction ts as [|t ts IH]; [apply le_n|].
  rewrite tokensText_cons. cbn [String.length List.length].
  rewrite length_append. lia.
Qed.

(** A command without datapoint whose command number and data items are
    given as tokens that [getNumber] reads as numbers. *)
Lemma plain_tokens_frame (tcmd : string) (cmd : Z) (ts : list string) (ns : list Z) :
  reads tcmd cmd -> cmd < 256 -> cmd <> 6 -> cmd <> 7 ->
  Forall2 reads ts ns ->
  Z.of_nat (List.length ns) < 65536 ->
  processTuyaMsg (String "M" (tokensText (tcmd :: ts))) =
    Some (0, plainFrame 0 cmd (map (fun n => n mod 256) ns)).
Proof.
  intros [Hcmd Hr] Hc N6 N7 Hts Hlen.
  unfold processTuyaMsg, processTuyaMsgFrom.
  change (char_at (String "M" _) 0) with 77. cbn [uartId Z.eqb Pos.eqb].
  cbv beta iota.
  rewrite tokensText_cons. rewrite Hr by apply tokensText_head.
  rewrite wrap8_land, Z.mod_small by lia.
  rewrite upd_same.
  replace (cmd =? 6) with false by (symmetry; apply Z.eqb_neq; exact N6).
  replace (cmd =? 7) with false by (symmetry; apply Z.eqb_neq; exact N7).
  cbn [orb].
  rewrite (dataPart_tokens ts ns Hts).
  2:{ pose proof (tokensText_length ts) as Hl.
      pose proof (Forall2_length_eq _ _ _ Hts) as He.
      cbn [String.length]. rewrite !length_append. lia. }
  set (bs := map (fun n => n mod 256) ns).
  assert (Hbl : List.length bs = List.length ns) by apply length_map.
  rewrite <- Hbl. set (n := Z.of_nat (List.length bs)).
  assert (Hn : 0 <= n < 65536) by (subst n; lia).
  replace (5 + n - 5) with n by lia.
  rewrite length_hi by exact Hn. rewrite wrap8_land.
  rewrite addChecksum_spec; [| lia | apply upd_same].
  unfold plainFrame. fold n.
  assert (Hcl : forall c : Z -> Z,
             cells c (5 + n + 1) = ([85; 170; 0; cmd; n / 256; n mod 256] ++ bs)%list ->
             Some (0, (cells c (5 + n + 1) ++ [zsum (cells c (5 + n + 1)) mod 256])%list) =
             Some (0, (([85; 170; 0; cmd; n / 256; n mod 256] ++ bs) ++
                       [zsum ([85; 170; 0; cmd; n / 256; n mod 256] ++ bs) mod 256])%list)).
  { intros c ->. reflexivity. }
  apply Hcl. rewrite cells_from6 by lia.
  rewrite !(upd_other _ (5 + n + 1)) by lia.
  cbn [app].
  repeat (first [rewrite upd_same | rewrite upd_other by lia]).
  rewrite putBytes_below by lia. rewrite upd_same.
  do 6 f_equal.
  replace (Z.to_nat (5 + n + 1 - 6)) with (List.length bs) by lia.
  etransitivity; [|apply (putBytes_cells bs (upd (fun _ => 0) 3 cmd) 5)].
  change (5 + 1) with 6. apply map_ext_in. intros i Hi. apply in_zseq in Hi.
  rewrite !upd_other by lia. reflexivity.
Qed.

Lemma digits_val_utoa (n : Z) (rest : string) :
  0 <= n -> starts_digit rest = false -> digits_val 0 (utoa n ++ rest) = (n, rest).
Proof.
  intros Hn Hrest. unfold utoa.
  destruct (digits_val_udigits (Z.to_nat (Z.log2 n)) n) as [k [Hk Hd]];
    [split; [lia | apply utoa_fuel; lia]|].
  specialize (Hd 0 rest). rewrite udigits_acc in Hd. rewrite Hd.
  replace (0 * 10 ^ k + n) with n by lia.
  destruct rest as [|c' r']; [reflexivity|].
  cbn [starts_digit] in Hrest. cbn [digits_val]. rewrite Hrest. reflexivity.
Qed.

Lemma reads_utoa (n : Z) : 0 <= n <= LONG_MAX -> reads (utoa n) n.
Proof.
  intros Hn. split; [exact Hn|]. intros rest Hrest. apply getNumber_utoa; assumption.
Qed.

(** A number printed with ["%02u"] is read back in base 10, the leading
    zero included. *)
Lemma reads_utoa02 (n : Z) : 0 <= n <= LONG_MAX -> reads (utoa02 n) n.
Proof.
  intros Hn. split; [exact Hn|]. intros rest Hrest. unfold utoa02.
  destruct (n <? 10); [|apply getNumber_utoa; assumption].
  unfold getNumber, strtol. cbn [append skip_space].
  change (is_space " ") with true. cbv iota. cbn [skip_space].
  change (is_space "0") with false. cbv iota. cbn [read_sign].
  change (Ascii.eqb "0" "-") with false. change (Ascii.eqb "0" "+") with false.
  cbv iota. cbn [starts_digit]. change (is_digit "0") with true. cbv iota.
  cbn [digits_val]. change (is_digit "0") with true. cbv iota.
  change (0 * 10 + (code "0" - 48)) with 0.
  rewrite digits_val_utoa by (try lia; exact Hrest).
  unfold clamp_long, LONG_MIN, LONG_MAX in *. f_equal. lia.
Qed.

Lemma strftime_time_tokens (e : Env) :
  strftime_time e =
    String "M" (tokensText ["28"; "1"; utoa02 (tm_year e mod 100); utoa02 (tm_mon e + 1);
                            utoa02 (tm_mday e); utoa02 (tm_hour e); utoa02 (tm_min e);
                            utoa02 (tm_sec e); utoa (tm_wday e)]).
Proof.
  unfold strftime_time, tokensText. cbn [fold_right append].
  rewrite (append_nil_r (utoa (tm_wday e))). reflexivity.
Qed.

Lemma mod256_small (n : Z) : 0 <= n < 256 -> n mod 256 = n.
Proof. intros H. apply Z.mod_small. exact H. Qed.

Lemma strftime_time_frame (e : Env) :
  validTime e -> processTuyaMsg (strftime_time e) = Some (0, timeFrame e).
Proof.
  intros (Hy & Hmo & Hd & Hh & Hmi & Hs & Hw).
  rewrite strftime_time_tokens.
  pose proof (Z.mod_pos_bound (tm_year e) 100 ltac:(lia)) as Hyy.
  rewrite (plain_tokens_frame "28" 28 _
             [1; tm_year e mod 100; tm_mon e + 1; tm_mday e;
              tm_hour e; tm_min e; tm_sec e; tm_wday e]).
  - unfold timeFrame. cbn [map]. rewrite !mod256_small by lia. reflexivity.
  - apply (reads_utoa 28). unfold LONG_MAX. lia.
  - lia.
  - lia.
  - lia.
  - repeat (constructor;
            [first [ apply (reads_utoa 1); unfold LONG_MAX; lia
                   | apply reads_utoa02; unfold LONG_MAX; lia
                   | apply reads_utoa; unfold LONG_MAX; lia ]|]).
    constructor.
  - cbn. lia.
Qed.

(** X9. [sendLocalTime].  With the time synchronised, and either not yet
    sent or demanded, exactly one frame leaves for the MCU: command 28 with
    the data 1, yy, mm, dd, HH, MM, SS, w - the zero-padded fields of
    [strftime] are read back in base 10 - and [sentTime] is set.  Demanded
    without synchronised time, the frame carries eight zero bytes and
    [sentTime] is not set.  Not demanded, nothing happens while the time is
    not synchronised or once it has been sent; so after a call with
    synchronised time no later call that is not demanded sends again. *)
Theorem sendLocalTime_frame (e : Env) (demanded : bool) (a : App) :
  validTime e ->
  (timeSynchronized e = true -> sentTime a = false \/ demanded = true ->
   sendLocalTime e demanded a =
     set_uartOut (uartOut a ++ [(0, timeFrame e)]) (set_sentTime true a)) /\
  (timeSynchronized e = false -> demanded = true ->
   sendLocalTime e demanded a =
     set_uartOut (uartOut a ++ [(0, plainFrame 0 28 [0; 0; 0; 0; 0; 0; 0; 0])]) a) /\
  (demanded = false -> timeSynchronized e = false \/ sentTime a = true ->
   sendLocalTime e demanded a = a) /\
  (timeSynchronized e = true ->
   forall e', sendLocalTime e' false (sendLocalTime e demanded a) =
              sendLocalTime e demanded a).
Proof.
  intros Hv.
  assert (H1 : timeSynchronized e = true -> sentTime a = false \/ demanded = true ->
               sendLocalTime e demanded a =
               set_uartOut (uartOut a ++ [(0, timeFrame e)]) (set_sentTime true a)).
  { intros Hs Hc. unfold sendLocalTime. rewrite Hs. cbn [andb].
    replace (negb (sentTime a) || demanded) with true
      by (destruct Hc as [-> | ->]; [reflexivity | symmetry; apply orb_true_r]).
    unfold sendTuyaMsg. rewrite (strftime_time_frame e Hv). reflexivity. }
  assert (H3 : forall (e0 : Env) (b : App),
               timeSynchronized e0 = false \/ sentTime b = true ->
               sendLocalTime e0 false b = b).
  { intros e0 b Hc. unfold sendLocalTime.
    replace (timeSynchronized e0 && negb (sentTime b) || false) with false; [reflexivity|].
    destruct Hc as [-> | ->]; [reflexivity|]. rewrite andb_false_r. reflexivity. }
  split; [exact H1|]. split; [|split].
  - intros Hs ->. unfold sendLocalTime. rewrite Hs. rewrite orb_true_r. reflexivity.
  - intros ->. apply H3.
  - intros Hs e'. apply H3. right.
    destruct (sentTime a) eqn:Hst.
    + destruct demanded.
      * rewrite H1 by (try exact Hs; right; reflexivity). reflexivity.
      * rewrite (H3 e a) by (right; exact Hst). exact Hst.
    + rewrite H1 by (try exact Hs; left; reflexivity). reflexivity.
Qed.

Lemma sendLocalTime_frame_witness :
  sendLocalTime env_2300 false (appInit true) =
    set_uartOut [(0, [85; 170; 0; 28; 0; 8; 1; 22; 1; 1; 23; 0; 0; 6; 89])]
                (set_sentTime true (appInit true)).
Proof.
  apply (proj1 (sendLocalTime_frame env_2300 false (appInit true)
                  ltac:(vm_compute; intuition congruence)) eq_refl (or_introl eq_refl)).
Defined.

(** ** Wifi status and heartbeat *)

(** X10. [sendWifiStatus] tells the MCU the wifi status (4 when connected,
    0 when not) with command 3 when it differs from the status sent last or
    when demanded, and remembers it; otherwise it does nothing.  So of two
    calls in a row that see the same connection state, the second, when not
    demanded, sends nothing. *)
Theorem sendWifiStatus_on_change (e : Env) (demanded : bool) (a : App) :
  let s := if wifiConnected e then 4 else 0 in
  (oldWifiStatus a <> s \/ demanded = true ->
   sendWifiStatus e demanded a =
     set_uartOut (uartOut a ++ [(0, plainFrame 0 3 [s])]) (set_oldWifiStatus s a)) /\
  (oldWifiStatus a = s -> demanded = false -> sendWifiStatus e demanded a = a) /\
  (forall e', wifiConnected e' = wifiConnected e ->
     sendWifiStatus e' false (sendWifiStatus e demanded a) = sendWifiStatus e demanded a).
Proof.
  intros s.
  assert (H1 : oldWifiStatus a <> s \/ demanded = true ->
               sendWifiStatus e demanded a =
               set_uartOut (uartOut a ++ [(0, plainFrame 0 3 [s])]) (set_oldWifiStatus s a)).
  { intros Hc. unfold sendWifiStatus. fold s.
    replace (negb (s =? oldWifiStatus a) || demanded) with true.
    - subst s. destruct (wifiConnected e); reflexivity.
    - destruct Hc as [Hc | ->]; [|symmetry; apply orb_true_r].
      destruct (Z.eqb_spec s (oldWifiStatus a)); [congruence | reflexivity]. }
  assert (H2 : forall (e0 : Env) (b : App),
               oldWifiStatus b = (if wifiConnected e0 then 4 else 0) ->
               sendWifiStatus e0 false b = b).
  { intros e0 b Hb. unfold sendWifiStatus. rewrite Hb, Z.eqb_refl. reflexivity. }
  split; [exact H1|]. split.
  - intros Ho ->. apply H2. exact Ho.
  - intros e' He'. apply H2. rewrite He'. fold s.
    destruct (Z.eq_dec (oldWifiStatus a) s) as [Heq|Hne].
    + destruct demanded.
      * rewrite H1 by (right; reflexivity). reflexivity.
      * rewrite (H2 e a Heq). exact Heq.
    + rewrite H1 by (left; exact Hne). reflexivity.
Qed.

Lemma sendTuyaMsg_out (msg : string) (a : App) :
  gotHeartbeat (sendTuyaMsg msg a) = gotHeartbeat a /\
  slotSt (sendTuyaMsg msg a) = slotSt a /\
  exists more, uartOut (sendTuyaMsg msg a) = (uartOut a ++ more)%list.
Proof.
  unfold sendTuyaMsg. destruct (processTuyaMsg msg) as [w|].
  - split; [reflexivity|]. split; [reflexivity|]. exists [w]. reflexivity.
  - split; [reflexivity|]. split; [reflexivity|]. exists []. symmetry. apply app_nil_r.
Qed.

Lemma sendWifiStatus_out (e : Env) (d : bool) (a : App) :
  gotHeartbeat (sendWifiStatus e d a) = gotHeartbeat a /\
  slotSt (sendWifiStatus e d a) = slotSt a /\
  exists more, uartOut (sendWifiStatus e d a) = (uartOut a ++ more)%list.
Proof.
  unfold sendWifiStatus.
  destruct (negb _ || d).
  - match goal with |- context [sendTuyaMsg ?m ?b] =>
      destruct (sendTuyaMsg_out m b) as (H1 & H2 & more & H3) end.
    rewrite H1, H2, H3. split; [reflexivity|]. split; [reflexivity|].
    exists more. reflexivity.
  - split; [reflexivity|]. split; [reflexivity|]. exists []. symmetry. apply app_nil_r.
Qed.

Lemma sendLocalTime_out (e : Env) (d : bool) (a : App) :
  gotHeartbeat (sendLocalTime e d a) = gotHeartbeat a /\
  slotSt (sendLocalTime e d a) = slotSt a /\
  exists more, uartOut (sendLocalTime e d a) = (uartOut a ++ more)%list.
Proof.
  unfold sendLocalTime.
  destruct (_ || d); [destruct (timeSynchronized e)|].
  - match goal with |- context [sendTuyaMsg ?m ?b] =>
      destruct (sendTuyaMsg_out m b) as (H1 & H2 & more & H3) end.
    rewrite H1, H2, H3. split; [reflexivity|]. split; [reflexivity|].
    exists more. reflexivity.
  - match goal with |- context [sendTuyaMsg ?m ?b] =>
      destruct (sendTuyaMsg_out m b) as (H1 & H2 & more & H3) end.
    rewrite H1, H2, H3. split; [reflexivity|]. split; [reflexivity|].
    exists more. reflexivity.
  - split; [reflexivity|]. split; [reflexivity|]. exists []. symmetry. apply app_nil_r.
Qed.

Lemma updateAppStatus_tgtTemp_out (v : string) (a : App) :
  gotHeartbeat (updateAppStatus false "tgtTemp" v a) = gotHeartbeat a /\
  exists more, uartOut (updateAppStatus false "tgtTemp" v a) = (uartOut a ++ more)%list.
Proof.
  unfold updateAppStatus. cbn [String.eqb Ascii.eqb Bool.eqb].
  cbv beta iota zeta.
  destruct (slotCnt a >=? TIME_SLOTS * 2); cbn [configLoaded set_slotCnt];
    destruct (configLoaded a); cbn [andb];
    try match goal with |- context [sendTuyaMsg ?m ?b] =>
      destruct (sendTuyaMsg_out m b) as (H1 & H2 & more & H3);
      rewrite H1, H3; split; [reflexivity|]; exists more; reflexivity end;
    (split; [reflexivity|]; exists []; symmetry; apply app_nil_r).
Qed.

Lemma checkSchedule_out (e : Env) (a : App) :
  gotHeartbeat (checkSchedule false e a) = gotHeartbeat a /\
  exists more, uartOut (checkSchedule false e a) = (uartOut a ++ more)%list.
Proof.
  unfold checkSchedule.
  destruct (negb (timeSynchronized e)).
  - split; [reflexivity|]. exists []. symmetry. apply app_nil_r.
  - match goal with |- context [if changedSlot ?s then _ else _] =>
      destruct (changedSlot s) end.
    + match goal with |- context [updateAppStatus false "tgtTemp" ?v ?b] =>
        destruct (updateAppStatus_tgtTemp_out v b) as (H1 & more & H3) end.
      rewrite H1, H3. split; [reflexivity|]. exists more. reflexivity.
    + split; [reflexivity|]. exists []. symmetry. apply app_nil_r.
Qed.

(** X11. [heartBeat] outside sniffer mode.  Every call first writes the
    heartbeat frame 55 aa 00 00 00 00 ff to the MCU and leaves
    [gotHeartbeat] cleared.  When no reply has arrived since the previous
    call it does nothing else and waits one second; when one has, it goes on
    to the wifi status, the local time and the schedule, and waits fifteen
    seconds. *)
Theorem heartBeat_cycle (e : Env) (a : App) :
  gotHeartbeat (fst (heartBeat false e a)) = false /\
  (exists more,
     uartOut (fst (heartBeat false e a)) =
       (uartOut a ++ (0, [85; 170; 0; 0; 0; 0; 255]) :: more)%list) /\
  (gotHeartbeat a = false ->
   heartBeat false e a =
     (set_uartOut (uartOut a ++ [(0, [85; 170; 0; 0; 0; 0; 255])]) a, 1000)) /\
  (gotHeartbeat a = true ->
   heartBeat false e a =
     (checkSchedule false e
        (sendLocalTime e false
           (sendWifiStatus e false
              (set_gotHeartbeat false
                 (set_uartOut (uartOut a ++ [(0, [85; 170; 0; 0; 0; 0; 255])]) a)))),
      15000)).
Proof.
  assert (Hhb : sendTuyaMsg "M 0" a =
                set_uartOut (uartOut a ++ [(0, [85; 170; 0; 0; 0; 0; 255])]) a)
    by reflexivity.
  unfold heartBeat. rewrite Hhb.
  change (gotHeartbeat (set_uartOut _ a)) with (gotHeartbeat a).
  destruct (gotHeartbeat a) eqn:Hg.
  - cbn [fst snd].
    set (a1 := set_gotHeartbeat false _).
    destruct (sendWifiStatus_out e false a1) as (W1 & _ & mw & W3).
    destruct (sendLocalTime_out e false (sendWifiStatus e false a1)) as (L1 & _ & ml & L3).
    destruct (checkSchedule_out e (sendLocalTime e false (sendWifiStatus e false a1)))
      as (C1 & mc & C3).
    split; [rewrite C1, L1, W1; reflexivity|].
    split; [|split; [discriminate | reflexivity]].
    exists (mw ++ ml ++ mc)%list. rewrite C3, L3, W3. subst a1.
    cbn [uartOut set_gotHeartbeat set_uartOut].
    rewrite <- !app_assoc. reflexivity.
  - cbn [fst snd]. split; [exact Hg|]. split; [exists []; reflexivity|].
    split; [reflexivity | discriminate].
Qed.

(** ** Invariants of the whole program *)

Lemma updateAppStatus_slotSt (U : bool) (variable value : string) (a : App) :
  slotSt (updateAppStatus U variable value a) = slotSt a.
Proof.
  unfold updateAppStatus. destruct U; [reflexivity|].
  rewrite (surjective_pairing (sscanf_hhu_colon_hhu value)).
  repeat match goal with
  | |- context [String.eqb variable ?k] => destruct (String.eqb variable k)
  end;
  repeat match goal with
  | |- context [contains ?k variable] => destruct (contains k variable)
  end;
  try match goal with
  | |- context [?s <? TIME_SLOTS] => destruct (s <? TIME_SLOTS)
  end;
  cbv beta iota zeta;
  match goal with
  | |- context [?x >=? TIME_SLOTS * 2] => destruct (x >=? TIME_SLOTS * 2)
  end;
  cbv beta iota zeta;
  match goal with
  | |- slotSt (if ?c then sendTuyaMsg ?m ?b else ?b') = _ =>
      destruct c; [rewrite (proj1 (proj2 (sendTuyaMsg_out m b)))|]
  end; reflexivity.
Qed.

Lemma setSchedule_slotSt (a : App) : slotSt (setSchedule a) = slotSt a.
Proof.
  unfold setSchedule. generalize (zseq 0 (Z.to_nat TIME_SLOTS)). intros l.
  revert a. induction l as [|i l IH]; intros a; [reflexivity|].
  cbn [fold_left]. rewrite IH. reflexivity.
Qed.

Lemma controlHeating_slotSt (U : bool) (t : float) (a : App) :
  slotSt (controlHeating U t a) = slotSt a.
Proof.
  unfold controlHeating. cbv zeta.
  repeat match goal with
  | |- context [if ?c then _ else _] => destruct c
  end; rewrite ?updateAppStatus_slotSt; reflexivity.
Qed.

Lemma processDP_slotSt (U : bool) (e : Env) (a : App) :
  slotSt (processDP U e a) = slotSt a.
Proof.
  unfold processDP. cbv zeta.
  repeat match goal with
  | |- context [tuyaDP (mcuTuya a) =? ?k] => destruct (tuyaDP (mcuTuya a) =? k)
  end;
  try (unfold publishData0; reflexivity);
  try apply setSchedule_slotSt.
  - unfold publishData0.
    match goal with |- context [if ?c then _ else _] => destruct c end;
      [|reflexivity].
    rewrite (proj1 (proj2 (sendWifiStatus_out _ _ _))).
    rewrite (proj1 (proj2 (sendLocalTime_out _ _ _))). reflexivity.
  - match goal with |- context [if ESPcontroller ?b then _ else _] =>
      destruct (ESPcontroller b) end;
      cbn [slotSt wsJsonSend set_wsOut]; rewrite ?controlHeating_slotSt; reflexivity.
  - unfold publishData0.
    repeat match goal with
    | |- context [if ?c then _ else _] => destruct c
    end; reflexivity.
  - match goal with |- context [if ?c then _ else _] => destruct c end; reflexivity.
  - match goal with |- context [if ?c then _ else _] => destruct c end;
      [apply (proj1 (proj2 (sendTuyaMsg_out _ _))) | reflexivity].
Qed.

Lemma doTuyaInit_slotSt (a : App) : slotSt (doTuyaInit a) = slotSt a.
Proof.
  unfold doTuyaInit. cbv zeta.
  rewrite (proj1 (proj2 (sendTuyaMsg_out _ _))).
  destruct (ESPcontroller a); apply (proj1 (proj2 (sendTuyaMsg_out _ _))).
Qed.

Lemma processMCUcmd_slotSt (U : bool) (e : Env) (a : App) :
  slotSt (processMCUcmd U e a) = slotSt a.
Proof.
  unfold processMCUcmd. cbv zeta.
  repeat match goal with
  | |- context [if ?c then _ else _] => destruct c
  end;
  rewrite ?doTuyaInit_slotSt, ?processDP_slotSt,
          ?(proj1 (proj2 (sendLocalTime_out _ _ _))); reflexivity.
Qed.

Lemma deliver_slotSt (U : bool) (e : Env) (u : Z) (m : (Z -> Z) * Z) (a : App) :
  slotSt (deliver U e u m a) = slotSt a.
Proof.
  unfold deliver. cbv zeta. destruct U; [reflexivity|].
  rewrite processMCUcmd_slotSt. reflexivity.
Qed.

Lemma deliver_inv (U : bool) (e : Env) (u : Z) (m : (Z -> Z) * Z) (a : App) :
  appInv a -> appInv (deliver U e u m a).
Proof.
  intros H. unfold deliver. cbv zeta.
  assert (H1 : appInv (set_mcuTuya (formatTuya U u (fst m) (snd m) true (mcuTuya a)) a))
    by exact H.
  destruct U; [exact H1 | apply processMCUcmd_inv; exact H1].
Qed.

Lemma checkSchedule_slotOk (e : Env) (a : App) :
  slotOk a -> slotOk (checkSchedule false e a) /\
              (timeSynchronized e = true -> 0 <= currentSlot (slotSt (checkSchedule false e a))).
Proof.
  intros [Hr Hc].
  destruct (timeSynchronized e) eqn:Hs.
  2:{ unfold checkSchedule. rewrite Hs. cbn [negb].
      split; [split; assumption | discriminate]. }
  destruct (Z.ltb_spec (currentSlot (slotSt a)) 0) as [Hneg|Hpos].
  - destruct (checkSchedule_first e a Hs Hneg) as [Hst _]. cbv zeta in Hst.
    pose proof (scanSlot_spec (schedule a) (currentSecs e)) as Hscan. cbv zeta in Hscan.
    destruct Hscan as [Hscan _].
    unfold slotOk. rewrite Hst. cbn [currentSlot changedSlot].
    unfold USED_SLOTS in *.
    destruct ((_ <? 0) || (_ =? 6 - 1)) eqn:Hw.
    + split; [split; [lia | reflexivity] | intros _; lia].
    + apply orb_false_iff in Hw. destruct Hw as [Hw1 Hw2].
      apply Z.ltb_ge in Hw1. apply Z.eqb_neq in Hw2.
      split; [split; [lia | reflexivity] | intros _; lia].
  - destruct (to_uint32 (millis e - startTime (slotSt a)) >?
              to_uint32 (slotDuration (slotSt a))) eqn:Hex.
    + destruct (checkSchedule_advance e a) as [Hst _].
      { split; [exact Hs|]. split; [lia | exact Hex]. }
      cbv zeta in Hst. unfold slotOk. rewrite Hst. cbn [currentSlot changedSlot].
      unfold USED_SLOTS in *.
      destruct (Z.geb_spec (currentSlot (slotSt a) + 1) 6);
        (split; [split; [lia | reflexivity] | intros _; lia]).
    + assert (Hsame : checkSchedule false e a = a).
      { unfold checkSchedule. rewrite Hs. cbn [negb]. cbv zeta.
        replace (currentSlot (slotSt a) <? 0) with false
          by (symmetry; apply Z.ltb_ge; exact Hpos).
        rewrite Hex, Hc. destruct a; reflexivity. }
      rewrite Hsame. split; [split; assumption | intros _; lia].
Qed.

Lemma heartBeat_inv (U : bool) (e : Env) (a : App) :
  appInv a -> slotOk a ->
  appInv (fst (heartBeat U e a)) /\ slotOk (fst (heartBeat U e a)).
Proof.
  intros Ha Hs. unfold heartBeat. destruct U; [split; assumption|]. cbv zeta.
  assert (Ha1 := sendTuyaMsg_inv "M 0" a Ha).
  assert (Hs1 : slotOk (sendTuyaMsg "M 0" a)).
  { unfold slotOk. rewrite (proj1 (proj2 (sendTuyaMsg_out _ _))). exact Hs. }
  destruct (gotHeartbeat (sendTuyaMsg "M 0" a)); cbn [fst]; [|split; assumption].
  set (a1 := set_gotHeartbeat false (sendTuyaMsg "M 0" a)).
  assert (Ha2 : appInv a1) by exact Ha1.
  assert (Hs2 : slotOk a1) by exact Hs1.
  split.
  - apply checkSchedule_inv, sendLocalTime_inv, sendWifiStatus_inv. exact Ha2.
  - apply checkSchedule_slotOk. unfold slotOk.
    rewrite (proj1 (proj2 (sendLocalTime_out _ _ _))).
    rewrite (proj1 (proj2 (sendWifiStatus_out _ _ _))). exact Hs2.
Qed.

Lemma processTuyaByte_sys (U : bool) (B : Z) (e : Env) (u b : Z)
    (st : (Z -> Port) * App) :
  11 <= B < 65546 -> isByte b ->
  (forall v, portOk B (fst st v)) -> appInv (snd st) -> slotOk (snd st) ->
  let st' := processTuyaByte U B e u b st in
  (forall v, portOk B (fst st' v)) /\ appInv (snd st') /\ slotOk (snd st').
Proof.
  intros HB Hb Hp Ha Hs. destruct st as [ports a]. cbn [fst snd] in *.
  unfold processTuyaByte.
  destruct (reassemble_ok B (ports u) b HB (Hp u) Hb) as [Hp1 _].
  destruct (reassemble B (ports u) b) as [p msg]. cbn [fst snd] in *.
  split; [|split].
  - intros v. destruct (v =? u); [exact Hp1 | apply Hp].
  - destruct msg as [m|]; [apply deliver_inv; exact Ha | exact Ha].
  - destruct msg as [m|]; [|exact Hs].
    unfold slotOk. rewrite deliver_slotSt. exact Hs.
Qed.

Lemma readUart_sys (U : bool) (B : Z) (e : Env) (u : Z) (bytes : list Z) :
  11 <= B < 65546 -> Forall isByte bytes ->
  forall st : (Z -> Port) * App,
    (forall v, portOk B (fst st v)) -> appInv (snd st) -> slotOk (snd st) ->
    let st' := readUart U B e u bytes st in
    (forall v, portOk B (fst st' v)) /\ appInv (snd st') /\ slotOk (snd st').
Proof.
  intros HB. induction 1 as [|b bytes Hb Hbs IH]; intros st Hp Ha Hs.
  - cbn. split; [exact Hp|]. split; assumption.
  - unfold readUart. cbn [fold_left]. apply IH; apply processTuyaByte_sys;
      try assumption; destruct U; assumption.
Qed.

Lemma wsAppSpecificHandler_inv (wsMsg : string) (a : App) :
  appInv a -> slotOk a ->
  appInv (fst (wsAppSpecificHandler wsMsg a)) /\ slotOk (fst (wsAppSpecificHandler wsMsg a)).
Proof.
  intros Ha Hs. unfold wsAppSpecificHandler. cbv zeta.
  repeat match goal with
  | |- context [if ?c then _ else _] => destruct c
  end; cbn [fst]; try (split; assumption).
  - split.
    + unfold doTuyaInit. cbv zeta. apply sendTuyaMsg_inv.
      destruct (ESPcontroller a); apply sendTuyaMsg_inv; exact Ha.
    + unfold slotOk. rewrite doTuyaInit_slotSt. exact Hs.
  - split; [apply sendTuyaMsg_inv; exact Ha|].
    unfold slotOk. rewrite (proj1 (proj2 (sendTuyaMsg_out _ _))). exact Hs.
Qed.

Lemma run_sys (U : bool) (B : Z) (evs : list (Env * Event)) :
  11 <= B < 65546 ->
  Forall (fun ee => byteEvent (snd ee)) evs ->
  forall st : (Z -> Port) * App,
    (forall v, portOk B (fst st v)) -> appInv (snd st) -> slotOk (snd st) ->
    let st' := run U B evs st in
    (forall v, portOk B (fst st' v)) /\ appInv (snd st') /\ slotOk (snd st').
Proof.
  intros HB. induction 1 as [|[e ev] evs Hev Hevs IH]; intros st Hp Ha Hs.
  - cbn. split; [exact Hp|]. split; assumption.
  - unfold run. cbn [fold_left fst snd].
    assert (H1 : (forall v, portOk B (fst (step U B e ev st) v)) /\
                 appInv (snd (step U B e ev st)) /\ slotOk (snd (step U B e ev st))).
    { destruct ev as [u bytes| |k v|m]; cbn [step fst snd byteEvent] in *.
      - apply readUart_sys; assumption.
      - split; [exact Hp|]. apply heartBeat_inv; assumption.
      - split; [exact Hp|]. split; [apply updateAppStatus_inv; exact Ha|].
        unfold slotOk. rewrite updateAppStatus_slotSt. exact Hs.
      - split; [exact Hp|]. apply wsAppSpecificHandler_inv; assumption. }
    destruct H1 as (Hp1 & Ha1 & Hs1). apply IH; assumption.
Qed.

(** X12. Whatever sequence of events the program serves after start -
    bytes on either UART, heartbeats, configuration updates, web socket
    messages, in any environment - the indices it uses stay in range: the
    write index of each receive buffer is below [BUFF_LEN - 10], the counter
    of slot edits is below 16, the slot table holds bytes in the columns sent
    to the MCU, and the current slot of the schedule is -1 (not started) or
    one of the six used slots. *)
Theorem reachable_states_in_range (U : bool) (B : Z) (evs : list (Env * Event))
    (loaded : bool) :
  11 <= B < 65546 ->
  Forall (fun ee => byteEvent (snd ee)) evs ->
  let st := run U B evs (fun _ => port0 B, appInit loaded) in
  (forall u, 0 <= tuyaIdx (fst st u) < B - 10) /\
  0 <= slotCnt (snd st) < TIME_SLOTS * 2 /\
  tableBytes (schedule (snd st)) /\
  -1 <= currentSlot (slotSt (snd st)) < USED_SLOTS.
Proof.
  intros HB Hev st.
  destruct (run_sys U B evs HB Hev (fun _ => port0 B, appInit loaded)) as (Hp & [Hc Ht] & [Hs _]).
  - intros v. apply port0_ok. exact HB.
  - apply appInit_inv.
  - split; [vm_compute; split; congruence | reflexivity].
  - fold st in Hp, Hc, Ht, Hs. split; [intros u; apply Hp|]. split; [exact Hc|].
    split; [exact Ht | exact Hs].
Qed.

Lemma reachable_states_in_range_witness :
  let st := run false 256
              [(env_2300, EvHeartBeat); (env_2300, EvRead 0 frame_heartbeat);
               (env_2300, EvHeartBeat); (env_2300, EvUpdate "slotTime1" "06:00");
               (env_2300, EvWebSocket "M 8")]
              (fun _ => port0 256, appInit true) in
  (forall u, 0 <= tuyaIdx (fst st u) < 256 - 10) /\
  0 <= slotCnt (snd st) < TIME_SLOTS * 2 /\
  tableBytes (schedule (snd st)) /\
  -1 <= currentSlot (slotSt (snd st)) < USED_SLOTS.
Proof.
  apply (reachable_states_in_range false 256
           [(env_2300, EvHeartBeat); (env_2300, EvRead 0 frame_heartbeat);
            (env_2300, EvHeartBeat); (env_2300, EvUpdate "slotTime1" "06:00");
            (env_2300, EvWebSocket "M 8")] true).
  - lia.
  - repeat (constructor; [first [exact I | repeat constructor; unfold isByte; lia]|]).
    constructor.
Defined.

(** ** The calibration offset [baseCal] *)

Lemma sendTuyaMsg_baseCal (msg : string) (a : App) :
  baseCal (sendTuyaMsg msg a) = baseCal a.
Proof.
  unfold sendTuyaMsg. destruct (processTuyaMsg msg); reflexivity.
Qed.

Lemma sendWifiStatus_baseCal (e : Env) (d : bool) (a : App) :
  baseCal (sendWifiStatus e d a) = baseCal a.
Proof.
  unfold sendWifiStatus.
  destruct (negb _ || d); [rewrite sendTuyaMsg_baseCal|]; reflexivity.
Qed.

Lemma sendLocalTime_baseCal (e : Env) (d : bool) (a : App) :
  baseCal (sendLocalTime e d a) = baseCal a.
Proof.
  unfold sendLocalTime.
  destruct (_ || d); [destruct (timeSynchronized e)|];
    rewrite ?sendTuyaMsg_baseCal; reflexivity.
Qed.

(** The only assignment of [baseCal] in [updateAppStatus] is the one of the
    [tempCal] branch, which stores [atof(value)]. *)
Lemma updateAppStatus_baseCal (U : bool) (variable value : string) (a : App) :
  baseCal (updateAppStatus U variable value a) =
    if negb U && String.eqb variable "tempCal" then atof value else baseCal a.
Proof.
  unfold updateAppStatus. destruct U; [reflexivity|]. cbn [negb andb].
  destruct (String.eqb variable "tempCal") eqn:Ht.
  - apply String.eqb_eq in Ht. subst variable.
    cbn [String.eqb Ascii.eqb Bool.eqb]. cbv beta iota zeta.
    repeat match goal with
    | |- context [if ?c then _ else _] => destruct c
    end; rewrite ?sendTuyaMsg_baseCal; reflexivity.
  - rewrite (surjective_pairing (sscanf_hhu_colon_hhu value)).
    repeat match goal with
    | |- context [String.eqb variable ?k] => destruct (String.eqb variable k)
    end;
    repeat match goal with
    | |- context [contains ?k variable] => destruct (contains k variable)
    end;
    try match goal with
    | |- context [?s <? TIME_SLOTS] => destruct (s <? TIME_SLOTS)
    end;
    cbv beta iota zeta;
    match goal with
    | |- context [?x >=? TIME_SLOTS * 2] => destruct (x >=? TIME_SLOTS * 2)
    end;
    cbv beta iota zeta;
    match goal with
    | |- baseCal (if ?c then sendTuyaMsg ?m ?b else ?b') = _ =>
        destruct c; [rewrite sendTuyaMsg_baseCal|]
    end; reflexivity.
Qed.

Lemma checkSchedule_baseCal (U : bool) (e : Env) (a : App) :
  baseCal (checkSchedule U e a) = baseCal a.
Proof.
  unfold checkSchedule. destruct (negb (timeSynchronized e)); [reflexivity|].
  cbv zeta.
  match goal with |- context [if changedSlot ?s then _ else _] =>
    destruct (changedSlot s) end; [|reflexivity].
  rewrite updateAppStatus_baseCal.
  cbn [String.eqb Ascii.eqb Bool.eqb]. rewrite andb_false_r. reflexivity.
Qed.

Lemma setSchedule_baseCal (a : App) : baseCal (setSchedule a) = baseCal a.
Proof.
  unfold setSchedule. generalize (zseq 0 (Z.to_nat TIME_SLOTS)). intros l.
  revert a. induction l as [|i l IH]; intros a; [reflexivity|].
  cbn [fold_left]. rewrite IH. reflexivity.
Qed.

Lemma controlHeating_baseCal (U : bool) (t : float) (a : App) :
  baseCal (controlHeating U t a) = baseCal a.
Proof.
  unfold controlHeating. cbv zeta.
  repeat match goal with
  | |- context [if ?c then _ else _] => destruct c
  end; rewrite ?updateAppStatus_baseCal;
  cbn [String.eqb Ascii.eqb Bool.eqb]; rewrite ?andb_false_r; reflexivity.
Qed.

(** No datapoint report assigns [baseCal]. *)
Lemma processDP_baseCal (U : bool) (e : Env) (a : App) :
  baseCal (processDP U e a) = baseCal a.
Proof.
  unfold processDP. cbv zeta.
  repeat match goal with
  | |- context [tuyaDP (mcuTuya a) =? ?k] => destruct (tuyaDP (mcuTuya a) =? k)
  end;
  try (unfold publishData0; reflexivity);
  try apply setSchedule_baseCal.
  - unfold publishData0.
    match goal with |- context [if ?c then _ else _] => destruct c end;
      [|reflexivity].
    rewrite sendWifiStatus_baseCal, sendLocalTime_baseCal. reflexivity.
  - match goal with |- context [if ESPcontroller ?b then _ else _] =>
      destruct (ESPcontroller b) end;
      cbn [baseCal wsJsonSend set_wsOut]; rewrite ?controlHeating_baseCal; reflexivity.
  - unfold publishData0.
    repeat match goal with
    | |- context [if ?c then _ else _] => destruct c
    end; reflexivity.
  - match goal with |- context [if ?c then _ else _] => destruct c end; reflexivity.
  - match goal with |- context [if ?c then _ else _] => destruct c end;
      [apply sendTuyaMsg_baseCal | reflexivity].
Qed.

Lemma doTuyaInit_baseCal (a : App) : baseCal (doTuyaInit a) = baseCal a.
Proof.
  unfold doTuyaInit. cbv zeta. rewrite sendTuyaMsg_baseCal.
  destruct (ESPcontroller a); apply sendTuyaMsg_baseCal.
Qed.

Lemma processMCUcmd_baseCal (U : bool) (e : Env) (a : App) :
  baseCal (processMCUcmd U e a) = baseCal a.
Proof.
  unfold processMCUcmd. cbv zeta.
  repeat match goal with
  | |- context [if ?c then _ else _] => destruct c
  end;
  rewrite ?doTuyaInit_baseCal, ?processDP_baseCal, ?sendLocalTime_baseCal;
  reflexivity.
Qed.

Lemma deliver_baseCal (U : bool) (e : Env) (u : Z) (m : (Z -> Z) * Z) (a : App) :
  baseCal (deliver U e u m a) = baseCal a.
Proof.
  unfold deliver. cbv zeta. destruct U; [reflexivity|].
  rewrite processMCUcmd_baseCal. reflexivity.
Qed.

Lemma processTuyaByte_baseCal (U : bool) (B : Z) (e : Env) (u b : Z)
    (st : (Z -> Port) * App) :
  baseCal (snd (processTuyaByte U B e u b st)) = baseCal (snd st).
Proof.
  destruct st as [ports a]. unfold processTuyaByte.
  destruct (reassemble B (ports u) b) as [p [m|]]; cbn [snd];
    [apply deliver_baseCal | reflexivity].
Qed.

(** No byte read from a UART changes [baseCal]. *)
Lemma readUart_baseCal (U : bool) (B : Z) (e : Env) (u : Z) (bytes : list Z)
    (st : (Z -> Port) * App) :
  baseCal (snd (readUart U B e u bytes st)) = baseCal (snd st).
Proof.
  unfold readUart. revert st.
  induction bytes as [|b bytes IH]; intros st; [reflexivity|].
  cbn [fold_left]. rewrite IH, processTuyaByte_baseCal.
  destruct U; reflexivity.
Qed.

Lemma heartBeat_baseCal (U : bool) (e : Env) (a : App) :
  baseCal (fst (heartBeat U e a)) = baseCal a.
Proof.
  unfold heartBeat. destruct U; [reflexivity|]. cbv zeta.
  destruct (gotHeartbeat (sendTuyaMsg "M 0" a)); cbn [fst].
  - rewrite checkSchedule_baseCal, sendLocalTime_baseCal, sendWifiStatus_baseCal.
    apply sendTuyaMsg_baseCal.
  - apply sendTuyaMsg_baseCal.
Qed.

Lemma wsAppSpecificHandler_baseCal (wsMsg : string) (a : App) :
  baseCal (fst (wsAppSpecificHandler wsMsg a)) = baseCal a.
Proof.
  unfold wsAppSpecificHandler. cbv zeta.
  repeat match goal with
  | |- context [if ?c then _ else _] => destruct c
  end; cbn [fst]; rewrite ?doTuyaInit_baseCal, ?sendTuyaMsg_baseCal; reflexivity.
Qed.

(** An event assigns [baseCal] only when it is the update of [tempCal]
    outside sniffer mode. *)
Lemma step_baseCal (U : bool) (B : Z) (e : Env) (ev : Event)
    (st : (Z -> Port) * App) :
  baseCal (snd (step U B e ev st)) =
    match ev with
    | EvUpdate variable value =>
        if negb U && String.eqb variable "tempCal" then atof value
        else baseCal (snd st)
    | _ => baseCal (snd st)
    end.
Proof.
  destruct ev as [u bytes| |k v|m]; cbn [step fst snd].
  - apply readUart_baseCal.
  - apply heartBeat_baseCal.
  - apply updateAppStatus_baseCal.
  - apply wsAppSpecificHandler_baseCal.
Qed.

(** C8 (as the code has it). For an inbound datapoint-20 report: when the
    ESP controls heating the report is ignored, the state is unchanged and
    nothing is published; when the MCU controls, the only effect is the
    publication of [tempCal] with the text of [(float)(tuyaInt / 10.0)]
    with one decimal, which up to 10485762 in magnitude is the reported
    value divided by 10 in decimal, and [baseCal], like the rest of the
    state, keeps its value.  No event of the program other than the UI
    update of [tempCal] changes [baseCal] - in particular no bytes read
    from the MCU do - and that update stores [atof(value)]. *)
Theorem processDP_tempCal (B : Z) (e : Env) (a : App) :
  tuyaDP (mcuTuya a) = 20 ->
  (ESPcontroller a = true -> processDP false e a = a) /\
  (ESPcontroller a = false ->
     processDP false e a =
       wsJsonSend "tempCal" (ftoa1f (tenths (tuyaInt (mcuTuya a)))) a /\
     (-10485762 <= tuyaInt (mcuTuya a) <= 10485762 ->
      ftoa1f (tenths (tuyaInt (mcuTuya a))) = tenthsText (tuyaInt (mcuTuya a))) /\
     baseCal (processDP false e a) = baseCal a) /\
  (forall (e' : Env) (ev : Event) (st : (Z -> Port) * App),
     (forall value, ev <> EvUpdate "tempCal" value) ->
     baseCal (snd (step false B e' ev st)) = baseCal (snd st)) /\
  (forall (e' : Env) (value : string) (st : (Z -> Port) * App),
     baseCal (snd (step false B e' (EvUpdate "tempCal" value) st)) = atof value).
Proof.
  intros Hdp. split; [|split; [|split]].
  - intros Hc. unfold processDP. rewrite Hdp. cbn [Z.eqb Pos.eqb].
    rewrite Hc. reflexivity.
  - intros Hc. split; [|split].
    + unfold processDP. rewrite Hdp. cbn [Z.eqb Pos.eqb].
      rewrite Hc. reflexivity.
    + apply tenths_text.
    + apply processDP_baseCal.
  - intros e' ev st Hev. rewrite step_baseCal.
    destruct ev as [u bytes| |k v|m]; try reflexivity.
    cbn [negb andb]. destruct (String.eqb k "tempCal") eqn:Hk; [|reflexivity].
    apply String.eqb_eq in Hk. subst k. exfalso. exact (Hev v eq_refl).
  - intros e' value st. rewrite step_baseCal. reflexivity.
Qed.

Lemma processDP_tempCal_witness :
  processDP false env_2300 (app_DP20 true) = app_DP20 true /\
  wsOut (processDP false env_2300 (app_DP20 false)) = [("tempCal", "1.5")].
Proof.
  split.
  - apply (processDP_tempCal 256 env_2300 (app_DP20 true) eq_refl). reflexivity.
  - rewrite (proj1 (proj1 (proj2 (processDP_tempCal 256 env_2300 (app_DP20 false) eq_refl))
                      eq_refl)).
    vm_compute. reflexivity.
Defined.

(** C8 as stated fails: with the MCU in control, a report of 15 (an offset
    of 1.5 degrees) is published but [baseCal] stays at 0. *)
Lemma processDP_tempCal_baseCal_counterexample :
  ESPcontroller (app_DP20 false) = false /\
  tuyaDP (mcuTuya (app_DP20 false)) = 20 /\
  tuyaInt (mcuTuya (app_DP20 false)) = 15 /\
  wsOut (processDP false env_2300 (app_DP20 false)) = [("tempCal", "1.5")] /\
  baseCal (processDP false env_2300 (app_DP20 false)) = F_zero false /\
  baseCal (processDP false env_2300 (app_DP20 false)) <> tenths 15.
Proof.
  vm_compute. repeat split; try reflexivity. discriminate.
Qed.

(** ** The target temperature sent to the MCU *)

Lemma to_int32_range (z : Z) : LONG_MIN <= to_int32 z <= LONG_MAX.
Proof.
  unfold to_int32, LONG_MIN, LONG_MAX.
  pose proof (Z.mod_pos_bound (z + 2147483648) 4294967296 ltac:(lia)). lia.
Qed.

(** The [tgtTemp] update with any value text, once the configuration is
    loaded and no complete slot batch is pending. *)
Lemma tgtTemp_frame_any (v : string) (a : App) :
  configLoaded a = true ->
  slotCnt a < TIME_SLOTS * 2 ->
  updateAppStatus false "tgtTemp" v a =
    set_uartOut (uartOut a ++ [(0, intFrame 2 (to_int32 (atoi v * 10)))]) a.
Proof.
  intros Hcfg Hcnt. unfold updateAppStatus.
  cbn [String.eqb Ascii.eqb Bool.eqb]. cbv beta iota zeta.
  replace (slotCnt a >=? TIME_SLOTS * 2) with false
    by (symmetry; rewrite Z.geb_leb; apply Z.leb_gt; exact Hcnt).
  rewrite Hcfg. cbn [andb]. unfold sendTuyaMsg.
  change ("M 6 " ++ "2 2 " ++ itoa (to_int32 (atoi v * 10)))%string
    with (intText 2 (to_int32 (atoi v * 10))).
  rewrite intText_frame by (try apply to_int32_range; lia). reflexivity.
Qed.

Lemma atoi_integer_part (n : Z) (f : string) :
  0 <= n <= LONG_MAX -> atoi (utoa n ++ String "." f) = n.
Proof.
  intros Hn. unfold atoi. rewrite strtol_utoa by (try exact Hn; reflexivity).
  reflexivity.
Qed.

Lemma tgtTemp_sends_integer_part_any (n : Z) (f : string) (a : App) :
  0 <= n -> n * 10 <= LONG_MAX ->
  configLoaded a = true ->
  slotCnt a < TIME_SLOTS * 2 ->
  updateAppStatus false "tgtTemp" (utoa n ++ String "." f) a =
    set_uartOut (uartOut a ++ [(0, intFrame 2 (n * 10))]) a.
Proof.
  intros Hn Hmax Hcfg Hcnt. rewrite tgtTemp_frame_any by assumption.
  rewrite atoi_integer_part by (unfold LONG_MAX in *; lia).
  rewrite to_int32_small by (unfold LONG_MAX in *; lia). reflexivity.
Qed.

(** X13. The target temperature leaves as ten times the integer part of
    the value: [updateAppStatus] reads the text with [atoi], so a value given
    with a fraction ("18.5") is sent as if the fraction were not there
    (180). *)
Theorem tgtTemp_sends_integer_part (n : Z) (f : string) (a : App) :
  0 <= n -> n * 10 <= LONG_MAX ->
  configLoaded a = true ->
  slotCnt a < TIME_SLOTS * 2 ->
  updateAppStatus false "tgtTemp" (utoa n ++ String "." f) a =
    set_uartOut (uartOut a ++ [(0, intFrame 2 (n * 10))]) a.
Proof.
  intros Hn Hmax Hcfg Hcnt. apply tgtTemp_sends_integer_part_any; assumption.
Qed.

Lemma tgtTemp_sends_integer_part_witness :
  updateAppStatus false "tgtTemp" "18.5" (appInit true) =
    set_uartOut [(0, [85; 170; 0; 6; 0; 8; 2; 2; 0; 4; 0; 0; 0; 180; 201])] (appInit true).
Proof.
  apply (tgtTemp_sends_integer_part 18 "5" (appInit true));
    first [ reflexivity | unfold LONG_MAX; lia | vm_compute; reflexivity ].
Defined.


(** From 2097152 degrees on the rounding to [float] reaches the integer
    part: 2097152.9 is stored as 2097153. *)
Lemma whole_degrees_bound :
  ftoa1f (tenths 20971529) = "2097153.0" /\ atoi (ftoa1f (tenths 20971529)) = 2097153.
Proof.
  vm_compute. split; reflexivity.
Qed.



(** ** Updates that are turned down *)

Lemma contains_slotTime_Temp (c : ascii) :
  contains "slotTime" ("slotTemp" ++ String c "") = false.
Proof. destruct c as [[] [] [] [] [] [] [] []]; vm_compute; reflexivity. Qed.

Lemma slot_number_outside (temp : bool) (c : ascii) (value : string) (a : App) :
  TIME_SLOTS <= wrap8 (code c - 48 - 1) ->
  slotCnt a < TIME_SLOTS * 2 ->
  updateAppStatus false (slotName temp ++ String c "") value a = a.
Proof.
  intros Hslot Hcnt. unfold updateAppStatus, slotName.
  assert (Hs : (wrap8 (code c - 48 - 1) <? TIME_SLOTS) = false)
    by (apply Z.ltb_ge; exact Hslot).
  assert (Hc : (slotCnt a >=? TIME_SLOTS * 2) = false)
    by (rewrite Z.geb_leb; apply Z.leb_gt; exact Hcnt).
  destruct temp; cbn [append String.eqb Ascii.eqb Bool.eqb]; cbv beta iota zeta.
  - pose proof (contains_slotTime_Temp c) as Hct. cbn [append] in Hct. rewrite Hct.
    change (contains "slotTemp" (String "s" _)) with true. cbv iota.
    change (char_at (String "s" _) 8) with (code c).
    rewrite Hs, Hc. rewrite andb_false_r. reflexivity.
  - change (contains "slotTime" (String "s" _)) with true. cbv iota.
    change (char_at (String "s" _) 8) with (code c).
    rewrite Hs, Hc. rewrite andb_false_r. reflexivity.
Qed.

Lemma unknown_key_ignored (variable value : string) (a : App) :
  knownKey variable = false ->
  slotCnt a < TIME_SLOTS * 2 ->
  updateAppStatus false variable value a = a.
Proof.
  intros Hk Hcnt. unfold knownKey, appKeys in Hk. cbn [existsb] in Hk.
  repeat (apply orb_false_iff in Hk; destruct Hk as [Hk ?]).
  assert (Hc : (slotCnt a >=? TIME_SLOTS * 2) = false)
    by (rewrite Z.geb_leb; apply Z.leb_gt; exact Hcnt).
  unfold updateAppStatus. cbv beta zeta.
  repeat match goal with
  | H : String.eqb variable ?k = false |- _ => rewrite H; clear H
  | H : contains ?k variable = false |- _ => rewrite H; clear H
  | H : _ || _ = false |- _ => apply orb_false_iff in H; destruct H as [? ?]
  end.
  cbv iota. rewrite Hc. rewrite andb_false_r. reflexivity.
Qed.

(** X15. Updates that [updateAppStatus] turns down change nothing and send
    nothing: a key that is none of its names and contains neither "slotTime"
    nor "slotTemp"; a slot field whose number is not 1..8 ("slotTime0",
    "slotTemp9", ...); and a slot key without a number.  In particular such
    updates do not count towards the sixteen edits of a slot batch. *)
Theorem rejected_updates_change_nothing (value : string) (a : App) :
  slotCnt a < TIME_SLOTS * 2 ->
  (forall variable, knownKey variable = false ->
     updateAppStatus false variable value a = a) /\
  (forall temp c, TIME_SLOTS <= wrap8 (code c - 48 - 1) ->
     updateAppStatus false (slotName temp ++ String c "") value a = a) /\
  (forall temp, updateAppStatus false (slotName temp) value a = a).
Proof.
  intros Hcnt. split; [|split].
  - intros variable Hk. apply unknown_key_ignored; assumption.
  - intros temp c Hc. apply slot_number_outside; assumption.
  - intros temp.
    assert (Hc : (slotCnt a >=? TIME_SLOTS * 2) = false)
      by (rewrite Z.geb_leb; apply Z.leb_gt; exact Hcnt).
    unfold updateAppStatus, slotName.
    destruct temp; cbn [String.eqb Ascii.eqb Bool.eqb]; cbv beta iota zeta.
    + change (contains "slotTime" "slotTemp") with false.
      change (contains "slotTemp" "slotTemp") with true. cbv iota.
      change (wrap8 (char_at "slotTemp" 8 - 48 - 1) <? TIME_SLOTS) with false. cbv iota.
      rewrite Hc. rewrite andb_false_r. reflexivity.
    + change (contains "slotTime" "slotTime") with true. cbv iota.
      change (wrap8 (char_at "slotTime" 8 - 48 - 1) <? TIME_SLOTS) with false. cbv iota.
      rewrite Hc. rewrite andb_false_r. reflexivity.
Qed.

Lemma rejected_updates_change_nothing_witness :
  updateAppStatus false "humidity" "40" (appInit true) = appInit true /\
  updateAppStatus false "slotTime9" "07:00" (appInit true) = appInit true /\
  updateAppStatus false "slotTemp" "20" (appInit true) = appInit true.
Proof.
  pose proof (rejected_updates_change_nothing "40" (appInit true)
                ltac:(vm_compute; reflexivity)) as H1.
  pose proof (rejected_updates_change_nothing "07:00" (appInit true)
                ltac:(vm_compute; reflexivity)) as H2.
  pose proof (rejected_updates_change_nothing "20" (appInit true)
                ltac:(vm_compute; reflexivity)) as H3.
  split; [|split].
  - apply (proj1 H1 "humidity"). vm_compute. reflexivity.
  - apply (proj1 (proj2 H2) false "9"%char). vm_compute. congruence.
  - apply (proj2 (proj2 H3) true).
Defined.

(** ** Heating time *)

Lemma processDP_output (e : Env) (a : App) :
  tuyaDP (mcuTuya a) = 5 ->
  processDP false e a =
    let a0 := publishData0 "outputOn" a in
    let a1 := set_heatingOn (negb (tuyaData (mcuTuya a0) 0 =? 0)) a0 in
    let a2 := if heatingOn a1 then set_dpStartTime (to_uint32 (millis e)) a1 else a1 in
    if negb (heatingOn a2) && (dpStartTime a2 >? 0) then
      set_dpStartTime 0
        (set_heatingElapsed
           (to_uint32 (heatingElapsed a2 + to_uint32 (millis e - dpStartTime a2))) a2)
    else a2.
Proof. intros H. unfold processDP. rewrite H. reflexivity. Qed.

(** X16. The heating time is counted from the report "output on" to the
    report "output off" of datapoint 5.  The first stores [millis()], the
    second adds the time passed since, modulo 2^32, to [heatingElapsed] and
    clears the stored time.  A session that started at [millis() == 0] is not
    counted, and a report "off" with no session running adds nothing. *)
Theorem heating_time_accounting (e1 e2 : Env) (a : App) (m1 m2 : tuyaStruct) :
  tuyaDP m1 = 5 -> tuyaData m1 0 <> 0 ->
  tuyaDP m2 = 5 -> tuyaData m2 0 = 0 ->
  let a1 := processDP false e1 (set_mcuTuya m1 a) in
  let a2 := processDP false e2 (set_mcuTuya m2 a1) in
  (heatingOn a1 = true /\ dpStartTime a1 = to_uint32 (millis e1) /\
   heatingElapsed a1 = heatingElapsed a) /\
  (heatingOn a2 = false /\ dpStartTime a2 = 0 /\
   heatingElapsed a2 =
     if to_uint32 (millis e1) >? 0
     then to_uint32 (heatingElapsed a + to_uint32 (millis e2 - to_uint32 (millis e1)))
     else heatingElapsed a) /\
  (dpStartTime a = 0 ->
   heatingElapsed (processDP false e2 (set_mcuTuya m2 a)) = heatingElapsed a).
Proof.
  intros D1 N1 D2 Z2 a1 a2.
  assert (Hon : (tuyaData m1 0 =? 0) = false) by (apply Z.eqb_neq; exact N1).
  assert (Hoff : (tuyaData m2 0 =? 0) = true) by (apply Z.eqb_eq; exact Z2).
  assert (E1 : a1 = set_dpStartTime (to_uint32 (millis e1))
                      (set_heatingOn true (publishData0 "outputOn" (set_mcuTuya m1 a)))).
  { subst a1. rewrite processDP_output by exact D1. cbv zeta.
    change (tuyaData (mcuTuya (publishData0 "outputOn" (set_mcuTuya m1 a))) 0)
      with (tuyaData m1 0).
    rewrite Hon. reflexivity. }
  assert (Hoffgen : forall b : App,
            processDP false e2 (set_mcuTuya m2 b) =
            let b0 := set_heatingOn false (publishData0 "outputOn" (set_mcuTuya m2 b)) in
            if dpStartTime b >? 0 then
              set_dpStartTime 0
                (set_heatingElapsed
                   (to_uint32 (heatingElapsed b + to_uint32 (millis e2 - dpStartTime b))) b0)
            else b0).
  { intros b. rewrite processDP_output by exact D2. cbv zeta.
    change (tuyaData (mcuTuya (publishData0 "outputOn" (set_mcuTuya m2 b))) 0)
      with (tuyaData m2 0).
    rewrite Hoff. reflexivity. }
  split; [|split].
  - rewrite E1. repeat split; reflexivity.
  - subst a2. rewrite Hoffgen. cbv zeta.
    replace (dpStartTime a1) with (to_uint32 (millis e1)) by (rewrite E1; reflexivity).
    replace (heatingElapsed a1) with (heatingElapsed a) by (rewrite E1; reflexivity).
    destruct (Z.gtb_spec (to_uint32 (millis e1)) 0) as [Hpos|Hzero].
    + repeat split; reflexivity.
    + assert (H0 : to_uint32 (millis e1) = 0).
      { pose proof (Z.mod_pos_bound (millis e1) 4294967296 ltac:(lia)).
        unfold to_uint32 in *. lia. }
      split; [reflexivity|]. split; [|rewrite E1; reflexivity].
      rewrite E1. cbn [dpStartTime set_heatingOn publishData0 wsJsonSend set_wsOut
                       set_mcuTuya set_dpStartTime]. exact H0.
  - intros H0. rewrite Hoffgen. cbv zeta. rewrite H0. reflexivity.
Qed.

Lemma heating_time_accounting_witness :
  let on := mkTuya 7 5 (fun _ => 1) 0 in
  let off := mkTuya 7 5 (fun _ => 0) 0 in
  let later := mkEnv 960000 true true 122 0 1 23 15 0 6 in
  heatingElapsed
    (processDP false later
       (set_mcuTuya off (processDP false env_2300 (set_mcuTuya on (appInit true))))) =
  900000.
Proof.
  intros on off later.
  exact (proj2 (proj2 (proj1 (proj2
           (heating_time_accounting env_2300 later (appInit true) on off
              eq_refl ltac:(discriminate) eq_refl eq_refl))))).
Defined.

(** ** [formatTuya] in closed form *)

Lemma formatTuya_iter_skip (data : Z -> Z) (len : Z) (DP : bool) (m : tuyaStruct) (i : Z) :
  i <> 3 -> (DP = true -> i <> 10) -> (DP = false -> i <> 6) ->
  formatTuya_iter data len true (DP, m) i = (DP, m).
Proof.
  intros N3 N10 N6. unfold formatTuya_iter.
  replace (i =? 3) with false by (symmetry; apply Z.eqb_neq; exact N3).
  destruct DP.
  - replace (i =? 10) with false by (symmetry; apply Z.eqb_neq; apply N10; reflexivity).
    destruct (i =? 6); [reflexivity|]. destruct (i =? 7); reflexivity.
  - replace (i =? 6) with false by (symmetry; apply Z.eqb_neq; apply N6; reflexivity).
    reflexivity.
Qed.

Lemma formatTuya_iter_skips (data : Z -> Z) (len : Z) (DP : bool) (m : tuyaStruct)
    (l : list Z) :
  Forall (fun i => i <> 3 /\ (DP = true -> i <> 10) /\ (DP = false -> i <> 6)) l ->
  fold_left (formatTuya_iter data len true) l (DP, m) = (DP, m).
Proof.
  induction 1 as [|i l (N3 & N10 & N6) Hl IH]; [reflexivity|].
  cbn [fold_left]. rewrite formatTuya_iter_skip by assumption. exact IH.
Qed.

Lemma zseq_split (from : Z) (n : nat) (k : nat) :
  (k < n)%nat ->
  zseq from n = (zseq from k ++ (from + Z.of_nat k) :: zseq (from + Z.of_nat k + 1)
                                                           (n - k - 1))%list.
Proof.
  intros Hk. replace n with (k + S (n - k - 1))%nat at 1 by lia.
  rewrite zseq_app, zseq_cons. reflexivity.
Qed.

Lemma skips_range (DP : bool) (from : Z) (n : nat) :
  (forall i, from <= i < from + Z.of_nat n ->
             i <> 3 /\ (DP = true -> i <> 10) /\ (DP = false -> i <> 6)) ->
  Forall (fun i => i <> 3 /\ (DP = true -> i <> 10) /\ (DP = false -> i <> 6))
         (zseq from n).
Proof.
  intros H. apply Forall_forall. intros i Hi. apply in_zseq in Hi. apply H. exact Hi.
Qed.

Lemma formatTuya_closed (u : Z) (data : Z -> Z) (len : Z) (m : tuyaStruct) :
  formatTuya false u data len true m = formatTuya_summary data len m.
Proof.
  unfold formatTuya, formatTuya_summary. cbv zeta.
  destruct (Z.ltb_spec len 4) as [Hshort|Hlen].
  - (* the command byte is not reached *)
    rewrite formatTuya_iter_skips; [reflexivity|].
    apply skips_range. intros i Hi. split; [lia|]. split; [discriminate | lia].
  - rewrite (zseq_split 0 (Z.to_nat len) 3) by lia.
    rewrite fold_left_app. cbn [fold_left].
    rewrite formatTuya_iter_skips
      by (apply skips_range; intros i Hi; split; [lia|]; split; [discriminate | lia]).
    change (0 + Z.of_nat 3) with 3. change (3 + 1) with 4.
    set (m1 := mkTuya (data 3) (data 6) (tuyaData m) (tuyaInt m)).
    assert (H3 : formatTuya_iter data len true (false, m) 3 = ((data 3 =? 6) || (data 3 =? 7), m1)).
    { unfold formatTuya_iter. rewrite Z.eqb_refl.
      destruct ((data 3 =? 6) || (data 3 =? 7)); reflexivity. }
    rewrite H3. destruct ((data 3 =? 6) || (data 3 =? 7)).
    + (* a command with datapoints *)
      destruct (Z.ltb_spec len 12) as [Hlt|Hge].
      * destruct (Z.ltb_spec len 11) as [Hlt'|Hge'].
        -- rewrite formatTuya_iter_skips; [reflexivity|].
           apply skips_range. intros i Hi. split; [lia|]. split; [lia | discriminate].
        -- assert (len = 11) by lia. subst len.
           change (zseq 4 (Z.to_nat 11 - 3 - 1)) with ([4; 5; 6; 7; 8; 9] ++ [10])%list.
           rewrite fold_left_app. rewrite formatTuya_iter_skips.
           ++ reflexivity.
           ++ repeat (constructor; [split; [lia|]; split; [lia | discriminate]|]).
              constructor.
      * rewrite (zseq_split 4 (Z.to_nat len - 3 - 1) 6) by lia.
        rewrite fold_left_app. cbn [fold_left].
        rewrite formatTuya_iter_skips
          by (apply skips_range; intros i Hi; split; [lia|]; split; [lia | discriminate]).
        change (4 + Z.of_nat 6) with 10.
        assert (H10 : exists m2, formatTuya_iter data len true (true, m1) 10 = (true, m2) /\
                  m2 = (if (data 7 =? 0) || (data 7 =? 3) || (data 7 =? 5)
                        then set_tuyaData (copyBytes data 10 (len - 1) (tuyaData m)) m1
                        else if (data 7 =? 1) || (data 7 =? 4)
                        then set_tuyaData (upd (tuyaData m) 0 (data 10)) m1
                        else if data 7 =? 2
                        then mkTuya (data 3) (data 6) (tuyaData m) (intVal_of data)
                        else m1)).
        { unfold formatTuya_iter.
          replace (10 <? len - 1) with true by (symmetry; apply Z.ltb_lt; lia).
          cbn [Z.eqb Pos.eqb andb].
          destruct (Z.eqb_spec (data 7) 0) as [E|N0];
            [try rewrite E; eexists; split; reflexivity|].
          destruct (Z.eqb_spec (data 7) 5) as [E|N5];
            [try rewrite E; eexists; split; reflexivity|].
          destruct (Z.eqb_spec (data 7) 1) as [E|N1];
            [try rewrite E; eexists; split; reflexivity|].
          destruct (Z.eqb_spec (data 7) 2) as [E|N2];
            [try rewrite E; eexists; split; reflexivity|].
          destruct (Z.eqb_spec (data 7) 3) as [E|N3];
            [try rewrite E; eexists; split; reflexivity|].
          destruct (Z.eqb_spec (data 7) 4) as [E|N4];
            [try rewrite E; eexists; split; reflexivity|].
          eexists; split; reflexivity. }
        destruct H10 as (m2 & H10 & Hm2). rewrite H10.
        rewrite formatTuya_iter_skips
          by (apply skips_range; intros i Hi; split; [lia|]; split; [lia | discriminate]).
        cbn [snd]. exact Hm2.
    + (* a command without datapoints *)
      destruct (Z.ltb_spec len 8) as [Hlt|Hge].
      * destruct (Z.ltb_spec len 7) as [Hlt'|Hge'].
        -- rewrite formatTuya_iter_skips; [reflexivity|].
           apply skips_range. intros i Hi. split; [lia|]. split; [discriminate | lia].
        -- assert (len = 7) by lia. subst len.
           change (zseq 4 (Z.to_nat 7 - 3 - 1)) with [4; 5; 6].
           cbn [fold_left].
           rewrite !formatTuya_iter_skip by (try discriminate; lia).
           reflexivity.
      * rewrite (zseq_split 4 (Z.to_nat len - 3 - 1) 2) by lia.
        rewrite fold_left_app. cbn [fold_left].
        rewrite formatTuya_iter_skips
          by (apply skips_range; intros i Hi; split; [lia|]; split; [discriminate | lia]).
        change (4 + Z.of_nat 2) with 6.
        assert (H6 : formatTuya_iter data len true (false, m1) 6 =
                     (false, set_tuyaData (copyBytes data 6 (len - 1) (tuyaData m)) m1)).
        { unfold formatTuya_iter.
          replace (6 <? len - 1) with true by (symmetry; apply Z.ltb_lt; lia).
          cbn [Z.eqb Pos.eqb andb]. destruct (data 3 =? 1); reflexivity. }
        rewrite H6. rewrite formatTuya_iter_skips; [reflexivity|].
        apply skips_range. intros i Hi. split; [lia|]. split; [discriminate | lia].
Qed.

Lemma copyLoop_at (src : Z -> Z) (from : Z) (n : nat) (dst : Z -> Z) (j : Z) :
  fold_left (fun d y => upd d (y - from) (src y)) (zseq from n) dst j =
    if (0 <=? j) && (j <? Z.of_nat n) then src (from + j) else dst j.
Proof.
  induction n as [|n IH].
  - cbn [zseq seq map fold_left].
    destruct (Z.leb_spec 0 j); destruct (Z.ltb_spec j (Z.of_nat 0)); cbn [andb];
      try reflexivity; lia.
  - rewrite zseq_S, fold_left_app. cbn [fold_left]. unfold upd at 1.
    destruct (Z.eqb_spec j (from + Z.of_nat n - from)) as [E|N].
    + replace j with (Z.of_nat n) by lia.
      destruct (Z.leb_spec 0 (Z.of_nat n));
        destruct (Z.ltb_spec (Z.of_nat n) (Z.of_nat (S n))); cbn [andb];
        try reflexivity; lia.
    + rewrite IH.
      destruct (Z.leb_spec 0 j); destruct (Z.ltb_spec j (Z.of_nat n));
        destruct (Z.ltb_spec j (Z.of_nat (S n))); cbn [andb]; try reflexivity; lia.
Qed.

Lemma formatTuya_closed_form_lemmas (u : Z) (data : Z -> Z) (len : Z) (m : tuyaStruct) :
  formatTuya false u data len true m = formatTuya_summary data len m /\
  (forall (from until : Z) (dst : Z -> Z) (j : Z),
     copyBytes data from until dst j =
       if (0 <=? j) && (j <? until - from) then data (from + j) else dst j).
Proof.
  split; [apply formatTuya_closed|].
  intros from until dst j. unfold copyBytes. rewrite copyLoop_at.
  destruct (Z.leb_spec 0 j); cbn [andb]; [|reflexivity].
  destruct (Z.ltb_spec j (Z.of_nat (Z.to_nat (until - from))));
    destruct (Z.ltb_spec j (until - from)); try reflexivity; lia.
Qed.

(** X17. The loop of [formatTuya] in closed form.  A message shorter than
    4 bytes leaves [mcuTuya] as it was; otherwise the command is cell 3 and
    the datapoint id cell 6.  For a command 6 or 7 of at least 12 bytes the
    type byte (cell 7) decides: raw, string and bitmap copy the cells from 10
    up to the last but one into [tuyaData], bool and enum store cell 10 in
    [tuyaData[0]], int builds the integer from cells 10..13, any other type
    stores nothing.  For any other command of at least 8 bytes the cells from
    6 up to the last but one are copied into [tuyaData].  What [tuyaData]
    held beyond the bytes copied stays. *)
Theorem formatTuya_closed_form (u : Z) (data : Z -> Z) (len : Z) (m : tuyaStruct) :
  formatTuya false u data len true m = formatTuya_summary data len m /\
  (forall (from until : Z) (dst : Z -> Z) (j : Z),
     copyBytes data from until dst j =
       if (0 <=? j) && (j <? until - from) then data (from + j) else dst j).
Proof. exact (formatTuya_closed_form_lemmas u data len m). Qed.

(** ** Raw datapoints: encode, then decode *)

Lemma cells_nth (a : Z -> Z) (n j : Z) :
  0 <= j < n -> nth (Z.to_nat j) (cells a n) 0 = a j.
Proof.
  intros Hj. unfold cells.
  rewrite (nth_indep _ 0 (a 0)) by (rewrite length_map, zseq_length; lia).
  rewrite map_nth. f_equal. unfold zseq.
  rewrite (nth_indep _ 0 (0 + Z.of_nat 0)) by (rewrite length_map, length_seq; lia).
  rewrite (map_nth (fun k => 0 + Z.of_nat k)). rewrite seq_nth by lia. lia.
Qed.

Lemma zseq_shift (f : Z -> Z) (from : Z) (n : nat) :
  map f (zseq from n) = map (fun j => f (from + j)) (zseq 0 n).
Proof.
  unfold zseq. rewrite !map_map. apply map_ext. intros k. f_equal.
Qed.

(** X18. A raw datapoint survives the codec.  The frame [processTuyaMsg]
    writes for ["M 6 <dp> 0 b1 ... bn"], fed byte by byte to
    [processTuyaByte], is handed to [formatTuya] as one message of [11 + n]
    bytes; [formatTuya] reads back the command and the datapoint id, stores
    the [n] bytes in [tuyaData[0 .. n-1]] and leaves the rest of [tuyaData]
    as it was. *)
Theorem raw_datapoint_round_trip (B : Z) (buf : Z -> Z) (dp : Z) (bs : list Z)
    (m : tuyaStruct) :
  17 <= B < 65546 ->
  0 <= dp < 256 ->
  Forall isByte bs ->
  11 + Z.of_nat (List.length bs) <= B - 10 ->
  let n := Z.of_nat (List.length bs) in
  exists bytes data,
    processTuyaMsg (String "M" (numbersText (6 :: dp :: 0 :: bs))) = Some (0, bytes) /\
    snd (reassembleAll B (portReset B buf) bytes) = [(data, 11 + n)] /\
    messageBytes (data, 11 + n) = bytes /\
    let m' := formatTuya false 1 data (11 + n) true m in
    tuyaCmd m' = 6 /\ tuyaDP m' = dp /\ tuyaInt m' = tuyaInt m /\
    cells (tuyaData m') n = bs /\
    (forall j, n <= j -> tuyaData m' j = tuyaData m j).
Proof.
  intros HB Hdp Hbs Hfit n.
  pose proof (processTuyaMsg_raw dp bs Hdp Hbs) as Hw. cbv zeta in Hw. fold n in Hw.
  set (c := upd _ 9 (wrap8 (Z.land (9 + n - 9) 255))) in Hw.
  set (bytes := (cells c (9 + n + 1) ++ [zsum (cells c (9 + n + 1)) mod 256])%list) in Hw.
  assert (Hlen : Z.of_nat (List.length bytes) = 11 + n).
  { subst bytes. rewrite length_app, cells_length. cbn [List.length]. lia. }
  destruct (encoder_frame_valid B _ 0 bytes HB Hw ltac:(lia)) as [Hval _].
  pose proof (reassembleAll_alone B buf bytes HB Hval) as Ha. cbv zeta in Ha.
  rewrite Hlen in Ha.
  assert (Hm := reassembleAll_frame B HB (portReset B buf) 0 [] bytes
                  eq_refl eq_refl ltac:(cbn; lia) ltac:(unfold isByte; lia)
                  ltac:(cbn; lia) ltac:(constructor) I ltac:(cbn; lia) Hval).
  cbv zeta in Hm. destruct Hm as [_ Hm0].
  set (data := storeBytes (memmove2 (storeBytes buf 0 [85; 170]) 0) 2 (skipn 2 bytes)) in *.
  assert (Hm : messageBytes (data, 11 + n) = bytes) by (rewrite <- Hlen; exact Hm0).
  clear Hm0.
  exists bytes, data. split; [exact Hw|]. split; [rewrite Ha; reflexivity|].
  split; [exact Hm|].
  assert (D : forall j, 0 <= j < 10 + n -> data j = c j).
  { intros j Hj. rewrite <- (cells_nth data (11 + n) j) by lia.
    unfold messageBytes in Hm. cbn [fst snd] in Hm. rewrite Hm. subst bytes.
    rewrite app_nth1 by (rewrite cells_length; lia).
    apply cells_nth. lia. }
  assert (C3 : c 3 = 6).
  { subst c. rewrite !upd_other by lia. rewrite putBytes_below by lia.
    rewrite !upd_other by lia. apply upd_same. }
  assert (C6 : c 6 = dp).
  { subst c. rewrite !upd_other by lia. rewrite putBytes_below by lia.
    rewrite !upd_other by lia. apply upd_same. }
  assert (C7 : c 7 = 0).
  { subst c. rewrite !upd_other by lia. rewrite putBytes_below by lia. apply upd_same. }
  assert (Cd : map (fun j => c (10 + j)) (zseq 0 (List.length bs)) = bs).
  { rewrite <- zseq_shift.
    etransitivity; [|apply (putBytes_cells bs (upd (upd (upd (fun _ => 0) 3 6) 6 dp) 7 0) 9)].
    change (9 + 1) with 10. apply map_ext_in. intros i Hi. apply in_zseq in Hi.
    subst c. rewrite !upd_other by lia. reflexivity. }
  cbv zeta. rewrite (proj1 (formatTuya_closed_form_lemmas 1 data (11 + n) m)).
  unfold formatTuya_summary. cbv zeta.
  replace (11 + n <? 4) with false by (symmetry; apply Z.ltb_ge; lia).
  rewrite (D 3), (D 6), (D 7) by lia. rewrite C3, C6, C7.
  cbn [Z.eqb Pos.eqb orb].
  destruct (Z.ltb_spec (11 + n) 12) as [Hn0|Hn1].
  - assert (n = 0) by lia. cbn [tuyaCmd tuyaDP tuyaInt tuyaData].
    repeat split; try reflexivity.
    destruct bs; [reflexivity | cbn in n; lia].
  - cbn [tuyaCmd tuyaDP tuyaInt tuyaData set_tuyaData].
    split; [reflexivity|]. split; [reflexivity|]. split; [reflexivity|].
    pose proof (proj2 (formatTuya_closed_form_lemmas 1 data (11 + n) m)) as Hcp.
    split.
    + etransitivity; [|exact Cd]. unfold cells. subst n. rewrite Nat2Z.id.
      apply map_ext_in. intros j Hj. apply in_zseq in Hj.
      rewrite Hcp.
      replace ((0 <=? j) && (j <? 11 + Z.of_nat (List.length bs) - 1 - 10)) with true
        by (symmetry; apply andb_true_iff; split; [apply Z.leb_le | apply Z.ltb_lt]; lia).
      apply D. lia.
    + intros j Hj. rewrite Hcp.
      replace (j <? 11 + n - 1 - 10) with false by (symmetry; apply Z.ltb_ge; lia).
      rewrite andb_false_r. reflexivity.
Qed.

Lemma raw_datapoint_round_trip_witness :
  exists bytes data,
    processTuyaMsg "M 6 43 0 6 30 0 200" = Some (0, bytes) /\
    snd (reassembleAll 256 (portReset 256 (fun _ => 0)) bytes) = [(data, 15)] /\
    messageBytes (data, 15) = bytes /\
    let m' := formatTuya false 1 data 15 true (mkTuya 0 0 (fun _ => 9) 0) in
    tuyaCmd m' = 6 /\ tuyaDP m' = 43 /\ tuyaInt m' = 0 /\
    cells (tuyaData m') 4 = [6; 30; 0; 200] /\
    (forall j, 4 <= j -> tuyaData m' j = 9).
Proof.
  apply (raw_datapoint_round_trip 256 (fun _ => 0) 43 [6; 30; 0; 200]
           (mkTuya 0 0 (fun _ => 9) 0)).
  - lia.
  - lia.
  - repeat constructor; unfold isByte; lia.
  - simpl. lia.
Defined.

(** ** The length of what the encoder writes *)

Lemma dataPart_idx_le (fuel : nat) :
  forall (p : string) (c : Z -> Z) (idx : Z),
    snd (dataPart fuel p c idx) <= idx + Z.of_nat (String.length p).
Proof.
  induction fuel as [|fuel IH]; intros p c idx; cbn [dataPart]; [cbn [snd]; lia|].
  unfold getNumber. destruct (strtol p) as [[v r]|] eqn:Hs.
  - apply strtol_shorter in Hs.
    destruct (v =? LONG_MIN); [cbn [snd]; lia|].
    specialize (IH r (upd c (idx + 1) (Z.land v 255)) (idx + 1)). lia.
  - change (LONG_MIN =? LONG_MIN) with true. cbn [snd]. lia.
Qed.

(** X19. The frame [processTuyaMsg] writes is never longer than the
    message text plus 14 bytes: every data byte stored takes at least one
    character of the text.  So the local array [tuyaCmd[BUFF_LEN]] is not
    overrun by a message of at most [BUFF_LEN - 14] characters. *)
Theorem encoder_frame_length (wsMsg : string) (u : Z) (bytes : list Z) :
  processTuyaMsg wsMsg = Some (u, bytes) ->
  7 <= Z.of_nat (List.length bytes) <= Z.of_nat (String.length wsMsg) + 14.
Proof.
  unfold processTuyaMsg, processTuyaMsgFrom.
  destruct (if char_at wsMsg 0 =? uartId 0 then Some 0
            else if char_at wsMsg 0 =? uartId 1 then Some 1 else None)
    as [u0|] eqn:Hdest; [|discriminate].
  destruct wsMsg as [|c0 rest]; [discriminate Hdest|]. clear Hdest.
  pose proof (getNumber_length rest) as H3.
  destruct (getNumber rest) as [n3 p3]. cbn [snd] in H3.
  rewrite !upd_same.
  set (c3 := upd (fun _ => 0) 3 (wrap8 (Z.land n3 255))).
  set (isDP := (wrap8 (Z.land n3 255) =? 6) || (wrap8 (Z.land n3 255) =? 7)).
  set (pre := if isDP then _ else _).
  assert (Hpre : 5 <= snd (fst pre) <= 13 /\
                 (String.length (snd pre) <= String.length rest)%nat).
  { subst pre. destruct isDP; [|cbn [fst snd]; split; [lia | exact H3]].
    pose proof (getNumber_length p3) as H6.
    destruct (getNumber p3) as [n6 p6]. cbn [snd] in H6.
    pose proof (getNumber_length p6) as H7.
    destruct (getNumber p6) as [n7 p7]. cbn [snd] in H7.
    destruct (_ =? 2).
    - pose proof (getNumber_length p7) as H8.
      destruct (getNumber p7) as [iv p8]. cbn [fst snd] in *. split; lia.
    - cbn [fst snd]. split; lia. }
  destruct pre as [[c idx] p]. cbn [fst snd] in Hpre. destruct Hpre as [Hidx Hp].
  pose proof (dataPart_idx (S (String.length (String c0 rest))) p c idx) as Hd.
  pose proof (dataPart_idx_le (S (String.length (String c0 rest))) p c idx) as Hle.
  destruct (dataPart _ p c idx) as [c' idx']. cbn [snd] in Hd, Hle.
  intros H. injection H as <- <-.
  rewrite cells_length. cbn [String.length]. lia.
Qed.

Lemma encoder_frame_length_witness :
  7 <= Z.of_nat (List.length [85; 170; 0; 6; 0; 8; 2; 2; 0; 4; 0; 0; 0; 190; 211])
    <= Z.of_nat (String.length "M 6 2 2 190") + 14.
Proof.
  apply (encoder_frame_length "M 6 2 2 190" 0). vm_compute. reflexivity.
Defined.

(** X20. A message that names a destination but no command number - the
    letter alone, or the letter followed by something [strtol] does not
    convert - is not turned down: [getNumber] answers [LONG_MIN], whose low
    byte is 0, and the frame of command 0 (the heartbeat) without data is
    written. *)
Theorem missing_command_sends_heartbeat (u : Z) (rest : string) :
  u = 0 \/ u = 1 ->
  strtol rest = None ->
  processTuyaMsg (String (destChar u) rest) = Some (u, plainFrame (versionOf u) 0 []).
Proof.
  intros Hu Hrest. unfold processTuyaMsg, processTuyaMsgFrom.
  rewrite (destChar_at u _ Hu).
  assert (Hsame : getNumber rest = (LONG_MIN, rest)).
  { unfold getNumber. rewrite Hrest. reflexivity. }
  rewrite Hsame.
  change (wrap8 (Z.land LONG_MIN 255)) with 0.
  rewrite upd_same. cbn [Z.eqb orb dataPart]. rewrite Hsame.
  change (LONG_MIN =? LONG_MIN) with true. cbv iota.
  destruct Hu as [-> | ->]; vm_compute; reflexivity.
Qed.

Lemma missing_command_sends_heartbeat_witness :
  processTuyaMsg "M" = Some (0, [85; 170; 0; 0; 0; 0; 255]) /\
  processTuyaMsg "W status?" = Some (1, [85; 170; 3; 0; 0; 0; 2]).
Proof.
  split.
  - apply (missing_command_sends_heartbeat 0 ""); [left; reflexivity | reflexivity].
  - apply (missing_command_sends_heartbeat 1 " status?"); [right; reflexivity | reflexivity].
Defined.

(** ** A schedule report published and replayed *)

Lemma slotTime_edit (n : Z) (value : string) (h m : Z) (a : App) :
  1 <= n <= TIME_SLOTS ->
  sscanf_hhu_colon_hhu value = (Some h, Some m) ->
  updateAppStatus false (slotKey false n) value a =
    afterEdit a (timeCells (schedule a) (n - 1) h m).
Proof.
  unfold TIME_SLOTS at 1. intros Hn Hv.
  assert (Hc : n = 1 \/ n = 2 \/ n = 3 \/ n = 4 \/ n = 5 \/ n = 6 \/ n = 7 \/ n = 8) by lia.
  unfold afterEdit, timeCells.
  destruct Hc as [->|[->|[->|[->|[->|[->|[->| ->]]]]]]];
    (eval_key; rewrite Hv; cbv beta iota zeta; cbn [unassigned];
     match goal with
     | |- context [slotCnt (set_slotCnt ?v ?b) >=? _] =>
         change (slotCnt (set_slotCnt v b)) with v
     end;
     destruct (slotCnt a + 1 >=? TIME_SLOTS * 2); cbv beta iota zeta;
     [change (configLoaded (set_slotCnt 0
                (set_slotCnt (slotCnt a + 1) (set_schedule ?s a))))
        with (configLoaded a);
      destruct (configLoaded a); reflexivity
     | change (configLoaded (set_slotCnt (slotCnt a + 1) (set_schedule ?s a)))
        with (configLoaded a);
       rewrite andb_false_r; reflexivity ]).
Qed.

Lemma slotTemp_edit (n : Z) (value : string) (a : App) :
  1 <= n <= TIME_SLOTS ->
  updateAppStatus false (slotKey true n) value a =
    afterEdit a (tempCells (schedule a) (n - 1) (to_int16 (tenfold (atof value)))).
Proof.
  unfold TIME_SLOTS at 1. intros Hn.
  assert (Hc : n = 1 \/ n = 2 \/ n = 3 \/ n = 4 \/ n = 5 \/ n = 6 \/ n = 7 \/ n = 8) by lia.
  unfold afterEdit, tempCells.
  destruct Hc as [->|[->|[->|[->|[->|[->|[->| ->]]]]]]];
    (eval_key; cbv beta iota zeta;
     match goal with
     | |- context [slotCnt (set_slotCnt ?v ?b) >=? _] =>
         change (slotCnt (set_slotCnt v b)) with v
     end;
     destruct (slotCnt a + 1 >=? TIME_SLOTS * 2); cbv beta iota zeta;
     [change (configLoaded (set_slotCnt 0
                (set_slotCnt (slotCnt a + 1) (set_schedule ?s a))))
        with (configLoaded a);
      destruct (configLoaded a); reflexivity
     | change (configLoaded (set_slotCnt (slotCnt a + 1) (set_schedule ?s a)))
        with (configLoaded a);
       rewrite andb_false_r; reflexivity ]).
Qed.

Lemma strtol_utoa02 (n : Z) (rest : string) :
  0 <= n <= LONG_MAX -> starts_digit rest = false ->
  strtol (utoa02 n ++ rest) = Some (n, rest).
Proof.
  intros Hn Hrest.
  pose proof (proj2 (reads_utoa02 n Hn) rest Hrest) as H.
  unfold getNumber in H. rewrite strtol_space in H.
  destruct (strtol (utoa02 n ++ rest)) as [[v r]|].
  - injection H as -> ->. reflexivity.
  - injection H as H1 H2. unfold LONG_MIN in H1. lia.
Qed.

(** ["%02u:%02u"] read back by ["%hhu:%hhu"]. *)
Lemma sscanf_time (h m : Z) :
  isByte h -> isByte m ->
  sscanf_hhu_colon_hhu (utoa02 h ++ ":" ++ utoa02 m) = (Some h, Some m).
Proof.
  unfold isByte. intros Hh Hm. unfold sscanf_hhu_colon_hhu.
  change (utoa02 h ++ ":" ++ utoa02 m)%string
    with (utoa02 h ++ String ":" (utoa02 m))%string.
  rewrite strtol_utoa02 by (try reflexivity; unfold LONG_MAX; lia).
  change (Ascii.eqb ":" ":") with true. cbv iota.
  rewrite <- (append_nil_r (utoa02 m)).
  rewrite strtol_utoa02 by (try reflexivity; unfold LONG_MAX; lia).
  rewrite !wrap8_small by lia. reflexivity.
Qed.

Lemma digit_code (c : ascii) : is_digit c = true -> 48 <= code c <= 57.
Proof.
  unfold is_digit. intros H. apply andb_prop in H. destruct H as [H1 H2].
  apply Z.leb_le in H1. apply Z.leb_le in H2. lia.
Qed.

Lemma eqb_code (c d : ascii) : code c <> code d -> Ascii.eqb c d = false.
Proof.
  intros H. destruct (Ascii.eqb_spec c d) as [->|]; [congruence | reflexivity].
Qed.

(** [strtod] on the decimal text of a whole number. *)
Lemma strtod_utoa (t : Z) :
  0 <= t ->
  strtod (utoa t) =
    if t =? 0 then F_zero false else round 53 1024 (inject_Z (t * 10 ^ 0)) false.
Proof.
  intros Ht.
  pose proof (digits_val_utoa t "" Ht eq_refl) as Hd. rewrite append_nil_r in Hd.
  assert (Hlen : utoa t <> "").
  { unfold utoa. destruct (udigits_head (Z.to_nat (Z.log2 t)) t "") as [c [r [Hu _]]].
    rewrite Hu. discriminate. }
  unfold utoa in *.
  destruct (udigits_head (Z.to_nat (Z.log2 t)) t "") as [c [r [Hu [H1 [H2 [H3 H4]]]]]].
  rewrite Hu in *. pose proof (digit_code c H1) as Hc.
  unfold strtod. cbn [skip_space]. rewrite H2. cbn [read_sign]. rewrite H3, H4.
  assert (Hinf : prefix_nocase "inf" (String c r) = false).
  { cbn [prefix_nocase].
    replace ((65 <=? code c) && (code c <=? 90)) with false
      by (symmetry; apply andb_false_iff; left; apply Z.leb_gt; lia).
    replace (code "i" =? code c) with false
      by (symmetry; apply Z.eqb_neq; change (code "i") with 105; lia).
    reflexivity. }
  assert (Hnan : prefix_nocase "nan" (String c r) = false).
  { cbn [prefix_nocase].
    replace ((65 <=? code c) && (code c <=? 90)) with false
      by (symmetry; apply andb_false_iff; left; apply Z.leb_gt; lia).
    replace (code "n" =? code c) with false
      by (symmetry; apply Z.eqb_neq; change (code "n") with 110; lia).
    reflexivity. }
  rewrite Hinf, Hnan.
  assert (Hhex : match String c r with
                 | String c0 (String c1 r') =>
                     if Ascii.eqb c0 "0" && (Ascii.eqb c1 "x" || Ascii.eqb c1 "X")
                     then
                       let '(m, fd, nd, r2) := read_mantissa hex_val r' in
                       if 0 <? nd then Some (m, fd, r2) else None
                     else None
                 | _ => None
                 end = None).
  { destruct r as [|c1 r']; [reflexivity|].
    assert (Hc1 : is_digit c1 = true).
    { cbn [digits_val] in Hd. rewrite H1 in Hd.
      destruct (is_digit c1); [reflexivity|]. discriminate Hd. }
    pose proof (digit_code c1 Hc1) as Hc1'.
    rewrite (eqb_code c1 "x") by (change (code "x") with 120; lia).
    rewrite (eqb_code c1 "X") by (change (code "X") with 88; lia).
    rewrite andb_false_r. reflexivity. }
  rewrite Hhex.
  unfold read_mantissa. rewrite Hd.
  unfold consumed. cbn [String.length read_exponent].
  replace (0 <? Z.of_nat (S (String.length r)) - Z.of_nat 0) with true
    by (symmetry; apply Z.ltb_lt; lia).
  unfold scaled_double. change (0 - 0) with 0.
  destruct (Z.eqb_spec t 0) as [E0|N0]; [reflexivity|].
  change (1100 <? 0) with false.
  replace (Z.log2 t + 1 + 0 <? -1100) with false
    by (symmetry; apply Z.ltb_ge; pose proof (Z.log2_nonneg t); lia).
  reflexivity.
Qed.

Lemma Qtrunc_Z (q : Q) (z : Z) : (q == inject_Z z)%Q -> Qtrunc q = z.
Proof.
  intros H. unfold Qtrunc. unfold Qeq, inject_Z in H. cbn [Qnum Qden] in H.
  rewrite Z.mul_1_r in H. rewrite H. apply Z.quot_mul. lia.
Qed.

(** A whole number below 2^24 read by [atof] is that number, and ten times
    a whole number below a tenth of 2^24 is exact. *)
Lemma tenfold_utoa (t : Z) : 0 <= t < 1677721 -> tenfold (atof (utoa t)) = t * 10.
Proof.
  intros Ht. unfold atof. rewrite strtod_utoa by lia.
  destruct (Z.eqb_spec t 0) as [->|N0]; [vm_compute; reflexivity|].
  assert (Hf : (t <? 0) = false) by (apply Z.ltb_ge; lia).
  assert (E53 : emin 53 1024 <= 0) by (unfold emin; lia).
  assert (E24 : emin 24 128 <= 0) by (unfold emin; lia).
  assert (B53 : Z.abs t < 2 ^ 53) by (change (2 ^ 53) with 9007199254740992; lia).
  assert (B24 : Z.abs t < 2 ^ 24) by (change (2 ^ 24) with 16777216; lia).
  assert (B24' : Z.abs (t * 10) < 2 ^ 24) by (change (2 ^ 24) with 16777216; lia).
  assert (Hq0 : (inject_Z (t * 10 ^ 0) == inject_Z t)%Q).
  { replace (t * 10 ^ 0) with t by (change (10 ^ 0) with 1; lia). reflexivity. }
  destruct (round_Z 53 1024 ltac:(lia) _ t false Hq0 N0 B53 E53 ltac:(lia) ltac:(lia))
    as [m1 [e1 [Hx1 Hq1]]].
  rewrite Hx1, Hf in *.
  unfold float_of_double. cbn [convert].
  destruct (round_Z 24 128 ltac:(lia) _ t false Hq1 N0 B24 E24 ltac:(lia) ltac:(lia))
    as [m2 [e2 [Hx2 Hq2]]].
  rewrite Hx2, Hf in *.
  unfold tenfold, fmul, float_of_int, of_Z.
  change (round 24 128 (inject_Z 10) false) with (F_fin false 10485760 (-20)).
  cbn [Fmul is_neg xorb].
  assert (Hten : (F2Q (F_fin false 10485760 (-20)) == inject_Z 10)%Q) by (vm_compute; reflexivity).
  assert (Hq : (F2Q (F_fin false m2 e2) * F2Q (F_fin false 10485760 (-20)) ==
                inject_Z (t * 10))%Q).
  { rewrite Hq2, Hten, inject_Z_mult. reflexivity. }
  destruct (round_Z 24 128 ltac:(lia) _ (t * 10) false Hq ltac:(lia) B24' E24
              ltac:(lia) ltac:(lia)) as [m3 [e3 [Hx3 Hq3]]].
  rewrite Hx3. unfold float_to_int32.
  rewrite (Qtrunc_Z _ _ Hq3). unfold clamp_long, LONG_MIN, LONG_MAX. lia.
Qed.

(** The temperature [setSchedule] publishes for the bytes [hi], [lo]: whole
    degrees. *)
Lemma published_temp (hi lo : Z) :
  0 <= hi < 128 -> isByte lo ->
  wrap16 (to_int16 (Z.quot (Z.lor (Z.shiftl hi 8) lo) 10)) = (hi * 256 + lo) / 10.
Proof.
  unfold isByte. intros Hhi Hlo. rewrite lor_shiftl8 by lia.
  rewrite Z.quot_div_nonneg by lia.
  assert (H : 0 <= (hi * 256 + lo) / 10 < 32768).
  { split; [apply Z.div_pos; lia | apply Z.div_lt_upper_bound; lia]. }
  unfold to_int16, wrap16. rewrite (Z.mod_small (_ + 32768)) by lia.
  rewrite Z.mod_small by lia. lia.
Qed.

Lemma edits_complete (es : list (string * string))
    (fs : list ((Z -> Z -> Z) -> Z -> Z -> Z)) :
  Forall2 (fun kv f => forall a : App,
             updateAppStatus false (fst kv) (snd kv) a = afterEdit a (f (schedule a)))
          es fs ->
  forall b : App,
    es <> [] ->
    slotCnt b + Z.of_nat (List.length es) = TIME_SLOTS * 2 ->
    updates es b =
      let schF := editedTable fs (schedule b) in
      let b0 := set_slotCnt 0 (set_schedule schF b) in
      if configLoaded b then sendTuyaMsg (scheduleMsg schF) b0 else b0.
Proof.
  induction 1 as [|kv f es fs Hkv Hrest IH]; intros b Hne Hcnt; [congruence|].
  unfold updates. cbn [fold_left]. fold (updates es (updateAppStatus false (fst kv) (snd kv) b)).
  rewrite Hkv. unfold afterEdit. cbv zeta.
  destruct es as [|kv2 es].
  - inversion Hrest; subst. cbn [List.length] in Hcnt.
    replace (slotCnt b + 1 >=? TIME_SLOTS * 2) with true
      by (symmetry; rewrite Z.geb_leb; apply Z.leb_le; lia).
    unfold updates, editedTable. cbn [fold_left].
    destruct b; reflexivity.
  - cbn [List.length] in Hcnt.
    replace (slotCnt b + 1 >=? TIME_SLOTS * 2) with false
      by (symmetry; rewrite Z.geb_leb; apply Z.leb_gt; lia).
    rewrite IH.
    + cbv zeta. unfold editedTable. cbn [fold_left]. destruct b; reflexivity.
    + discriminate.
    + cbn [slotCnt set_slotCnt List.length]. lia.
Qed.

Lemma replay_time (d : Z -> Z) (i : Z) (a : App) :
  0 <= i < TIME_SLOTS -> isByte (d (i * 4)) -> isByte (d (i * 4 + 1)) ->
  updateAppStatus false (slotKey false (i + 1))
    (utoa02 (d (i * 4)) ++ ":" ++ utoa02 (d (i * 4 + 1))) a =
  afterEdit a (timeCells (schedule a) i (d (i * 4)) (d (i * 4 + 1))).
Proof.
  intros Hi H0 H1.
  rewrite (slotTime_edit (i + 1) _ (d (i * 4)) (d (i * 4 + 1)) a
             ltac:(unfold TIME_SLOTS in *; lia) (sscanf_time _ _ H0 H1)).
  replace (i + 1 - 1) with i by lia. reflexivity.
Qed.

Lemma wholeDegrees_range (t : Z) : 0 <= t < 32768 -> 0 <= wholeDegrees t <= t.
Proof.
  intros Ht. unfold wholeDegrees.
  pose proof (Z.div_mod t 10 ltac:(lia)). pose proof (Z.mod_pos_bound t 10 ltac:(lia)).
  lia.
Qed.

Lemma replay_temp (d : Z -> Z) (i : Z) (a : App) :
  0 <= i < TIME_SLOTS -> 0 <= d (i * 4 + 2) < 128 -> isByte (d (i * 4 + 3)) ->
  updateAppStatus false (slotKey true (i + 1))
    (utoa (wrap16 (to_int16
             (Z.quot (Z.lor (Z.shiftl (d (i * 4 + 2)) 8) (d (i * 4 + 3))) 10)))) a =
  afterEdit a (tempCells (schedule a) i (wholeDegrees (reportTemp d i))).
Proof.
  intros Hi H2 H3. rewrite published_temp by assumption.
  rewrite slotTemp_edit by (unfold TIME_SLOTS in *; lia).
  fold (reportTemp d i).
  assert (Ht : 0 <= reportTemp d i < 32768).
  { unfold reportTemp, isByte in *. lia. }
  rewrite tenfold_utoa
    by (split; [apply Z.div_pos; lia | apply Z.div_lt_upper_bound; lia]).
  fold (wholeDegrees (reportTemp d i)).
  pose proof (wholeDegrees_range _ Ht) as Hw.
  replace (to_int16 (wholeDegrees (reportTemp d i))) with (wholeDegrees (reportTemp d i)).
  - replace (i + 1 - 1) with i by lia. reflexivity.
  - unfold to_int16. rewrite Z.mod_small by lia. lia.
Qed.

Lemma replayed_edits (d : Z -> Z) :
  (forall j, 0 <= j < 32 -> isByte (d j)) ->
  (forall i, 0 <= i < TIME_SLOTS -> d (i * 4 + 2) < 128) ->
  Forall2 (fun kv f => forall a : App,
             updateAppStatus false (fst kv) (snd kv) a = afterEdit a (f (schedule a)))
          (publishedSlots d) (replayedCells d).
Proof.
  intros Hb Hhi. unfold publishedSlots, replayedCells.
  change (zseq 0 (Z.to_nat TIME_SLOTS)) with [0; 1; 2; 3; 4; 5; 6; 7].
  cbn [flat_map app].
  repeat (constructor;
    [ intros a; cbn [fst snd];
      first
        [ apply replay_time;
          [unfold TIME_SLOTS; lia | apply Hb; lia | apply Hb; lia]
        | apply replay_temp;
          [ unfold TIME_SLOTS; lia
          | split; [apply Hb; lia | apply Hhi; unfold TIME_SLOTS; lia]
          | apply Hb; lia ] ]
    |]).
  constructor.
Qed.

Lemma replayed_table (d : Z -> Z) (sch0 : Z -> Z -> Z) (i : Z) :
  0 <= i < TIME_SLOTS ->
  let s := editedTable (replayedCells d) sch0 in
  let w := wholeDegrees (reportTemp d i) in
  s i 0 = d (i * 4) /\ s i 1 = d (i * 4 + 1) /\
  s i 2 = Z.land (Z.shiftr w 8) 255 /\ s i 3 = Z.land w 255 /\
  s i TGT_TEMP = w /\ s i SECS_COL = ((d (i * 4) * 60) + d (i * 4 + 1)) * 60.
Proof.
  unfold TIME_SLOTS. intros Hi.
  assert (Hc : i = 0 \/ i = 1 \/ i = 2 \/ i = 3 \/ i = 4 \/ i = 5 \/ i = 6 \/ i = 7) by lia.
  unfold editedTable, replayedCells.
  change (zseq 0 (Z.to_nat 8)) with [0; 1; 2; 3; 4; 5; 6; 7].
  cbn [flat_map app fold_left].
  unfold timeCells, tempCells, set_cell, SECS_COL, TGT_TEMP.
  destruct Hc as [->|[->|[->|[->|[->|[->|[->| ->]]]]]]];
    cbn [Z.eqb Pos.eqb andb]; repeat split; reflexivity.
Qed.


Lemma set_wsOut_twice (v w : list (string * string)) (a : App) :
  set_wsOut v (set_wsOut w a) = set_wsOut v a.
Proof. destruct a; reflexivity. Qed.

Lemma setSchedule_loop (l : list Z) :
  forall a : App,
    fold_left
      (fun a i =>
         let d := tuyaData (mcuTuya a) in
         let slotNo := String (chr (48 + i + 1)) "" in
         let a := wsJsonSend ("slotTime" ++ slotNo)
                             (utoa02 (d (i * 4)) ++ ":" ++ utoa02 (d (i * 4 + 1))) a in
         let slotTemp :=
           to_int16 (Z.quot (Z.lor (Z.shiftl (d (i * 4 + 2)) 8) (d (i * 4 + 3))) 10) in
         wsJsonSend ("slotTemp" ++ slotNo) (utoa (wrap16 slotTemp)) a)
      l a =
    set_wsOut
      (wsOut a ++
       flat_map
         (fun i =>
            [(slotKey false (i + 1),
              (utoa02 (tuyaData (mcuTuya a) (i * 4)) ++ ":" ++
               utoa02 (tuyaData (mcuTuya a) (i * 4 + 1)))%string);
             (slotKey true (i + 1),
              utoa (wrap16 (to_int16
                      (Z.quot (Z.lor (Z.shiftl (tuyaData (mcuTuya a) (i * 4 + 2)) 8)
                                     (tuyaData (mcuTuya a) (i * 4 + 3))) 10))))])
         l) a.
Proof.
  induction l as [|i l IH]; intros a.
  - cbn [fold_left flat_map]. rewrite app_nil_r. destruct a; reflexivity.
  - cbn [fold_left flat_map]. rewrite IH. cbv zeta. unfold wsJsonSend, slotKey.
    replace (48 + (i + 1)) with (48 + i + 1) by lia.
    repeat match goal with
    | |- context [mcuTuya (set_wsOut ?v ?b)] =>
        change (mcuTuya (set_wsOut v b)) with (mcuTuya b)
    | |- context [wsOut (set_wsOut ?v ?b)] =>
        change (wsOut (set_wsOut v b)) with v
    end.
    rewrite !set_wsOut_twice. rewrite <- !app_assoc. reflexivity.
Qed.

Lemma setSchedule_published (a : App) :
  setSchedule a = set_wsOut (wsOut a ++ publishedSlots (tuyaData (mcuTuya a))) a.
Proof. apply setSchedule_loop. Qed.

Lemma whole_bytes (w : Z) :
  0 <= w < 32768 ->
  0 <= Z.land (Z.shiftr w 8) 255 < 128 /\
  Z.land (Z.shiftr w 8) 255 * 256 + Z.land w 255 = w.
Proof.
  intros Hw. rewrite !land_255. rewrite Z.shiftr_div_pow2 by lia.
  change (2 ^ 8) with 256.
  assert (H : 0 <= w / 256 < 128)
    by (split; [apply Z.div_pos; lia | apply Z.div_lt_upper_bound; lia]).
  rewrite (Z.mod_small (w / 256)) by lia.
  pose proof (Z.div_mod w 256 ltac:(lia)). lia.
Qed.

(** X21. A schedule report published and replayed.  [setSchedule]
    publishes, for each of the eight slots of a datapoint 43 report, the time
    as "HH:MM" and the temperature in whole degrees.  Fed back to
    [updateAppStatus] in that order - sixteen slot edits, starting with none
    counted - the published values rebuild the slot table of the report with
    the hours and minutes unchanged, but every temperature rounded down to
    whole degrees; the counter of edits is back at zero and, with the
    configuration loaded, exactly one datapoint 43 frame with that table is
    sent to the MCU. *)
Theorem schedule_report_replay (a b : App) :
  let d := tuyaData (mcuTuya a) in
  (forall j, 0 <= j < 32 -> isByte (d j)) ->
  (forall i, 0 <= i < TIME_SLOTS -> d (i * 4 + 2) < 128) ->
  slotCnt b = 0 ->
  let b' := updates (publishedSlots d) b in
  setSchedule a = set_wsOut (wsOut a ++ publishedSlots d) a /\
  slotCnt b' = 0 /\
  (forall i, 0 <= i < TIME_SLOTS ->
     schedule b' i 0 = d (i * 4) /\
     schedule b' i 1 = d (i * 4 + 1) /\
     schedule b' i 2 * 256 + schedule b' i 3 = wholeDegrees (reportTemp d i) /\
     schedule b' i TGT_TEMP = wholeDegrees (reportTemp d i) /\
     schedule b' i SECS_COL = ((d (i * 4) * 60) + d (i * 4 + 1)) * 60) /\
  (configLoaded b = true ->
   uartOut b' = (uartOut b ++ [(0, frame43 (schedule b'))])%list) /\
  (configLoaded b = false -> uartOut b' = uartOut b).
Proof.
  intros d Hb Hhi Hcnt b'.
  split; [apply setSchedule_published|].
  pose proof (edits_complete _ _ (replayed_edits d Hb Hhi) b) as He.
  cbv zeta in He. fold b' in He.
  set (schF := editedTable (replayedCells d) (schedule b)) in He.
  assert (Hw : forall i, 0 <= i < TIME_SLOTS -> 0 <= wholeDegrees (reportTemp d i) < 32768).
  { intros i Hi.
    assert (0 <= reportTemp d i < 32768).
    { pose proof (Hb (i * 4 + 2) ltac:(unfold TIME_SLOTS in *; lia)) as H2.
      pose proof (Hb (i * 4 + 3) ltac:(unfold TIME_SLOTS in *; lia)) as H3.
      pose proof (Hhi i Hi). unfold reportTemp, isByte in *. lia. }
    pose proof (wholeDegrees_range _ H). lia. }
  assert (Htab : tableBytes schF).
  { intros i c Hi Hc.
    destruct (replayed_table d (schedule b) i Hi) as (C0 & C1 & C2 & C3 & _).
    fold schF in C0, C1, C2, C3.
    assert (Hcc : c = 0 \/ c = 1 \/ c = 2 \/ c = 3) by lia.
    destruct Hcc as [->|[->|[->| ->]]].
    - rewrite C0. apply Hb. unfold TIME_SLOTS in *. lia.
    - rewrite C1. apply Hb. unfold TIME_SLOTS in *. lia.
    - rewrite C2. apply land_255_bound.
    - rewrite C3. apply land_255_bound. }
  assert (Hfin : b' = if configLoaded b
                      then sendTuyaMsg (scheduleMsg schF) (set_slotCnt 0 (set_schedule schF b))
                      else set_slotCnt 0 (set_schedule schF b)).
  { apply He; [discriminate|]. rewrite Hcnt. reflexivity. }
  assert (Hs : schedule b' = schF /\ slotCnt b' = 0).
  { rewrite Hfin. destruct (configLoaded b); [|split; reflexivity].
    destruct (sendTuyaMsg_keeps (scheduleMsg schF) (set_slotCnt 0 (set_schedule schF b)))
      as [H1 H2].
    rewrite H1, H2. split; reflexivity. }
  destruct Hs as [Hs Hc0]. split; [exact Hc0|]. split; [|split].
  - intros i Hi. rewrite Hs.
    destruct (replayed_table d (schedule b) i Hi) as (C0 & C1 & C2 & C3 & C4 & C5).
    fold schF in C0, C1, C2, C3, C4, C5.
    rewrite C0, C1, C2, C3, C4, C5.
    destruct (whole_bytes _ (Hw i Hi)) as [_ Hwb].
    repeat split; try reflexivity. exact Hwb.
  - intros Hcfg. rewrite Hs. rewrite Hfin, Hcfg. unfold sendTuyaMsg.
    rewrite processTuyaMsg_schedule by exact Htab. reflexivity.
  - intros Hcfg. rewrite Hfin, Hcfg. reflexivity.
Qed.


Lemma schedule_report_replay_witness :
  let a := set_mcuTuya (mkTuya 7 43 (fun j => if j mod 4 =? 3 then 185 else 0) 0)
                       (appInit true) in
  let b' := updates (publishedSlots (tuyaData (mcuTuya a))) (appInit true) in
  schedule b' 0 TGT_TEMP = 180 /\ schedule b' 0 3 = 180 /\ slotCnt b' = 0.
Proof.
  intros a b'.
  destruct (schedule_report_replay a (appInit true)) as (_ & Hc & Hcells & _).
  - intros j Hj. cbn [tuyaData mcuTuya a set_mcuTuya]. unfold isByte.
    destruct (j mod 4 =? 3); lia.
  - intros i Hi. cbn [tuyaData mcuTuya a set_mcuTuya].
    unfold TIME_SLOTS in Hi.
    replace ((i * 4 + 2) mod 4 =? 3) with false; [lia|].
    symmetry. apply Z.eqb_neq. rewrite Z.add_comm, Z.mod_add by lia.
    change (2 mod 4) with 2. lia.
  - reflexivity.
  - destruct (Hcells 0 ltac:(unfold TIME_SLOTS; lia)) as (_ & C1 & C23 & C4 & _).
    fold b' in C1, C23, C4, Hc.
    split; [exact C4|]. split; [|exact Hc].
    vm_compute. reflexivity.
Defined.

(** ** The frames of the UI updates *)

Lemma cells_from10 (a : Z -> Z) (n : Z) :
  10 <= n ->
  cells a n = ([a 0; a 1; a 2; a 3; a 4; a 5; a 6; a 7; a 8; a 9] ++
               map a (zseq 10 (Z.to_nat (n - 10))))%list.
Proof.
  intros Hn. unfold cells.
  replace (Z.to_nat n) with (10 + Z.to_nat (n - 10))%nat by lia.
  rewrite zseq_app, map_app. reflexivity.
Qed.

(** A datapoint of any type but int, given as numbers. *)
Lemma processTuyaMsg_dp (dp ty : Z) (ns : list Z) :
  0 <= dp < 256 -> 0 <= ty < 256 -> ty <> 2 ->
  Forall (fun n => 0 <= n <= LONG_MAX) ns ->
  Z.of_nat (List.length ns) < 65532 ->
  processTuyaMsg (String "M" (numbersText (6 :: dp :: ty :: ns))) =
    Some (0, dpFrame dp ty (map (fun n => n mod 256) ns)).
Proof.
  intros Hdp Hty N2 Hns Hlen.
  unfold processTuyaMsg, processTuyaMsgFrom.
  change (char_at (String "M" _) 0) with 77. cbn [uartId Z.eqb Pos.eqb].
  cbv beta iota.
  rewrite numbersText_cons.
  rewrite getNumber_utoa; [| unfold LONG_MAX; lia | reflexivity].
  change (wrap8 (Z.land 6 255)) with 6.
  rewrite upd_same. cbn [Z.eqb Pos.eqb orb].
  rewrite numbersText_cons.
  rewrite getNumber_utoa; [| unfold LONG_MAX; lia | reflexivity].
  rewrite numbersText_cons.
  rewrite getNumber_utoa; [| unfold LONG_MAX; lia | apply numbersText_head].
  rewrite !wrap8_land. rewrite (Z.mod_small dp), (Z.mod_small ty) by lia.
  rewrite upd_same.
  replace (ty =? 2) with false by (symmetry; apply Z.eqb_neq; exact N2).
  rewrite <- (append_nil_r (numbersText ns)).
  rewrite dataPart_numbers_rest; [| reflexivity | exact Hns |].
  2:{ pose proof (numbersText_length ns) as Hl.
      repeat (cbn [String.length]; rewrite ?length_append). lia. }
  set (bs := map (fun n => n mod 256) ns).
  assert (Hbl : List.length bs = List.length ns) by apply length_map.
  rewrite <- Hbl. set (n := Z.of_nat (List.length bs)).
  assert (Hn : 0 <= n < 65532) by (subst n; lia).
  replace (9 + n - 5) with (n + 4) by lia. replace (9 + n - 9) with n by lia.
  rewrite !length_hi by lia. rewrite !wrap8_land.
  rewrite addChecksum_spec; [| lia | apply upd_same].
  unfold dpFrame. fold n.
  set (hdr := [85; 170; 0; 6; (n + 4) / 256; (n + 4) mod 256; dp; ty; n / 256; n mod 256]).
  assert (Hcl : forall c : Z -> Z,
             cells c (9 + n + 1) = (hdr ++ bs)%list ->
             Some (0, (cells c (9 + n + 1) ++ [zsum (cells c (9 + n + 1)) mod 256])%list) =
             Some (0, ((hdr ++ bs) ++ [zsum (hdr ++ bs) mod 256])%list)).
  { intros c ->. reflexivity. }
  apply Hcl. rewrite cells_from10 by lia.
  rewrite !(upd_other _ (9 + n + 1)) by lia.
  f_equal.
  - subst hdr.
    repeat (first [rewrite upd_same | rewrite upd_other by lia]).
    rewrite !putBytes_below by lia.
    repeat (first [rewrite upd_same | rewrite upd_other by lia]).
    reflexivity.
  - replace (Z.to_nat (9 + n + 1 - 10)) with (List.length bs) by lia.
    etransitivity;
      [|apply (putBytes_cells bs (upd (upd (upd (fun _ => 0) 3 6) 6 dp) 7 ty) 9)].
    change (9 + 1) with 10. apply map_ext_in. intros i Hi. apply in_zseq in Hi.
    rewrite !upd_other by lia. reflexivity.
Qed.

Lemma atoi_range (s : string) : LONG_MIN <= atoi s <= LONG_MAX.
Proof.
  unfold atoi, strtol.
  destruct (read_sign (skip_space s)) as [neg s2].
  destruct (starts_digit s2); [|unfold LONG_MIN, LONG_MAX; lia].
  destruct (digits_val 0 s2) as [v r].
  unfold clamp_long, LONG_MIN, LONG_MAX. lia.
Qed.

Lemma byte_key_frame (key : string) (dp ty : Z) (value : string) (a : App) :
  In (key, (dp, ty)) byteKeys ->
  0 <= atoi value ->
  configLoaded a = true ->
  slotCnt a < TIME_SLOTS * 2 ->
  updateAppStatus false key value a =
    set_uartOut (uartOut a ++ [(0, dpFrame dp ty [atoi value mod 256])]) a.
Proof.
  intros Hin Hpos Hcfg Hcnt.
  pose proof (atoi_range value) as Hr.
  assert (Hu : to_uint32 (atoi value) = atoi value).
  { unfold to_uint32. apply Z.mod_small. unfold LONG_MAX in Hr. lia. }
  assert (Hc : (slotCnt a >=? TIME_SLOTS * 2) = false)
    by (rewrite Z.geb_leb; apply Z.leb_gt; exact Hcnt).
  unfold byteKeys in Hin. cbn [In] in Hin.
  repeat (destruct Hin as [Hin|Hin];
          [injection Hin as <- <- <-;
           unfold updateAppStatus; cbn [String.eqb Ascii.eqb Bool.eqb];
           cbv beta iota zeta; rewrite Hc, Hcfg, Hu; cbn [andb];
           unfold sendTuyaMsg;
           rewrite <- (append_nil_r (utoa (atoi value)));
           match goal with
           | |- context [processTuyaMsg ?t] =>
               match goal with
               | |- context [dpFrame ?d ?y _] =>
                   change t with (String "M" (numbersText [6; d; y; atoi value]))
               end
           end;
           rewrite processTuyaMsg_dp;
           [ reflexivity | lia | lia | lia
           | repeat constructor; lia | cbn; lia ]
          |]).
  contradiction.
Qed.

Lemma int_key_frame (key : string) (dp : Z) (value : string) (a : App) :
  In (key, dp) intKeys ->
  configLoaded a = true ->
  slotCnt a < TIME_SLOTS * 2 ->
  updateAppStatus false key value a =
    set_uartOut (uartOut a ++ [(0, intFrame dp (atoi value))]) a.
Proof.
  intros Hin Hcfg Hcnt.
  pose proof (atoi_range value) as Hr.
  assert (Hc : (slotCnt a >=? TIME_SLOTS * 2) = false)
    by (rewrite Z.geb_leb; apply Z.leb_gt; exact Hcnt).
  unfold intKeys in Hin. cbn [In] in Hin.
  repeat (destruct Hin as [Hin|Hin];
          [injection Hin as <- <-;
           unfold updateAppStatus; cbn [String.eqb Ascii.eqb Bool.eqb];
           cbv beta iota zeta; rewrite Hc, Hcfg; cbn [andb];
           unfold sendTuyaMsg;
           match goal with
           | |- context [processTuyaMsg ?t] =>
               match goal with
               | |- context [intFrame ?d _] => change t with (intText d (atoi value))
               end
           end;
           rewrite intText_frame by (try exact Hr; lia); reflexivity
          |]).
  contradiction.
Qed.

(** X22. The frames of the UI updates.  With the configuration loaded (and
    no complete slot batch pending), each of the keys tempSensor, progMode,
    frost, switchDisp, childLock, daySetting, backLight, doReset and
    doReverse sends [atoi(value)], when it is not negative, as the one data
    byte of its datapoint (25, 4, 26, 1, 8, 42, 41, 31, 101) with its type
    (enum 4 or bool 1); each of the keys floorMax, roomMax and espCal sends
    [atoi(value)] as the four bytes of its integer datapoint (107, 21, 20).
    Nothing else of the state changes. *)
Theorem ui_update_frames (value : string) (a : App) :
  configLoaded a = true ->
  slotCnt a < TIME_SLOTS * 2 ->
  (forall key dp ty,
     In (key, (dp, ty)) byteKeys -> 0 <= atoi value ->
     updateAppStatus false key value a =
       set_uartOut (uartOut a ++ [(0, dpFrame dp ty [atoi value mod 256])]) a) /\
  (forall key dp,
     In (key, dp) intKeys ->
     updateAppStatus false key value a =
       set_uartOut (uartOut a ++ [(0, intFrame dp (atoi value))]) a).
Proof.
  intros Hcfg Hcnt. split.
  - intros key dp ty Hin Hpos. apply byte_key_frame; assumption.
  - intros key dp Hin. apply int_key_frame; assumption.
Qed.

Lemma ui_update_frames_witness :
  updateAppStatus false "progMode" "1" (appInit true) =
    set_uartOut [(0, [85; 170; 0; 6; 0; 5; 4; 4; 0; 1; 1; 20])] (appInit true) /\
  updateAppStatus false "roomMax" "35" (appInit true) =
    set_uartOut [(0, [85; 170; 0; 6; 0; 8; 21; 2; 0; 4; 0; 0; 0; 35; 75])] (appInit true).
Proof.
  pose proof (ui_update_frames "1" (appInit true) eq_refl ltac:(vm_compute; reflexivity))
    as H1.
  pose proof (ui_update_frames "35" (appInit true) eq_refl ltac:(vm_compute; reflexivity))
    as H2.
  split.
  - apply (proj1 H1 "progMode" 4 4).
    + right. left. reflexivity.
    + vm_compute. congruence.
  - apply (proj2 H2 "roomMax" 21). right. left. reflexivity.
Defined.

(** ** Integer reports of the MCU *)

Lemma intReport_valid (B dp v ck : Z) :
  32 <= B -> isByte dp -> isByte ck -> validFrame B (intReport dp v ck).
Proof.
  intros HB Hdp Hck. split.
  - unfold intReport.
    repeat (constructor; [first [ exact Hdp | exact Hck | apply wrap8_bound
                                | unfold isByte; lia ]|]).
    constructor.
  - eexists 3, 7, 0, 8, _. split; [reflexivity|]. split; [reflexivity | lia].
Qed.

Lemma intReport_delivered (B : Z) (e : Env) (buf : Z -> Z) (a : App) (dp v ck : Z) :
  32 <= B < 65546 -> isByte dp -> LONG_MIN <= v <= LONG_MAX -> isByte ck ->
  snd (feedBytes false B e 1 (intReport dp v ck) (fun _ => portReset B buf, a)) =
    processMCUcmd false e (set_mcuTuya (mkTuya 7 dp (tuyaData (mcuTuya a)) v) a).
Proof.
  intros HB Hdp Hv Hck.
  rewrite (proj1 (feedBytes_messages false B e 1 (intReport dp v ck) _ a)).
  cbv beta.
  rewrite (reassembleAll_alone B buf (intReport dp v ck))
    by (try apply intReport_valid; try assumption; lia).
  cbv zeta. cbn [snd fold_left]. unfold deliver. cbn [fst snd].
  set (data := storeBytes _ 2 (skipn 2 (intReport dp v ck))).
  assert (D : forall (k x : Z),
             2 <= k ->
             nth_error (skipn 2 (intReport dp v ck)) (Z.to_nat (k - 2)) = Some x ->
             data k = x).
  { intros k x Hk Hn. subst data.
    replace k with (2 + Z.of_nat (Z.to_nat (k - 2))) at 1 by lia.
    apply storeBytes_at. exact Hn. }
  change (Z.of_nat (List.length (intReport dp v ck))) with 15.
  rewrite formatTuya_int_unguarded.
  - rewrite (D 3 7 ltac:(lia) eq_refl), (D 6 dp ltac:(lia) eq_refl).
    rewrite (intVal_of_be data v Hv); [reflexivity | | | |].
    + exact (D 10 _ ltac:(lia) eq_refl).
    + exact (D 11 _ ltac:(lia) eq_refl).
    + exact (D 12 _ ltac:(lia) eq_refl).
    + exact (D 13 _ ltac:(lia) eq_refl).
  - lia.
  - right. exact (D 3 _ ltac:(lia) eq_refl).
  - exact (D 7 _ ltac:(lia) eq_refl).
Qed.

(** X23. An integer report of the MCU, for every 32-bit value [v]: the
    report of datapoint 2 stores [(float)(v / 10.0)] as the target
    temperature and publishes its text with one decimal as [tgtTemp], the
    report of datapoint 105 does the same for the backlash ([tempLash]);
    [mcuTuya] holds the command 7, the datapoint id and [v], and nothing
    else changes.  Up to 10485762 in magnitude the text is [v / 10] in
    decimal.  The last byte of the report may be anything. *)
Theorem int_report_sets_state (B : Z) (e : Env) (buf : Z -> Z) (a : App) (v ck : Z) :
  32 <= B < 65546 ->
  LONG_MIN <= v <= LONG_MAX ->
  isByte ck ->
  snd (feedBytes false B e 1 (intReport 2 v ck) (fun _ => portReset B buf, a)) =
    wsJsonSend "tgtTemp" (ftoa1f (tenths v))
      (set_tgtTemp (tenths v)
         (set_mcuTuya (mkTuya 7 2 (tuyaData (mcuTuya a)) v) a)) /\
  snd (feedBytes false B e 1 (intReport 105 v ck) (fun _ => portReset B buf, a)) =
    wsJsonSend "tempLash" (ftoa1f (tenths v))
      (set_backLash (tenths v)
         (set_mcuTuya (mkTuya 7 105 (tuyaData (mcuTuya a)) v) a)) /\
  (-10485762 <= v <= 10485762 -> ftoa1f (tenths v) = tenthsText v).
Proof.
  intros HB Hv Hck. split; [|split].
  - rewrite intReport_delivered by (try assumption; unfold isByte; lia). reflexivity.
  - rewrite intReport_delivered by (try assumption; unfold isByte; lia). reflexivity.
  - apply tenths_text.
Qed.

Lemma int_report_sets_state_witness :
  wsOut (snd (feedBytes false 256 env_2300 1 (intReport 2 215 0)
                        (fun _ => portReset 256 (fun _ => 0), appInit true))) =
    [("tgtTemp", "21.5")].
Proof.
  rewrite (proj1 (int_report_sets_state 256 env_2300 (fun _ => 0) (appInit true) 215 0
                    ltac:(lia) ltac:(unfold LONG_MIN, LONG_MAX; lia)
                    ltac:(unfold isByte; lia))).
  vm_compute. reflexivity.
Defined.

(** ** The reply to a heartbeat *)

Lemma doTuyaInit_frames (a : App) :
  doTuyaInit a =
    set_uartOut (uartOut a ++ [(0, dpFrame 4 4 [if ESPcontroller a then 0 else 1]);
                               (0, plainFrame 0 8 [])]) a.
Proof.
  unfold doTuyaInit. cbv zeta.
  destruct (ESPcontroller a);
    unfold sendTuyaMsg;
    match goal with |- context [processTuyaMsg "M 8"] =>
      change (processTuyaMsg "M 8") with (Some (0, plainFrame 0 8 [])) end;
    [ change (processTuyaMsg "M 6 4 4 0") with (Some (0, dpFrame 4 4 [0]))
    | change (processTuyaMsg "M 6 4 4 1") with (Some (0, dpFrame 4 4 [1])) ];
    cbv iota beta; destruct a; cbn; rewrite <- app_assoc; reflexivity.
Qed.

(** X24. The reply of the MCU to a heartbeat, 55 aa 03 00 00 01 v CK.
    It sets [gotHeartbeat].  When the data byte [v] is 0 - the first reply
    after the MCU has started - the ESP answers with the working mode
    (datapoint 4: 0, manual, when the ESP controls the heating, 1, program,
    when the MCU does) and the query of all datapoints (command 8); when [v]
    is not 0 nothing is sent.  A reply without a data byte, 55 aa 03 00 00 00
    CK, stores no data: whether the ESP answers is decided by
    [tuyaData[0]] as the message before left it. *)
Theorem heartbeat_reply (B : Z) (e : Env) (buf : Z -> Z) (a : App) (v ck : Z) :
  32 <= B < 65546 ->
  isByte v -> isByte ck ->
  let r := snd (feedBytes false B e 1 [85; 170; 3; 0; 0; 1; v; ck]
                          (fun _ => portReset B buf, a)) in
  let r0 := snd (feedBytes false B e 1 [85; 170; 3; 0; 0; 0; ck]
                           (fun _ => portReset B buf, a)) in
  let init := [(0, dpFrame 4 4 [if ESPcontroller a then 0 else 1]);
               (0, plainFrame 0 8 [])] in
  gotHeartbeat r = true /\
  tuyaData (mcuTuya r) 0 = v /\
  uartOut r = (if v =? 0 then uartOut a ++ init else uartOut a)%list /\
  gotHeartbeat r0 = true /\
  uartOut r0 = (if tuyaData (mcuTuya a) 0 =? 0 then uartOut a ++ init else uartOut a)%list.
Proof.
  intros HB Hv Hck r r0 init.
  assert (V8 : validFrame B [85; 170; 3; 0; 0; 1; v; ck]).
  { split.
    - repeat (constructor; [first [exact Hv | exact Hck | unfold isByte; lia]|]).
      constructor.
    - exists 3, 0, 0, 1, [v; ck]. split; [reflexivity|]. split; [reflexivity | lia]. }
  assert (V7 : validFrame B [85; 170; 3; 0; 0; 0; ck]).
  { split.
    - repeat (constructor; [first [exact Hck | unfold isByte; lia]|]).
      constructor.
    - exists 3, 0, 0, 0, [ck]. split; [reflexivity|]. split; [reflexivity | lia]. }
  assert (R : r = (let a1 := set_gotHeartbeat true
                       (set_mcuTuya (mkTuya 0 v (copyBytes
                          (storeBytes (memmove2 (storeBytes buf 0 [85; 170]) 0) 2
                                      [3; 0; 0; 1; v; ck])
                          6 7 (tuyaData (mcuTuya a))) (tuyaInt (mcuTuya a))) a) in
                   if tuyaData (mcuTuya a1) 0 =? 0 then doTuyaInit a1 else a1)).
  { subst r.
    rewrite (proj1 (feedBytes_messages false B e 1 _ _ a)). cbv beta.
    rewrite (reassembleAll_alone B buf _ ltac:(lia) V8).
    cbv zeta. cbn [snd fold_left skipn List.length Z.of_nat Pos.of_succ_nat Pos.succ].
    unfold deliver. cbn [fst snd].
    rewrite (proj1 (formatTuya_closed_form_lemmas 1 _ 8 (mcuTuya a))).
    reflexivity. }
  assert (R0 : r0 = (let a1 := set_gotHeartbeat true
                       (set_mcuTuya (mkTuya 0 ck (tuyaData (mcuTuya a))
                                            (tuyaInt (mcuTuya a))) a) in
                     if tuyaData (mcuTuya a1) 0 =? 0 then doTuyaInit a1 else a1)).
  { subst r0.
    rewrite (proj1 (feedBytes_messages false B e 1 _ _ a)). cbv beta.
    rewrite (reassembleAll_alone B buf _ ltac:(lia) V7).
    cbv zeta. cbn [snd fold_left skipn List.length Z.of_nat Pos.of_succ_nat Pos.succ].
    unfold deliver. cbn [fst snd].
    rewrite (proj1 (formatTuya_closed_form_lemmas 1 _ 7 (mcuTuya a))).
    reflexivity. }
  cbv zeta in R, R0.
  assert (D0 : copyBytes (storeBytes (memmove2 (storeBytes buf 0 [85; 170]) 0) 2
                                     [3; 0; 0; 1; v; ck])
                         6 7 (tuyaData (mcuTuya a)) 0 = v).
  { rewrite (proj2 (formatTuya_closed_form_lemmas 1 _ 0 (mcuTuya a))). reflexivity. }
  change (tuyaData (mcuTuya (set_gotHeartbeat true (set_mcuTuya ?m a))) 0)
    with (tuyaData m 0) in R.
  cbn [tuyaData mcuTuya set_gotHeartbeat set_mcuTuya] in R, R0.
  rewrite D0 in R.
  rewrite R, R0. clear R R0.
  destruct (v =? 0); destruct (tuyaData (mcuTuya a) 0 =? 0);
    rewrite ?doTuyaInit_frames;
    cbn [gotHeartbeat set_gotHeartbeat set_mcuTuya set_uartOut uartOut mcuTuya tuyaData
         ESPcontroller];
    repeat split; try reflexivity; exact D0.
Qed.

Lemma heartbeat_reply_witness :
  uartOut (snd (feedBytes false 256 env_2300 1 [85; 170; 3; 0; 0; 1; 0; 3]
                          (fun _ => portReset 256 (fun _ => 0), appInit true))) =
    [(0, [85; 170; 0; 6; 0; 5; 4; 4; 0; 1; 1; 20]); (0, [85; 170; 0; 8; 0; 0; 7])].
Proof.
  destruct (heartbeat_reply 256 env_2300 (fun _ => 0) (appInit true) 0 3)
    as (_ & _ & H & _).
  - lia.
  - unfold isByte. lia.
  - unfold isByte. lia.
  - exact H.
Defined.

(** ** Messages from the web socket *)

Lemma unknown_destination (wsMsg : string) :
  char_at wsMsg 0 <> 77 -> char_at wsMsg 0 <> 87 -> processTuyaMsg wsMsg = None.
Proof.
  intros HM HW. unfold processTuyaMsg, processTuyaMsgFrom. cbn [uartId Z.eqb].
  replace (char_at wsMsg 0 =? 77) with false by (symmetry; apply Z.eqb_neq; exact HM).
  replace (char_at wsMsg 0 =? 87) with false by (symmetry; apply Z.eqb_neq; exact HW).
  reflexivity.
Qed.

(** X25. What [wsAppSpecificHandler] does with a message of the web
    socket, by its first character.  'S' and 'U' are handed to the framework
    with the length of the rest, 'U' together with the text after the letter;
    'I' runs the initialisation of the MCU; a message that starts with 'M' or
    'W' is sent as a Tuya command.  Any other message - 'H', the empty
    message, text of any kind - changes nothing and sends nothing: the
    destination is not recognised and the message is dropped. *)
Theorem ws_message_dispatch (wsMsg : string) (a : App) :
  let c := char_at wsMsg 0 in
  let wsLen := Z.of_nat (String.length wsMsg) - 1 in
  (c = 83 -> wsAppSpecificHandler wsMsg a = (a, Some (BuildJsonString wsLen))) /\
  (c = 85 ->
   wsAppSpecificHandler wsMsg a =
     (a, Some (ParseJson (match wsMsg with String _ r => r | EmptyString => "" end)
                         wsLen))) /\
  (c = 73 -> wsAppSpecificHandler wsMsg a = (doTuyaInit a, None)) /\
  (c = 77 \/ c = 87 -> wsAppSpecificHandler wsMsg a = (sendTuyaMsg wsMsg a, None)) /\
  (c <> 83 -> c <> 85 -> c <> 73 -> c <> 77 -> c <> 87 ->
   wsAppSpecificHandler wsMsg a = (a, None)).
Proof.
  intros c wsLen. unfold wsAppSpecificHandler. fold c. fold wsLen.
  split; [|split; [|split; [|split]]].
  - intros ->. reflexivity.
  - intros Hc. rewrite Hc. cbn [Z.eqb Pos.eqb]. do 3 f_equal.
    destruct wsMsg as [|c0 r]; [discriminate Hc|].
    subst wsLen. cbn [String.length].
    replace (Z.to_nat (Z.of_nat (S (String.length r)) - 1)) with (String.length r) by lia.
    cbn [substring]. clear. induction r as [|x r IH]; [reflexivity|].
    cbn [String.length substring]. f_equal. exact IH.
  - intros ->. reflexivity.
  - intros [-> | ->]; reflexivity.
  - intros N83 N85 N73 N77 N87.
    replace (c =? 83) with false by (symmetry; apply Z.eqb_neq; exact N83).
    replace (c =? 85) with false by (symmetry; apply Z.eqb_neq; exact N85).
    replace (c =? 73) with false by (symmetry; apply Z.eqb_neq; exact N73).
    destruct (c =? 72); [reflexivity|].
    unfold sendTuyaMsg. rewrite unknown_destination by assumption. reflexivity.
Qed.
